(** * KMFK: the browser-driven acquisition state machine of [scraper.py]

    A shallow embedding of the site-interaction code of the KOFIA scraper
    ([src/scraper.py], [src/config.py]) and the properties its specification
    states about it, followed by further properties of the same code, of
    its processing of the downloaded files and of the pipeline that runs it
    ([src/orchestrator.py]).

    The browser and the operating system are external collaborators.  They
    appear here as a [Driver]: a world type [W] with pure observations
    ([query]) and state-changing calls ([action]).  Python code that threads
    the WebDriver through many calls and raises exceptions becomes a small
    state-and-exception monad [M] that also emits the list of [event]s (driver
    and OS calls with their outcomes, and the log records that mark the
    control flow) produced by a run. *)

From Stdlib Require Import String Ascii List ZArith Bool Arith Lia Permutation.
Import ListNotations.

Local Open Scope string_scope.
Local Open Scope list_scope.

(** String concatenation, as in Python's [+] and f-strings. *)
Infix "+++" := String.append (at level 60, right associativity).

(* ===================================================================== *)
(** * Python exceptions *)
(* ===================================================================== *)

Module Exn.

(** The exception classes the scraper raises, catches or lets through:
    Python built-ins and the Selenium hierarchy rooted at
    [WebDriverException]. *)
Inductive cls : Type :=
| Exception
| TypeError
| ValueError
| NameError
| AttributeError
| OSError
| WebDriverException
| NoSuchElementException
| TimeoutException
| StaleElementReferenceException
| NoAlertPresentException
| NoSuchFrameException
| ElementNotInteractableException.

Definition cls_eqb (a b : cls) : bool :=
  match a, b with
  | Exception, Exception
  | TypeError, TypeError
  | ValueError, ValueError
  | NameError, NameError
  | AttributeError, AttributeError
  | OSError, OSError
  | WebDriverException, WebDriverException
  | NoSuchElementException, NoSuchElementException
  | TimeoutException, TimeoutException
  | StaleElementReferenceException, StaleElementReferenceException
  | NoAlertPresentException, NoAlertPresentException
  | NoSuchFrameException, NoSuchFrameException
  | ElementNotInteractableException, ElementNotInteractableException => true
  | _, _ => false
  end.

(** Immediate base class; [Exception] is the root of what [except Exception]
    catches. *)
Definition base (c : cls) : option cls :=
  match c with
  | Exception => None
  | TypeError | ValueError | NameError | AttributeError | OSError
  | WebDriverException =>
      Some Exception
  | NoSuchElementException | TimeoutException
  | StaleElementReferenceException | NoAlertPresentException
  | NoSuchFrameException | ElementNotInteractableException =>
      Some WebDriverException
  end.

Fixpoint subclass_upto (fuel : nat) (c d : cls) : bool :=
  cls_eqb c d ||
  match fuel, base c with
  | S fuel', Some b => subclass_upto fuel' b d
  | _, _ => false
  end.

(** [issubclass(c, d)]; the hierarchy above has depth two. *)
Definition subclass (c d : cls) : bool := subclass_upto 3 c d.

(** An exception object: its class and its message. *)
Record t : Type := mk { cls_of : cls; message : string }.

Definition isinstance (e : t) (d : cls) : bool := subclass (cls_of e) d.

(** [except (C1, C2, ...)] matches when the exception is an instance of one
    of the listed classes. *)
Definition matches (e : t) (handled : list cls) : bool :=
  existsb (isinstance e) handled.

End Exn.

Definition exn : Type := Exn.t.

(** The outcome of a Python call: a value or a raised exception. *)
Inductive result (A : Type) : Type :=
| Val (a : A)
| Exc (e : exn).
Arguments Val {A} a.
Arguments Exc {A} e.

Definition is_val {A} (r : result A) : bool :=
  match r with Val _ => true | Exc _ => false end.

(* ===================================================================== *)
(** * Python strings *)
(* ===================================================================== *)

Module Py.

(** The whitespace of [str.strip()] is that of [str.isspace()].  A string
    is the UTF-8 encoding of a Python [str], so a whitespace character has
    one, two or three bytes.  One byte: U+0009 to U+000D, U+001C to U+001F
    and U+0020. *)
Definition is_space (c : ascii) : bool :=
  let n := nat_of_ascii c in
  (n =? 32)%nat || ((9 <=? n)%nat && (n <=? 13)%nat)
  || ((28 <=? n)%nat && (n <=? 31)%nat).

(** Two bytes: U+0085 and U+00A0. *)
Definition is_space2 (c1 c2 : ascii) : bool :=
  let a := nat_of_ascii c1 in
  let b := nat_of_ascii c2 in
  (a =? 194)%nat && ((b =? 133)%nat || (b =? 160)%nat).

(** Three bytes: U+1680, U+2000 to U+200A, U+2028, U+2029, U+202F, U+205F
    and U+3000. *)
Definition is_space3 (c1 c2 c3 : ascii) : bool :=
  let a := nat_of_ascii c1 in
  let b := nat_of_ascii c2 in
  let c := nat_of_ascii c3 in
  ((a =? 225)%nat && (b =? 154)%nat && (c =? 128)%nat)
  || ((a =? 226)%nat && (b =? 128)%nat
      && (((128 <=? c)%nat && (c <=? 138)%nat)
          || (c =? 168)%nat || (c =? 169)%nat || (c =? 175)%nat))
  || ((a =? 226)%nat && (b =? 129)%nat && (c =? 159)%nat)
  || ((a =? 227)%nat && (b =? 128)%nat && (c =? 128)%nat).

(** The string without the whitespace characters at its front.  With
    [backwards] the string is read from its end, so the bytes of a character
    come last byte first. *)
Fixpoint strip_front (backwards : bool) (s : string) : string :=
  match s with
  | EmptyString => EmptyString
  | String c1 r1 =>
      if is_space c1 then strip_front backwards r1
      else
        match r1 with
        | EmptyString => s
        | String c2 r2 =>
            if (if backwards then is_space2 c2 c1 else is_space2 c1 c2)
            then strip_front backwards r2
            else
              match r2 with
              | EmptyString => s
              | String c3 r3 =>
                  if (if backwards then is_space3 c3 c2 c1
                      else is_space3 c1 c2 c3)
                  then strip_front backwards r3
                  else s
              end
        end
  end.

Definition lstrip (s : string) : string := strip_front false s.

Fixpoint rev_string (s acc : string) : string :=
  match s with
  | EmptyString => acc
  | String c rest => rev_string rest (String c acc)
  end.

Definition rstrip (s : string) : string :=
  rev_string (strip_front true (rev_string s EmptyString)) EmptyString.

(** [s.strip()] *)
Definition strip (s : string) : string := rstrip (lstrip s).

(** [s.startswith(p)] *)
Fixpoint startswith (p s : string) : bool :=
  match p, s with
  | EmptyString, _ => true
  | String a p', String b s' => Ascii.eqb a b && startswith p' s'
  | String _ _, EmptyString => false
  end.

(** [s.endswith(p)] *)
Definition endswith (p s : string) : bool :=
  startswith (rev_string p EmptyString) (rev_string s EmptyString).

(** [needle in hay] on strings. *)
Fixpoint contains (needle hay : string) : bool :=
  startswith needle hay ||
  match hay with
  | EmptyString => false
  | String _ hay' => contains needle hay'
  end.

(** [x in xs] on a list of strings. *)
Definition mem (x : string) (xs : list string) : bool :=
  existsb (String.eqb x) xs.

(** Truth value of an optional string ([None] and [''] are falsy). *)
Definition truthy (o : option string) : bool :=
  match o with
  | Some s => negb (String.eqb s "")
  | None => false
  end.

(** [os.path.join(dir, name)] for a relative [name]. *)
Definition path_join (dir name : string) : string := dir +++ "/" +++ name.

(** Decimal rendering of a natural number, as [str(n)] and f-strings do. *)
Definition digit (n : nat) : string :=
  String (ascii_of_nat (48 + n)) EmptyString.

Fixpoint str_of_nat_upto (fuel n : nat) (acc : string) : string :=
  match fuel with
  | O => acc
  | S fuel' =>
      let acc' := digit (n mod 10) +++ acc in
      if (n <? 10)%nat then acc' else str_of_nat_upto fuel' (n / 10) acc'
  end.

Definition str_of_nat (n : nat) : string := str_of_nat_upto (S n) n "".

End Py.

(* ===================================================================== *)
(** * The driver capability interface *)
(* ===================================================================== *)

(** A WebElement handle. *)
Definition elem : Type := nat.

(** Selenium's [By] strategies used by the scraper. *)
Inductive strategy : Type := ById | ByXpath | ByName.

(** A locator: a (strategy, expression) pair. *)
Definition locator : Type := (strategy * string)%type.

(** The three ways the scraper clicks: [element.click()], a script
    [arguments[0].click();], and an [ActionChains] pointer click (with or
    without offset). *)
Inductive click_method : Type :=
| DirectClick
| JsClick
| ActionChainsClick
| OffsetClick.

(** The browser sessions [_initialize_driver] can open. *)
Inductive browser_kind : Type :=
| UcChrome        (* undetected_chromedriver.Chrome *)
| PlainChrome     (* selenium.webdriver.Chrome *)
| Firefox.        (* selenium.webdriver.Firefox *)

(** Observations of the current page.  They are instantaneous and leave the
    world as it is; they may raise (a stale handle, a dead session). *)
Inductive query : Type -> Type :=
| FindElements (ctx : option elem) (loc : locator) : query (list elem)
| FindElement (ctx : option elem) (loc : locator) : query elem
| IsDisplayed (e : elem) : query bool
| IsEnabled (e : elem) : query bool
| Text (e : elem) : query string
| GetAttribute (e : elem) (name : string) : query (option string)
| TagName (e : elem) : query string
| ScrollRange (e : elem) : query Z
| ImplicitWait : query Z
| CurrentUrl : query string
| PageSource : query string
| AlertText : query string.

(** Calls that change, or wait on, the browser and the file system. *)
Inductive action : Type -> Type :=
| NewDriver (kind : browser_kind) : action unit
| ApplyStealth : action unit
| ExecuteScript (script : string) : action unit
| SetPageLoadTimeout (secs : Z) : action unit
| ImplicitlyWait (secs : Z) : action unit
| Get (url : string) : action unit
| SwitchToFrame (name : string) : action unit
| SwitchToFrameElement (e : elem) : action unit
| SwitchToDefaultContent : action unit
| SwitchToAlert : action unit
| AlertAccept : action unit
| Click (how : click_method) (e : elem) : action unit
| ScrollIntoView (e : elem) : action unit
| ResetScrollTop (e : elem) : action unit
| MoveTo (e : elem) : action unit
| Wheel (e : elem) : action unit
| WaitPresence (ctx : option elem) (timeout : Z) (loc : locator) : action elem
| WaitClickable (timeout : Z) (loc : locator) : action elem
| SaveScreenshot (name : string) : action unit
| WriteFile (path : string) : action unit
| RandomUniform (lo hi : Z) : action Z
| Sleep (ms : Z) : action unit
| ListDir (dir : string) : action (list string)
| PathExists (path : string) : action bool
| GetSize (path : string) : action Z
| Remove (path : string) : action unit
| Rename (src dst : string) : action unit
| Quit : action unit.

(** A world [W] answers observations and executes actions. *)
Class Driver (W : Type) : Type := {
  observe : forall {A : Type}, query A -> W -> result A;
  perform : forall {A : Type}, action A -> W -> result A * W
}.

(** Log levels of the [logging] module. *)
Inductive level : Type := INFO | WARNING | ERROR.

(** What a run leaves behind: every action with its outcome, and the log
    records that mark the control flow. *)
Inductive event : Type :=
| EvAct : forall A : Type, action A -> result A -> event
| EvLog : level -> string -> event.
Arguments EvAct {A} _ _.

(* ===================================================================== *)
(** * The state-and-exception monad *)
(* ===================================================================== *)

(** One session: the world its browser lives in, the wall clock in
    milliseconds (advanced by [time.sleep]), and the scraper's
    [downloaded_files] list. *)
Record session (W : Type) : Type := mkSession {
  world : W;
  clock : Z;
  downloaded_files : list string
}.
Arguments mkSession {W} _ _ _.
Arguments world {W} _.
Arguments clock {W} _.
Arguments downloaded_files {W} _.

Definition M (W A : Type) : Type :=
  session W -> result A * session W * list event.

Definition ret {W A} (a : A) : M W A := fun s => (Val a, s, []).

Definition raise {W A} (e : exn) : M W A := fun s => (Exc e, s, []).

Definition bind {W A B} (c : M W A) (k : A -> M W B) : M W B :=
  fun s =>
    match c s with
    | (Val a, s1, t1) =>
        match k a s1 with
        | (r, s2, t2) => (r, s2, t1 ++ t2)
        end
    | (Exc e, s1, t1) => (Exc e, s1, t1)
    end.

(** Run [c] and hand its outcome, value or exception, to the continuation:
    the body of a [try]. *)
Definition attempt {W A} (c : M W A) : M W (result A) :=
  fun s => match c s with (r, s1, t1) => (Val r, s1, t1) end.

Declare Scope monad_scope.
Delimit Scope monad_scope with monad.
Notation "x <- c ;; k" := (bind c (fun x => k))
  (at level 61, c at next level, right associativity) : monad_scope.
Notation "c ;; k" := (bind c (fun _ => k))
  (at level 61, right associativity) : monad_scope.
Local Open Scope monad_scope.

(** [try: c except: pass] *)
Definition swallow {W} (c : M W unit) : M W unit :=
  _ <- attempt c ;; ret tt.

(** [try: c finally: f] *)
Definition finally {W A} (c : M W A) (f : M W unit) : M W A :=
  r <- attempt c ;;
  f ;;
  match r with
  | Val a => ret a
  | Exc e => raise e
  end.

Section Primitives.
Context {W : Type} `{Driver W}.

Definition ask {A} (q : query A) : M W A :=
  fun s => (observe q (world s), s, []).

Definition act {A} (a : action A) : M W A :=
  fun s =>
    match perform a (world s) with
    | (r, w') =>
        (r, mkSession w' (clock s) (downloaded_files s), [EvAct a r])
    end.

(** [time.sleep(ms / 1000)]: never raises; the world moves on and the
    clock advances. *)
Definition sleep (ms : Z) : M W unit :=
  fun s =>
    match perform (Sleep ms) (world s) with
    | (_, w') =>
        (Val tt, mkSession w' (clock s + ms) (downloaded_files s),
         [EvAct (Sleep ms) (Val tt)])
    end.

(** [random.uniform(lo, hi)], in milliseconds: never raises and stays
    within its bounds whatever the world answers. *)
Definition random_uniform (lo hi : Z) : M W Z :=
  fun s =>
    match perform (RandomUniform lo hi) (world s) with
    | (r, w') =>
        let d := match r with
                 | Val d => Z.max lo (Z.min hi d)
                 | Exc _ => lo
                 end in
        (Val d, mkSession w' (clock s) (downloaded_files s),
         [EvAct (RandomUniform lo hi) (Val d)])
    end.

(** [os.path.exists(path)]: never raises, a failing probe counts as an
    absent file. *)
Definition path_exists (path : string) : M W bool :=
  r <- attempt (act (PathExists path)) ;;
  ret (match r with Val b => b | Exc _ => false end).

(** [time.time()], in milliseconds. *)
Definition time : M W Z := fun s => (Val (clock s), s, []).

Definition log (lvl : level) (msg : string) : M W unit :=
  fun s => (Val tt, s, [EvLog lvl msg]).

(** [self.downloaded_files = []] *)
Definition reset_downloaded : M W unit :=
  fun s => (Val tt, mkSession (world s) (clock s) [], []).

(** [self.downloaded_files.append(path)] *)
Definition append_downloaded (path : string) : M W unit :=
  fun s =>
    (Val tt,
     mkSession (world s) (clock s) (downloaded_files s ++ [path]), []).

End Primitives.

(* ===================================================================== *)
(** * Configuration ([config.py] and the head of [scraper.py]) *)
(* ===================================================================== *)

Module Config.

Definition BASE_URL : string := "http://freesis.kofia.or.kr/".
Definition BROWSER : string := "chrome".
Definition USE_STEALTH : bool := true.
Definition IMPLICIT_WAIT : Z := 10.
Definition EXPLICIT_WAIT_TIMEOUT : Z := 30.
Definition DOWNLOAD_WAIT_TIMEOUT : Z := 120.

(** [os.path.join(BASE_DIR, "downloads")] and [os.path.join(BASE_DIR,
    "logs")]; the installation directory is left out. *)
Definition DOWNLOAD_DIR : string := "downloads".
Definition LOG_DIR : string := "logs".

Definition MAX_RETRIES : nat := 3.
Definition RETRY_DELAY : Z := 5.

(** [scraper.py], line 8. *)
Definition HEADLESS_MODE : bool := true.

Definition NAV_FUND_TAB : list locator :=
  [ (ByXpath, "//img[@alt='펀드']");
    (ByXpath, "//a[img[@alt='펀드']]");
    (ByXpath, "//li[@class='menu2']//a[contains(@href, 'MSIS40100000000000')]");
    (ByXpath, "//a[contains(@href, 'MSIS40100000000000')]");
    (ByXpath, "//li[@class='menu2']//img[@alt='펀드']") ].

(** One entry of [DATASET_CONFIGS]. *)
Record dataset_config : Type := mkConfig {
  name : string;
  fund_type_korean : string;
  fund_type_index : nat;
  region_korean : string;
  region_index : nat;
  time_window_years : nat;
  fund_universe_index : nat;
  output_name : string
}.

Definition DATASET_CONFIGS : list dataset_config :=
  [ mkConfig "RawDataEquity" "주식형" 1 "전체" 0 5 0 "Equity";
    mkConfig "RawDataDomesticEquity" "주식형" 1 "국내" 1 5 0 "DomesticEquity";
    mkConfig "RawDataHybridEquity" "혼합형주식" 2 "전체" 0 5 0 "HybridEquity";
    mkConfig "RawDataHybridDomesticEquity" "혼합형주식" 2 "국내" 1 5 0
      "HybridDomesticEquity";
    mkConfig "RawDataHybridBond" "혼합형채권" 3 "전체" 0 5 0 "HybridBond";
    mkConfig "RawDataHybridDomesticBond" "혼합형채권" 3 "국내" 1 5 0
      "HybridDomesticBond";
    mkConfig "RawDataBond" "채권형" 4 "전체" 0 5 0 "Bond";
    mkConfig "RawDataDomesticBond" "채권형" 4 "국내" 1 5 0 "DomesticBond";
    mkConfig "RawDataHybridAsset" "혼합자산" 13 "전체" 0 5 0 "HybridAsset";
    mkConfig "RawDataDomesticHybridAsset" "혼합자산" 13 "국내" 1 5 0
      "DomesticHybridAsset";
    mkConfig "RawDataMoneyMarket" "MMF" 5 "전체" 0 5 0 "MoneyMarket" ].

End Config.

Import Config.

(* ===================================================================== *)
(** * [KOFIAScraper]: the element resolver and the download detector *)
(* ===================================================================== *)

Section Resolver.
Context {W : Type} `{Driver W}.

(** [capture_screenshot(name)]: the driver call sits in a
    [try ... except Exception] that only logs. *)
Definition capture_screenshot (name : string) : M W unit :=
  swallow (act (SaveScreenshot name)).

(** [ensure_main_frame()] *)
Definition ensure_main_frame : M W unit :=
  r <- attempt (ask (FindElement None (ByXpath, "//img[@alt='펀드']"))) ;;
  match r with
  | Val _ => ret tt
  | Exc _ =>
      swallow (act SwitchToDefaultContent ;;
               act (SwitchToFrame "main") ;;
               log INFO "Re-switched to main frame")
  end.

(** The exception classes a failing locator may raise:
    [except (NoSuchElementException, TimeoutException,
    StaleElementReferenceException)]. *)
Definition resolver_caught : list Exn.cls :=
  [ Exn.NoSuchElementException; Exn.TimeoutException;
    Exn.StaleElementReferenceException ].

(** The inner loop of [find_element_safely]: one pass over the locators.
    [Some element] stands for the [return element] inside the loop, [None]
    for a pass that ran to its end. *)
Fixpoint try_locators (search_context : option elem) (timeout : Z)
         (locators : list locator) : M W (option elem) :=
  match locators with
  | [] => ret None
  | (by_strategy, locator_value) :: rest =>
      r <- attempt
             (act (WaitPresence search_context timeout
                     (by_strategy, locator_value))) ;;
      match r with
      | Val element =>
          log INFO ("Element found: " +++ locator_value) ;;
          ret (Some element)
      | Exc e =>
          if Exn.matches e resolver_caught
          then try_locators search_context timeout rest
          else raise e
      end
  end.

Definition find_error_msg : string :=
  "Failed to find element after " +++ Py.str_of_nat MAX_RETRIES +++
  " attempts using any provided locators.".

(** The exception raised when every pass has failed. *)
Definition not_found : exn :=
  Exn.mk Exn.NoSuchElementException find_error_msg.

(** The outer loop, [for attempt in range(MAX_RETRIES)], with [remaining]
    iterations left; running out of iterations is the final
    [return None]. *)
Fixpoint find_element_passes (remaining attempt_no : nat)
         (locators : list locator) (timeout : Z)
         (screenshot_name : option string) (search_context : option elem)
  : M W (option elem) :=
  match remaining with
  | O => ret None
  | S remaining' =>
      found <- try_locators search_context timeout locators ;;
      match found with
      | Some element => ret (Some element)
      | None =>
          if (attempt_no <? MAX_RETRIES - 1)%nat then
            jitter <- random_uniform 0 2000 ;;
            sleep (RETRY_DELAY * 1000 + jitter) ;;
            find_element_passes remaining' (S attempt_no) locators timeout
              screenshot_name search_context
          else
            log ERROR find_error_msg ;;
            (if Py.truthy screenshot_name
             then capture_screenshot
                    (match screenshot_name with Some n => n | None => "" end)
             else ret tt) ;;
            raise not_found
      end
  end.

(** [find_element_safely(locators, timeout, screenshot_name,
    parent_element)] *)
Definition find_element_safely (locators : list locator) (timeout : Z)
           (screenshot_name : option string) (parent_element : option elem)
  : M W (option elem) :=
  find_element_passes MAX_RETRIES 0 locators timeout screenshot_name
    parent_element.

(** A call site that goes on to use the element: on [None] the next
    attribute access raises [AttributeError]. *)
Definition find_element_safely_elem (locators : list locator) (timeout : Z)
           (screenshot_name : option string) (parent_element : option elem)
  : M W elem :=
  found <- find_element_safely locators timeout screenshot_name
             parent_element ;;
  match found with
  | Some element => ret element
  | None =>
      raise (Exn.mk Exn.AttributeError "'NoneType' object has no attribute")
  end.

(** [fname.endswith(('.tmp', '.crdownload', '.part'))] *)
Definition in_progress (fname : string) : bool :=
  Py.endswith ".tmp" fname || Py.endswith ".crdownload" fname ||
  Py.endswith ".part" fname.

(** [for _ in range(5)]: the size sampling of one candidate.  [true] is the
    [return new_file_path] inside the loop; [false] is a loop left by
    [break] or run to its end. *)
Fixpoint sample_sizes (n : nat) (new_file_path : string) (current_size : Z)
  : M W bool :=
  match n with
  | O => ret false
  | S n' =>
      sleep 200 ;;
      present <- path_exists new_file_path ;;
      if negb present then ret false
      else
        new_size <- act (GetSize new_file_path) ;;
        if ((current_size =? new_size) && (new_size >? 0))%Z
        then
          log INFO ("Download complete: " +++ new_file_path) ;;
          ret true
        else sample_sizes n' new_file_path new_size
  end.

(** [for fname in new_files] *)
Fixpoint scan_new_files (new_files : list string) : M W (option string) :=
  match new_files with
  | [] => ret None
  | fname :: rest =>
      if negb (in_progress fname) then
        let new_file_path := Py.path_join DOWNLOAD_DIR fname in
        stable <- sample_sizes 5 new_file_path (-1) ;;
        if stable then ret (Some new_file_path)
        else if Py.truthy (Some new_file_path) then
          present <- path_exists new_file_path ;;
          if present then
            log INFO ("Download complete (size check passed): "
                      +++ new_file_path) ;;
            ret (Some new_file_path)
          else scan_new_files rest
        else scan_new_files rest
      else scan_new_files rest
  end.

Definition download_timeout_msg (timeout : Z) : string :=
  "Download did not complete within " +++ Py.str_of_nat (Z.to_nat timeout)
  +++ " seconds.".

(** [set(os.listdir(DOWNLOAD_DIR)) - initial_files]; the iteration order of
    the set is the order of the listing. *)
Definition new_files_of (current_files initial_files : list string)
  : list string :=
  filter (fun f => negb (Py.mem f initial_files))
         (nodup string_dec current_files).

(** The [while time.time() - start_time < timeout] loop.  Every iteration
    that does not return sleeps one second, so [fuel] iterations are
    enough once [fuel] exceeds the timeout in seconds. *)
Fixpoint poll_downloads (fuel : nat) (start_time timeout : Z)
         (initial_files : list string) : M W string :=
  now <- time ;;
  match fuel with
  | S fuel' =>
      if (now - start_time <? timeout * 1000)%Z then
        current_files <- act (ListDir DOWNLOAD_DIR) ;;
        found <- scan_new_files (new_files_of current_files initial_files) ;;
        match found with
        | Some new_file_path => ret new_file_path
        | None =>
            sleep 1000 ;;
            poll_downloads fuel' start_time timeout initial_files
        end
      else
        capture_screenshot "download_timeout" ;;
        raise (Exn.mk Exn.TimeoutException (download_timeout_msg timeout))
  | O =>
      capture_screenshot "download_timeout" ;;
      raise (Exn.mk Exn.TimeoutException (download_timeout_msg timeout))
  end.

(** [wait_for_download_completion(initial_files, timeout)], [timeout] in
    seconds. *)
Definition wait_for_download_completion (initial_files : list string)
           (timeout : Z) : M W string :=
  start_time <- time ;;
  log INFO "Waiting for file download to complete..." ;;
  poll_downloads (S (Z.to_nat timeout)) start_time timeout initial_files.

End Resolver.

(** ** Reading a run of the resolver off its events *)

(** The events the resolver's contract speaks of. *)
Inductive step : Type :=
| Probe (loc : locator) (r : result elem)   (* one locator tried *)
| Pause (ms : Z)                            (* a sleep *)
| Shot (name : string).                     (* a screenshot capture *)

Definition step_of_action {A} (a : action A) : result A -> list step :=
  match a in action T return result T -> list step with
  | WaitPresence _ _ loc => fun r => [Probe loc r]
  | Sleep ms => fun _ => [Pause ms]
  | SaveScreenshot n => fun _ => [Shot n]
  | _ => fun _ => []
  end.

Definition steps (evs : list event) : list step :=
  flat_map (fun ev => match ev with
                      | EvAct a r => step_of_action a r
                      | EvLog _ _ => []
                      end) evs.

Definition probe_records (st : list step) : list (locator * result elem) :=
  flat_map (fun x => match x with Probe l r => [(l, r)] | _ => [] end) st.

Definition probe_step (p : locator * result elem) : step :=
  Probe (fst p) (snd p).

(** A locator failed: it raised one of the exceptions the resolver
    handles. *)
Definition probe_failed (p : locator * result elem) : bool :=
  match snd p with
  | Exc e => Exn.matches e resolver_caught
  | Val _ => false
  end.

(** The probes [ps] are the locators, in order, and all failed. *)
Definition failing_pass (locators : list locator)
           (ps : list (locator * result elem)) : Prop :=
  map fst ps = locators /\ forallb probe_failed ps = true.

(** A sleep of the retry delay plus a jitter of at most two seconds. *)
Definition retry_pause (d : Z) : Prop :=
  (RETRY_DELAY * 1000 <= d <= RETRY_DELAY * 1000 + 2000)%Z.

(** [k] failing passes, each followed by its pause. *)
Fixpoint failed_passes (k : nat) (locators : list locator) (st : list step)
  : Prop :=
  match k with
  | O => st = []
  | S k' =>
      exists ps d rest,
        failing_pass locators ps /\ retry_pause d
        /\ st = map probe_step ps ++ Pause d :: rest
        /\ failed_passes k' locators rest
  end.

(** The screenshot taken before the resolver raises, if one was asked
    for. *)
Definition final_shot (screenshot_name : option string) : list step :=
  if Py.truthy screenshot_name
  then [Shot (match screenshot_name with Some n => n | None => "" end)]
  else [].

Definition is_shot (x : step) : bool :=
  match x with Shot _ => true | _ => false end.

(** The session [s] with its world replaced. *)
Definition moved {W} (s : session W) (w' : W) : session W :=
  mkSession w' (clock s) (downloaded_files s).

(** ** Reading a run of the download detector off its events *)

(** The detector returned on write-completion stability: its events end with
    two consecutive size samples of the returned path that agree and are not
    zero. *)
Definition stable_return (p : string) (evs : list event) : Prop :=
  exists pre z rx,
    evs = pre ++ [ EvAct (GetSize p) (Val z);
                   EvAct (Sleep 200) (Val tt);
                   EvAct (PathExists p) rx;
                   EvAct (GetSize p) (Val z);
                   EvLog INFO ("Download complete: " +++ p) ]
    /\ (0 < z)%Z.

(** The sizes sampled for [path], in order. *)
Definition size_sample_of {A} (path : string) (a : action A)
  : result A -> list Z :=
  match a in action T return result T -> list Z with
  | GetSize p =>
      fun r => match r with
               | Val z => if String.eqb p path then [z] else []
               | Exc _ => []
               end
  | _ => fun _ => []
  end.

Definition size_samples (path : string) (evs : list event) : list Z :=
  flat_map (fun ev => match ev with
                      | EvAct a r => size_sample_of path a r
                      | EvLog _ _ => []
                      end) evs.

(** Two consecutive samples agree and are not zero. *)
Fixpoint has_stable_pair (samples : list Z) : bool :=
  match samples with
  | a :: (b :: _) as rest =>
      ((a =? b)%Z && (0 <? b)%Z) || has_stable_pair rest
  | _ => false
  end.

(** One size sample of [p] inside the sampling loop: the pause, the check
    that the file exists, and the size read. *)
Definition size_sample (p : string) (z : Z) : list event :=
  [ EvAct (Sleep 200) (Val tt);
    EvAct (PathExists p) (Val true);
    EvAct (GetSize p) (Val z) ].

(** The events of size samples of [p], taken one after the other. *)
Definition sampled (p : string) (sizes : list Z) : list event :=
  flat_map (size_sample p) sizes.

(** How a sampling that found no agreement ends after [taken] samples: with
    its fifth sample, or earlier with the pause and the check that found the
    file missing (the [break]). *)
Definition sampling_end (p : string) (taken : nat) (ending : list event)
  : Prop :=
  (taken = 5%nat /\ ending = [])
  \/ ((taken < 5)%nat
      /\ exists rx, rx <> Val true
                    /\ ending = [ EvAct (Sleep 200) (Val tt);
                                  EvAct (PathExists p) rx ]).

(** A size read. *)
Definition is_size_read (ev : event) : bool :=
  match ev with
  | EvAct a _ => match a with GetSize _ => true | _ => false end
  | EvLog _ _ => false
  end.

(** The events do not end with a size read: what follows them is not the
    continuation of a sampling. *)
Definition sampling_starts_after (pre : list event) : Prop :=
  forall pre' ev, pre = pre' ++ [ev] -> is_size_read ev = false.

(** The detector returned on its fallback: its events end with the sampling
    of the returned path, from its first sample on, in which no two
    consecutive samples agreed and were not zero and which ran to its fifth
    sample or stopped when the file was found missing, followed by the
    check that found the file there. *)
Definition fallback_return (p : string) (evs : list event) : Prop :=
  exists pre sizes ending,
    evs = pre ++ sampled p sizes ++ ending
          ++ [ EvAct (PathExists p) (Val true);
               EvLog INFO ("Download complete (size check passed): "
                           +++ p) ]
    /\ sampling_starts_after pre
    /\ has_stable_pair sizes = false
    /\ sampling_end p (length sizes) ending.



(** A computation never moves the clock back. *)
Definition forward {W A} (c : M W A) : Prop :=
  forall s r s' t, c s = (r, s', t) -> (clock s <= clock s')%Z.

(* ===================================================================== *)
(** * [KOFIAScraper._select_from_custom_dropdown] *)
(* ===================================================================== *)

Section Dropdown.
Context {W : Type} `{Driver W}.

Definition attr_is (a : option string) (v : string) : bool :=
  match a with
  | Some x => String.eqb x v
  | None => false
  end.

(** [for btn in buttons: if btn.is_displayed(): ... break] *)
Fixpoint first_displayed (buttons : list elem) : M W (option elem) :=
  match buttons with
  | [] => ret None
  | btn :: rest =>
      shown <- ask (IsDisplayed btn) ;;
      if shown then ret (Some btn) else first_displayed rest
  end.

(** "Find all matching buttons and pick the visible one": per locator a
    [try] whose handler moves on to the next locator. *)
Fixpoint find_visible (locators : list locator) : M W (option elem) :=
  match locators with
  | [] => ret None
  | loc :: rest =>
      r <- attempt (buttons <- ask (FindElements None loc) ;;
                    first_displayed buttons) ;;
      match r with
      | Val (Some btn) => ret (Some btn)
      | Val None | Exc _ => find_visible rest
      end
  end.

(** Step 1: the dropdown button. *)
Definition locate_dropdown_button (button_locators : list locator)
           (screenshot_name_prefix : string) : M W elem :=
  visible <- find_visible button_locators ;;
  match visible with
  | Some dropdown_button => ret dropdown_button
  | None =>
      find_element_safely_elem button_locators EXPLICIT_WAIT_TIMEOUT
        (Some (screenshot_name_prefix +++ "_button_not_found")) None
  end.

(** The displayed value: the text of the nested [cb-text-] div, or the
    button's own text when that div cannot be read. *)
Definition read_current_value (dropdown_button : elem) : M W string :=
  r <- attempt
         (text_div <- ask (FindElement (Some dropdown_button)
                             (ByXpath,
                              ".//div[starts-with(@id, 'cb-text-')]")) ;;
          t <- ask (Text text_div) ;;
          ret (Py.strip t)) ;;
  match r with
  | Val current_value => ret current_value
  | Exc _ =>
      t <- ask (Text dropdown_button) ;;
      ret (Py.strip t)
  end.

Definition already_set_msg (option_text : string) : string :=
  "[Dropdown] ✓ Dropdown already set to '" +++ option_text +++ "', skipping".

Definition not_stuck_msg (current_value option_text : string) : string :=
  "[Dropdown] Selection may not have stuck. Current: '" +++ current_value
  +++ "', Expected: '" +++ option_text +++ "'".

(** The skip check: [true] is its [return True]. *)
Definition dropdown_already_set (dropdown_button : elem)
           (option_text : string) : M W bool :=
  r <- attempt (read_current_value dropdown_button) ;;
  match r with
  | Val current_value =>
      if String.eqb current_value option_text then
        log INFO (already_set_msg option_text) ;;
        ret true
      else ret false
  | Exc _ => ret false
  end.

(** [for click_method in ['actionchains', 'javascript', 'direct']] *)
Fixpoint try_open (methods : list click_method) (dropdown_button : elem)
  : M W bool :=
  match methods with
  | [] => ret false
  | click_method :: rest =>
      r <- attempt
             (act (Click click_method dropdown_button) ;;
              sleep 1500 ;;
              aria_expanded_after <-
                ask (GetAttribute dropdown_button "aria-expanded") ;;
              ret (attr_is aria_expanded_after "true")) ;;
      match r with
      | Val true => ret true
      | Val false | Exc _ => try_open rest dropdown_button
      end
  end.

Definition listbox_locator : locator :=
  (ByXpath, "//div[contains(@class, 'cl-listbox')] | //div[@role='listbox']").

Definition dropdown_list_locators : list locator :=
  [ (ByXpath, "//div[contains(@class, 'cl-listbox')]");
    (ByXpath, "//div[@role='listbox']") ].

(** Step 2: the option list, in the frame or in the outer document.  The
    boolean is [listbox_in_main_frame]. *)
Definition locate_listbox (screenshot_name_prefix : string)
  : M W (elem * bool) :=
  r <- attempt (act (WaitPresence None EXPLICIT_WAIT_TIMEOUT
                       listbox_locator)) ;;
  match r with
  | Val listbox_element => ret (listbox_element, true)
  | Exc _ =>
      act SwitchToDefaultContent ;;
      sleep 500 ;;
      listbox_element <-
        find_element_safely_elem dropdown_list_locators 5
          (Some (screenshot_name_prefix +++ "_list_not_found")) None ;;
      ret (listbox_element, false)
  end.

Definition option_xpaths (option_text : string) : list string :=
  [ ".//li[@role='option']//div[contains(@class, 'cl-text') and normalize-space()='"
      +++ option_text +++ "']";
    ".//div[contains(@class, 'cl-text') and normalize-space()='"
      +++ option_text +++ "']";
    ".//*[normalize-space()='" +++ option_text +++ "']";
    ".//div[contains(text(), '" +++ option_text +++ "')]";
    ".//*[contains(text(), '" +++ option_text +++ "')]" ].

(** [for xpath in option_xpaths]: the first XPath with a match wins. *)
Fixpoint find_option (listbox_element : elem) (xpaths : list string)
  : M W (option elem) :=
  match xpaths with
  | [] => ret None
  | xpath :: rest =>
      r <- attempt (ask (FindElements (Some listbox_element)
                           (ByXpath, xpath))) ;;
      match r with
      | Val (option_element :: _) => ret (Some option_element)
      | Val [] | Exc _ => find_option listbox_element rest
      end
  end.

Definition cl_text_locator : locator :=
  (ByXpath, ".//div[contains(@class, 'cl-text')]").

(** [for scroll_attempt in range(max_scroll_attempts)]: search, then one
    wheel increment. *)
Fixpoint scroll_loop (remaining scroll_attempt : nat)
         (listbox_element : elem) (xpaths : list string)
  : M W (option elem) :=
  match remaining with
  | O => ret None
  | S remaining' =>
      found <- find_option listbox_element xpaths ;;
      match found with
      | Some option_element => ret (Some option_element)
      | None =>
          (if ((scroll_attempt mod 10 =? 0) && (0 <? scroll_attempt))%nat
           then _ <- ask (FindElements (Some listbox_element)
                            cl_text_locator) ;;
                ret tt
           else ret tt) ;;
          r <- attempt (act (MoveTo listbox_element) ;;
                        sleep 100 ;;
                        act (Wheel listbox_element) ;;
                        sleep 150) ;;
          match r with
          | Val _ =>
              scroll_loop remaining' (S scroll_attempt) listbox_element
                xpaths
          | Exc _ => ret None
          end
      end
  end.

(** The scrolling search; its own [try ... except Exception] keeps whatever
    [option_element] was assigned. *)
Definition scroll_search (listbox_element : elem) (xpaths : list string)
           (original_implicit_wait : Z) : M W (option elem) :=
  r0 <- attempt (_ <- ask (FindElements (Some listbox_element)
                             cl_text_locator) ;;
                 act (ImplicitlyWait 0)) ;;
  match r0 with
  | Exc _ => ret None
  | Val _ =>
      r <- attempt (scroll_loop 50 0 listbox_element xpaths) ;;
      _ <- attempt (act (ImplicitlyWait original_implicit_wait)) ;;
      ret (match r with Val found => found | Exc _ => None end)
  end.

(** Steps 1b to 3 of one attempt: open the dropdown, find the option, click
    it and come back to the frame. *)
Definition dropdown_interact (dropdown_button : elem) (option_text : string)
           (screenshot_name_prefix : string) : M W unit :=
  aria_expanded_before <-
    ask (GetAttribute dropdown_button "aria-expanded") ;;
  (if attr_is aria_expanded_before "true"
   then act (Click JsClick dropdown_button) ;; sleep 1000
   else ret tt) ;;
  act (ScrollIntoView dropdown_button) ;;
  sleep 1000 ;;
  clicked <- try_open [ActionChainsClick; JsClick; DirectClick]
               dropdown_button ;;
  (if negb clicked
   then raise (Exn.mk Exn.Exception
                 "Could not open dropdown with any click method")
   else ret tt) ;;
  sleep 1000 ;;
  lb <- locate_listbox screenshot_name_prefix ;;
  let listbox_element := fst lb in
  let listbox_in_main_frame := snd lb in
  sleep 1000 ;;
  swallow (act (ResetScrollTop listbox_element) ;; sleep 200) ;;
  original_implicit_wait <- ask ImplicitWait ;;
  act (ImplicitlyWait 0) ;;
  quick <- finally (find_option listbox_element (option_xpaths option_text))
             (act (ImplicitlyWait original_implicit_wait)) ;;
  found <- match quick with
           | Some option_element => ret (Some option_element)
           | None =>
               scroll_search listbox_element (option_xpaths option_text)
                 original_implicit_wait
           end ;;
  match found with
  | None =>
      log WARNING ("[Dropdown] Could not find '" +++ option_text
                   +++ "' - will retry dropdown") ;;
      swallow
        ((if negb listbox_in_main_frame
          then main <- ask (FindElement None (ByName, "main")) ;;
               act (SwitchToFrameElement main)
          else ret tt) ;;
         act (Click JsClick dropdown_button) ;;
         sleep 500) ;;
      raise (Exn.mk Exn.Exception
               ("Could not find option '" +++ option_text
                +++ "' in listbox even after scrolling"))
  | Some option_element =>
      r <- attempt (act (Click JsClick option_element)) ;;
      match r with
      | Val _ => ret tt
      | Exc _ => act (Click ActionChainsClick option_element)
      end ;;
      log INFO ("[Dropdown] ✓ Selected '" +++ option_text
                +++ "' successfully") ;;
      sleep 1500 ;;
      if negb listbox_in_main_frame
      then act (SwitchToFrame "main") ;; sleep 500
      else ret tt
  end.

(** "Verify selection was successful".  [Some b] is [return b]; [None] is
    the [continue] that restarts the interaction. *)
Definition dropdown_verify (dropdown_button : elem) (option_text : string)
           (retry max_retries : nat) : M W (option bool) :=
  r <- attempt (sleep 1000 ;;
                t <- ask (Text dropdown_button) ;;
                ret (Py.strip t)) ;;
  match r with
  | Val current_value =>
      if String.eqb current_value option_text then
        log INFO ("[Dropdown] ✓ Verified selection: '" +++ option_text
                  +++ "'") ;;
        ret (Some true)
      else
        log WARNING (not_stuck_msg current_value option_text) ;;
        if (retry <? max_retries - 1)%nat then ret None
        else ret (Some true)
  | Exc _ => ret (Some true)
  end.

(** The body of the [try] of one attempt. *)
Definition dropdown_try_body (button_locators : list locator)
           (option_text screenshot_name_prefix : string)
           (retry max_retries : nat) : M W (option bool) :=
  dropdown_button <-
    locate_dropdown_button button_locators screenshot_name_prefix ;;
  already <- dropdown_already_set dropdown_button option_text ;;
  if already then ret (Some true)
  else
    dropdown_interact dropdown_button option_text screenshot_name_prefix ;;
    dropdown_verify dropdown_button option_text retry max_retries.

(** [for retry in range(max_retries)] with [remaining] iterations left. *)
Fixpoint dropdown_retries (remaining retry : nat)
         (button_locators : list locator)
         (option_text screenshot_name_prefix : string) (max_retries : nat)
  : M W bool :=
  match remaining with
  | O => ret false
  | S remaining' =>
      r <- attempt (dropdown_try_body button_locators option_text
                      screenshot_name_prefix retry max_retries) ;;
      match r with
      | Val (Some b) => ret b
      | Val None =>
          dropdown_retries remaining' (S retry) button_locators option_text
            screenshot_name_prefix max_retries
      | Exc e =>
          log WARNING ("[Dropdown] Attempt " +++ Py.str_of_nat (retry + 1)
                       +++ "/" +++ Py.str_of_nat max_retries
                       +++ " to select '" +++ option_text +++ "' failed") ;;
          capture_screenshot (screenshot_name_prefix
                              +++ "_select_error_attempt_"
                              +++ Py.str_of_nat (retry + 1)) ;;
          swallow (act SwitchToDefaultContent ;;
                   act (SwitchToFrame "main")) ;;
          if (retry <? max_retries - 1)%nat then
            log INFO "[Dropdown] Retrying in 2 seconds..." ;;
            sleep 2000 ;;
            dropdown_retries remaining' (S retry) button_locators
              option_text screenshot_name_prefix max_retries
          else
            log ERROR ("[Dropdown] Failed to select '" +++ option_text
                       +++ "' after " +++ Py.str_of_nat max_retries
                       +++ " attempts") ;;
            raise e
      end
  end.

Definition _select_from_custom_dropdown (button_locators : list locator)
           (option_text screenshot_name_prefix : string) (max_retries : nat)
  : M W bool :=
  dropdown_retries max_retries 0 button_locators option_text
    screenshot_name_prefix max_retries.

End Dropdown.

(* ===================================================================== *)
(** * [KOFIAScraper.download_dataset] *)
(* ===================================================================== *)

Section Acquisition.
Context {W : Type} `{Driver W}.

(** ** Radio groups: choosing the click target *)

Definition radiogroup_locator : locator :=
  (ByXpath, "./ancestor::*[@role='radiogroup'][1]").

Definition radio_locator : locator := (ByXpath, ".//span[@role='radio']").

Definition radios_labelled (label : string) : locator :=
  (ByXpath, "//span[@role='radio' and @aria-label='" +++ label +++ "']").

(** [[r.get_attribute('aria-label') for r in sibling_radios]] *)
Fixpoint aria_labels (radios : list elem) : M W (list (option string)) :=
  match radios with
  | [] => ret []
  | r :: rest =>
      l <- ask (GetAttribute r "aria-label") ;;
      ls <- aria_labels rest ;;
      ret (l :: ls)
  end.

(** The labels of the radio group a control belongs to. *)
Definition sibling_labels_of (radio : elem) : M W (list (option string)) :=
  parent <- ask (FindElement (Some radio) radiogroup_locator) ;;
  sibling_radios <- ask (FindElements (Some parent) radio_locator) ;;
  aria_labels sibling_radios.

(** [term in sibling_labels] *)
Definition label_in (term : string) (labels : list (option string)) : bool :=
  existsb (fun l => attr_is l term) labels.

(** [s in region_terms] for a label that may be [None]. *)
Definition in_terms (terms : list string) (l : option string) : bool :=
  match l with
  | Some x => Py.mem x terms
  | None => false
  end.

Definition region_terms : list string :=
  ["전체"; "국내"; "해외"; "해외30"; "해외60"].

(** [[r for r in radios if r.is_displayed()]] *)
Fixpoint displayed_only (radios : list elem) : M W (list elem) :=
  match radios with
  | [] => ret []
  | r :: rest =>
      shown <- ask (IsDisplayed r) ;;
      rs <- displayed_only rest ;;
      ret (if shown then r :: rs else rs)
  end.

(** Region: the loop over the candidates.  A candidate is taken when it is
    displayed and its group shows at least two region terms; an exception
    while inspecting one candidate moves on to the next. *)
Fixpoint region_candidate (region_radios : list elem) : M W (option elem) :=
  match region_radios with
  | [] => ret None
  | radio :: rest =>
      r <- attempt
             (shown <- ask (IsDisplayed radio) ;;
              if negb shown then ret false
              else
                sibling_labels <- sibling_labels_of radio ;;
                ret (existsb (fun term => label_in term sibling_labels)
                       region_terms
                     && (2 <=? length (filter (in_terms region_terms)
                                         sibling_labels))%nat)) ;;
      match r with
      | Val true => ret (Some radio)
      | Val false | Exc _ => region_candidate rest
      end
  end.

(** Region: the click target, with the "first VISIBLE match" fallback. *)
Definition region_target (region_korean : string)
           (region_radios : list elem) : M W elem :=
  candidate <- region_candidate region_radios ;;
  match candidate with
  | Some target_radio => ret target_radio
  | None =>
      visible_radios <- displayed_only region_radios ;;
      match visible_radios with
      | target_radio :: _ => ret target_radio
      | [] =>
          raise (Exn.mk Exn.Exception
                   ("No visible '" +++ region_korean
                    +++ "' radio buttons found"))
      end
  end.

(** Public/private scope: a candidate is taken when its group shows '공모'
    or '사모' and it is displayed and enabled. *)
Fixpoint public_private_target (radios : list elem) : M W (option elem) :=
  match radios with
  | [] => ret None
  | radio :: rest =>
      r <- attempt
             (sibling_labels <- sibling_labels_of radio ;;
              if label_in "공모" sibling_labels
                 || label_in "사모" sibling_labels
              then
                shown <- ask (IsDisplayed radio) ;;
                if shown then ask (IsEnabled radio) else ret false
              else ret false) ;;
      match r with
      | Val true => ret (Some radio)
      | Val false | Exc _ => public_private_target rest
      end
  end.

(** Periodicity: a candidate is taken when its group shows '년간' or
    '분기'. *)
Fixpoint monthly_candidate (monthly_radios : list elem)
  : M W (option elem) :=
  match monthly_radios with
  | [] => ret None
  | radio :: rest =>
      r <- attempt
             (sibling_labels <- sibling_labels_of radio ;;
              ret (label_in "년간" sibling_labels
                   || label_in "분기" sibling_labels)) ;;
      match r with
      | Val true => ret (Some radio)
      | Val false | Exc _ => monthly_candidate rest
      end
  end.

(** Periodicity: the click target, with the "first match" fallback.  The
    list is not empty where this is called. *)
Definition monthly_target (first_radio : elem) (monthly_radios : list elem)
  : M W elem :=
  candidate <- monthly_candidate monthly_radios ;;
  match candidate with
  | Some target_radio => ret target_radio
  | None => ret first_radio
  end.

(** ** The steps of one attempt *)

Definition period_text (time_window_years : nat) : string :=
  if (1 <=? time_window_years)%nat
  then Py.str_of_nat time_window_years +++ "년"
  else Py.str_of_nat (time_window_years * 12) +++ "개월".

(** "Check for and close any lingering popups/alerts". *)
Definition dismiss_lingering_alert : M W unit :=
  swallow (act SwitchToAlert ;;
           act AlertAccept ;;
           log INFO "Closed lingering alert popup before starting" ;;
           sleep 1000 ;;
           act (SwitchToFrame "main")).

Definition period_button_locators : list locator :=
  [ (ByXpath, "//div[@title='조회기간(월단위)']//div[@role='combobox']");
    (ByXpath, "//div[@title='조회기간(월단위)']") ].

(** Step 0: the query period. *)
Definition select_period (dataset_name : string) (time_window_years : nat)
  : M W unit :=
  log INFO ("Step 0: Setting query period to "
            +++ period_text time_window_years +++ "...") ;;
  _ <- _select_from_custom_dropdown period_button_locators
         (period_text time_window_years) (dataset_name +++ "_period") 3 ;;
  capture_screenshot (dataset_name +++ "_after_period_select") ;;
  sleep 3000.

Definition expected_fund_types : list string :=
  ["주식형"; "혼합주식형"; "혼합채권형"; "채권형"; "단기금융"; "전체"].

(** [[opt.text.strip() for opt in options if opt.text.strip()]] *)
Fixpoint stripped_texts (options : list elem) : M W (list string) :=
  match options with
  | [] => ret []
  | opt :: rest =>
      t <- ask (Text opt) ;;
      ts <- stripped_texts rest ;;
      ret (if String.eqb (Py.strip t) "" then ts else Py.strip t :: ts)
  end.

(** The inner [try] of the fund-type identification, entered with the
    dropdown open.  The boolean is the [break]. *)
Definition check_fund_type_options (dropdown : elem)
           (correct_dropdown : option elem) : M W (option elem * bool) :=
  r <- attempt
         (listbox <- act (WaitPresence None EXPLICIT_WAIT_TIMEOUT
                            (ByXpath, "//div[@role='listbox']")) ;;
          sleep 500 ;;
          options <- ask (FindElements (Some listbox) cl_text_locator) ;;
          stripped_texts (firstn 10 options)) ;;
  match r with
  | Exc _ => ret (correct_dropdown, false)
  | Val option_texts =>
      if existsb (fun ft => Py.mem ft option_texts) expected_fund_types
      then
        closed <- attempt (act (Click JsClick dropdown) ;; sleep 1000) ;;
        ret (Some dropdown, is_val closed)
      else
        swallow (act (Click JsClick dropdown) ;; sleep 1000) ;;
        ret (correct_dropdown, false)
  end.

(** "Try to find the correct 펀드유형 dropdown by checking its options". *)
Fixpoint identify_fund_type_dropdown (dropdowns : list elem)
         (correct_dropdown : option elem) : M W (option elem) :=
  match dropdowns with
  | [] => ret correct_dropdown
  | dropdown :: rest =>
      r <- attempt
             (title <- ask (GetAttribute dropdown "title") ;;
              _ <- ask (Text dropdown) ;;
              parent_title <-
                (pt <- attempt
                         (parent <- ask (FindElement (Some dropdown)
                                           (ByXpath, "./parent::*")) ;;
                          ask (GetAttribute parent "title")) ;;
                 ret (match pt with Val (Some t) => t | _ => "" end)) ;;
              let dropdown_title :=
                match title with Some t => t | None => "" end in
              if Py.contains "펀드유형" dropdown_title
                 || Py.contains "펀드유형" parent_title
              then
                act (ScrollIntoView dropdown) ;;
                sleep 500 ;;
                act (Click JsClick dropdown) ;;
                sleep 1500 ;;
                check_fund_type_options dropdown correct_dropdown
              else ret (correct_dropdown, false)) ;;
      match r with
      | Val (correct, true) => ret correct
      | Val (correct, false) => identify_fund_type_dropdown rest correct
      | Exc _ => identify_fund_type_dropdown rest correct_dropdown
      end
  end.

(** [xs.index(x)] on a list that holds [x]. *)
Fixpoint index_of (x : elem) (xs : list elem) : nat :=
  match xs with
  | [] => 0
  | y :: rest => if (x =? y)%nat then 0 else S (index_of x rest)
  end.

(** Step 1: the fund type. *)
Definition select_fund_type (dataset_name fund_type_korean : string)
  : M W unit :=
  log INFO ("Step 1: Selecting Fund Type (펀드유형): " +++ fund_type_korean
            +++ "...") ;;
  all_dropdowns <- ask (FindElements None
                          (ByXpath, "//div[@role='combobox']")) ;;
  correct_dropdown <- identify_fund_type_dropdown all_dropdowns None ;;
  let fund_type_button_locators :=
    match correct_dropdown with
    | None =>
        [ (ByXpath, "//div[@title='펀드유형']//div[@role='combobox']");
          (ByXpath, "//div[@title='펀드유형']") ]
    | Some d =>
        [ (ByXpath, "(//div[@role='combobox'])["
                    +++ Py.str_of_nat (index_of d all_dropdowns + 1)
                    +++ "]") ]
    end in
  _ <- _select_from_custom_dropdown fund_type_button_locators
         fund_type_korean (dataset_name +++ "_fund_type") 3 ;;
  capture_screenshot (dataset_name +++ "_after_fund_category_select").

(** "Wait for placeholders to be replaced by actual form elements". *)
Fixpoint wait_form_ready (remaining : nat) (region_korean : string)
  : M W unit :=
  match remaining with
  | O => ret tt
  | S remaining' =>
      placeholders <- ask (FindElements None
                             (ByXpath,
                              "//div[@class='cl-form-placeholder']")) ;;
      region_radios <- ask (FindElements None
                              (radios_labelled region_korean)) ;;
      visible_radios <- displayed_only region_radios ;;
      match visible_radios with
      | _ :: _ =>
          if (length placeholders <? 10)%nat then ret tt
          else sleep 1000 ;; wait_form_ready remaining' region_korean
      | [] => sleep 1000 ;; wait_form_ready remaining' region_korean
      end
  end.

(** One click strategy of the region group: click, wait, and read the
    checked state; any exception counts as "did not register". *)
Definition click_and_check (click : M W unit) (target_radio : elem)
  : M W bool :=
  r <- attempt
         (click ;;
          sleep 1000 ;;
          aria_checked_after <-
            ask (GetAttribute target_radio "aria-checked") ;;
          ret (attr_is aria_checked_after "true")) ;;
  ret (match r with Val b => b | Exc _ => false end).

Definition label_of_radio : locator :=
  (ByXpath, "./following-sibling::label | ./parent::*/label").

(** Step 2: the region radio group.  Any exception is logged and raised
    again. *)
Definition select_region (dataset_name region_korean : string) : M W unit :=
  log INFO ("Step 2: Selecting 투자지역구분: " +++ region_korean +++ "...") ;;
  r <- attempt
         (wait_form_ready 20 region_korean ;;
          sleep 2000 ;;
          region_radios <- ask (FindElements None
                                  (radios_labelled region_korean)) ;;
          match region_radios with
          | [] =>
              raise (Exn.mk Exn.Exception
                       ("Could not find 투자지역구분 '" +++ region_korean
                        +++ "' radio button"))
          | _ :: _ =>
              target_radio <- region_target region_korean region_radios ;;
              _ <- ask (GetAttribute target_radio "aria-checked") ;;
              act (ScrollIntoView target_radio) ;;
              sleep 1000 ;;
              clicked1 <- click_and_check
                            (act (Click JsClick target_radio))
                            target_radio ;;
              clicked2 <-
                (if clicked1 then ret true
                 else click_and_check
                        (label <- ask (FindElement (Some target_radio)
                                         label_of_radio) ;;
                         act (Click JsClick label))
                        target_radio) ;;
              _ <-
                (if clicked2 then ret true
                 else click_and_check
                        (act (Click ActionChainsClick target_radio))
                        target_radio) ;;
              aria_checked_after <-
                ask (GetAttribute target_radio "aria-checked") ;;
              if attr_is aria_checked_after "true"
              then log INFO ("✓ Selected 투자지역구분: " +++ region_korean)
              else log WARNING ("⚠ 투자지역구분 '" +++ region_korean
                                +++ "' click may not have registered")
          end) ;;
  match r with
  | Val _ => ret tt
  | Exc e =>
      log ERROR "Error selecting 투자지역구분" ;;
      capture_screenshot (dataset_name +++ "_region_select_error") ;;
      raise e
  end.

(** Step 3: the fund category, fixed to '전체'. *)
Definition select_fund_category (dataset_name : string) : M W unit :=
  log INFO "Step 3: Selecting 펀드종류: 전체..." ;;
  _ <- _select_from_custom_dropdown
         [ (ByXpath, "//div[@title='펀드종류']//div[@role='combobox']");
           (ByXpath, "//div[@title='펀드종류']") ]
         "전체" (dataset_name +++ "_fund_category") 3 ;;
  log INFO "✓ Selected 펀드종류: 전체".

(** The page-source dumps written for debugging: opening the file, reading
    [driver.page_source] and writing it are one file-system action inside a
    [try] that only logs.  Time stamps in file names are left out. *)
Definition dump_page_source (path : string) : M W unit :=
  swallow (act (WriteFile path)).

(** Step 4: the public/private radio group, fixed to '전체'. *)
Definition select_public_private (dataset_name : string) : M W unit :=
  log INFO "Step 4: Selecting 공모/사모구분: 전체..." ;;
  dump_page_source (Py.path_join LOG_DIR
                      ("debug_공모사모구분_" +++ dataset_name +++ ".html")) ;;
  r <- attempt
         (all_jeonche_radios <- ask (FindElements None
                                       (radios_labelled "전체")) ;;
          target <- public_private_target all_jeonche_radios ;;
          match target with
          | None =>
              raise (Exn.mk Exn.Exception
                       "Could not find 공모/사모구분 '전체' radio button")
          | Some target_radio =>
              _ <- ask (GetAttribute target_radio "aria-checked") ;;
              _ <- ask (IsDisplayed target_radio) ;;
              _ <- ask (IsEnabled target_radio) ;;
              act (ScrollIntoView target_radio) ;;
              sleep 1000 ;;
              c1 <- attempt
                      (input_element <-
                         ask (FindElement (Some target_radio)
                                (ByXpath,
                                 ".//input[@type='checkbox' or @type='radio']")) ;;
                       act (Click JsClick input_element)) ;;
              c2 <- (if is_val c1 then ret true
                     else r2 <- attempt (act (Click JsClick target_radio)) ;;
                          ret (is_val r2)) ;;
              (if c2 then ret tt
               else swallow (label <- ask (FindElement (Some target_radio)
                                             label_of_radio) ;;
                             act (Click JsClick label))) ;;
              sleep 1000 ;;
              aria_checked_after <-
                ask (GetAttribute target_radio "aria-checked") ;;
              capture_screenshot
                (dataset_name +++ "_after_public_private_select") ;;
              if attr_is aria_checked_after "true"
              then log INFO "✓ Selected 공모/사모구분: 전체"
              else log WARNING "공모/사모구분 '전체' may not be selected"
          end) ;;
  match r with
  | Val _ => ret tt
  | Exc e =>
      log ERROR "Error selecting 공모/사모구분" ;;
      capture_screenshot (dataset_name +++ "_public_private_select_error") ;;
      raise e
  end.

(** Step 5: the periodicity radio group, fixed to '월간'. *)
Definition select_monthly (dataset_name : string) : M W unit :=
  log INFO "Step 5: Selecting 월간/년간(기준): 월간..." ;;
  r <- attempt
         (monthly_radios <- ask (FindElements None
                                   (radios_labelled "월간")) ;;
          match monthly_radios with
          | [] =>
              raise (Exn.mk Exn.Exception
                       "Could not find 월간/년간(기준) '월간' radio button")
          | first_radio :: _ =>
              target_radio <- monthly_target first_radio monthly_radios ;;
              _ <- ask (GetAttribute target_radio "aria-checked") ;;
              act (ScrollIntoView target_radio) ;;
              sleep 500 ;;
              act (Click JsClick target_radio) ;;
              sleep 500 ;;
              _ <- ask (GetAttribute target_radio "aria-checked") ;;
              log INFO "✓ Selected 월간/년간(기준): 월간"
          end) ;;
  match r with
  | Val _ => ret tt
  | Exc e =>
      log ERROR "Error selecting 월간/년간(기준)" ;;
      capture_screenshot (dataset_name +++ "_monthly_yearly_select_error") ;;
      raise e
  end.

(** "Find all matching buttons and pick the visible one", for the action
    buttons: each candidate is also asked for [probe] (its text or its tag
    name, read for the debug log) inside the same [try]. *)
Fixpoint first_displayed_probing (probe : elem -> query string)
         (buttons : list elem) : M W (option elem) :=
  match buttons with
  | [] => ret None
  | btn :: rest =>
      is_displayed <- ask (IsDisplayed btn) ;;
      _ <- ask (probe btn) ;;
      if is_displayed then ret (Some btn)
      else first_displayed_probing probe rest
  end.

Fixpoint find_visible_probing (probe : elem -> query string)
         (locators : list locator) : M W (option elem) :=
  match locators with
  | [] => ret None
  | loc :: rest =>
      r <- attempt (buttons <- ask (FindElements None loc) ;;
                    first_displayed_probing probe buttons) ;;
      match r with
      | Val (Some btn) => ret (Some btn)
      | Val None | Exc _ => find_visible_probing probe rest
      end
  end.

Definition search_button_locators : list locator :=
  [ (ByXpath, "//a[@role='button' and .//div[text()='조회']]");
    (ByXpath, "//div[contains(@class, 'cl-button')]//div[text()='조회']/ancestor::a[@role='button']");
    (ByXpath, "//div[text()='조회']/ancestor::a[@role='button']") ].

(** "Verify it's now visible", with the alternative scroll. *)
Definition scroll_until_visible (button : elem) : M W unit :=
  is_visible <- ask (IsDisplayed button) ;;
  if negb is_visible then
    act (ScrollIntoView button) ;;
    sleep 1000 ;;
    _ <- ask (IsDisplayed button) ;;
    ret tt
  else ret tt.

(** Step 6: the search trigger.  The click falls back through four
    strategies; the last one's failure is raised. *)
Definition click_search (dataset_name : string) : M W unit :=
  log INFO "Step 6: Clicking Search (조회) button..." ;;
  sleep 2000 ;;
  found <- find_visible_probing Text search_button_locators ;;
  match found with
  | None =>
      log ERROR "Could not find visible search button!" ;;
      capture_screenshot (dataset_name +++ "_no_visible_search_button") ;;
      raise (Exn.mk Exn.NoSuchElementException
               "No visible search button found")
  | Some search_button =>
      swallow
        (form_container <-
           ask (FindElement None
                  (ByXpath,
                   "//div[contains(@class, 'cl-formlayout') or contains(@class, 'cl-container')]")) ;;
         act (ScrollIntoView form_container) ;;
         sleep 2000) ;;
      act (ScrollIntoView search_button) ;;
      sleep 2000 ;;
      scroll_until_visible search_button ;;
      capture_screenshot (dataset_name +++ "_before_search_click") ;;
      c1 <- attempt
              (anchor_link <- ask (FindElement (Some search_button)
                                     (ByXpath, ".//a[@role='button']")) ;;
               act (Click ActionChainsClick anchor_link) ;;
               log INFO "✓ Clicked Search button anchor using physical ActionChains click") ;;
      c2 <- (if is_val c1 then ret true
             else r <- attempt
                         (act (Click ActionChainsClick search_button) ;;
                          log INFO "✓ Clicked Search button container using physical ActionChains click") ;;
                  ret (is_val r)) ;;
      c3 <- (if c2 then ret true
             else r <- attempt
                         (act (Click OffsetClick search_button) ;;
                          log INFO "✓ Clicked Search button using offset click") ;;
                  ret (is_val r)) ;;
      if c3 then ret tt
      else
        r <- attempt (act (Click DirectClick search_button) ;;
                      log INFO "✓ Clicked Search button using direct click") ;;
        match r with
        | Val _ => ret tt
        | Exc e =>
            log ERROR "All search button click methods failed" ;;
            capture_screenshot
              (dataset_name +++ "_search_button_click_failed") ;;
            raise e
        end
  end.

(** [for elem in row_count_elements]: a text with both '총' and '건'. *)
Fixpoint has_row_count_text (row_count_elements : list elem) : M W bool :=
  match row_count_elements with
  | [] => ret false
  | e :: rest =>
      text <- ask (Text e) ;;
      if Py.contains "총" text && Py.contains "건" text then ret true
      else has_row_count_text rest
  end.

(** "Wait for data to actually change": at most [remaining] one-second
    probes; the result is [data_loaded]. *)
Fixpoint wait_results (remaining : nat) : M W bool :=
  match remaining with
  | O => ret false
  | S remaining' =>
      r <- attempt
             (grid_element <-
                ask (FindElement None
                       (ByXpath, "//div[contains(@class, 'cl-grid')]")) ;;
              inner_html <- ask (GetAttribute grid_element "innerHTML") ;;
              (match inner_html with
               | Some _ => ret tt
               | None =>
                   raise (Exn.mk Exn.TypeError
                            "'NoneType' object is not subscriptable")
               end) ;;
              row_count_elements <-
                ask (FindElements None
                       (ByXpath,
                        "//*[contains(text(), '총') and contains(text(), '건')]")) ;;
              data_rows <- ask (FindElements None
                                  (ByXpath,
                                   "//div[@role='row' and @aria-rowindex]")) ;;
              if (2 <? length data_rows)%nat then ret true
              else
                loaded <- has_row_count_text row_count_elements ;;
                if loaded then ret true else sleep 1000 ;; ret false) ;;
      match r with
      | Val true => ret true
      | Val false => wait_results remaining'
      | Exc _ => sleep 1000 ;; wait_results remaining'
      end
  end.

(** After the search click: wait for result rows; their absence is logged
    and the attempt goes on to the export. *)
Definition verify_results (dataset_name : string) : M W unit :=
  log INFO "Waiting for search to process and results to load..." ;;
  sleep 3000 ;;
  data_loaded <- wait_results 15 ;;
  (if negb data_loaded then
     log WARNING "⚠ Could not verify that search results loaded - DOM may have detected bot" ;;
     capture_screenshot (dataset_name +++ "_search_no_data_loaded") ;;
     dump_page_source (Py.path_join LOG_DIR
                         ("debug_search_no_data_" +++ dataset_name
                          +++ ".html"))
   else ret tt) ;;
  sleep 2000 ;;
  capture_screenshot (dataset_name +++ "_after_search").

Definition excel_button_locators : list locator :=
  [ (ByXpath, "//a[@role='button' and .//div[contains(@style, 'icon-file-excel')]]");
    (ByXpath, "//a[@role='button' and @title='EXCEL저장']");
    (ByXpath, "//div[contains(@style, 'icon-file-excel')]/ancestor::a[@role='button']");
    (ByXpath, "//div[contains(@class, 'cl-icon') and contains(@style, 'icon-file-excel')]") ].

(** Step 7: the export trigger, falling back through five strategies. *)
Definition click_excel (dataset_name : string) : M W unit :=
  log INFO "Step 7: Clicking Excel download button..." ;;
  sleep 2000 ;;
  found <- find_visible_probing TagName excel_button_locators ;;
  match found with
  | None =>
      log ERROR "Could not find visible Excel button!" ;;
      capture_screenshot (dataset_name +++ "_no_visible_excel_button") ;;
      raise (Exn.mk Exn.NoSuchElementException
               "No visible Excel button found")
  | Some excel_button =>
      act (ScrollIntoView excel_button) ;;
      sleep 1500 ;;
      scroll_until_visible excel_button ;;
      capture_screenshot (dataset_name +++ "_before_excel_click") ;;
      tag1 <- ask (TagName excel_button) ;;
      c1 <- (if String.eqb tag1 "a" then
               r <- attempt
                      (act (Click ActionChainsClick excel_button) ;;
                       log INFO "✓ Clicked Excel anchor button using physical ActionChains click") ;;
               ret (is_val r)
             else ret false) ;;
      c2 <- (if c1 then ret true
             else
               tag2 <- ask (TagName excel_button) ;;
               if String.eqb tag2 "div" then
                 r <- attempt
                        (parent_anchor <-
                           ask (FindElement (Some excel_button)
                                  (ByXpath, "./ancestor::a[@role='button']")) ;;
                         act (Click ActionChainsClick parent_anchor) ;;
                         log INFO "✓ Clicked Excel parent anchor using physical ActionChains click") ;;
                 ret (is_val r)
               else ret false) ;;
      c3 <- (if c2 then ret true
             else r <- attempt
                         (act (Click JsClick excel_button) ;;
                          log INFO "✓ Clicked Excel button using JavaScript") ;;
                  ret (is_val r)) ;;
      c4 <- (if c3 then ret true
             else r <- attempt
                         (act (Click OffsetClick excel_button) ;;
                          log INFO "✓ Clicked Excel button using offset click") ;;
                  ret (is_val r)) ;;
      (if c4 then ret tt
       else
         r <- attempt (act (Click DirectClick excel_button) ;;
                       log INFO "✓ Clicked Excel button using direct click") ;;
         match r with
         | Val _ => ret tt
         | Exc e =>
             log ERROR "All Excel button click methods failed" ;;
             capture_screenshot
               (dataset_name +++ "_excel_button_click_failed") ;;
             raise e
         end) ;;
      log INFO "Waiting 5 seconds for download to initiate..." ;;
      sleep 5000 ;;
      capture_screenshot (dataset_name +++ "_after_excel_click")
  end.

(** After the rename: record the file and "wait for any popups/alerts to
    close and for the page to return to normal state before next
    dataset". *)
Definition settle_after_download (new_file_path : string) : M W unit :=
  append_downloaded new_file_path ;;
  log INFO ("Successfully downloaded and renamed to: " +++ new_file_path) ;;
  sleep 3000 ;;
  swallow (act SwitchToAlert ;;
           _ <- ask AlertText ;;
           act AlertAccept ;;
           sleep 2000) ;;
  swallow (act SwitchToDefaultContent ;; act (SwitchToFrame "main")) ;;
  sleep 2000.

(** Steps 8 to the end of the attempt: await the file, rename it to
    [{output_name}.xls], record it, and let the page settle. *)
Definition collect_download (dataset_name output_name : string)
           (initial_files : list string) : M W unit :=
  downloaded_file_path <-
    wait_for_download_completion initial_files DOWNLOAD_WAIT_TIMEOUT ;;
  capture_screenshot (dataset_name +++ "_after_download_complete") ;;
  if Py.truthy (Some downloaded_file_path) then
    let new_file_path := Py.path_join DOWNLOAD_DIR (output_name +++ ".xls") in
    stale <- path_exists new_file_path ;;
    (if stale then act (Remove new_file_path) else ret tt) ;;
    act (Rename downloaded_file_path new_file_path) ;;
    settle_after_download new_file_path
  else
    raise (Exn.mk Exn.TimeoutException
             "Download path was not returned, implying failure.").

(** The body of the [try] of one attempt.  Returning normally is
    [success = True] followed by [break]. *)
Definition download_attempt (config : dataset_config) (attempt_no : nat)
  : M W unit :=
  let dataset_name := name config in
  ensure_main_frame ;;
  log INFO ("Attempt " +++ Py.str_of_nat (attempt_no + 1)
            +++ ": Configuring form for " +++ dataset_name) ;;
  dismiss_lingering_alert ;;
  settle <- random_uniform 3000 5000 ;;
  sleep settle ;;
  select_period dataset_name (time_window_years config) ;;
  select_fund_type dataset_name (fund_type_korean config) ;;
  select_region dataset_name (region_korean config) ;;
  pause1 <- random_uniform 1000 2000 ;;
  sleep pause1 ;;
  capture_screenshot (dataset_name +++ "_after_region_select") ;;
  select_fund_category dataset_name ;;
  pause2 <- random_uniform 1000 2000 ;;
  sleep pause2 ;;
  select_public_private dataset_name ;;
  pause3 <- random_uniform 1000 2000 ;;
  sleep pause3 ;;
  select_monthly dataset_name ;;
  pause4 <- random_uniform 1000 2000 ;;
  sleep pause4 ;;
  sleep 5000 ;;
  click_search dataset_name ;;
  verify_results dataset_name ;;
  initial_files <- act (ListDir DOWNLOAD_DIR) ;;
  click_excel dataset_name ;;
  collect_download dataset_name (output_name config) initial_files.

(** The exceptions the retrying handler of [download_dataset] names. *)
Definition retried_classes : list Exn.cls :=
  [ Exn.NoSuchElementException; Exn.TimeoutException;
    Exn.StaleElementReferenceException; Exn.WebDriverException ].

(** The handler [except (NoSuchElementException, TimeoutException,
    StaleElementReferenceException, WebDriverException)]: it logs, takes a
    screenshot and, unless this was the last attempt, waits; the loop then
    goes on. *)
Definition on_selenium_error (config : dataset_config) (attempt_no : nat)
  : M W unit :=
  log WARNING ("Error during download of " +++ name config
               +++ " (Attempt " +++ Py.str_of_nat (attempt_no + 1)
               +++ ")") ;;
  capture_screenshot (name config +++ "_error_"
                      +++ Py.str_of_nat (attempt_no + 1)) ;;
  if (attempt_no <? MAX_RETRIES - 1)%nat then
    log INFO ("Retrying download for " +++ name config) ;;
    jitter <- random_uniform 0 2000 ;;
    sleep (RETRY_DELAY * 1000 + jitter)
  else
    log ERROR ("Failed to download " +++ name config +++ " after "
               +++ Py.str_of_nat MAX_RETRIES +++ " attempts.").

(** The handler [except Exception]: it logs, takes a screenshot and leaves
    the loop with [break]. *)
Definition on_unexpected_error (config : dataset_config) : M W unit :=
  log ERROR ("An unexpected error occurred during download of "
             +++ name config) ;;
  capture_screenshot (name config +++ "_unexpected_error").

(** [for attempt in range(MAX_RETRIES)] with [remaining] iterations left;
    the value is [success] at [return success]. *)
Fixpoint download_attempts (remaining attempt_no : nat)
         (config : dataset_config) : M W bool :=
  match remaining with
  | O => ret false
  | S remaining' =>
      r <- attempt (download_attempt config attempt_no) ;;
      match r with
      | Val _ => ret true
      | Exc e =>
          if Exn.matches e retried_classes then
            on_selenium_error config attempt_no ;;
            download_attempts remaining' (S attempt_no) config
          else
            on_unexpected_error config ;;
            ret false
      end
  end.

(** [download_dataset(config)] *)
Definition download_dataset (config : dataset_config) : M W bool :=
  log INFO ("--- Starting download for dataset: " +++ name config
            +++ " ---") ;;
  download_attempts MAX_RETRIES 0 config.

End Acquisition.

(* ===================================================================== *)
(** * Sessions: construction, navigation, [run] and the parallel mode *)
(* ===================================================================== *)

Module PyCall.

(** A function's parameter list (names; none of the functions modelled has
    defaults, [*args] or [**kwargs]). *)
Record signature : Type := mkSig {
  fn_name : string;
  params : list string
}.

(** Binding the arguments of a call that passes only keyword arguments: a
    keyword the function does not declare, or a declared parameter left
    without value, is a [TypeError]. *)
Definition bind_keywords (sig : signature) (keywords : list string)
  : result unit :=
  match filter (fun k => negb (Py.mem k (params sig))) keywords with
  | k :: _ =>
      Exc (Exn.mk Exn.TypeError
             (fn_name sig +++ "() got an unexpected keyword argument '"
              +++ k +++ "'"))
  | [] =>
      match filter (fun p => negb (Py.mem p keywords)) (params sig) with
      | p :: _ =>
          Exc (Exn.mk Exn.TypeError
                 (fn_name sig +++ "() missing 1 required positional argument: '"
                  +++ p +++ "'"))
      | [] => Val tt
      end
  end.

(** Reading a name inside a function: a name the function never assigns is
    looked up among the module's globals (and the built-ins); a miss is a
    [NameError]. *)
Definition load_name (assigned_in_function module_globals : list string)
           (x : string) : result unit :=
  if Py.mem x assigned_in_function || Py.mem x module_globals then Val tt
  else Exc (Exn.mk Exn.NameError ("name '" +++ x +++ "' is not defined")).

End PyCall.

(** [config.py]: [def get_chrome_options():], [def
    get_stealth_chrome_options():], [def get_firefox_options():]. *)
Definition get_chrome_options_sig : PyCall.signature :=
  PyCall.mkSig "get_chrome_options" [].
Definition get_stealth_chrome_options_sig : PyCall.signature :=
  PyCall.mkSig "get_stealth_chrome_options" [].
Definition get_firefox_options_sig : PyCall.signature :=
  PyCall.mkSig "get_firefox_options" [].

(** The configuration constants [_initialize_driver] branches on. *)
Record settings : Type := mkSettings {
  browser : string;
  use_stealth : bool;
  headless_mode : bool
}.

(** The configuration as shipped. *)
Definition shipped : settings := mkSettings BROWSER USE_STEALTH HEADLESS_MODE.

(** The names bound at module level in [scraper.py]. *)
Definition scraper_globals : list string :=
  [ "HEADLESS_MODE"; "NUM_PARALLEL_TABS"; "os"; "time"; "logging"; "datetime";
    "pd"; "zipfile"; "re"; "random"; "threading"; "ThreadPoolExecutor";
    "as_completed"; "uc"; "stealth"; "BASE_URL"; "BROWSER"; "USE_STEALTH";
    "IMPLICIT_WAIT"; "EXPLICIT_WAIT_TIMEOUT"; "DOWNLOAD_WAIT_TIMEOUT";
    "DOWNLOAD_DIR"; "LOG_DIR"; "LOG_FORMAT"; "DATE_FORMAT"; "MAX_RETRIES";
    "RETRY_DELAY"; "NAV_FUND_TAB"; "NAV_FUND_COMPOSITION_MENU";
    "SELECT_FUND_TYPE"; "SELECT_REGION"; "SELECT_FUND_UNIVERSE";
    "INPUT_START_DATE"; "INPUT_END_DATE"; "BUTTON_SEARCH";
    "BUTTON_EXCEL_DOWNLOAD"; "DATASET_CONFIGS"; "KOREAN_TO_ENGLISH_CATEGORY";
    "KOREAN_TO_ENGLISH_METRIC"; "TIMESERIES_CODES"; "get_chrome_options";
    "get_stealth_chrome_options"; "get_firefox_options"; "webdriver"; "By";
    "WebDriverWait"; "Select"; "EC"; "ActionChains"; "Keys";
    "TimeoutException"; "NoSuchElementException";
    "StaleElementReferenceException"; "WebDriverException";
    "current_timestamp"; "log_file_path"; "logger"; "file_handler";
    "console_handler"; "KOFIAScraper"; "download_datasets_batch";
    "run_parallel"; "argparse"; "parser"; "args"; "config"; "scraper" ].

(** The names [KOFIAScraper.run] assigns. *)
Definition run_assigned : list string :=
  [ "self"; "start_time"; "success_count"; "failure_count"; "total_datasets";
    "nav_start"; "nav_duration"; "idx"; "config"; "dataset_start";
    "dataset_duration"; "download_duration"; "total_duration"; "e" ].

Section Session.
Context {W : Type} `{Driver W}.

Definition call_keywords (sig : PyCall.signature) (keywords : list string)
  : M W unit :=
  fun s => (PyCall.bind_keywords sig keywords, s, []).

Definition load_name (x : string) : M W unit :=
  fun s => (PyCall.load_name run_assigned scraper_globals x, s, []).

(** [driver.quit()]: Selenium's [quit] swallows the errors of the remote
    end. *)
Definition quit : M W unit := swallow (act Quit).

Definition anti_detection_script : string :=
  "delete navigator.__proto__.webdriver; ...".

(** The stealth branch of [_initialize_driver]. *)
Definition initialize_stealth_chrome : M W unit :=
  log INFO "Initializing Chrome in STEALTH mode" ;;
  call_keywords get_stealth_chrome_options_sig ["headless"] ;;
  r <- attempt (act (NewDriver UcChrome)) ;;
  is_uc <- match r with
           | Val _ =>
               log INFO "✓ Driver initialized with auto-detected version." ;;
               ret true
           | Exc _ =>
               log ERROR "Stealth mode failed completely. Falling back to regular Chrome..." ;;
               call_keywords get_chrome_options_sig ["headless"] ;;
               act (NewDriver PlainChrome) ;;
               ret false
           end ;;
  (if is_uc then swallow (act ApplyStealth) else ret tt) ;;
  swallow (act (ExecuteScript anti_detection_script)).

(** [_initialize_driver()]: only a [WebDriverException] is handled (logged
    and raised again). *)
Definition _initialize_driver (cfg : settings) : M W unit :=
  r <- attempt
         ((if String.eqb (browser cfg) "chrome" then
             if use_stealth cfg then initialize_stealth_chrome
             else
               log INFO "Initializing Chrome in standard mode" ;;
               call_keywords get_chrome_options_sig ["headless"] ;;
               act (NewDriver PlainChrome)
           else if String.eqb (browser cfg) "firefox" then
             call_keywords get_firefox_options_sig [] ;;
             act (NewDriver Firefox)
           else
             raise (Exn.mk Exn.ValueError
                      ("Unsupported browser: " +++ browser cfg))) ;;
          act (ImplicitlyWait IMPLICIT_WAIT) ;;
          act (SetPageLoadTimeout 60) ;;
          log INFO "WebDriver initialized successfully") ;;
  match r with
  | Val _ => ret tt
  | Exc e =>
      if Exn.matches e [Exn.WebDriverException] then
        log ERROR "Failed to initialize WebDriver" ;;
        raise e
      else raise e
  end.

(** [KOFIAScraper.__init__]: a new session with an empty
    [downloaded_files]. *)
Definition KOFIAScraper_init (cfg : settings) : M W unit :=
  _initialize_driver cfg ;;
  reset_downloaded ;;
  log INFO "KOFIAScraper initialized.".

(** A randomised settle interval, in milliseconds. *)
Definition settle (lo hi : Z) : M W unit :=
  d <- random_uniform lo hi ;;
  sleep d.

Definition submenu_locator : locator :=
  (ByXpath, "//div[@title='투자자산별비중']").

Fixpoint any_displayed (elems : list elem) : M W bool :=
  match elems with
  | [] => ret false
  | e :: rest =>
      shown <- ask (IsDisplayed e) ;;
      if shown then ret true else any_displayed rest
  end.

(** The expand click of the statistics menu, with its bounded retries. *)
Fixpoint expand_submenu (remaining : nat) (expand_icon : elem) : M W unit :=
  match remaining with
  | O =>
      log WARNING "[Navigation] Submenu may not have expanded fully, but proceeding anyway..."
  | S remaining' =>
      r <- attempt (act (Click ActionChainsClick expand_icon) ;;
                    sleep 2000) ;;
      match r with
      | Val _ => ret tt
      | Exc _ => act (Click JsClick expand_icon) ;; sleep 2000
      end ;;
      seen <- attempt (submenu_check <- ask (FindElements None
                                               submenu_locator) ;;
                       any_displayed submenu_check) ;;
      match seen with
      | Val true => log INFO "✓ Submenu expanded successfully"
      | Val false | Exc _ =>
          sleep 2000 ;; expand_submenu remaining' expand_icon
      end
  end.

Definition mgmt_stats_locator : locator :=
  (ByXpath, "//div[contains(@class, 'cl-tree-item')][@title='운용통계']").

(** The locator lists of the sidebar navigation, as its local variables
    name them. *)
Definition fund_industry_locators : list locator :=
  [(ByXpath, "//div[@data-itemid='MSIS40100000000000']")].

Definition mgmt_stats_locators : list locator := [mgmt_stats_locator].

Definition expand_icon_locators : list locator :=
  [ (ByXpath, "//div[contains(@class, 'cl-tree-item')][@title='운용통계']//div[contains(@class, 'cl-tree-treeicon')]");
    (ByXpath, "//div[@title='운용통계']//preceding-sibling::div[contains(@class, 'cl-tree-treeicon')]");
    (ByXpath, "//div[@title='운용통계']/../..//div[contains(@class, 'cl-tree-treeicon')]") ].

Definition asset_weight_locators : list locator :=
  [ (ByXpath, "//div[contains(@class, 'cl-tree-item') and @title='운용통계']//following-sibling::div//div[@title='투자자산별비중']");
    (ByXpath, "//div[contains(@class, 'cl-tree-item') and @title='운용통계']/..//div[@title='투자자산별비중']");
    (ByXpath, "//div[@class='sub-items']//div[contains(@class, 'cl-tree-item')][@title='투자자산별비중']");
    (ByXpath, "//div[@class='sub-items']//div[contains(@class, 'cl-text') and text()='투자자산별비중']");
    (ByXpath, "//div[contains(@class, 'cl-tree-item')][@title='투자자산별비중']");
    (ByXpath, "//*[text()='투자자산별비중']") ].

Definition trend_tab_locators : list locator :=
  [ (ByXpath, "//div[contains(@class, 'cl-tabfolder-item')]//div[@class='cl-text' and text()='추이']");
    (ByXpath, "//div[@role='tab' and text()='추이']");
    (ByXpath, "//div[contains(@class, 'cl-text') and text()='추이']");
    (ByXpath, "//*[text()='추이']") ].

(** The sidebar part of the navigation, inside the [try] that handles
    [NoSuchElementException]. *)
Definition navigate_sidebar : M W unit :=
  fund_industry <-
    find_element_safely_elem fund_industry_locators 15
      (Some "fund_industry_not_found") None ;;
  act (ScrollIntoView fund_industry) ;;
  sleep 1000 ;;
  act (Click ActionChainsClick fund_industry) ;;
  log INFO "✓ Clicked '펀드산업'" ;;
  settle 5000 7000 ;;
  mgmt_stats <-
    find_element_safely_elem mgmt_stats_locators 20
      (Some "mgmt_stats_not_found") None ;;
  swallow (_ <- act (WaitClickable 10 mgmt_stats_locator) ;; ret tt) ;;
  act (ScrollIntoView mgmt_stats) ;;
  sleep 1000 ;;
  expand_icon <-
    find_element_safely_elem expand_icon_locators 10
      (Some "mgmt_stats_expand_icon_not_found") None ;;
  expand_submenu 3 expand_icon ;;
  capture_screenshot "after_mgmt_stats_submenu_wait" ;;
  log INFO "Step 3: Clicking '투자자산별비중' menu item..." ;;
  asset_weight <-
    find_element_safely_elem asset_weight_locators 15
      (Some "asset_weight_not_found") None ;;
  act (ScrollIntoView asset_weight) ;;
  sleep 1000 ;;
  act (Click ActionChainsClick asset_weight) ;;
  log INFO "✓ Clicked '투자자산별비중' using ActionChains" ;;
  settle 4000 6000 ;;
  log INFO "Step 4: Clicking '추이' (Trend) tab..." ;;
  trend_tab <-
    find_element_safely_elem trend_tab_locators 10
      (Some "trend_tab_not_found") None ;;
  act (ScrollIntoView trend_tab) ;;
  sleep 1000 ;;
  act (Click ActionChainsClick trend_tab) ;;
  log INFO "✓ Step 4 Complete: Clicked '추이' tab - query form page ready" ;;
  settle 3000 5000.

(** [navigate_to_fund_composition_query()] *)
Definition navigate_to_fund_composition_query : M W unit :=
  act (Get BASE_URL) ;;
  r <- attempt (act (SwitchToFrame "main") ;; settle 2000 4000) ;;
  match r with
  | Val _ => ret tt
  | Exc e => capture_screenshot "frame_switch_failed" ;; raise e
  end ;;
  fund_tab <- find_element_safely_elem NAV_FUND_TAB EXPLICIT_WAIT_TIMEOUT
                (Some "fund_tab_not_found") None ;;
  act (Click DirectClick fund_tab) ;;
  log INFO "✓ Clicked on Fund (펀드) tab" ;;
  settle 4000 6000 ;;
  r2 <- attempt navigate_sidebar ;;
  match r2 with
  | Val _ => ret tt
  | Exc e =>
      if Exn.matches e [Exn.NoSuchElementException] then
        log ERROR "Failed to navigate through sidebar menu" ;;
        capture_screenshot "sidebar_navigation_failed" ;;
        dump_page_source (Py.path_join LOG_DIR "page_source.html") ;;
        raise e
      else raise e
  end ;;
  log INFO "Fund composition query form page loaded".

(** The dataset loop of [run]: [(success_count, failure_count)]. *)
Fixpoint run_datasets (configs : list dataset_config)
         (success_count failure_count : nat) : M W (nat * nat) :=
  match configs with
  | [] => ret (success_count, failure_count)
  | config :: rest =>
      log INFO ("Processing Dataset: " +++ name config) ;;
      ok <- download_dataset config ;;
      if ok then
        log INFO "✓ Dataset completed" ;;
        run_datasets rest (S success_count) failure_count
      else
        log WARNING "✗ Dataset failed" ;;
        run_datasets rest success_count (S failure_count)
  end.

(** The [try] block of [run] up to the line before the summary reads
    [process_duration]: navigation, the dataset loop and the first summary
    lines. *)
Definition run_downloads (configs : list dataset_config) : M W unit :=
  log INFO "Starting KOFIA Web Scraper" ;;
  log INFO "STEP 1/3: Navigating to fund composition query page..." ;;
  navigate_to_fund_composition_query ;;
  log INFO "✓ Navigation completed" ;;
  log INFO "STEP 2/3: Downloading datasets..." ;;
  _ <- run_datasets configs 0 0 ;;
  log INFO "✓ All downloads completed" ;;
  log INFO "Download Summary" ;;
  log INFO "STEP 3/3: Processing SKIPPED (only downloading files)" ;;
  log INFO "EXECUTION SUMMARY" ;;
  log INFO "End Time" ;;
  log INFO "Total Execution Time" ;;
  log INFO "Navigation Time" ;;
  log INFO "Download Time".

(** The rest of the summary, from
    [logger.info(f"Processing Time: {process_duration:.2f}s")] on. *)
Definition run_summary_tail : M W unit :=
  load_name "process_duration" ;;
  log INFO "Processing Time" ;;
  log INFO "Datasets Processed" ;;
  log INFO "  - Successful" ;;
  log INFO "  - Failed" ;;
  log INFO "Files Downloaded" ;;
  log INFO "Timeseries Created" ;;
  log INFO "✓ KOFIA Web Scraper completed successfully".

(** The [try] block of [run]. *)
Definition run_body (configs : list dataset_config) : M W unit :=
  run_downloads configs ;;
  run_summary_tail.

(** The [NameError] of the summary. *)
Definition name_error : exn :=
  Exn.mk Exn.NameError "name 'process_duration' is not defined".

(** The first log records of the failure handler. *)
Definition failure_banner : list event :=
  [ EvLog ERROR "EXECUTION FAILED";
    EvLog ERROR "Fatal error in scraper execution";
    EvLog ERROR "Error occurred after";
    EvLog ERROR "Datasets processed before error" ].

(** The [except Exception] block of [run]. *)
Definition run_failure_handler : M W unit :=
  log ERROR "EXECUTION FAILED" ;;
  log ERROR "Fatal error in scraper execution" ;;
  log ERROR "Error occurred after" ;;
  log ERROR "Datasets processed before error" ;;
  url <- ask CurrentUrl ;;
  log ERROR ("Current URL: " +++ url) ;;
  capture_screenshot "fatal_error".

(** [KOFIAScraper.run()], over the datasets [configs] ([DATASET_CONFIGS] in
    the source). *)
Definition run_over (configs : list dataset_config) : M W unit :=
  finally
    (r <- attempt (run_body configs) ;;
     match r with
     | Val _ => ret tt
     | Exc _ => run_failure_handler
     end)
    (quit ;; log INFO "WebDriver closed.").

Definition run : M W unit := run_over DATASET_CONFIGS.

(** ** The parallel mode *)

(** The dataset loop of one batch.  The second component is the exception
    that left the loop, if any, with the results appended so far. *)
Fixpoint batch_loop (dataset_batch : list dataset_config)
         (results : list (bool * string))
  : M W (list (bool * string) * option exn) :=
  match dataset_batch with
  | [] => ret (results, None)
  | dataset_config :: rest =>
      r <- attempt (download_dataset dataset_config) ;;
      match r with
      | Val success =>
          batch_loop rest (results ++ [(success, name dataset_config)])
      | Exc e => ret (results, Some e)
      end
  end.

(** "Mark all remaining datasets as failed". *)
Fixpoint mark_remaining (dataset_batch : list dataset_config)
         (results : list (bool * string)) : list (bool * string) :=
  match dataset_batch with
  | [] => results
  | dataset_config :: rest =>
      if existsb (fun r => String.eqb (name dataset_config) (snd r)) results
      then mark_remaining rest results
      else mark_remaining rest (results ++ [(false, name dataset_config)])
  end.

(** [download_datasets_batch(dataset_batch, thread_id, use_fixed_date,
    keep_alive)], run in the fresh session of its thread.  The boolean
    tells whether a live scraper is returned; the session it lives in is
    the final state. *)
Definition download_datasets_batch (cfg : settings)
           (dataset_batch : list dataset_config) (keep_alive : bool)
  : M W (list (bool * string) * bool) :=
  created <- attempt (KOFIAScraper_init cfg) ;;
  match created with
  | Exc _ => ret (mark_remaining dataset_batch [], false)
  | Val _ =>
      navigated <- attempt navigate_to_fund_composition_query ;;
      match navigated with
      | Exc _ =>
          quit ;;
          ret (mark_remaining dataset_batch [], false)
      | Val _ =>
          looped <- batch_loop dataset_batch [] ;;
          match looped with
          | (results, Some _) =>
              quit ;;
              ret (mark_remaining dataset_batch results, false)
          | (results, None) =>
              if negb keep_alive then quit ;; ret (results, false)
              else ret (results, true)
          end
      end
  end.

(** [for config in DATASET_CONFIGS: if config['name'] == name: ...
    break] *)
Definition config_named (configs : list dataset_config) (n : string)
  : option dataset_config :=
  find (fun c => String.eqb (name c) n) configs.

(** "Collect failed datasets". *)
Fixpoint failed_datasets_of (configs : list dataset_config)
         (all_results : list (bool * string)) : list dataset_config :=
  match all_results with
  | [] => []
  | (success, n) :: rest =>
      if success then failed_datasets_of configs rest
      else match config_named configs n with
           | Some c => c :: failed_datasets_of configs rest
           | None => failed_datasets_of configs rest
           end
  end.

(** The retry loop over the failed datasets, on the reused session. *)
Fixpoint retry_loop (failed_datasets : list dataset_config)
  : M W (list (bool * string)) :=
  match failed_datasets with
  | [] => ret []
  | dataset_config :: rest =>
      success <- download_dataset dataset_config ;;
      more <- retry_loop rest ;;
      ret ((success, name dataset_config) :: more)
  end.

Definition count_true (results : list (bool * string)) : nat :=
  length (filter fst results).

(** What one finished tab hands back to [run_parallel]. *)
Record tab_outcome : Type := mkTab {
  tab_id : nat;
  tab_results : list (bool * string);
  tab_alive : bool;
  tab_session : session W;
  tab_events : list event
}.

Definition run_tab (cfg : settings) (id : nat)
           (dataset_batch : list dataset_config) (s0 : session W)
  : tab_outcome :=
  match download_datasets_batch cfg dataset_batch true s0 with
  | (Val (results, alive), s1, evs) => mkTab id results alive s1 evs
  | (Exc _, s1, evs) => mkTab id [] false s1 evs
  end.

(** What [run_parallel] has computed when it returns. *)
Record parallel_report : Type := mkReport {
  all_results : list (bool * string);
  success_count : nat;
  failure_count : nat;
  active_tabs : list nat;
  failed_datasets : list dataset_config;
  retry_tab : option nat;
  retry_results : list (bool * string);
  retry_events : list event;
  final_tally : option (nat * nat)
}.

(** The part of [run_parallel()] after the tabs have been launched:
    [completed] lists the finished tabs in the order in which
    [as_completed] yields them.  An exception of the retry loop leaves
    [run_parallel] as it is. *)
Definition collect_and_retry (configs : list dataset_config)
           (completed : list tab_outcome) : result parallel_report :=
  let all_results := concat (map tab_results completed) in
  let active_scrapers := filter tab_alive completed in
  let success_count := count_true all_results in
  let failure_count := (length all_results - success_count)%nat in
  if (0 <? failure_count)%nat then
    let failed_datasets := failed_datasets_of configs all_results in
    match failed_datasets, active_scrapers with
    | _ :: _, retry_scraper :: _ =>
        match retry_loop failed_datasets (tab_session retry_scraper) with
        | (Val retry_results, _, evs) =>
            let retry_success_count := count_true retry_results in
            let final_success := (success_count + retry_success_count)%nat in
            let final_failure := (length configs - final_success)%nat in
            Val (mkReport all_results success_count failure_count
                   (map tab_id active_scrapers) failed_datasets
                   (Some (tab_id retry_scraper)) retry_results evs
                   (Some (final_success, final_failure)))
        | (Exc e, _, _) => Exc e
        end
    | _, _ =>
        Val (mkReport all_results success_count failure_count
               (map tab_id active_scrapers) failed_datasets None [] [] None)
    end
  else
    Val (mkReport all_results success_count failure_count
           (map tab_id active_scrapers) [] None [] [] None).

(** [DATASET_CONFIGS[lo:hi]] *)
Definition slice {A} (lo hi : nat) (xs : list A) : list A :=
  firstn (hi - lo) (skipn lo xs).

(** The finished tab with the given id, among the three launched. *)
Definition tab_with (tabs : list tab_outcome) (id : nat)
  : list tab_outcome :=
  match find (fun t => (tab_id t =? id)%nat) tabs with
  | Some t => [t]
  | None => []
  end.

(** The three tabs of [run_parallel()], each run in a session of its own,
    from [s1], [s2] and [s3] (the shared download directory is each
    session's own view of it), with [keep_alive=True]. *)
Definition launched_tabs (cfg : settings) (s1 s2 s3 : session W)
  : list tab_outcome :=
  [ run_tab cfg 1 (slice 0 4 DATASET_CONFIGS) s1;
    run_tab cfg 2 (slice 4 8 DATASET_CONFIGS) s2;
    run_tab cfg 3 (slice 8 11 DATASET_CONFIGS) s3 ].

(** [run_parallel()]; [order] is the order in which [as_completed] yields
    the three tabs. *)
Definition run_parallel (cfg : settings) (s1 s2 s3 : session W)
           (order : list nat) : result parallel_report :=
  let tabs := launched_tabs cfg s1 s2 s3 in
  collect_and_retry DATASET_CONFIGS (flat_map (tab_with tabs) order).

End Session.

(* ===================================================================== *)
(** * A fixture driver: a simulated query page and download directory *)
(* ===================================================================== *)

Module Fixture.

(** Element handles of the simulated page. *)
Definition period_box : elem := 1.
Definition fund_type_box : elem := 2.
Definition category_box : elem := 3.
Definition listbox : elem := 10.
Definition region_all : elem := 20.
Definition region_domestic : elem := 21.
Definition scope_all : elem := 22.
Definition monthly : elem := 23.
Definition monthly_twin : elem := 24.
Definition region_overseas : elem := 25.
Definition scope_public : elem := 26.
Definition scope_private : elem := 27.
Definition yearly : elem := 28.
Definition scope_twin : elem := 29.
Definition region_group : elem := 30.
Definition scope_group : elem := 31.
Definition period_group : elem := 32.
Definition search_button : elem := 40.
Definition excel_button : elem := 41.
Definition grid : elem := 50.
Definition landmark : elem := 60.
Definition nav_item : elem := 70.
Definition option_base : nat := 100.
Definition text_div_base : nat := 200.

(** The option texts the simulated lists offer. *)
Definition vocabulary : list string :=
  ["5년"; "주식형"; "혼합형주식"; "혼합형채권"; "채권형"; "혼합자산"; "MMF"; "전체"].

(** The scenario: how the simulated site behaves. *)
Record scenario : Type := mkScenario {
  s_sticky : bool;            (* a clicked option becomes the shown value *)
  s_twins : bool;             (* duplicate controls with the same label *)
  s_hidden : list elem;
  s_disabled : list elem;
  s_absent : list string;     (* XPath expressions that match nothing *)
  s_ready_at : Z;             (* nothing is present before this time *)
  s_download_name : string;
  s_download_delay : Z;       (* export click to first listing; < 0: never *)
  s_final_size : Z;
  s_growth : Z;               (* bytes per 200 ms; 0: complete at once *)
  s_part_for : Z;             (* how long the file carries a .part name *)
  s_url_dead : bool           (* reading the current URL fails *)
}.

(** The state of the simulated site: its scenario and what changes while
    the scraper runs. *)
Record page : Type := mkPage {
  scn : scenario;
  search_outage : nat;        (* failed lookups before the button shows *)
  region_outage : nat;        (* failed lookups before the radios show *)
  elapsed : Z;
  shown : list (elem * string);
  opened : option elem;
  checked : list elem;
  searched : bool;
  export_at : option Z;
  files : list string
}.

Definition sticky (p : page) : bool := s_sticky (scn p).
Definition twins (p : page) : bool := s_twins (scn p).
Definition hidden (p : page) : list elem := s_hidden (scn p).
Definition disabled (p : page) : list elem := s_disabled (scn p).
Definition absent (p : page) : list string := s_absent (scn p).
Definition ready_at (p : page) : Z := s_ready_at (scn p).
Definition download_name (p : page) : string := s_download_name (scn p).
Definition download_delay (p : page) : Z := s_download_delay (scn p).
Definition final_size (p : page) : Z := s_final_size (scn p).
Definition growth (p : page) : Z := s_growth (scn p).
Definition part_for (p : page) : Z := s_part_for (scn p).
Definition url_dead (p : page) : bool := s_url_dead (scn p).

Definition set_dynamic (p : page) (search_outage' region_outage' : nat)
           (elapsed' : Z) (shown' : list (elem * string))
           (opened' : option elem) (checked' : list elem) (searched' : bool)
           (export_at' : option Z) (files' : list string) : page :=
  mkPage (scn p) search_outage' region_outage' elapsed' shown' opened'
    checked' searched' export_at' files'.

Definition mem_elem (e : elem) (l : list elem) : bool :=
  existsb (Nat.eqb e) l.

Definition shown_value (p : page) (box : elem) : string :=
  match find (fun kv => (fst kv =? box)%nat) (shown p) with
  | Some kv => snd kv
  | None => ""
  end.

Definition set_shown (p : page) (box : elem) (v : string)
  : list (elem * string) :=
  (box, v) :: filter (fun kv => negb (fst kv =? box)%nat) (shown p).

Definition is_box (e : elem) : bool :=
  (e =? period_box)%nat || (e =? fund_type_box)%nat
  || (e =? category_box)%nat.

Definition is_option (e : elem) : bool :=
  (option_base <=? e)%nat && (e <? option_base + length vocabulary)%nat.

Definition option_elems : list elem :=
  map (fun i => option_base + i) (seq 0 (length vocabulary)).

Fixpoint option_matching (x : string) (vs : list string) (i : nat)
  : list elem :=
  match vs with
  | [] => []
  | v :: rest =>
      if Py.mem x (option_xpaths v) then [option_base + i]
      else option_matching x rest (S i)
  end.

Definition label_of (e : elem) : option string :=
  if (e =? region_all)%nat || (e =? scope_all)%nat || (e =? scope_twin)%nat
  then Some "전체"
  else if (e =? region_domestic)%nat then Some "국내"
  else if (e =? region_overseas)%nat then Some "해외"
  else if (e =? scope_public)%nat then Some "공모"
  else if (e =? scope_private)%nat then Some "사모"
  else if (e =? monthly)%nat || (e =? monthly_twin)%nat then Some "월간"
  else if (e =? yearly)%nat then Some "년간"
  else None.

Definition group_of (e : elem) : option elem :=
  if (e =? region_all)%nat || (e =? region_domestic)%nat
     || (e =? region_overseas)%nat
  then Some region_group
  else if (e =? scope_all)%nat || (e =? scope_public)%nat
          || (e =? scope_private)%nat || (e =? scope_twin)%nat
  then Some scope_group
  else if (e =? monthly)%nat || (e =? monthly_twin)%nat || (e =? yearly)%nat
  then Some period_group
  else None.

Definition members_of (g : elem) : list elem :=
  if (g =? region_group)%nat
  then [region_all; region_domestic; region_overseas]
  else if (g =? scope_group)%nat
  then [scope_all; scope_public; scope_private]
  else if (g =? period_group)%nat then [monthly; yearly]
  else [].

(** The radios carrying a label, in document order; a twin comes first. *)
Definition radios_with (p : page) (label : string) : list elem :=
  if String.eqb label "전체" then
    if (0 <? region_outage p)%nat then []
    else (if twins p then [scope_twin] else []) ++ [region_all; scope_all]
  else if String.eqb label "국내" then
    if (0 <? region_outage p)%nat then [] else [region_domestic]
  else if String.eqb label "월간" then
    (if twins p then [monthly_twin] else []) ++ [monthly]
  else [].

Definition no_such : exn :=
  Exn.mk Exn.NoSuchElementException "no such element".

Definition find_all (p : page) (ctx : option elem) (x : string)
  : list elem :=
  match ctx with
  | Some c =>
      if (c =? listbox)%nat then
        if String.eqb x (snd cl_text_locator) then option_elems
        else option_matching x vocabulary 0
      else if String.eqb x (snd radio_locator) then members_of c
      else []
  | None =>
      if Py.mem x (absent p) then []
      else if Py.contains "조회기간" x then [period_box]
      else if Py.contains "펀드유형" x then [fund_type_box]
      else if Py.contains "펀드종류" x then [category_box]
      else if String.eqb x "//div[@role='combobox']"
      then [period_box; fund_type_box; category_box]
      else if Py.startswith "(//div[@role='combobox'])[" x
      then [fund_type_box]
      else if Py.startswith "//span[@role='radio' and @aria-label='" x
      then filter (fun r => negb (String.eqb x (snd (radios_labelled "")))
                            && match label_of r with
                               | Some l =>
                                   String.eqb x (snd (radios_labelled l))
                               | None => false
                               end)
                  (radios_with p "전체" ++ radios_with p "국내"
                   ++ radios_with p "월간")
      else if Py.mem x (map snd search_button_locators)
      then [search_button]
      else if Py.mem x (map snd excel_button_locators) then [excel_button]
      else if String.eqb x "//div[@role='row' and @aria-rowindex]"
      then if searched p then [51; 52; 53] else []
      else if String.eqb x (snd submenu_locator) then [nav_item]
      else []
  end.

Definition find_one (p : page) (ctx : option elem) (x : string)
  : result elem :=
  match ctx with
  | Some c =>
      if is_box c && Py.contains "cb-text-" x then Val (text_div_base + c)
      else if String.eqb x (snd radiogroup_locator) then
        match group_of c with
        | Some g => Val g
        | None => Exc no_such
        end
      else Exc no_such
  | None =>
      if String.eqb x "//img[@alt='펀드']" then Val landmark
      else if Py.contains "cl-grid" x then Val grid
      else match find_all p None x with
           | e :: _ => Val e
           | [] => Exc no_such
           end
  end.

Definition answer {A} (q : query A) (p : page) : result A :=
  match q in query T return result T with
  | FindElements ctx loc => Val (find_all p ctx (snd loc))
  | FindElement ctx loc => find_one p ctx (snd loc)
  | IsDisplayed e =>
      Val (negb (mem_elem e (hidden p))
           && negb ((e =? search_button)%nat && (0 <? search_outage p)%nat))
  | IsEnabled e => Val (negb (mem_elem e (disabled p)))
  | Text e =>
      if is_box e then Val (shown_value p e)
      else if (text_div_base <? e)%nat
      then Val (shown_value p (e - text_div_base))
      else if is_option e
      then Val (nth (e - option_base) vocabulary "")
      else Val ""
  | GetAttribute e attr =>
      if String.eqb attr "aria-expanded" then
        Val (Some (match opened p with
                   | Some b => if (b =? e)%nat then "true" else "false"
                   | None => "false"
                   end))
      else if String.eqb attr "aria-checked" then
        Val (Some (if mem_elem e (checked p) then "true" else "false"))
      else if String.eqb attr "aria-label" then Val (label_of e)
      else if String.eqb attr "title" then
        Val (if (e =? fund_type_box)%nat then Some "펀드유형" else None)
      else if String.eqb attr "innerHTML" then Val (Some "")
      else Val None
  | TagName e => Val (if (e =? excel_button)%nat then "a" else "div")
  | ScrollRange _ => Val 0%Z
  | ImplicitWait => Val IMPLICIT_WAIT
  | CurrentUrl =>
      if url_dead p
      then Exc (Exn.mk Exn.WebDriverException "chrome not reachable")
      else Val BASE_URL
  | PageSource => Val "<html></html>"
  | AlertText => Exc (Exn.mk Exn.NoAlertPresentException "no such alert")
  end.

(** The file the browser is writing, once it is listed: its name and
    size. *)
Definition incoming (p : page) : option (string * Z) :=
  match export_at p with
  | Some t =>
      if ((0 <=? download_delay p) && (t + download_delay p <=? elapsed p))%Z
      then
        let age := (elapsed p - t - download_delay p)%Z in
        Some (if (age <? part_for p)%Z then download_name p +++ ".part"
              else download_name p,
              if (growth p =? 0)%Z then final_size p
              else Z.min (final_size p) (growth p * (age / 200 + 1)))
      else None
  | None => None
  end.

Definition listing (p : page) : list string :=
  files p ++ match incoming p with
             | Some (n, _) => [n]
             | None => []
             end.

Definition base_name (path : string) : string :=
  if Py.startswith (DOWNLOAD_DIR +++ "/") path
  then String.substring (String.length DOWNLOAD_DIR + 1)
         (String.length path) path
  else path.

Definition click_on (p : page) (e : elem) : page :=
  if is_box e then
    set_dynamic p (search_outage p) (region_outage p) (elapsed p) (shown p)
      (match opened p with
       | Some b => if (b =? e)%nat then None else Some e
       | None => Some e
       end)
      (checked p) (searched p) (export_at p) (files p)
  else if is_option e then
    set_dynamic p (search_outage p) (region_outage p) (elapsed p)
      (match opened p with
       | Some b =>
           if sticky p
           then set_shown p b (nth (e - option_base) vocabulary "")
           else shown p
       | None => shown p
       end)
      None (checked p) (searched p) (export_at p) (files p)
  else if (e =? search_button)%nat then
    set_dynamic p (search_outage p) (region_outage p) (elapsed p) (shown p)
      (opened p) (checked p) true (export_at p) (files p)
  else if (e =? excel_button)%nat then
    set_dynamic p (search_outage p) (region_outage p) (elapsed p) (shown p)
      (opened p) (checked p) (searched p) (Some (elapsed p)) (files p)
  else
    match label_of e with
    | Some _ =>
        set_dynamic p (search_outage p) (region_outage p) (elapsed p)
          (shown p) (opened p) (e :: checked p) (searched p) (export_at p)
          (files p)
    | None => p
    end.

Definition neutral {A} (a : action A) : A :=
  match a in action T return T with
  | WaitPresence _ _ _ | WaitClickable _ _ => nav_item
  | RandomUniform lo _ => lo
  | ListDir _ => []
  | PathExists _ => false
  | GetSize _ => 0%Z
  | _ => tt
  end.

Definition execute {A} (a : action A) (p : page) : result A * page :=
  match a in action T return result T * page with
  | Sleep ms =>
      (Val tt,
       set_dynamic p (search_outage p) (region_outage p) (elapsed p + ms)
         (shown p) (opened p) (checked p) (searched p) (export_at p)
         (files p))
  | Click _ e => (Val tt, click_on p e)
  | SaveScreenshot n =>
      (Val tt,
       set_dynamic p
         (if Py.endswith "_no_visible_search_button" n
          then pred (search_outage p) else search_outage p)
         (if Py.endswith "_region_select_error" n
          then pred (region_outage p) else region_outage p)
         (elapsed p) (shown p) (opened p) (checked p) (searched p)
         (export_at p) (files p))
  | WaitPresence _ _ loc =>
      if Py.contains "listbox" (snd loc) then
        match opened p with
        | Some _ => (Val listbox, p)
        | None => (Exc (Exn.mk Exn.TimeoutException "no listbox"), p)
        end
      else if Py.mem (snd loc) (absent p) || (elapsed p <? ready_at p)%Z
      then (Exc (Exn.mk Exn.TimeoutException "not present"), p)
      else (Val nav_item, p)
  | SwitchToAlert =>
      (Exc (Exn.mk Exn.NoAlertPresentException "no such alert"), p)
  | ListDir _ => (Val (listing p), p)
  | PathExists path => (Val (Py.mem (base_name path) (listing p)), p)
  | GetSize path =>
      match incoming p with
      | Some (n, size) =>
          if String.eqb (base_name path) n then (Val size, p)
          else (Val 1%Z, p)
      | None => (Val 1%Z, p)
      end
  | Remove path =>
      (Val tt,
       set_dynamic p (search_outage p) (region_outage p) (elapsed p)
         (shown p) (opened p) (checked p) (searched p) (export_at p)
         (filter (fun f => negb (String.eqb f (base_name path))) (files p)))
  | Rename src dst =>
      match incoming p with
      | Some (n, _) =>
          if String.eqb (base_name src) n then
            (Val tt,
             set_dynamic p (search_outage p) (region_outage p) (elapsed p)
               (shown p) (opened p) (checked p) (searched p) None
               (files p ++ [base_name dst]))
          else
            (Val tt,
             set_dynamic p (search_outage p) (region_outage p) (elapsed p)
               (shown p) (opened p) (checked p) (searched p) (export_at p)
               (map (fun f => if String.eqb f (base_name src)
                              then base_name dst else f) (files p)))
      | None =>
          (Val tt,
           set_dynamic p (search_outage p) (region_outage p) (elapsed p)
             (shown p) (opened p) (checked p) (searched p) (export_at p)
             (map (fun f => if String.eqb f (base_name src)
                            then base_name dst else f) (files p)))
      end
  | other => (Val (neutral other), p)
  end.

#[global] Instance page_driver : Driver page :=
  {| observe := @answer; perform := @execute |}.

(** A well-behaved site: options stick, nothing is hidden, the export
    arrives after three seconds, complete. *)
Definition healthy_site : scenario :=
  mkScenario true false [] [] [] 0 "download.xls" 3000 2048 0 0 false.

Definition with_sticky (b : bool) (c : scenario) : scenario :=
  mkScenario b (s_twins c) (s_hidden c) (s_disabled c) (s_absent c)
    (s_ready_at c) (s_download_name c) (s_download_delay c) (s_final_size c)
    (s_growth c) (s_part_for c) (s_url_dead c).

Definition with_twins (hidden' disabled' : list elem) (c : scenario)
  : scenario :=
  mkScenario (s_sticky c) true hidden' disabled' (s_absent c)
    (s_ready_at c) (s_download_name c) (s_download_delay c) (s_final_size c)
    (s_growth c) (s_part_for c) (s_url_dead c).

Definition with_absent (absent' : list string) (c : scenario) : scenario :=
  mkScenario (s_sticky c) (s_twins c) (s_hidden c) (s_disabled c) absent'
    (s_ready_at c) (s_download_name c) (s_download_delay c) (s_final_size c)
    (s_growth c) (s_part_for c) (s_url_dead c).

Definition with_download (delay final growth' part : Z) (c : scenario)
  : scenario :=
  mkScenario (s_sticky c) (s_twins c) (s_hidden c) (s_disabled c)
    (s_absent c) (s_ready_at c) (s_download_name c) delay final growth'
    part (s_url_dead c).

Definition with_url_dead (c : scenario) : scenario :=
  mkScenario (s_sticky c) (s_twins c) (s_hidden c) (s_disabled c)
    (s_absent c) (s_ready_at c) (s_download_name c) (s_download_delay c)
    (s_final_size c) (s_growth c) (s_part_for c) true.

(** The site at the start of a session. *)
Definition site (c : scenario) : page :=
  mkPage c 0 0 0 [] None [] false None [].

(** The site with the given outages ahead. *)
Definition site_with_outages (c : scenario) (search region : nat) : page :=
  mkPage c search region 0 [] None [] false None [].

(** The site with dropdown values already shown. *)
Definition site_showing (c : scenario) (values : list (elem * string))
  : page :=
  mkPage c 0 0 0 values None [] false None [].

(** The site just after an export click. *)
Definition site_exporting (c : scenario) : page :=
  mkPage c 0 0 0 [] None [] false (Some 0%Z) [].

Definition start (p : page) : session page := mkSession p 0 [].

Definition healthy : page := site healthy_site.

(** A site on which the first two fund-tab locators match nothing. *)
Definition third_locator_only : page :=
  site (with_absent (map snd (firstn 2 NAV_FUND_TAB)) healthy_site).

(** A site on which none of the fund-tab locators matches. *)
Definition no_fund_tab : page :=
  site (with_absent (map snd NAV_FUND_TAB) healthy_site).

(** A site whose dropdowns forget the option clicked: the shown value never
    changes. *)
Definition forgetful : page := site (with_sticky false healthy_site).

(** The healthy site with the query period already showing five years. *)
Definition preset : page := site_showing healthy_site [(period_box, "5년")].

(** An export under way whose file keeps growing: 100 bytes more at every
    sample. *)
Definition growing : page :=
  site_exporting (with_download 0 1000000 100 0 healthy_site).

(** An export under way whose file carries a [.part] name for its first
    1.5 seconds and reaches its final size of 500 bytes meanwhile. *)
Definition part_then_final : page :=
  site_exporting (with_download 0 500 100 1500 healthy_site).

Definition part_then_final_run
  : result string * session page * list event :=
  wait_for_download_completion [] 120 (start part_then_final).

(** The healthy site with a browser that no longer answers when asked for
    its current URL. *)
Definition unreachable : page := site (with_url_dead healthy_site).

End Fixture.

(* ===================================================================== *)
(** * Reading traces: what a computation may emit *)
(* ===================================================================== *)

(** Every event a computation emits, from any session, satisfies [P]. *)
Definition emits {W A} (P : event -> bool) (c : M W A) : Prop :=
  forall s r s' t, c s = (r, s', t) -> forallb P t = true.

Definition is_click (ev : event) : bool :=
  match ev with
  | EvAct a _ => match a with Click _ _ => true | _ => false end
  | EvLog _ _ => false
  end.

Definition not_click (ev : event) : bool := negb (is_click ev).

(** The messages logged at level WARNING, in order. *)
Definition warnings (t : list event) : list string :=
  flat_map (fun ev => match ev with
                      | EvLog WARNING m => [m]
                      | _ => []
                      end) t.

Module DropdownRuns.

Definition five_years : string := "5년".

(** One interaction with the period box of the page that forgets every
    selection. *)
Definition forgetful_interact : result unit * session Fixture.page * list event :=
  Eval vm_compute in
    dropdown_interact Fixture.period_box five_years "x"
      (Fixture.start Fixture.forgetful).

Definition forgetful_clicked : session Fixture.page :=
  snd (fst forgetful_interact).

Definition forgetful_settled : session Fixture.page :=
  Eval vm_compute in snd (fst (sleep 1000 forgetful_clicked)).

End DropdownRuns.

(* ===================================================================== *)
(** * Observations and radio pages *)
(* ===================================================================== *)

(** A computation that only observes: it leaves the session as it found it
    and emits nothing. *)
Definition quiet {W A} (c : M W A) : Prop :=
  forall s, exists r, c s = (r, s, []).

(** The elements clicked on, in order. *)
Definition clicks (t : list event) : list elem :=
  flat_map (fun ev => match ev with
                      | EvAct a _ =>
                          match a with Click _ e => [e] | _ => [] end
                      | EvLog _ _ => []
                      end) t.

(** What a run does to find and to click: a wait for the presence of an
    element that has brought one (with the search context, the timeout and
    the locator of the wait), and a click on an element. *)
Inductive nav_step : Type :=
| Found (ctx : option elem) (timeout : Z) (loc : locator) (e : elem)
| Clicked (e : elem).

Definition nav_step_of (ev : event) : list nav_step :=
  match ev with
  | EvAct a r =>
      match a in action T return result T -> list nav_step with
      | WaitPresence ctx timeout loc =>
          fun r => match r with
                   | Val e => [Found ctx timeout loc e]
                   | Exc _ => []
                   end
      | Click _ e => fun _ => [Clicked e]
      | _ => fun _ => []
      end r
  | EvLog _ _ => []
  end.

(** The elements found and the elements clicked on, in order. *)
Definition nav_steps (t : list event) : list nav_step :=
  flat_map nav_step_of t.

(** An event that is neither. *)
Definition no_step (ev : event) : bool :=
  match nav_step_of ev with
  | [] => true
  | _ :: _ => false
  end.

(** The element of a click. *)
Definition clicked_of (st : nav_step) : list elem :=
  match st with
  | Found _ _ _ _ => []
  | Clicked e => [e]
  end.

Module RadioPages.

(** A site whose scope and periodicity groups each have a hidden duplicate
    control with the same label, ahead of the real one in the document. *)
Definition hidden_twins : Fixture.page :=
  Fixture.site (Fixture.with_twins [Fixture.monthly_twin; Fixture.scope_twin]
                  [] Fixture.healthy_site).

(** A site whose region control '전체' is shown but disabled. *)
Definition greyed_region : Fixture.page :=
  Fixture.site (Fixture.with_twins [] [Fixture.region_all]
                  Fixture.healthy_site).

Definition all_labelled : list elem :=
  [Fixture.scope_twin; Fixture.region_all; Fixture.scope_all].

End RadioPages.

(* ===================================================================== *)
(** * The contract of the retry loop *)
(* ===================================================================== *)

(** A computation that always returns: it raises from no session. *)
Definition total {W A} (c : M W A) : Prop :=
  forall s, exists a s' t, c s = (Val a, s', t).

Section AcquireContract.
Context {W : Type} `{Driver W}.

(** The contract of [download_dataset], in the words of its specification
    and of its two handlers: [acquire_contract config k s b n] reads "from
    session [s], with attempt [k] (counted from 0) next, the acquisition
    ends with result [b] after [n] attempts". *)
Inductive acquire_contract (config : dataset_config)
  : nat -> session W -> bool -> nat -> Prop :=
| attempt_succeeds k s s1 t :
    download_attempt config k s = (Val tt, s1, t) ->
    acquire_contract config k s true 1
| attempt_fails_unexpectedly k s e s1 t :
    download_attempt config k s = (Exc e, s1, t) ->
    Exn.matches e retried_classes = false ->
    acquire_contract config k s false 1
| attempts_exhausted k s e s1 t :
    download_attempt config k s = (Exc e, s1, t) ->
    Exn.matches e retried_classes = true ->
    S k = MAX_RETRIES ->
    acquire_contract config k s false 1
| attempt_retried k s e s1 t s2 t2 b n :
    download_attempt config k s = (Exc e, s1, t) ->
    Exn.matches e retried_classes = true ->
    (S k < MAX_RETRIES)%nat ->
    on_selenium_error config k s1 = (Val tt, s2, t2) ->
    acquire_contract config (S k) s2 b n ->
    acquire_contract config k s b (S n).

End AcquireContract.

(** The attempts a trace records: its "Attempt n: Configuring form for ..."
    lines, as the numbers [n]. *)
Definition attempt_line (config : dataset_config) (n : nat) : string :=
  "Attempt " +++ Py.str_of_nat n +++ ": Configuring form for " +++ name config.

Definition recorded_attempts (config : dataset_config) (t : list event)
  : list nat :=
  flat_map (fun ev =>
              match ev with
              | EvLog INFO m =>
                  filter (fun n => String.eqb m (attempt_line config n))
                    (seq 1 MAX_RETRIES)
              | _ => []
              end) t.

Module RetryPages.

(** The healthy site on which the search button stays invisible during the
    first two attempts. *)
Definition two_outages : Fixture.page :=
  Fixture.site_with_outages Fixture.healthy_site 2 0.

(** The healthy site on which the search button never becomes visible. *)
Definition lasting_outage : Fixture.page :=
  Fixture.site_with_outages Fixture.healthy_site 5 0.

(** The healthy site on which the region radios are missing on the first
    attempt (and would be back on a second). *)
Definition region_missing_once : Fixture.page :=
  Fixture.site_with_outages Fixture.healthy_site 0 1.

(** The first entry of [DATASET_CONFIGS]. *)
Definition equity : dataset_config :=
  mkConfig "RawDataEquity" "주식형" 1 "전체" 0 5 0 "Equity".

End RetryPages.

(* ===================================================================== *)
(** * Parallel mode: orders and runs *)
(* ===================================================================== *)


(** The verdicts that are failures. *)
Definition failures (results : list (bool * string)) : list (bool * string) :=
  filter (fun r => negb (fst r)) results.

Section CleanTabs.
Context {W : Type} `{Driver W}.






End CleanTabs.

Module ParallelRuns.

(** A configuration under which a driver can be constructed. *)
Definition firefox : settings := mkSettings "firefox" false true.

Definition healthy_tab : session Fixture.page :=
  Fixture.start Fixture.healthy.

(** A tab on whose site the region radios are missing for its first
    dataset. *)
Definition stumbling_tab : session Fixture.page :=
  Fixture.start RetryPages.region_missing_once.


End ParallelRuns.

(* ===================================================================== *)
(** * Reading a session's trace: renames and turns *)
(* ===================================================================== *)

(** The files renamed in the course of a run: the [os.rename(src, dst)]
    calls that returned, in order. *)
Definition renamed_by {A} (a : action A) (r : result A)
  : list (string * string) :=
  match a with
  | Rename src dst => if is_val r then [(src, dst)] else []
  | _ => []
  end.

Definition renamed (t : list event) : list (string * string) :=
  flat_map (fun ev => match ev with
                      | EvAct a r => renamed_by a r
                      | EvLog _ _ => []
                      end) t.

(** An event that is no completed rename. *)
Definition no_rename (ev : event) : bool :=
  match ev with
  | EvAct a r => match renamed_by a r with [] => true | _ :: _ => false end
  | EvLog _ _ => true
  end.

(** [os.path.join(DOWNLOAD_DIR, f"{output_name}.xls")] *)
Definition out_path (config : dataset_config) : string :=
  Py.path_join DOWNLOAD_DIR (output_name config +++ ".xls").

(** The log record that opens the search step. *)
Definition search_step : event :=
  EvLog INFO "Step 6: Clicking Search (조회) button...".

(** The controller's log record after a dataset. *)
Definition verdict_mark (ok : bool) : event :=
  if ok then EvLog INFO "✓ Dataset completed"
  else EvLog WARNING "✗ Dataset failed".

(** An event that is neither a click nor a completed rename. *)
Definition settling (ev : event) : bool := not_click ev && no_rename ev.

Section Turns.
Context {W : Type} `{Driver W}.

(** The detector returned [src] in the course of [t]. *)
Definition detected (src : string) (t : list event) : Prop :=
  exists initial_files (s0 s1 : session W) before during after,
    t = before ++ during ++ after
    /\ wait_for_download_completion initial_files DOWNLOAD_WAIT_TIMEOUT s0
       = (Val src, s1, during).

(** The events of an acquisition that delivered its file: the search step
    was entered, the detector returned a file, that file was renamed to the
    dataset's own name, and nothing but settling followed.  With
    [searched] the search step lies before [t]. *)
Definition acquired_after (searched : bool) (config : dataset_config)
           (t : list event) : Prop :=
  exists pre src post,
    t = pre ++ EvAct (Rename src (out_path config)) (Val tt) :: post
    /\ (searched = false -> In search_step pre)
    /\ detected src pre
    /\ renamed pre = []
    /\ forallb settling post = true.

Definition acquired : dataset_config -> list event -> Prop :=
  acquired_after false.

(** What an acquisition leaves in the trace, by its verdict. *)
Definition verdict_trace (config : dataset_config) (ok : bool)
           (t : list event) : Prop :=
  if ok then acquired config t else renamed t = [].

(** The datasets of a session are acquired in turn: the trace is the
    sequence of the datasets' own stretches, in the order of the list, each
    begun in the session the one before has left. *)
Inductive in_turn
  : list dataset_config -> session W -> list event -> session W -> Prop :=
| turns_over s : in_turn [] s [] s
| turn_taken config rest s ok s1 t_config t_rest s' :
    download_dataset config s = (Val ok, s1, t_config) ->
    verdict_trace config ok t_config ->
    in_turn rest s1 t_rest s' ->
    in_turn (config :: rest) s
      (EvLog INFO ("Processing Dataset: " +++ name config)
       :: t_config ++ verdict_mark ok :: t_rest) s'.

(** The outcome of a part of an attempt: a value comes with the file
    renamed, an exception with nothing renamed. *)
Definition part_trace (searched : bool) (config : dataset_config) {A}
           (r : result A) (t : list event) : Prop :=
  match r with
  | Val _ => acquired_after searched config t
  | Exc _ => renamed t = []
  end.

Definition holds {A} (Q : result A -> list event -> Prop) (c : M W A)
  : Prop :=
  forall s r s' t, c s = (r, s', t) -> Q r t.

End Turns.

(** Reading a session's trace by dataset. *)
Definition is_log (m : string) (ev : event) : bool :=
  match ev with
  | EvLog _ m' => String.eqb m m'
  | EvAct _ _ => false
  end.

(** The events after the controller's "Processing Dataset" record of a
    dataset. *)
Fixpoint after_processing (config : dataset_config) (t : list event)
  : list event :=
  match t with
  | [] => []
  | ev :: rest =>
      if is_log ("Processing Dataset: " +++ name config) ev then rest
      else after_processing config rest
  end.

(** How often the search step was entered. *)
Definition search_steps (t : list event) : nat :=
  length (filter (is_log "Step 6: Clicking Search (조회) button...") t).

Module TurnRuns.

(** A site whose export never reaches the download directory. *)
Definition no_download : Fixture.page :=
  Fixture.site (Fixture.with_download (-1) 2048 0 0 Fixture.healthy_site).

(** The second entry of [DATASET_CONFIGS]. *)
Definition domestic_equity : dataset_config :=
  mkConfig "RawDataDomesticEquity" "주식형" 1 "국내" 1 5 0 "DomesticEquity".

Definition first_two : list dataset_config :=
  [RetryPages.equity; domestic_equity].

End TurnRuns.

(* ===================================================================== *)
(** * Further observations on events *)
(* ===================================================================== *)

(** An event that is a log record: no call to the driver or the operating
    system. *)
Definition is_record (ev : event) : bool :=
  match ev with
  | EvLog _ _ => true
  | EvAct _ _ => false
  end.

(** An event that is [driver.quit()]. *)
Definition is_quit (ev : event) : bool :=
  match ev with
  | EvAct a _ => match a with Quit => true | _ => false end
  | EvLog _ _ => false
  end.


Module InitRuns.

(** A configuration that names no supported browser. *)
Definition safari : settings := mkSettings "safari" false false.

(** Chrome without the stealth driver. *)
Definition plain_chrome : settings := mkSettings "chrome" false true.

End InitRuns.

(** The screenshot [wait_for_download_completion] takes when it gives
    up. *)
Definition is_timeout_shot (ev : event) : bool :=
  match ev with
  | EvAct a _ =>
      match a with
      | SaveScreenshot n => String.eqb n "download_timeout"
      | _ => false
      end
  | EvLog _ _ => false
  end.

Definition no_timeout_shot (ev : event) : bool := negb (is_timeout_shot ev).

(** The exception it raises then. *)
Definition download_timeout_error (timeout : Z) : exn :=
  Exn.mk Exn.TimeoutException (download_timeout_msg timeout).

(* ===================================================================== *)
(** * Bookkeeping of the dataset loop *)
(* ===================================================================== *)

(** A computation that leaves [self.downloaded_files] as it is. *)
Definition keeps {W A} (c : M W A) : Prop :=
  forall s r s' t, c s = (r, s', t) ->
                   downloaded_files s' = downloaded_files s.

(** A part of an attempt: if it returns, [out] has been appended to
    [self.downloaded_files]; if it raises, the list is as it was. *)
Definition records {W A} (out : string) (c : M W A) : Prop :=
  forall s r s' t,
    c s = (r, s', t) ->
    downloaded_files s'
    = downloaded_files s ++ (if is_val r then [out] else []).

(** The datasets with a [True] verdict, in the order of the list. *)
Definition succeeded (verdicts : list bool) (configs : list dataset_config)
  : list dataset_config :=
  map snd (filter fst (combine verdicts configs)).

Definition count_of (b : bool) (verdicts : list bool) : nat :=
  length (filter (Bool.eqb b) verdicts).

(* ===================================================================== *)
(** * [KOFIAScraper.process_excel_file]: naming the columns *)
(* ===================================================================== *)

Module Processing.

(** A Python [dict] from strings to strings, in insertion order. *)
Definition dict : Type := list (string * string).

(** [k in d] *)
Definition dict_mem (d : dict) (k : string) : bool :=
  existsb (fun kv => String.eqb (fst kv) k) d.

Definition dict_lookup (d : dict) (k : string) : option string :=
  option_map snd (find (fun kv => String.eqb (fst kv) k) d).

(** [d.get(k, default)] *)
Definition dict_get (d : dict) (k default : string) : string :=
  match dict_lookup d k with
  | Some v => v
  | None => default
  end.

(** [config.py] *)
Definition KOREAN_TO_ENGLISH_CATEGORY : dict :=
  [ ("자산총액", "Total assets"); ("주식", "Stock"); ("채권", "Bonds");
    ("CP", "CP"); ("예금", "Deposit"); ("콜론", "Call loan");
    ("기타", "Others") ].

Definition KOREAN_TO_ENGLISH_METRIC : dict :=
  [ ("금액", "Amount"); ("비중", "Weight") ].

Fixpoint zeros (n : nat) : string :=
  match n with
  | O => EmptyString
  | S n' => String "0" (zeros n')
  end.

(** [f"{n:04d}"]: the decimal digits, padded with zeros on the left to four
    characters. *)
Definition zero_pad4 (n : nat) : string :=
  let digits := Py.str_of_nat n in
  zeros (4 - String.length digits) +++ digits.

(** [f"KMFK_{self.timeseries_counter:04d}"] *)
Definition code_of (n : nat) : string := "KMFK_" +++ zero_pad4 n.

(** What the loop changes: the module's [TIMESERIES_CODES] and the
    instance's [timeseries_counter]. *)
Record coder : Type := mkCoder {
  TIMESERIES_CODES : dict;
  timeseries_counter : nat
}.

(** [KOFIAScraper.__init__] sets the counter to 1; the module starts with
    an empty [TIMESERIES_CODES]. *)
Definition fresh_coder : coder := mkCoder [] 1.

(** [f"{output_name_prefix}: {category}: {metric}"] for a header pair. *)
Definition column_name (output_name_prefix : string) (col : string * string)
  : string :=
  let category := dict_get KOREAN_TO_ENGLISH_CATEGORY (Py.strip (fst col))
                    (Py.strip (fst col)) in
  let metric := dict_get KOREAN_TO_ENGLISH_METRIC (Py.strip (snd col))
                  (Py.strip (snd col)) in
  output_name_prefix +++ ": " +++ category +++ ": " +++ metric.

(** [if col_name not in TIMESERIES_CODES: TIMESERIES_CODES[col_name] = ...;
    self.timeseries_counter += 1] *)
Definition assign_code (col_name : string) (st : coder) : coder :=
  if dict_mem (TIMESERIES_CODES st) col_name then st
  else mkCoder (TIMESERIES_CODES st
                ++ [(col_name, code_of (timeseries_counter st))])
               (S (timeseries_counter st)).

(** [for col_level_0, col_level_1 in df.columns: ...], for header cells
    that are strings: the new column names and the state left behind. *)
Fixpoint rename_columns (output_name_prefix : string)
         (columns : list (string * string)) (st : coder)
  : list string * coder :=
  match columns with
  | [] => ([], st)
  | col :: rest =>
      if String.eqb (fst col) "기준일" then
        let r := rename_columns output_name_prefix rest st in
        ("Date" :: fst r, snd r)
      else
        let col_name := column_name output_name_prefix col in
        let r := rename_columns output_name_prefix rest
                   (assign_code col_name st) in
        (col_name :: fst r, snd r)
  end.

(** [new_columns], which depends on the headers only. *)
Definition new_names (prefix : string) (columns : list (string * string))
  : list string :=
  map (fun col => if String.eqb (fst col) "기준일" then "Date"
                  else column_name prefix col) columns.

(** The state one instance can reach: no column has two codes, no code
    belongs to two columns, and every code is that of a counter value
    already used. *)
Definition well_coded (st : coder) : Prop :=
  NoDup (map fst (TIMESERIES_CODES st))
  /\ NoDup (map snd (TIMESERIES_CODES st))
  /\ forall v, In v (map snd (TIMESERIES_CODES st)) ->
               exists i, (i < timeseries_counter st)%nat /\ v = code_of i.

(** Reading a decimal numeral. *)
Definition digit_value (c : ascii) : nat := nat_of_ascii c - 48.

Fixpoint parse_from (acc : nat) (s : string) : nat :=
  match s with
  | EmptyString => acc
  | String c rest => parse_from (10 * acc + digit_value c) rest
  end.

(** Two header rows as they come from the site. *)
Definition sample_columns : list (string * string) :=
  [ ("기준일", "기준일"); ("자산총액", "금액"); ("주식", "금액");
    ("주식", "비중"); (" 채권 ", "비중") ].

End Processing.

(* ===================================================================== *)
(** * [KOFIAScraper._select_radio_button_improved] *)
(* ===================================================================== *)

Section RadioImproved.
Context {W : Type} `{Driver W}.

(** Strategy 1: the section, then the radio button inside it. *)
Definition section_locators (section_name : string) : list locator :=
  [ (ByXpath, "//div[contains(@class, 'cl-form-item') and normalize-space(.)='"
              +++ section_name +++ "']");
    (ByXpath, "//div[contains(@class, 'cl-form-item') and contains(., '"
              +++ section_name +++ "')]");
    (ByXpath, "//label[contains(text(), '" +++ section_name
              +++ "')]/following-sibling::div[contains(@class, 'cl-radiogroup')]");
    (ByXpath, "//*[normalize-space(text())='" +++ section_name
              +++ "']/following-sibling::div[contains(@class, 'cl-radiogroup')]");
    (ByXpath, "//*[contains(text(), '" +++ section_name
              +++ "')]//ancestor::div[contains(@class, 'cl-form-item')]");
    (ByXpath, "//*[contains(text(), '" +++ section_name
              +++ "')]//ancestor::div[contains(@class, 'cl-radiogroup')]") ].

Definition radio_locators_within (radio_label : string) : list locator :=
  [ (ByXpath, ".//span[@role='radio' and @aria-label='" +++ radio_label
              +++ "']");
    (ByXpath, ".//label[text()='" +++ radio_label
              +++ "']/preceding-sibling::div//span[@role='radio']");
    (ByXpath, ".//label[normalize-space(text())='" +++ radio_label
              +++ "']/preceding-sibling::div//span[@role='radio']") ].

Definition ancestor_naming (section_name : string) : locator :=
  (ByXpath, ".//ancestor::*[contains(., '" +++ section_name +++ "')][1]").

(** The label locator is a plain string in the source, not an f-string: the
    braces are part of the expression. *)
Definition label_beside_radio : locator :=
  (ByXpath,
   "./following-sibling::label | ./ancestor::div//label[normalize-space(.)='{radio_label}']").

(** ['form' in None] *)
Definition not_iterable : exn :=
  Exn.mk Exn.TypeError "argument of type 'NoneType' is not iterable".

(** [needle in element.get_attribute("class")] *)
Definition class_has (needle : string) (element : elem) : M W bool :=
  class <- ask (GetAttribute element "class") ;;
  match class with
  | Some c => ret (Py.contains needle c)
  | None => raise not_iterable
  end.

(** Strategy 2, [for rb in all_radio_buttons]: the first radio button with
    an ancestor naming the section whose class contains "form" or
    "item". *)
Fixpoint verify_context (section_name : string)
         (all_radio_buttons : list elem) : M W (option elem) :=
  match all_radio_buttons with
  | [] => ret None
  | rb :: rest =>
      r <- attempt
             (parent_section <-
                ask (FindElement (Some rb) (ancestor_naming section_name)) ;;
              has_form <- class_has "form" parent_section ;;
              if has_form then ret true
              else class_has "item" parent_section) ;;
      match r with
      | Val true =>
          log INFO "[Radio] Strategy 2: Found correct radio button by verifying its parent context." ;;
          ret (Some rb)
      | Val false => verify_context section_name rest
      | Exc e =>
          if Exn.matches e [Exn.NoSuchElementException]
          then verify_context section_name rest
          else raise e
      end
  end.

Definition radio_not_found_msg (radio_label section_name : string) : string :=
  "Could not find radio button '" +++ radio_label +++ "' for section '"
  +++ section_name +++ "' using any strategy or fallback.".

(** The three ways to the radio button, in the order they are tried. *)
Definition locate_radio (radio_label section_name dataset_name : string)
  : M W elem :=
  section_element <-
    (r <- attempt
            (find_element_safely (section_locators section_name) 10
               (Some (dataset_name +++ "_" +++ section_name
                      +++ "_section_not_found")) None) ;;
     match r with
     | Val found => ret found
     | Exc e =>
         if Exn.matches e [Exn.NoSuchElementException] then
           log WARNING ("[Radio] Strategy 1 failed: Could not find the section '"
                        +++ section_name +++ "'.") ;;
           ret None
         else raise e
     end) ;;
  radio_element <-
    match section_element with
    | Some _ =>
        r <- attempt
               (find_element_safely (radio_locators_within radio_label) 5
                  (Some (dataset_name +++ "_" +++ section_name
                         +++ "_radio_not_found")) section_element) ;;
        match r with
        | Val found => ret found
        | Exc e =>
            if Exn.matches e [Exn.NoSuchElementException] then
              log WARNING ("[Radio] Strategy 1 failed: Could not find radio button '"
                           +++ radio_label
                           +++ "' within the located section.") ;;
              ret None
            else raise e
        end
    | None => ret None
    end ;;
  radio_element <-
    match radio_element with
    | Some _ => ret radio_element
    | None =>
        log WARNING "[Radio] Strategy 1 failed. Trying Strategy 2: Global search with context verification." ;;
        all_radio_buttons <-
          ask (FindElements None (radios_labelled radio_label)) ;;
        log INFO ("[Radio] Strategy 2: Found "
                  +++ Py.str_of_nat (length all_radio_buttons)
                  +++ " radio buttons with label '" +++ radio_label
                  +++ "'. Verifying context.") ;;
        verify_context section_name all_radio_buttons
    end ;;
  match radio_element with
  | Some found => ret found
  | None =>
      log WARNING ("[Radio] All strategies failed. Trying a desperate fallback to find any radio button with label '"
                   +++ radio_label +++ "'.") ;;
      r <- attempt (ask (FindElement None (radios_labelled radio_label))) ;;
      match r with
      | Val found =>
          log INFO "[Radio] Desperate fallback found a radio button." ;;
          ret found
      | Exc e =>
          if Exn.matches e [Exn.NoSuchElementException] then
            log ERROR (radio_not_found_msg radio_label section_name) ;;
            capture_screenshot (dataset_name +++ "_" +++ section_name
                                +++ "_select_error") ;;
            raise (Exn.mk Exn.Exception
                     (radio_not_found_msg radio_label section_name))
          else raise e
      end
  end.

Definition radio_unchanged_msg (radio_label section_name : string) : string :=
  "Failed to select " +++ section_name +++ ": " +++ radio_label
  +++ ". State did not change.".

(** "Click and Verify": the value of [success]. *)
Definition click_and_verify (radio_label section_name : string)
           (radio_element : elem) : M W bool :=
  aria_checked_before <- ask (GetAttribute radio_element "aria-checked") ;;
  if negb (attr_is aria_checked_before "true") then
    act (ScrollIntoView radio_element) ;;
    sleep 500 ;;
    r <- attempt
           (label_element <-
              ask (FindElement (Some radio_element) label_beside_radio) ;;
            act (Click JsClick label_element)) ;;
    match r with
    | Val _ => ret tt
    | Exc e =>
        if Exn.matches e [Exn.NoSuchElementException]
        then act (Click JsClick radio_element)
        else raise e
    end ;;
    sleep 500 ;;
    aria_checked_after <- ask (GetAttribute radio_element "aria-checked") ;;
    if attr_is aria_checked_after "true" then
      log INFO ("✓ Selected " +++ section_name +++ ": " +++ radio_label) ;;
      ret true
    else
      log WARNING (radio_unchanged_msg radio_label section_name) ;;
      ret false
  else
    log INFO ("✓ " +++ section_name +++ ": " +++ radio_label
              +++ " was already selected.") ;;
    ret true.

Definition radio_error_msg (radio_label section_name : string) (e : exn)
  : string :=
  "Error selecting " +++ section_name +++ ": " +++ radio_label +++ " - "
  +++ Exn.message e.

(** [os.path.join(LOG_DIR, f"debug_page_source_{dataset_name}_
    {section_name}_{timestamp}.html")], the time stamp left out. *)
Definition radio_debug_path (dataset_name section_name : string) : string :=
  Py.path_join LOG_DIR ("debug_page_source_" +++ dataset_name +++ "_"
                        +++ section_name +++ "_.html").

(** [_select_radio_button_improved(radio_label, section_name,
    dataset_name)].  The page-source file is written as one file-system
    action; the time stamp in its name and the [debug] records are left
    out. *)
Definition _select_radio_button_improved
           (radio_label section_name dataset_name : string) : M W bool :=
  log INFO ("Step: Selecting " +++ section_name +++ ": " +++ radio_label
            +++ "...") ;;
  let debug_file_path := radio_debug_path dataset_name section_name in
  saved <- attempt (act (WriteFile debug_file_path)) ;;
  match saved with
  | Val _ =>
      log ERROR ("DEBUG: Page source saved to " +++ debug_file_path
                 +++ ". Please provide this file for analysis.")
  | Exc save_error =>
      log WARNING ("Could not save page source for debugging: "
                   +++ Exn.message save_error)
  end ;;
  r <- attempt
         (radio_element <- locate_radio radio_label section_name
                             dataset_name ;;
          click_and_verify radio_label section_name radio_element) ;;
  match r with
  | Val success => ret success
  | Exc e =>
      log ERROR (radio_error_msg radio_label section_name e) ;;
      capture_screenshot (dataset_name +++ "_" +++ section_name
                          +++ "_select_error") ;;
      ret false
  end.

(** The session in which the search for the radio button starts: the one
    that the attempt to write the page source leaves behind. *)
Definition after_page_dump (dataset_name section_name : string)
           (s : session W) : session W :=
  snd (fst (act (WriteFile (radio_debug_path dataset_name section_name)) s)).

End RadioImproved.

(** The log records that explain a [False] verdict of
    [_select_radio_button_improved]. *)
Definition explains_failure (radio_label section_name : string) (ev : event)
  : Prop :=
  ev = EvLog WARNING (radio_unchanged_msg radio_label section_name)
  \/ exists e, ev = EvLog ERROR (radio_error_msg radio_label section_name e).

Module RadioImprovedRuns.

(** A site on which no locator of the region section matches: the radio
    button is reached by the last fallback. *)
Definition no_section : Fixture.page :=
  Fixture.site (Fixture.with_absent (map snd (section_locators "지역구분"))
                  Fixture.healthy_site).

(** A page with one radio button whose ancestor naming the section carries
    no [class] attribute; no locator of Strategy 1 matches. *)
Inductive classless : Type := Classless.

Definition radio : elem := 1.
Definition wrapper : elem := 2.

Definition classless_answer {A} (q : query A) (p : classless) : result A :=
  match q in query T return result T with
  | FindElements _ _ => Val [radio]
  | FindElement (Some _) _ => Val wrapper
  | FindElement None _ => Val radio
  | IsDisplayed _ => Val true
  | IsEnabled _ => Val true
  | Text _ => Val ""
  | GetAttribute _ _ => Val None
  | TagName _ => Val "span"
  | ScrollRange _ => Val 0%Z
  | ImplicitWait => Val IMPLICIT_WAIT
  | CurrentUrl => Val BASE_URL
  | PageSource => Val "<html></html>"
  | AlertText => Exc (Exn.mk Exn.NoAlertPresentException "no such alert")
  end.

Definition classless_execute {A} (a : action A) (p : classless)
  : result A * classless :=
  match a in action T return result T * classless with
  | WaitPresence _ _ _ =>
      (Exc (Exn.mk Exn.TimeoutException "not present"), p)
  | other => (Val (Fixture.neutral other), p)
  end.

#[global] Instance classless_driver : Driver classless :=
  {| observe := @classless_answer; perform := @classless_execute |}.

End RadioImprovedRuns.

(* ===================================================================== *)
(** * [KOFIAScraper.generate_output_files]: the METADATA rows *)
(* ===================================================================== *)

Module Output.
Import Processing.

Local Open Scope Z_scope.

(** The date fields of a [datetime.datetime]. *)
Record datetime : Type := mkDatetime { year : Z; month : Z; day : Z }.

(** [datetime.MAXYEAR] *)
Definition MAXYEAR : Z := 9999.

Definition is_leap (y : Z) : bool :=
  (y mod 4 =? 0) && (negb (y mod 100 =? 0) || (y mod 400 =? 0)).

Definition days_in_month (y m : Z) : Z :=
  if m =? 2 then (if is_leap y then 29 else 28)
  else if (m =? 4) || (m =? 6) || (m =? 9) || (m =? 11) then 30
  else 31.

(** What [datetime.datetime.now()] can return. *)
Definition is_date (d : datetime) : Prop :=
  1 <= year d <= MAXYEAR /\ 1 <= month d <= 12
  /\ 1 <= day d <= days_in_month (year d) (month d).

(** [datetime.datetime(y, m, d)]: a field out of range is a
    [ValueError]. *)
Definition datetime_new (y m d : Z) : result datetime :=
  if negb ((1 <=? y) && (y <=? MAXYEAR)) then
    Exc (Exn.mk Exn.ValueError "year is out of range")
  else if negb ((1 <=? m) && (m <=? 12)) then
    Exc (Exn.mk Exn.ValueError "month must be in 1..12")
  else if negb ((1 <=? d) && (d <=? days_in_month y m)) then
    Exc (Exn.mk Exn.ValueError "day is out of range for month")
  else Val (mkDatetime y m d).

(** [d - datetime.timedelta(days=1)]; before the first day of year 1 it is
    an [OverflowError], an [Exception] outside the classes of [Exn.cls]. *)
Definition minus_one_day (d : datetime) : result datetime :=
  if 1 <? day d then Val (mkDatetime (year d) (month d) (day d - 1))
  else if 1 <? month d then
    Val (mkDatetime (year d) (month d - 1)
           (days_in_month (year d) (month d - 1)))
  else if 1 <? year d then Val (mkDatetime (year d - 1) 12 31)
  else Exc (Exn.mk Exn.Exception "OverflowError: date value out of range").

(** Lines 1819-1827: [last_day], from [today]. *)
Definition last_day_of_next_month (today : datetime) : result datetime :=
  match (if month today =? 12
         then datetime_new (year today + 1) 1 1
         else datetime_new (year today) (month today + 1) 1) with
  | Exc e => Exc e
  | Val next_month =>
      match (if month next_month =? 12
             then datetime_new (year next_month + 1) 1 1
             else datetime_new (year next_month) (month next_month + 1) 1)
      with
      | Exc e => Exc e
      | Val first => minus_one_day first
      end
  end.

(** The months since year 0, to compare two dates by month. *)
Definition month_index (d : datetime) : Z := 12 * year d + month d.

Local Close Scope Z_scope.

(** One row of the METADATA sheet. *)
Record metadata_row : Type := mkRow {
  CODE : string;
  DESCRIPTION : string;
  FREQUENCY : string;
  UNIT : string;
  NEXT_RELEASE_DATE : string
}.

(** [for col in merged_df.columns: if col != 'Date': metadata_rows.append(...)] *)
Fixpoint metadata_rows (columns : list string) (codes : dict)
         (next_release_date : string) : list metadata_row :=
  match columns with
  | [] => []
  | col :: rest =>
      if negb (String.eqb col "Date") then
        mkRow (dict_get codes col col) col "Monthly"
          (if Py.contains "Amount" col then "KRW Million" else "Percentage")
          next_release_date
        :: metadata_rows rest codes next_release_date
      else metadata_rows rest codes next_release_date
  end.

End Output.

(* ===================================================================== *)
(** * [orchestrator.py]: the scraper, then the mapper *)
(* ===================================================================== *)

Module Orchestrator.

(** A [subprocess.CompletedProcess] of a run with [capture_output=True,
    text=True]: the captured streams, as the lines [splitlines()] gives,
    and the return code. *)
Record completed : Type := mkCompleted {
  stdout : list string;
  stderr : list string;
  returncode : Z
}.

(** The machine the orchestrator runs on: [subprocess.run([sys.executable,
    script_name], ...)] returns a completed process or raises, and leaves
    the machine in a new state. *)
Class Host (H : Type) : Type := {
  subprocess_run : string -> H -> result completed * H
}.

(** What a run of the orchestrator leaves behind: the scripts it ran, with
    their outcomes, and its log records. *)
Inductive entry : Type :=
| Ran (script_name : string) (outcome : result completed)
| Logged (lvl : level) (msg : string).

(** How [main] ends: by returning, or with [sys.exit(code)]. *)
Inductive ending : Type :=
| Returned
| SystemExit (code : Z).

Fixpoint times (s : string) (n : nat) : string :=
  match n with
  | O => ""
  | S n' => s +++ times s n'
  end.

(** ["=" * 80] *)
Definition rule : string := times "=" 80.

Definition newline : string := String (ascii_of_nat 10) EmptyString.

(** [str(n)] for an integer. *)
Definition str_of_int (n : Z) : string :=
  if (n <? 0)%Z then "-" +++ Py.str_of_nat (Z.to_nat (- n))
  else Py.str_of_nat (Z.to_nat n).

(** ['UserWarning' not in line and 'warn(' not in line] *)
Definition worth_logging (line : string) : bool :=
  negb (Py.contains "UserWarning" line) && negb (Py.contains "warn(" line).

Section Pipeline.
Context {H : Type} `{Host H}.

(** [run_script(script_name, description)] *)
Definition run_script (script_name description : string) (h : H)
  : bool * H * list entry :=
  let opening := [ Logged INFO rule;
                   Logged INFO ("Starting: " +++ description);
                   Logged INFO rule ] in
  match subprocess_run script_name h with
  | (Val result, h') =>
      let output :=
        map (fun line => Logged INFO ("[" +++ script_name +++ "] " +++ line))
          (stdout result)
        ++ map (fun line =>
                  Logged WARNING ("[" +++ script_name +++ "] " +++ line))
             (filter worth_logging (stderr result)) in
      if negb (returncode result =? 0)%Z then
        (false, h',
         opening ++ [Ran script_name (Val result)] ++ output
         ++ [ Logged ERROR (script_name +++ " failed with return code "
                            +++ str_of_int (returncode result)) ])
      else
        (true, h',
         opening ++ [Ran script_name (Val result)] ++ output
         ++ [ Logged INFO ("✓ " +++ description
                           +++ " completed successfully") ])
  | (Exc e, h') =>
      (false, h',
       opening ++ [Ran script_name (Exc e)]
       ++ [ Logged ERROR ("Error running " +++ script_name +++ ": "
                          +++ Exn.message e) ])
  end.

(** [main()]; the times in its log records are left out. *)
Definition main (h : H) : ending * H * list entry :=
  let heading := [ Logged INFO rule;
                   Logged INFO "KMFK Data Pipeline Orchestrator";
                   Logged INFO "Execution Time: ";
                   Logged INFO rule;
                   Logged INFO (newline +++ "[STEP 1/2] Running Web Scraper...") ]
  in
  match run_script "scraper.py" "Web Scraper (Download Data)" h with
  | (scraper_success, h1, t1) =>
      if negb scraper_success then
        (SystemExit 1, h1,
         heading ++ t1
         ++ [ Logged ERROR rule;
              Logged ERROR "Pipeline failed at Step 1: Web Scraper";
              Logged ERROR rule ])
      else
        match run_script "map.py" "Data Mapper (Process & Format)" h1 with
        | (mapper_success, h2, t2) =>
            if negb mapper_success then
              (SystemExit 1, h2,
               heading ++ t1
               ++ [ Logged INFO
                      (newline +++ "[STEP 2/2] Running Data Mapper...") ]
               ++ t2
               ++ [ Logged ERROR rule;
                    Logged ERROR "Pipeline failed at Step 2: Data Mapper";
                    Logged ERROR rule ])
            else
              (Returned, h2,
               heading ++ t1
               ++ [ Logged INFO
                      (newline +++ "[STEP 2/2] Running Data Mapper...") ]
               ++ t2
               ++ [ Logged INFO (newline +++ rule);
                    Logged INFO "✓ PIPELINE COMPLETED SUCCESSFULLY";
                    Logged INFO rule;
                    Logged INFO "Total execution time: ";
                    Logged INFO "Output file: KMFK_DATA_.xlsx";
                    Logged INFO rule ])
        end
  end.

(** The [__main__] block: the exit status of the process.  [main] raises
    nothing: its own statements log and read the clock, and [run_script]
    catches what [subprocess.run] raises. *)
Definition exit_status (h : H) : Z * H * list entry :=
  match main h with
  | (Returned, h', t) => (0%Z, h', t)
  | (SystemExit code, h', t) => (code, h', t)
  end.

(** A script has succeeded when [subprocess.run] returned and the return
    code is 0. *)
Definition script_succeeded (outcome : result completed) : bool :=
  match outcome with
  | Val result => (returncode result =? 0)%Z
  | Exc _ => false
  end.

End Pipeline.

(** The scripts run, in order. *)
Definition scripts_run (t : list entry) : list string :=
  flat_map (fun st => match st with
                      | Ran script_name _ => [script_name]
                      | Logged _ _ => []
                      end) t.

(** The messages logged at level ERROR, in order. *)
Definition errors_logged (t : list entry) : list string :=
  flat_map (fun st => match st with
                      | Logged ERROR msg => [msg]
                      | _ => []
                      end) t.

(** A machine on which the scraper ends with return code 1 and the mapper
    would end with 0. *)
Inductive failing_scraper : Type := FailingScraper.

#[global] Instance failing_scraper_host : Host failing_scraper :=
  {| subprocess_run := fun script_name h =>
       if String.eqb script_name "scraper.py"
       then (Val (mkCompleted ["started"]
                    ["Traceback (most recent call last):";
                     "  warnings.warn('deprecated')";
                     "TypeError: unexpected keyword argument"] 1), h)
       else (Val (mkCompleted [] [] 0), h) |}.

End Orchestrator.

(* ===================================================================== *)
(** * Clicks that went through, and time slept *)
(* ===================================================================== *)

(** The clicks attempted, in order: the element, and whether the click went
    through. *)
Definition click_results (t : list event) : list (elem * bool) :=
  flat_map (fun ev => match ev with
                      | EvAct a r =>
                          match a with
                          | Click _ e => [(e, is_val r)]
                          | _ => []
                          end
                      | EvLog _ _ => []
                      end) t.

Definition failed_click (e : elem) : elem * bool := (e, false).

(** A chain of click strategies after [n] of them: the clicks so far are
    failed ones, followed by one that went through exactly when [clicked]
    is set. *)
Definition tried (n : nat) (clicked : bool) (rs : list (elem * bool))
  : Prop :=
  exists failed : list elem,
    if clicked
    then (length failed < n)%nat
         /\ exists e, rs = map failed_click failed ++ [(e, true)]
    else (length failed <= n)%nat /\ rs = map failed_click failed.

(** A computation that always returns, having slept between [lo] and [hi]
    milliseconds. *)
Definition takes {W A} (lo hi : Z) (c : M W A) : Prop :=
  forall s r s' t,
    c s = (r, s', t) ->
    is_val r = true /\ (clock s + lo <= clock s' <= clock s + hi)%Z.
(* ===================================================================== *)
(** * Properties *)
(* ===================================================================== *)

(** ** Python strings *)

(** [strip()] removes the whitespace of [str.isspace()] at both ends, also
    where it takes more than one byte (here U+3000, U+00A0, U+001C and a
    space in front; U+200A, U+1680, U+0085, a line feed and U+205F behind),
    and leaves the whitespace inside and the zero-width space U+200B. *)
Example strip_unicode_whitespace :
  let bytes := fold_right (fun n s => String (ascii_of_nat n) s) "" in
  Py.strip (bytes [227; 128; 128; 194; 160; 28; 32]%nat
            +++ "a" +++ bytes [194; 160]%nat +++ "b"
            +++ bytes [226; 128; 138; 225; 154; 128; 194; 133; 10;
                       226; 129; 159]%nat)
  = "a" +++ bytes [194; 160]%nat +++ "b"
  /\ Py.strip (bytes [226; 128; 139]%nat +++ " ") = bytes [226; 128; 139]%nat.
Proof. vm_compute. split; reflexivity. Qed.

(** ** Running the monad *)

Section MonadFacts.
Context {W : Type}.

Lemma bind_val {A B} (c : M W A) (k : A -> M W B) s a s1 t1 r s2 t2 :
  c s = (Val a, s1, t1) ->
  k a s1 = (r, s2, t2) ->
  bind c k s = (r, s2, t1 ++ t2).
Proof. intros Hc Hk. unfold bind. rewrite Hc, Hk. reflexivity. Qed.

Lemma bind_exc {A B} (c : M W A) (k : A -> M W B) s e s1 t1 :
  c s = (Exc e, s1, t1) ->
  bind c k s = (Exc e, s1, t1).
Proof. intros Hc. unfold bind. rewrite Hc. reflexivity. Qed.

Lemma bind_inv_val {A B} (c : M W A) (k : A -> M W B) s b s2 t :
  bind c k s = (Val b, s2, t) ->
  exists a s1 t1 t2,
    c s = (Val a, s1, t1) /\ k a s1 = (Val b, s2, t2) /\ t = t1 ++ t2.
Proof.
  unfold bind. destruct (c s) as [[[a | e] s1] t1]; [| discriminate].
  destruct (k a s1) as [[r s2'] t2] eqn:Hk. intros Heq.
  injection Heq as -> -> <-. exists a, s1, t1, t2. auto.
Qed.

Lemma bind_inv {A B} (c : M W A) (k : A -> M W B) s r s2 t :
  bind c k s = (r, s2, t) ->
  (exists a s1 t1 t2,
      c s = (Val a, s1, t1) /\ k a s1 = (r, s2, t2) /\ t = t1 ++ t2)
  \/ (exists e, c s = (Exc e, s2, t) /\ r = Exc e).
Proof.
  unfold bind. destruct (c s) as [[[a | e] s1] t1].
  - destruct (k a s1) as [[r' s2'] t2] eqn:Hk. intros Heq.
    injection Heq as <- <- <-. left. exists a, s1, t1, t2. auto.
  - intros Heq. injection Heq as <- <- <-. right. exists e. auto.
Qed.

Lemma attempt_run {A} (c : M W A) s r s1 t1 :
  c s = (r, s1, t1) -> attempt c s = (Val r, s1, t1).
Proof. intros Hc. unfold attempt. rewrite Hc. reflexivity. Qed.

Lemma attempt_inv {A} (c : M W A) s x s1 t1 :
  attempt c s = (x, s1, t1) -> exists r, x = Val r /\ c s = (r, s1, t1).
Proof.
  unfold attempt. destruct (c s) as [[r s'] t']. intros Heq.
  injection Heq as <- <- <-. exists r. auto.
Qed.

End MonadFacts.

(** Every exception modelled is an [Exception]: [except Exception] and a bare
    [except] catch them all. *)
Lemma isinstance_Exception (e : exn) : Exn.isinstance e Exn.Exception = true.
Proof. destruct e as [c m]. destruct c; reflexivity. Qed.

(** ** C2: the constructor *)

Section Constructor.
Context {W : Type} `{Driver W}.

Lemma mark_remaining_failed batch results :
  Forall (fun r : bool * string => fst r = false) results ->
  Forall (fun r : bool * string => fst r = false)
         (mark_remaining batch results).
Proof.
  revert results. induction batch as [| c rest IH]; intros results Hres.
  - exact Hres.
  - simpl. destruct (existsb _ results).
    + apply IH, Hres.
    + apply IH. apply Forall_app. split; [exact Hres |].
      constructor; [reflexivity | constructor].
Qed.

(** C2. With the shipped configuration (BROWSER "chrome", USE_STEALTH
    True), constructing a [KOFIAScraper] raises a [TypeError] in every
    world: [get_stealth_chrome_options(headless=...)] passes a keyword the
    function does not declare.  The exception is not a
    [WebDriverException], so the initializer's handler lets it through; no
    driver call is made and the session is left as it was.  Parallel
    workers catch it and hand back no scraper, with every dataset of the
    batch marked failed. *)
Theorem C2_constructor_raises_TypeError :
  forall (s : session W),
    (exists e,
        KOFIAScraper_init shipped s
        = (Exc e, s, [EvLog INFO "Initializing Chrome in STEALTH mode"])
        /\ Exn.cls_of e = Exn.TypeError
        /\ Exn.matches e [Exn.WebDriverException] = false
        /\ PyCall.bind_keywords get_stealth_chrome_options_sig ["headless"]
           = Exc e
        /\ PyCall.bind_keywords get_chrome_options_sig ["headless"]
           = Exc (Exn.mk Exn.TypeError
                    "get_chrome_options() got an unexpected keyword argument 'headless'"))
    /\ (forall batch keep_alive,
           exists results,
             download_datasets_batch shipped batch keep_alive s
             = (Val (results, false), s,
                [EvLog INFO "Initializing Chrome in STEALTH mode"])
             /\ map snd results = map snd (mark_remaining batch [])
             /\ Forall (fun r : bool * string => fst r = false) results).
Proof.
  intros s. split.
  - eexists. split; [reflexivity |]. repeat split; reflexivity.
  - intros batch keep_alive. exists (mark_remaining batch []).
    split; [reflexivity |]. split; [reflexivity |].
    apply mark_remaining_failed. constructor.
Qed.

End Constructor.


(** ** C10: the sequential [run] *)

Section Run.
Context {W : Type} `{Driver W}.

Lemma run_summary_tail_raises (s : session W) :
  run_summary_tail s = (Exc name_error, s, []).
Proof. reflexivity. Qed.

Lemma run_body_raises configs (s : session W) :
  match run_downloads configs s with
  | (Val _, s0, t0) => run_body configs s = (Exc name_error, s0, t0)
  | (Exc e, s0, t0) => run_body configs s = (Exc e, s0, t0)
  end.
Proof.
  destruct (run_downloads configs s) as [[[u | e] s0] t0] eqn:Hd.
  - unfold run_body. rewrite (bind_val _ _ _ _ _ _ _ _ _ Hd
                                (run_summary_tail_raises s0)).
    rewrite app_nil_r. reflexivity.
  - unfold run_body. apply bind_exc, Hd.
Qed.

Lemma handler_run (s0 : session W) :
  match observe CurrentUrl (world s0) with
  | Val url =>
      exists rs s1,
        run_failure_handler s0
        = (Val tt, s1, failure_banner ++
            [ EvLog ERROR ("Current URL: " +++ url);
              EvAct (SaveScreenshot "fatal_error") rs ])
  | Exc e' => run_failure_handler s0 = (Exc e', s0, failure_banner)
  end.
Proof.
  unfold run_failure_handler, bind, log, ask, capture_screenshot, swallow, bind, attempt, act, ret.
  destruct (observe CurrentUrl (world s0)) as [url | e'] eqn:Hu.
  - destruct (perform (SaveScreenshot "fatal_error") (world s0)) as [rs w1] eqn:Hs.
    exists rs. eexists. cbn. reflexivity.
  - reflexivity.
Qed.

Lemma quit_run (s : session W) :
  exists rq s', (quit ;; log INFO "WebDriver closed.") s = (Val tt, s', [EvAct Quit rq; EvLog INFO "WebDriver closed."]).
Proof.
  unfold quit, swallow, bind, attempt, act, ret, log.
  destruct (perform Quit (world s)) as [rq w2] eqn:Hq.
  exists rq. eexists. cbn. reflexivity.
Qed.

Lemma finally_run {A} (c : M W A) (f : M W unit) s r s1 t1 s2 t2 :
  c s = (r, s1, t1) -> f s1 = (Val tt, s2, t2) ->
  finally c f s = (r, s2, t1 ++ t2).
Proof.
  intros Hc Hf. unfold finally.
  erewrite bind_val; [reflexivity | apply attempt_run, Hc |].
  erewrite bind_val; [ | exact Hf |].
  2:{ destruct r; reflexivity. }
  destruct r; rewrite app_nil_r; reflexivity.
Qed.

Lemma try_handler_run configs (s : session W) e s0 t0 :
  run_body configs s = (Exc e, s0, t0) ->
  (r <- attempt (run_body configs) ;;
   match r with
   | Val _ => ret tt
   | Exc _ => run_failure_handler
   end) s
  = match run_failure_handler s0 with
    | (r, s1, t1) => (r, s1, t0 ++ t1)
    end.
Proof.
  intros Hb. unfold bind at 1. rewrite (attempt_run _ _ _ _ _ Hb).
  reflexivity.
Qed.

(** C10 (as amended). Whenever navigation and the dataset loop of [run]
    complete without error, the summary raises [NameError] at its read of
    [process_duration], so the [try] block never reaches its end: its
    events are those of the downloads part and no later summary line is
    logged.  [run] therefore always enters its failure-logging path, and a
    [driver.quit()] followed by "WebDriver closed." always ends its events.
    [run] returns normally when the handler can read [driver.current_url];
    when that read raises, the exception leaves [run] after the [finally]
    block. *)
Theorem C10_run_always_fails_and_quits :
  forall (configs : list dataset_config) (s : session W),
    exists e s0 t0,
      run_body configs s = (Exc e, s0, t0)
      /\ match run_downloads configs s with
         | (Val _, s1, t1) => e = name_error /\ s0 = s1 /\ t0 = t1
         | (Exc e1, s1, t1) => e = e1 /\ s0 = s1 /\ t0 = t1
         end
      /\ exists r s' t_handler rq,
           run_over configs s
           = (r, s',
              t0 ++ failure_banner ++ t_handler
              ++ [EvAct Quit rq; EvLog INFO "WebDriver closed."])
           /\ match observe CurrentUrl (world s0) with
              | Val url =>
                  r = Val tt
                  /\ exists rs,
                       t_handler = [ EvLog ERROR ("Current URL: " +++ url);
                                     EvAct (SaveScreenshot "fatal_error") rs ]
              | Exc e' => r = Exc e' /\ t_handler = []
              end.
Proof.
  intros configs s.
  assert (Hex : exists e s0 t0,
             run_body configs s = (Exc e, s0, t0)
             /\ match run_downloads configs s with
                | (Val _, s1, t1) => e = name_error /\ s0 = s1 /\ t0 = t1
                | (Exc e1, s1, t1) => e = e1 /\ s0 = s1 /\ t0 = t1
                end).
  { pose proof (run_body_raises configs s) as Hbody.
    destruct (run_downloads configs s) as [[[u | e1] s0] t0].
    - exists name_error, s0, t0. auto.
    - exists e1, s0, t0. auto. }
  destruct Hex as (e & s0 & t0 & Hbody & Hshape).
  exists e, s0, t0. split; [exact Hbody |]. split; [exact Hshape |].
  pose proof (try_handler_run configs s e s0 t0 Hbody) as Htry.
  pose proof (handler_run s0) as Hh.
  destruct (observe CurrentUrl (world s0)) as [url | e'].
  - destruct Hh as (rs & s1 & Hh). rewrite Hh in Htry.
    destruct (quit_run s1) as (rq & s2 & Hq).
    exists (Val tt), s2, [EvLog ERROR ("Current URL: " +++ url);
                          EvAct (SaveScreenshot "fatal_error") rs], rq.
    split.
    + unfold run_over. rewrite (finally_run _ _ _ _ _ _ _ _ Htry Hq).
      rewrite <- !app_assoc. reflexivity.
    + split; [reflexivity |]. exists rs. reflexivity.
  - rewrite Hh in Htry.
    destruct (quit_run s0) as (rq & s2 & Hq).
    exists (Exc e'), s2, [], rq. split.
    + unfold run_over. rewrite (finally_run _ _ _ _ _ _ _ _ Htry Hq).
      rewrite <- !app_assoc. reflexivity.
    + split; reflexivity.
Qed.

End Run.

(** C10, as stated, fails: on a site where every step succeeds but the
    browser no longer answers the handler's read of the current URL, [run]
    completes navigation and the whole dataset loop and then raises a
    [WebDriverException] to its caller. *)
Lemma C10_counterexample :
  exists e s' evs,
    run (Fixture.start Fixture.unreachable) = (Exc e, s', evs)
    /\ Exn.cls_of e = Exn.WebDriverException
    /\ fst (fst (run_downloads DATASET_CONFIGS
                    (Fixture.start Fixture.unreachable))) = Val tt.
Proof.
  eexists _, _, _. split; [vm_compute; reflexivity |]. split; vm_compute; reflexivity.
Qed.


(** ** C3: the element resolver *)

Section ResolverFacts.
Context {W : Type} `{Driver W}.
Variables (ctx : option elem) (timeout : Z).

Lemma steps_app a b : steps (a ++ b) = steps a ++ steps b.
Proof. unfold steps. apply flat_map_app. Qed.

Lemma steps_act {A} (a : action A) r t :
  steps (EvAct a r :: t) = step_of_action a r ++ steps t.
Proof. reflexivity. Qed.

Lemma steps_log l m t : steps (EvLog l m :: t) = steps t.
Proof. reflexivity. Qed.

Lemma try_locators_cons loc rest (s : session W) :
  try_locators ctx timeout (loc :: rest) s
  = match perform (WaitPresence ctx timeout loc) (world s) with
    | (Val element, w') =>
        (Val (Some element), moved s w',
         [EvAct (WaitPresence ctx timeout loc) (Val element);
          EvLog INFO ("Element found: " +++ snd loc)])
    | (Exc e, w') =>
        if Exn.matches e resolver_caught
        then match try_locators ctx timeout rest (moved s w') with
             | (r, s2, t2) =>
                 (r, s2, EvAct (WaitPresence ctx timeout loc) (Exc e) :: t2)
             end
        else (Exc e, moved s w',
              [EvAct (WaitPresence ctx timeout loc) (Exc e)])
    end.
Proof.
  destruct loc as [by_strategy locator_value].
  cbn [try_locators]. unfold bind at 1. unfold attempt, act.
  destruct (perform (WaitPresence ctx timeout (by_strategy, locator_value))
              (world s)) as [r w'].
  destruct r as [element | e]; [reflexivity |].
  unfold resolver_caught, moved.
  destruct (Exn.matches e _); [| reflexivity].
  destruct (try_locators ctx timeout rest _) as [[r s2] t2]. reflexivity.
Qed.

Lemma failing_pass_cons loc e pre fails :
  Exn.matches e resolver_caught = true ->
  failing_pass pre fails ->
  failing_pass (loc :: pre) ((loc, Exc e) :: fails).
Proof.
  intros Hm [Hf1 Hf2]. split; [simpl; f_equal; exact Hf1 |].
  cbn [forallb]. unfold probe_failed at 1. cbn [snd]. rewrite Hm.
  exact Hf2.
Qed.

Lemma try_locators_spec locs (s : session W) :
  match try_locators ctx timeout locs s with
  | (Val (Some e), _, evs) =>
      exists pre loc post fails,
        locs = pre ++ loc :: post /\ failing_pass pre fails
        /\ steps evs = map probe_step fails ++ [Probe loc (Val e)]
  | (Val None, _, evs) =>
      exists fails, failing_pass locs fails /\ steps evs = map probe_step fails
  | (Exc e, _, evs) =>
      exists pre loc post fails,
        locs = pre ++ loc :: post /\ failing_pass pre fails
        /\ steps evs = map probe_step fails ++ [Probe loc (Exc e)]
        /\ Exn.matches e resolver_caught = false
  end.
Proof.
  revert s. induction locs as [| loc0 rest IH]; intros s.
  - simpl. exists []. split; [split; reflexivity | reflexivity].
  - rewrite try_locators_cons.
    destruct (perform (WaitPresence ctx timeout loc0) (world s)) as [r w'].
    destruct r as [element | e].
    + exists [], loc0, rest, [].
      split; [reflexivity |]. split; [split; reflexivity | reflexivity].
    + destruct (Exn.matches e resolver_caught) eqn:Hm.
      * specialize (IH (moved s w')).
        destruct (try_locators ctx timeout rest _) as [[[[el |] | e2] s2] t2].
        -- destruct IH as (pre & loc & post & fails & -> & Hf & Hs).
           exists (loc0 :: pre), loc, post, ((loc0, Exc e) :: fails).
           split; [reflexivity |].
           split; [apply failing_pass_cons; assumption |].
           rewrite steps_act, Hs. reflexivity.
        -- destruct IH as (fails & Hf & Hs).
           exists ((loc0, Exc e) :: fails).
           split; [apply failing_pass_cons; assumption |].
           rewrite steps_act, Hs. reflexivity.
        -- destruct IH as (pre & loc & post & fails & -> & Hf & Hs & Hn).
           exists (loc0 :: pre), loc, post, ((loc0, Exc e) :: fails).
           split; [reflexivity |].
           split; [apply failing_pass_cons; assumption |].
           split; [| exact Hn].
           rewrite steps_act, Hs. reflexivity.
      * exists [], loc0, rest, [].
        split; [reflexivity |]. split; [split; reflexivity |].
        split; [reflexivity | exact Hm].
Qed.

Variables (locators : list locator) (screenshot_name : option string).

Lemma passes_found n a (s : session W) element s1 t1 :
  try_locators ctx timeout locators s = (Val (Some element), s1, t1) ->
  find_element_passes (S n) a locators timeout screenshot_name ctx s
  = (Val (Some element), s1, t1).
Proof.
  intros Ht. cbn [find_element_passes]. unfold bind at 1. rewrite Ht.
  cbn. rewrite app_nil_r. reflexivity.
Qed.

Lemma passes_crash n a (s : session W) e s1 t1 :
  try_locators ctx timeout locators s = (Exc e, s1, t1) ->
  find_element_passes (S n) a locators timeout screenshot_name ctx s
  = (Exc e, s1, t1).
Proof.
  intros Ht. cbn [find_element_passes]. unfold bind at 1. rewrite Ht.
  reflexivity.
Qed.

Lemma passes_retry n a (s : session W) s1 t1 :
  try_locators ctx timeout locators s = (Val None, s1, t1) ->
  (a <? MAX_RETRIES - 1)%nat = true ->
  exists d j s2,
    retry_pause d
    /\ find_element_passes (S n) a locators timeout screenshot_name ctx s
       = match find_element_passes n (S a) locators timeout screenshot_name
                 ctx s2 with
         | (r, s3, t3) =>
             (r, s3,
              t1 ++ [EvAct (RandomUniform 0 2000) (Val j);
                     EvAct (Sleep d) (Val tt)] ++ t3)
         end.
Proof.
  intros Ht Hlt. cbn [find_element_passes]. unfold bind at 1. rewrite Ht, Hlt.
  unfold bind at 1. unfold random_uniform.
  destruct (perform (RandomUniform 0 2000) (world s1)) as [r w1].
  unfold bind at 1. unfold sleep. cbn [world clock downloaded_files].
  match goal with
  | |- context [perform (Sleep ?d) w1] =>
      destruct (perform (Sleep d) w1) as [u w2]
  end.
  match goal with
  | |- context [EvAct (Sleep ?d) (Val tt)] =>
      match goal with
      | |- context [EvAct (RandomUniform 0 2000) (Val ?j)] =>
          match goal with
          | |- context [find_element_passes n (S a) _ _ _ _ ?s2] =>
              exists d, j, s2
          end
      end
  end.
  split.
  - unfold retry_pause, RETRY_DELAY. destruct r; lia.
  - destruct (find_element_passes n (S a) _ _ _ _ _) as [[r3 s3] t3].
    reflexivity.
Qed.

Lemma passes_give_up n a (s : session W) s1 t1 :
  try_locators ctx timeout locators s = (Val None, s1, t1) ->
  (a <? MAX_RETRIES - 1)%nat = false ->
  exists s2 t2,
    find_element_passes (S n) a locators timeout screenshot_name ctx s
    = (Exc not_found, s2, t1 ++ t2)
    /\ steps t2 = final_shot screenshot_name.
Proof.
  intros Ht Hlt. cbn [find_element_passes]. unfold bind at 1. rewrite Ht, Hlt.
  unfold final_shot. destruct (Py.truthy screenshot_name).
  - unfold bind, log, capture_screenshot, swallow, bind, attempt, act, ret, raise.
    destruct (perform (SaveScreenshot _) (world s1)) as [r w1].
    eexists _, _. split; reflexivity.
  - eexists _, _. split; reflexivity.
Qed.

(** The shape of a run of the outer loop entered at pass [a] with [n]
    passes left. *)
Lemma passes_spec n : forall a (s : session W),
  (a + n = MAX_RETRIES)%nat ->
  match find_element_passes n a locators timeout screenshot_name ctx s with
  | (r, _, evs) =>
      exists k st last,
        failed_passes k locators st /\ steps evs = st ++ last
        /\ match r with
           | Val (Some element) =>
               (k < n)%nat /\
               exists pre loc post fails,
                 locators = pre ++ loc :: post /\ failing_pass pre fails
                 /\ last = map probe_step fails ++ [Probe loc (Val element)]
           | Val None => n = O /\ k = O /\ last = []
           | Exc e =>
               (e = not_found /\ S k = n
                /\ exists ps, failing_pass locators ps
                              /\ last = map probe_step ps
                                        ++ final_shot screenshot_name)
               \/ (Exn.matches e resolver_caught = false /\ (k < n)%nat
                   /\ exists pre loc post fails,
                        locators = pre ++ loc :: post
                        /\ failing_pass pre fails
                        /\ last = map probe_step fails
                                  ++ [Probe loc (Exc e)])
           end
  end.
Proof.
  induction n as [| n IH]; intros a s Han.
  - cbn. exists O, [], []. repeat split; reflexivity.
  - pose proof (try_locators_spec locators s) as Hpass.
    destruct (try_locators ctx timeout locators s)
      as [[[[element |] | e] s1] t1] eqn:Ht.
    + rewrite (passes_found _ _ _ _ _ _ Ht).
      destruct Hpass as (pre & loc & post & fails & Hl & Hf & Hs).
      exists O, [], (steps t1). split; [reflexivity |].
      split; [reflexivity |]. split; [lia |].
      exists pre, loc, post, fails. auto.
    + destruct Hpass as (ps & Hf & Hs).
      destruct (a <? MAX_RETRIES - 1)%nat eqn:Hlt.
      * destruct (passes_retry n a s s1 t1 Ht Hlt) as (d & j & s2 & Hd & ->).
        specialize (IH (S a) s2 ltac:(lia)).
        destruct (find_element_passes n (S a) _ _ _ _ s2) as [[r s3] t3].
        destruct IH as (k & st & last & Hk & Hst & Hr).
        exists (S k), (map probe_step ps ++ Pause d :: st), last.
        split.
        { cbn. exists ps, d, st. auto. }
        split.
        { rewrite !steps_app, Hs, Hst. cbn. rewrite <- !app_assoc.
          reflexivity. }
        destruct r as [[element |] | e].
        -- destruct Hr as [Hlt' Hr]. split; [lia | exact Hr].
        -- destruct Hr as (Hn & _). apply Nat.ltb_lt in Hlt.
           unfold MAX_RETRIES in *. lia.
        -- destruct Hr as [(He & Hk' & Hr) | (Hm & Hk' & Hr)].
           ++ left. split; [exact He |]. split; [lia | exact Hr].
           ++ right. split; [exact Hm |]. split; [lia | exact Hr].
      * destruct (passes_give_up n a s s1 t1 Ht Hlt) as (s2 & t2 & -> & Hshot).
        apply Nat.ltb_ge in Hlt.
        exists O, [], (map probe_step ps ++ final_shot screenshot_name).
        split; [reflexivity |]. split.
        { rewrite steps_app, Hs, Hshot. reflexivity. }
        left. split; [reflexivity |]. split.
        { unfold MAX_RETRIES in *. lia. }
        exists ps. auto.
    + rewrite (passes_crash _ _ _ _ _ _ Ht).
      destruct Hpass as (pre & loc & post & fails & Hl & Hf & Hs & Hm).
      exists O, [], (steps t1). split; [reflexivity |].
      split; [reflexivity |]. right. split; [exact Hm |]. split; [lia |].
      exists pre, loc, post, fails. auto.
Qed.

Lemma records_app a b :
  probe_records (a ++ b) = probe_records a ++ probe_records b.
Proof. unfold probe_records. apply flat_map_app. Qed.

Lemma records_pass ps : probe_records (map probe_step ps) = ps.
Proof.
  induction ps as [| [l r] ps IH]; [reflexivity |].
  cbn. f_equal. exact IH.
Qed.

Lemma records_final_shot : probe_records (final_shot screenshot_name) = [].
Proof. unfold final_shot. destruct (Py.truthy _); reflexivity. Qed.

Lemma concat_repeat_snoc {A} (l : list A) k :
  concat (repeat l k) ++ l = concat (repeat l (S k)).
Proof.
  induction k as [| k IH]; cbn.
  - rewrite app_nil_r. reflexivity.
  - rewrite <- app_assoc. cbn in IH. rewrite IH. reflexivity.
Qed.

Lemma records_failed_passes k : forall st,
  failed_passes k locators st ->
  map fst (probe_records st) = concat (repeat locators k)
  /\ forallb probe_failed (probe_records st) = true.
Proof.
  induction k as [| k IH]; intros st Hst.
  - cbn in Hst. subst st. split; reflexivity.
  - cbn in Hst. destruct Hst as (ps & d & rest & [Hp1 Hp2] & _ & -> & Hrest).
    destruct (IH rest Hrest) as [H1 H2].
    rewrite records_app, records_pass. cbn [probe_records flat_map app].
    fold (probe_records rest). split.
    + rewrite map_app, Hp1, H1. reflexivity.
    + rewrite forallb_app, Hp2, H2. reflexivity.
Qed.

Lemma find_error_is_caught : Exn.matches not_found resolver_caught = true.
Proof. reflexivity. Qed.

(** C3 (as amended). In every run of [find_element_safely] the locators
    are tried in list order within each pass: the run consists of [k]
    complete failing passes, each followed by a sleep of the retry delay
    plus jitter, and a last pass.  When an element is returned, the last
    pass is the failing probes of the locators before the matching one
    followed by its successful probe, and nothing comes after it.  The
    resolver never returns [None].  It raises its element-not-found error
    exactly when every locator has failed on every one of the MAX_RETRIES
    passes; the screenshot before that raise is captured when a non-empty
    screenshot name was passed, and not otherwise.  An exception of a class
    the resolver does not handle leaves it at once. *)
Theorem C3_resolver_shape :
  forall (s : session W),
    match find_element_safely locators timeout screenshot_name ctx s with
    | (r, _, evs) =>
        (exists k st last,
            (k < MAX_RETRIES)%nat /\ failed_passes k locators st
            /\ steps evs = st ++ last
            /\ match r with
               | Val (Some element) =>
                   exists pre loc post fails,
                     locators = pre ++ loc :: post /\ failing_pass pre fails
                     /\ last = map probe_step fails
                               ++ [Probe loc (Val element)]
               | Val None => False
               | Exc e =>
                   (e = not_found /\ S k = MAX_RETRIES
                    /\ exists ps, failing_pass locators ps
                                  /\ last = map probe_step ps
                                            ++ final_shot screenshot_name)
                   \/ (Exn.matches e resolver_caught = false
                       /\ exists pre loc post fails,
                            locators = pre ++ loc :: post
                            /\ failing_pass pre fails
                            /\ last = map probe_step fails
                                      ++ [Probe loc (Exc e)])
               end)
        /\ (r = Exc not_found
            <-> map fst (probe_records (steps evs))
                = concat (repeat locators MAX_RETRIES)
                /\ forallb probe_failed (probe_records (steps evs)) = true)
    end.
Proof.
  intros s. unfold find_element_safely.
  pose proof (passes_spec MAX_RETRIES 0 s eq_refl) as Hspec.
  destruct (find_element_passes MAX_RETRIES 0 locators timeout
              screenshot_name ctx s) as [[r s'] evs].
  destruct Hspec as (k & st & last & Hk & Hsteps & Hr).
  destruct (records_failed_passes k st Hk) as [Hrec1 Hrec2].
  destruct r as [[element |] | e].
  - destruct Hr as (Hlt & pre & loc & post & fails & Hl & Hf & Hlast).
    split.
    + exists k, st, last. repeat split; try assumption.
      exists pre, loc, post, fails. auto.
    + split; [discriminate |]. intros [_ Hall]. exfalso.
      rewrite Hsteps, Hlast, !records_app, records_pass in Hall.
      rewrite !forallb_app in Hall. cbn in Hall.
      rewrite !andb_false_r in Hall. discriminate.
  - destruct Hr as (Hn & _). discriminate.
  - destruct Hr as [(He & Hk' & ps & Hf & Hlast) | (Hm & Hlt & Hr)].
    + split.
      * exists k, st, last. repeat split; try assumption; [lia |].
        left. repeat split; try assumption. exists ps. auto.
      * split; [intros _ | intros _; rewrite He; reflexivity].
        rewrite Hsteps, Hlast, !records_app, records_pass,
          records_final_shot, app_nil_r.
        destruct Hf as [Hf1 Hf2]. split.
        -- rewrite map_app, Hrec1, Hf1. rewrite concat_repeat_snoc.
           rewrite Hk'. reflexivity.
        -- rewrite forallb_app, Hrec2, Hf2. reflexivity.
    + split.
      * exists k, st, last. repeat split; try assumption.
        right. split; assumption.
      * split.
        -- intros He. injection He as ->. rewrite find_error_is_caught in Hm.
           discriminate.
        -- intros [_ Hall]. exfalso.
           destruct Hr as (pre & loc & post & fails & Hl & Hf & Hlast).
           rewrite Hsteps, Hlast, !records_app, records_pass in Hall.
           rewrite !forallb_app in Hall. cbn [probe_records flat_map app forallb] in Hall.
           unfold probe_failed at 3 in Hall. cbn [snd] in Hall.
           rewrite Hm in Hall. rewrite !andb_false_r in Hall. discriminate.
Qed.
End ResolverFacts.

(** Order sensitivity on the fixture: only the third fund-tab locator
    matches; the two before it are tried first, once each. *)
Example resolver_third_locator :
  match find_element_safely NAV_FUND_TAB 30 (Some "fund_tab_not_found") None
          (Fixture.start Fixture.third_locator_only) with
  | (r, _, evs) =>
      r = Val (Some Fixture.nav_item)
      /\ map fst (probe_records (steps evs)) = firstn 3 NAV_FUND_TAB
      /\ map (fun p => is_val (snd p)) (probe_records (steps evs))
         = [false; false; true]
  end.
Proof. vm_compute. repeat split; reflexivity. Qed.

(** C3, as stated, fails: called without a screenshot name (the default),
    the resolver raises its element-not-found error after three failing
    passes without capturing any screenshot. *)
Lemma C3_counterexample :
  match find_element_safely NAV_FUND_TAB 30 None None
          (Fixture.start Fixture.no_fund_tab) with
  | (r, _, evs) =>
      r = Exc not_found
      /\ map fst (probe_records (steps evs))
         = concat (repeat NAV_FUND_TAB MAX_RETRIES)
      /\ existsb is_shot (steps evs) = false
  end.
Proof. vm_compute. repeat split; reflexivity. Qed.

(** ** C4: the download completion detector *)

Section DetectorFacts.
Context {W : Type} `{Driver W}.

Lemma sleep_inv ms (s : session W) r s' t :
  sleep ms s = (r, s', t) ->
  r = Val tt /\ t = [EvAct (Sleep ms) (Val tt)]
  /\ clock s' = (clock s + ms)%Z
  /\ downloaded_files s' = downloaded_files s.
Proof.
  unfold sleep. destruct (perform (Sleep ms) (world s)) as [u w'].
  intros Heq. injection Heq as <- <- <-. auto.
Qed.

Lemma act_inv {A} (a : action A) (s : session W) r s' t :
  act a s = (r, s', t) ->
  t = [EvAct a r] /\ clock s' = clock s
  /\ downloaded_files s' = downloaded_files s.
Proof.
  unfold act. destruct (perform a (world s)) as [u w'].
  intros Heq. injection Heq as <- <- <-. auto.
Qed.

Lemma path_exists_inv p (s : session W) r s' t :
  path_exists p s = (r, s', t) ->
  exists rx,
    t = [EvAct (PathExists p) rx]
    /\ r = Val (match rx with Val b => b | Exc _ => false end)
    /\ clock s' = clock s
    /\ downloaded_files s' = downloaded_files s.
Proof.
  unfold path_exists, bind, attempt, act, ret.
  destruct (perform (PathExists p) (world s)) as [rx w'].
  intros Heq. injection Heq as <- <- <-. exists rx. auto.
Qed.

Lemma log_inv l m (s : session W) r s' t :
  log l m s = (r, s', t) -> r = Val tt /\ s' = s /\ t = [EvLog l m].
Proof. unfold log. intros Heq. injection Heq as <- <- <-. auto. Qed.

Lemma ret_inv {A} (a : A) (s : session W) r s' t :
  ret a s = (r, s', t) -> r = Val a /\ s' = s /\ t = [].
Proof. unfold ret. intros Heq. injection Heq as <- <- <-. auto. Qed.

Lemma sample_sizes_true p : forall n cur (s : session W) s' t,
  sample_sizes n p cur s = (Val true, s', t) ->
  exists pre z rx,
    t = pre ++ [ EvAct (Sleep 200) (Val tt);
                 EvAct (PathExists p) rx;
                 EvAct (GetSize p) (Val z);
                 EvLog INFO ("Download complete: " +++ p) ]
    /\ (0 < z)%Z
    /\ ((pre = [] /\ cur = z)
        \/ exists pre', pre = pre' ++ [EvAct (GetSize p) (Val z)]).
Proof.
  induction n as [| n IH]; intros cur s s' t Hrun.
  - cbn in Hrun. discriminate.
  - cbn [sample_sizes] in Hrun.
    apply bind_inv_val in Hrun.
    destruct Hrun as (u & s1 & t1 & t2 & Hsl & Hrun & ->).
    apply sleep_inv in Hsl. destruct Hsl as (_ & -> & _).
    apply bind_inv_val in Hrun.
    destruct Hrun as (present & s2 & t2' & t3 & Hpe & Hrun & ->).
    apply path_exists_inv in Hpe. destruct Hpe as (rx & -> & Hpres & _).
    destruct (negb present).
    + apply ret_inv in Hrun. destruct Hrun as (Hr & _). discriminate.
    + apply bind_inv_val in Hrun.
      destruct Hrun as (new_size & s3 & t4 & t5 & Hgs & Hrun & ->).
      apply act_inv in Hgs. destruct Hgs as (-> & _).
      destruct ((cur =? new_size)%Z && (new_size >? 0)%Z) eqn:Hst.
      * apply bind_inv_val in Hrun.
        destruct Hrun as (u2 & s4 & t6 & t7 & Hlog & Hret & ->).
        apply log_inv in Hlog. destruct Hlog as (_ & _ & ->).
        apply ret_inv in Hret. destruct Hret as (_ & _ & ->).
        apply andb_true_iff in Hst. destruct Hst as [Heq Hpos].
        apply Z.eqb_eq in Heq. apply Z.gtb_lt in Hpos.
        exists [], new_size, rx. split; [reflexivity |].
        split; [lia |]. left. auto.
      * apply IH in Hrun.
        destruct Hrun as (pre & z & rx' & -> & Hz & Hpre).
        destruct Hpre as [[-> Hcur] | (pre' & ->)].
        -- subst z.
           exists [EvAct (Sleep 200) (Val tt); EvAct (PathExists p) rx;
                   EvAct (GetSize p) (Val new_size)], new_size, rx'.
           split; [reflexivity |]. split; [exact Hz |]. right.
           exists [EvAct (Sleep 200) (Val tt); EvAct (PathExists p) rx].
           reflexivity.
        -- exists ([EvAct (Sleep 200) (Val tt); EvAct (PathExists p) rx;
                    EvAct (GetSize p) (Val new_size)]
                   ++ pre' ++ [EvAct (GetSize p) (Val z)]), z, rx'.
           split; [rewrite <- !app_assoc; reflexivity |].
           split; [exact Hz |]. right.
           exists ([EvAct (Sleep 200) (Val tt); EvAct (PathExists p) rx;
                    EvAct (GetSize p) (Val new_size)] ++ pre').
           rewrite <- !app_assoc. reflexivity.
Qed.

Lemma stable_return_app p pre t :
  stable_return p t -> stable_return p (pre ++ t).
Proof.
  intros (pre' & z & rx & -> & Hz). exists (pre ++ pre'), z, rx.
  rewrite <- app_assoc. auto.
Qed.

Lemma starts_after_nil : sampling_starts_after [].
Proof. intros pre' ev Heq. destruct pre'; discriminate Heq. Qed.

Lemma starts_after_snoc pre ev :
  is_size_read ev = false -> sampling_starts_after (pre ++ [ev]).
Proof.
  intros Hev pre' ev' Heq. apply app_inj_tail in Heq.
  destruct Heq as (_ & <-). exact Hev.
Qed.

Lemma starts_after_app pre1 pre2 :
  sampling_starts_after pre1 -> sampling_starts_after pre2 ->
  sampling_starts_after (pre1 ++ pre2).
Proof.
  intros H1. induction pre2 as [| ev front _] using rev_ind; intros H2.
  - rewrite app_nil_r. exact H1.
  - rewrite app_assoc. apply starts_after_snoc. exact (H2 front ev eq_refl).
Qed.

Lemma fallback_return_app p pre t :
  sampling_starts_after pre ->
  fallback_return p t -> fallback_return p (pre ++ t).
Proof.
  intros Hpre (pre' & sizes & ending & -> & Hstart & Hnone & Hend).
  exists (pre ++ pre'), sizes, ending. rewrite <- app_assoc.
  split; [reflexivity |].
  split; [apply starts_after_app; assumption |]. auto.
Qed.

Lemma has_stable_pair_tail a sizes :
  has_stable_pair (a :: sizes) = false -> has_stable_pair sizes = false.
Proof.
  destruct sizes as [| b rest]; [reflexivity |].
  cbn [has_stable_pair]. intros Hnone. apply orb_false_iff in Hnone.
  apply Hnone.
Qed.

(** A sampling that did not return: the samples it took, none agreeing with
    the one before it, and how it ended. *)
Lemma sample_sizes_false p : forall n cur (s : session W) s' t,
  sample_sizes n p cur s = (Val false, s', t) ->
  exists sizes ending,
    t = sampled p sizes ++ ending
    /\ has_stable_pair (cur :: sizes) = false
    /\ ((length sizes = n /\ ending = [])
        \/ ((length sizes < n)%nat
            /\ exists rx, rx <> Val true
                          /\ ending = [ EvAct (Sleep 200) (Val tt);
                                        EvAct (PathExists p) rx ])).
Proof.
  induction n as [| n IH]; intros cur s s' t Hrun.
  - cbn [sample_sizes] in Hrun. apply ret_inv in Hrun.
    destruct Hrun as (_ & _ & ->). exists [], []. auto.
  - cbn [sample_sizes] in Hrun.
    apply bind_inv_val in Hrun.
    destruct Hrun as (u & s1 & t1 & t2 & Hsl & Hrun & ->).
    apply sleep_inv in Hsl. destruct Hsl as (_ & -> & _).
    apply bind_inv_val in Hrun.
    destruct Hrun as (present & s2 & t2' & t3 & Hpe & Hrun & ->).
    apply path_exists_inv in Hpe. destruct Hpe as (rx & -> & Hpres & _).
    destruct present; cbn [negb] in Hrun.
    + assert (Hrx : rx = Val true).
      { destruct rx as [[|] | e]; try discriminate. reflexivity. }
      subst rx. apply bind_inv_val in Hrun.
      destruct Hrun as (new_size & s3 & t4 & t5 & Hgs & Hrun & ->).
      apply act_inv in Hgs. destruct Hgs as (-> & _).
      destruct ((cur =? new_size) && (new_size >? 0))%Z eqn:Hst.
      * apply bind_inv_val in Hrun.
        destruct Hrun as (u2 & s4 & t6 & t7 & _ & Hret & _).
        apply ret_inv in Hret. destruct Hret as (Hr & _). discriminate.
      * apply IH in Hrun.
        destruct Hrun as (sizes & ending & -> & Hnone & Hend).
        exists (new_size :: sizes), ending. split; [reflexivity |]. split.
        -- change (has_stable_pair (cur :: new_size :: sizes))
             with (((cur =? new_size)%Z && (0 <? new_size)%Z)
                   || has_stable_pair (new_size :: sizes)).
           rewrite Hnone, orb_false_r.
           rewrite Z.gtb_ltb in Hst. exact Hst.
        -- cbn [length].
           destruct Hend as [(Hlen & ->) | (Hlen & rx & Hrx & ->)].
           ++ left. split; [lia | reflexivity].
           ++ right. split; [lia |]. exists rx. auto.
    + apply ret_inv in Hrun. destruct Hrun as (_ & _ & ->).
      exists [], [EvAct (Sleep 200) (Val tt); EvAct (PathExists p) rx].
      split; [reflexivity |]. split; [reflexivity |]. right.
      split; [cbn; lia |]. exists rx. split; [| reflexivity].
      intros ->. discriminate Hpres.
Qed.

Lemma scan_new_files_some : forall new_files (s : session W) p s' t,
  scan_new_files new_files s = (Val (Some p), s', t) ->
  exists fname,
    In fname new_files /\ in_progress fname = false
    /\ p = Py.path_join DOWNLOAD_DIR fname
    /\ (stable_return p t \/ fallback_return p t).
Proof.
  induction new_files as [| fname rest IH]; intros s p s' t Hrun.
  - cbn in Hrun. discriminate.
  - cbn [scan_new_files] in Hrun.
    destruct (in_progress fname) eqn:Hip; cbn [negb] in Hrun.
    + apply IH in Hrun. destruct Hrun as (f & Hin & Hrest).
      exists f. split; [right; exact Hin | exact Hrest].
    + apply bind_inv_val in Hrun.
      destruct Hrun as (stable & s1 & t1 & t2 & Hsam & Hrun & ->).
      destruct stable.
      * apply ret_inv in Hrun. destruct Hrun as (Hr & _ & ->).
        injection Hr as ->. rewrite app_nil_r.
        exists fname. split; [left; reflexivity |].
        split; [exact Hip |]. split; [reflexivity |]. left.
        apply sample_sizes_true in Hsam.
        destruct Hsam as (pre & z & rx & -> & Hz & Hpre).
        destruct Hpre as [[_ Hcur] | (pre' & ->)]; [lia |].
        exists pre', z, rx. rewrite <- app_assoc. auto.
      * destruct (Py.truthy (Some (Py.path_join DOWNLOAD_DIR fname)))
          eqn:Htruthy.
        -- apply bind_inv_val in Hrun.
           destruct Hrun as (present & s2 & t3 & t4 & Hpe & Hrun & ->).
           apply path_exists_inv in Hpe.
           destruct Hpe as (rx & -> & Hpres & _).
           destruct present.
           ++ apply bind_inv_val in Hrun.
              destruct Hrun as (u & s3 & t5 & t6 & Hlog & Hret & ->).
              apply log_inv in Hlog. destruct Hlog as (_ & _ & ->).
              apply ret_inv in Hret. destruct Hret as (Hr & _ & ->).
              injection Hr as ->.
              exists fname. split; [left; reflexivity |].
              split; [exact Hip |]. split; [reflexivity |]. right.
              destruct rx as [[|] | e]; try discriminate.
              apply sample_sizes_false in Hsam.
              destruct Hsam as (sizes & ending & -> & Hnone & Hend).
              exists [], sizes, ending. cbn [app].
              split; [rewrite <- !app_assoc; reflexivity |].
              split; [exact starts_after_nil |].
              split; [exact (has_stable_pair_tail _ _ Hnone) |].
              exact Hend.
           ++ apply IH in Hrun. destruct Hrun as (f & Hin & Hip' & Hp & Hret).
              exists f. split; [right; exact Hin |].
              split; [exact Hip' |]. split; [exact Hp |].
              destruct Hret as [Hst | Hfb].
              ** left. rewrite app_assoc. apply stable_return_app, Hst.
              ** right. rewrite app_assoc.
                 apply fallback_return_app; [| exact Hfb].
                 apply starts_after_snoc. reflexivity.
        -- vm_compute in Htruthy. discriminate Htruthy.
Qed.

Lemma time_inv (s : session W) r s' t :
  time s = (r, s', t) -> r = Val (clock s) /\ s' = s /\ t = [].
Proof. unfold time. intros Heq. injection Heq as <- <- <-. auto. Qed.

Lemma mem_false_not_in x l : Py.mem x l = false -> ~ In x l.
Proof.
  unfold Py.mem. intros Hm Hin.
  assert (Ht : existsb (String.eqb x) l = true).
  { apply existsb_exists. exists x. split; [exact Hin |].
    apply String.eqb_refl. }
  rewrite Ht in Hm. discriminate.
Qed.

Lemma new_files_of_in fname listing initial_files :
  In fname (new_files_of listing initial_files) ->
  In fname listing /\ ~ In fname initial_files.
Proof.
  unfold new_files_of. intros Hin. apply filter_In in Hin.
  destruct Hin as [Hin Hm]. split.
  - apply nodup_In in Hin. exact Hin.
  - apply mem_false_not_in. apply negb_true_iff. exact Hm.
Qed.

Lemma give_up_not_val timeout (s : session W) p s' t :
  (capture_screenshot "download_timeout" ;;
   raise (A := string)
     (Exn.mk Exn.TimeoutException (download_timeout_msg timeout))) s
  <> (Val p, s', t).
Proof.
  intros Hrun. apply bind_inv_val in Hrun.
  destruct Hrun as (u & s1 & t1 & t2 & _ & Hr & _). discriminate.
Qed.

Lemma poll_downloads_val start_time timeout initial_files :
  forall fuel (s : session W) p s' t,
    poll_downloads fuel start_time timeout initial_files s = (Val p, s', t) ->
    exists fname listing,
      In (EvAct (ListDir DOWNLOAD_DIR) (Val listing)) t
      /\ In fname listing /\ ~ In fname initial_files
      /\ in_progress fname = false
      /\ p = Py.path_join DOWNLOAD_DIR fname
      /\ (stable_return p t \/ fallback_return p t).
Proof.
  induction fuel as [| fuel IH]; intros s p s' t Hrun.
  - cbn [poll_downloads] in Hrun. apply bind_inv_val in Hrun.
    destruct Hrun as (now & s1 & t1 & t2 & _ & Hrun & _).
    exfalso. exact (give_up_not_val _ _ _ _ _ Hrun).
  - cbn [poll_downloads] in Hrun. apply bind_inv_val in Hrun.
    destruct Hrun as (now & s1 & t1 & t2 & Htime & Hrun & ->).
    apply time_inv in Htime. destruct Htime as (_ & -> & ->).
    destruct (now - start_time <? timeout * 1000)%Z.
    2:{ exfalso. exact (give_up_not_val _ _ _ _ _ Hrun). }
    apply bind_inv_val in Hrun.
    destruct Hrun as (listing & s2 & t3 & t4 & Hls & Hrun & ->).
    apply act_inv in Hls. destruct Hls as (-> & _).
    apply bind_inv_val in Hrun.
    destruct Hrun as (found & s3 & t5 & t6 & Hscan & Hrun & ->).
    destruct found as [q |].
    + apply ret_inv in Hrun. destruct Hrun as (Hr & _ & ->).
      injection Hr as ->. rewrite app_nil_r.
      apply scan_new_files_some in Hscan.
      destruct Hscan as (fname & Hin & Hip & Hp & Hret).
      apply new_files_of_in in Hin. destruct Hin as [Hin Hnew].
      exists fname, listing. cbn [app].
      split; [left; reflexivity |]. split; [exact Hin |].
      split; [exact Hnew |]. split; [exact Hip |]. split; [exact Hp |].
      destruct Hret as [Hst | Hfb].
      * left. apply (stable_return_app _ [_]), Hst.
      * right. apply (fallback_return_app _ [_]); [| exact Hfb].
        apply (starts_after_snoc []). reflexivity.
    + apply bind_inv_val in Hrun.
      destruct Hrun as (u & s4 & t7 & t8 & Hsl & Hrun & ->).
      apply IH in Hrun.
      destruct Hrun as (fname & listing' & Hl & Hin & Hnew & Hip & Hp & Hret).
      exists fname, listing'. cbn [app].
      split.
      { right. apply in_or_app. right. apply in_or_app. right. exact Hl. }
      split; [exact Hin |]. split; [exact Hnew |]. split; [exact Hip |].
      split; [exact Hp |].
      destruct Hret as [Hst | Hfb].
      * left. apply (stable_return_app _ [_]).
        apply stable_return_app, stable_return_app, Hst.
      * right. apply sleep_inv in Hsl. destruct Hsl as (_ & -> & _).
        rewrite app_assoc, app_comm_cons.
        apply fallback_return_app; [| exact Hfb].
        apply (starts_after_snoc (_ :: _)). reflexivity.
Qed.

(** C4 (as amended). Whenever [wait_for_download_completion] returns a
    path, the path names a file of a listing of the download directory
    that is new relative to the baseline and whose name does not end with
    an in-progress suffix ([.tmp], [.crdownload], [.part]).  It returns
    either right after two consecutive size samples of that file agreed and
    were not zero, or right after finding that the file exists once a
    sampling of that file, taken from its first sample on, has ended
    without such an agreement: with its fifth sample, or earlier, when the
    file was found missing. *)
Theorem C4_returned_file_is_new_and_final :
  forall (initial_files : list string) (timeout : Z) (s : session W)
         (p : string) (s' : session W) (evs : list event),
    wait_for_download_completion initial_files timeout s = (Val p, s', evs) ->
    exists fname listing,
      In (EvAct (ListDir DOWNLOAD_DIR) (Val listing)) evs
      /\ In fname listing /\ ~ In fname initial_files
      /\ in_progress fname = false
      /\ p = Py.path_join DOWNLOAD_DIR fname
      /\ (stable_return p evs \/ fallback_return p evs).
Proof.
  intros initial_files timeout s p s' evs Hrun.
  unfold wait_for_download_completion in Hrun.
  apply bind_inv_val in Hrun.
  destruct Hrun as (start_time & s1 & t1 & t2 & Htime & Hrun & ->).
  apply time_inv in Htime. destruct Htime as (_ & -> & ->).
  apply bind_inv_val in Hrun.
  destruct Hrun as (u & s2 & t3 & t4 & Hlog & Hrun & ->).
  apply log_inv in Hlog. destruct Hlog as (_ & -> & ->).
  apply poll_downloads_val in Hrun.
  destruct Hrun as (fname & listing & Hl & Hin & Hnew & Hip & Hp & Hret).
  exists fname, listing. cbn [app].
  split; [right; exact Hl |]. split; [exact Hin |]. split; [exact Hnew |].
  split; [exact Hip |]. split; [exact Hp |].
  destruct Hret as [Hst | Hfb].
  - left. apply (stable_return_app _ [_]), Hst.
  - right. apply (fallback_return_app _ [_]); [| exact Hfb].
    apply (starts_after_snoc []). reflexivity.
Qed.

(** *** The clock only moves forward, and the poll loop has fuel enough *)

Lemma forward_ret {A} (a : A) : forward (ret (W := W) a).
Proof. intros s r s' t Hr. apply ret_inv in Hr. destruct Hr as (_ & -> & _). lia. Qed.

Lemma forward_bind {A B} (c : M W A) (k : A -> M W B) :
  forward c -> (forall a, forward (k a)) -> forward (bind c k).
Proof.
  intros Hc Hk s r s' t Hrun. apply bind_inv in Hrun.
  destruct Hrun as [(a & s1 & t1 & t2 & Hc1 & Hk1 & _) | (e & Hc1 & _)].
  - apply Hc in Hc1. apply Hk in Hk1. lia.
  - apply Hc in Hc1. exact Hc1.
Qed.

Lemma forward_sleep ms : (0 <= ms)%Z -> forward (sleep ms).
Proof.
  intros Hms s r s' t Hr. apply sleep_inv in Hr.
  destruct Hr as (_ & _ & Hc & _). lia.
Qed.

Lemma forward_act {A} (a : action A) : forward (act a).
Proof.
  intros s r s' t Hr. apply act_inv in Hr. destruct Hr as (_ & Hc & _). lia.
Qed.

Lemma forward_path_exists p : forward (path_exists p).
Proof.
  intros s r s' t Hr. apply path_exists_inv in Hr.
  destruct Hr as (rx & _ & _ & Hc & _). lia.
Qed.

Lemma forward_log l m : forward (log (W := W) l m).
Proof.
  intros s r s' t Hr. apply log_inv in Hr. destruct Hr as (_ & -> & _). lia.
Qed.

Lemma forward_sample_sizes p : forall n cur, forward (sample_sizes n p cur).
Proof.
  induction n as [| n IH]; intros cur; cbn [sample_sizes].
  - apply forward_ret.
  - apply forward_bind; [apply forward_sleep; lia | intros _].
    apply forward_bind; [apply forward_path_exists | intros present].
    destruct (negb present); [apply forward_ret |].
    apply forward_bind; [apply forward_act | intros new_size].
    destruct (_ && _).
    + apply forward_bind; [apply forward_log | intros _; apply forward_ret].
    + apply IH.
Qed.

Lemma forward_scan_new_files : forall new_files,
  forward (scan_new_files new_files).
Proof.
  induction new_files as [| fname rest IH]; cbn [scan_new_files].
  - apply forward_ret.
  - destruct (negb (in_progress fname)); [| exact IH].
    apply forward_bind; [apply forward_sample_sizes | intros stable].
    destruct stable; [apply forward_ret |].
    destruct (Py.truthy _); [| exact IH].
    apply forward_bind; [apply forward_path_exists | intros present].
    destruct present; [| exact IH].
    apply forward_bind; [apply forward_log | intros _; apply forward_ret].
Qed.

(** Once the fuel covers the time left, more fuel changes nothing: the
    loop ends by its own time test, not by running out of fuel. *)
Lemma bind_cong {A B} (c : M W A) (k1 k2 : A -> M W B) s :
  (forall a s1 t1, c s = (Val a, s1, t1) -> k1 a s1 = k2 a s1) ->
  bind c k1 s = bind c k2 s.
Proof.
  intros Hk. unfold bind. destruct (c s) as [[[a | e] s1] t1]; [| reflexivity].
  rewrite (Hk a s1 t1 eq_refl). reflexivity.
Qed.

Lemma poll_downloads_fuel start_time timeout initial_files :
  forall fuel extra (s : session W),
    (timeout * 1000 - (clock s - start_time) <= 1000 * Z.of_nat fuel)%Z ->
    poll_downloads (fuel + extra) start_time timeout initial_files s
    = poll_downloads fuel start_time timeout initial_files s.
Proof.
  induction fuel as [| fuel IH]; intros extra s Hle.
  - cbn [Nat.add]. destruct extra as [| extra]; [reflexivity |].
    cbn [poll_downloads]. apply bind_cong. intros now s1 t1 Htime.
    apply time_inv in Htime. destruct Htime as (Hnow & -> & _).
    injection Hnow as ->.
    assert (Hc : (clock s - start_time <? timeout * 1000)%Z = false)
      by (apply Z.ltb_ge; lia).
    rewrite Hc. reflexivity.
  - cbn [Nat.add poll_downloads]. apply bind_cong. intros now s1 t1 Htime.
    apply time_inv in Htime. destruct Htime as (Hnow & -> & _).
    injection Hnow as ->.
    destruct (clock s - start_time <? timeout * 1000)%Z; [| reflexivity].
    apply bind_cong. intros listing s2 t2 Hls. apply forward_act in Hls.
    apply bind_cong. intros found s3 t3 Hscan.
    apply forward_scan_new_files in Hscan.
    destruct found as [q |]; [reflexivity |].
    apply bind_cong. intros u s4 t4 Hsl.
    apply sleep_inv in Hsl. destruct Hsl as (_ & _ & Hcl & _).
    apply IH. lia.
Qed.

(** [wait_for_download_completion] as defined runs the loop with fuel
    enough for its timeout. *)
Lemma wait_has_fuel_enough initial_files timeout extra (s : session W) :
  poll_downloads (S (Z.to_nat timeout) + extra) (clock s) timeout
    initial_files s
  = poll_downloads (S (Z.to_nat timeout)) (clock s) timeout initial_files s.
Proof. apply poll_downloads_fuel. lia. Qed.
End DetectorFacts.



(** The theorem at work: a download that carries a [.part] name while it is
    written is returned under its final name, on stability. *)
Lemma C4_returned_file_witness :
  exists fname listing,
    In (EvAct (ListDir DOWNLOAD_DIR) (Val listing))
       (snd Fixture.part_then_final_run)
    /\ In fname listing /\ ~ In fname []
    /\ in_progress fname = false
    /\ "downloads/download.xls" = Py.path_join DOWNLOAD_DIR fname
    /\ (stable_return "downloads/download.xls"
          (snd Fixture.part_then_final_run)
        \/ fallback_return "downloads/download.xls"
             (snd Fixture.part_then_final_run)).
Proof.
  apply (C4_returned_file_is_new_and_final [] 120
           (Fixture.start Fixture.part_then_final) "downloads/download.xls"
           (snd (fst Fixture.part_then_final_run))
           (snd Fixture.part_then_final_run)).
  vm_compute. reflexivity.
Defined.

Example part_then_final_samples :
  fst (fst Fixture.part_then_final_run) = Val "downloads/download.xls"
  /\ size_samples "downloads/download.xls" (snd Fixture.part_then_final_run)
     = [500; 500]%Z
  /\ size_samples "downloads/download.xls.part"
       (snd Fixture.part_then_final_run) = [].
Proof. vm_compute. repeat split; reflexivity. Qed.

(** C4, as stated, fails: a file that is still growing at every one of the
    five samples is returned all the same, without any two consecutive
    samples having agreed. *)
Lemma C4_counterexample :
  match wait_for_download_completion [] 120
          (Fixture.start Fixture.growing) with
  | (r, _, evs) =>
      r = Val "downloads/download.xls"
      /\ size_samples "downloads/download.xls" evs
         = [200; 300; 400; 500; 600]%Z
      /\ has_stable_pair (size_samples "downloads/download.xls" evs) = false
  end.
Proof. vm_compute. repeat split; reflexivity. Qed.

(* ===================================================================== *)
(** * The synthetic dropdown *)
(* ===================================================================== *)

Section Alphabet.
Context {W : Type} `{Driver W}.
Variable P : event -> bool.

Lemma emits_ret {A} (a : A) : emits P (ret (W := W) a).
Proof. intros s r s' t Hr. apply ret_inv in Hr. destruct Hr as (_ & _ & ->). reflexivity. Qed.

Lemma emits_raise {A} e : emits P (raise (W := W) (A := A) e).
Proof. intros s r s' t Hr. unfold raise in Hr. injection Hr as <- <- <-. reflexivity. Qed.

Lemma emits_bind {A B} (c : M W A) (k : A -> M W B) :
  emits P c -> (forall a, emits P (k a)) -> emits P (bind c k).
Proof.
  intros Hc Hk s r s' t Hrun. apply bind_inv in Hrun.
  destruct Hrun as [(a & s1 & t1 & t2 & Hc1 & Hk1 & ->) | (e & Hc1 & _)].
  - rewrite forallb_app, (Hc _ _ _ _ Hc1), (Hk _ _ _ _ _ Hk1). reflexivity.
  - exact (Hc _ _ _ _ Hc1).
Qed.

Lemma emits_attempt {A} (c : M W A) : emits P c -> emits P (attempt c).
Proof.
  intros Hc s r s' t Hrun. apply attempt_inv in Hrun.
  destruct Hrun as (r0 & _ & Hc1). exact (Hc _ _ _ _ Hc1).
Qed.

Lemma emits_swallow (c : M W unit) : emits P c -> emits P (swallow c).
Proof.
  intros Hc. unfold swallow. apply emits_bind; [apply emits_attempt, Hc |].
  intros _. apply emits_ret.
Qed.

Lemma emits_finally {A} (c : M W A) f :
  emits P c -> emits P f -> emits P (finally c f).
Proof.
  intros Hc Hf. unfold finally. apply emits_bind; [apply emits_attempt, Hc |].
  intros r. apply emits_bind; [exact Hf |]. intros _.
  destruct r; [apply emits_ret | apply emits_raise].
Qed.

Lemma emits_ask {A} (q : query A) : emits P (ask q).
Proof. intros s r s' t Hr. unfold ask in Hr. injection Hr as <- <- <-. reflexivity. Qed.

Lemma emits_time : emits P (time (W := W)).
Proof. intros s r s' t Hr. apply time_inv in Hr. destruct Hr as (_ & _ & ->). reflexivity. Qed.

Lemma emits_act {A} (a : action A) :
  (forall r, P (EvAct a r) = true) -> emits P (act a).
Proof.
  intros HP s r s' t Hr. apply act_inv in Hr. destruct Hr as (-> & _).
  cbn. rewrite HP. reflexivity.
Qed.

Lemma emits_sleep ms : P (EvAct (Sleep ms) (Val tt)) = true -> emits P (sleep ms).
Proof.
  intros HP s r s' t Hr. apply sleep_inv in Hr. destruct Hr as (_ & -> & _).
  cbn. rewrite HP. reflexivity.
Qed.

Lemma emits_random lo hi :
  (forall d, P (EvAct (RandomUniform lo hi) (Val d)) = true) ->
  emits P (random_uniform lo hi).
Proof.
  intros HP s r s' t Hr. unfold random_uniform in Hr.
  destruct (perform (RandomUniform lo hi) (world s)) as [x w'].
  injection Hr as <- <- <-. cbn. rewrite HP. reflexivity.
Qed.

Lemma emits_path_exists p :
  (forall r, P (EvAct (PathExists p) r) = true) -> emits P (path_exists p).
Proof.
  intros HP s r s' t Hr. apply path_exists_inv in Hr.
  destruct Hr as (rx & -> & _). cbn. rewrite HP. reflexivity.
Qed.

Lemma emits_log l m : P (EvLog l m) = true -> emits P (log (W := W) l m).
Proof.
  intros HP s r s' t Hr. apply log_inv in Hr. destruct Hr as (_ & _ & ->).
  cbn. rewrite HP. reflexivity.
Qed.

Lemma emits_append p : emits P (append_downloaded (W := W) p).
Proof. intros s r s' t Hr. unfold append_downloaded in Hr. injection Hr as <- <- <-. reflexivity. Qed.

End Alphabet.

Ltac emits_step :=
  lazymatch goal with
  | |- emits _ (bind _ _) => apply emits_bind; [| intro]
  | |- emits _ (attempt _) => apply emits_attempt
  | |- emits _ (swallow _) => apply emits_swallow
  | |- emits _ (finally _ _) => apply emits_finally
  | |- emits _ (ret _) => apply emits_ret
  | |- emits _ (raise _) => apply emits_raise
  | |- emits _ (ask _) => apply emits_ask
  | |- emits _ time => apply emits_time
  | |- emits _ (log _ _) => apply emits_log; reflexivity
  | |- emits _ (sleep _) => apply emits_sleep; reflexivity
  | |- emits _ (random_uniform _ _) => apply emits_random; intro; reflexivity
  | |- emits _ (path_exists _) => apply emits_path_exists; intro; reflexivity
  | |- emits _ (append_downloaded _) => apply emits_append
  | |- emits _ (act _) => apply emits_act; intro; reflexivity
  | |- emits _ (if ?b then _ else _) => destruct b
  | |- emits _ (match ?x with _ => _ end) => destruct x
  end.

Ltac emits_auto := repeat (emits_step || assumption).

Section DropdownFacts.
Context {W : Type} `{Driver W}.

Lemma capture_screenshot_no_click n : emits (W := W) not_click (capture_screenshot n).
Proof. unfold capture_screenshot. emits_auto. Qed.

Lemma try_locators_no_click ctx timeout : forall locs,
  emits (W := W) not_click (try_locators ctx timeout locs).
Proof.
  induction locs as [| [b v] rest IH]; cbn [try_locators]; emits_auto.
Qed.

Lemma find_element_passes_no_click locs timeout sn ctx : forall n a,
  emits (W := W) not_click (find_element_passes n a locs timeout sn ctx).
Proof.
  induction n as [| n IH]; intros a; cbn [find_element_passes].
  - emits_auto.
  - apply emits_bind; [apply try_locators_no_click | intros found].
    destruct found; [emits_auto |].
    destruct (a <? MAX_RETRIES - 1)%nat.
    + emits_auto. apply IH.
    + apply emits_bind; [emits_auto | intros _].
      apply emits_bind; [| intros _; emits_auto].
      destruct (Py.truthy sn); [apply capture_screenshot_no_click | emits_auto].
Qed.

Lemma find_element_safely_elem_no_click locs timeout sn ctx :
  emits (W := W) not_click (find_element_safely_elem locs timeout sn ctx).
Proof.
  unfold find_element_safely_elem, find_element_safely.
  apply emits_bind; [apply find_element_passes_no_click | intros found].
  emits_auto.
Qed.

Lemma first_displayed_silent : forall buttons,
  emits (W := W) (fun _ => false) (first_displayed buttons).
Proof. induction buttons as [| b rest IH]; cbn [first_displayed]; emits_auto. Qed.

End DropdownFacts.

Section DropdownClaims.
Context {W : Type} `{Driver W}.

Lemma bind_val_eq {A B} (c : M W A) (k : A -> M W B) s a s1 t1 r s2 t2 t :
  c s = (Val a, s1, t1) ->
  t = t1 ++ t2 ->
  k a s1 = (r, s2, t2) ->
  bind c k s = (r, s2, t).
Proof. intros Hc -> Hk. eapply bind_val; eassumption. Qed.

Lemma dropdown_verify_mismatch btn text retry max_retries (s2 s3 : session W) raw :
  sleep 1000 s2 = (Val tt, s3, [EvAct (Sleep 1000) (Val tt)]) ->
  observe (Text btn) (world s3) = Val raw ->
  String.eqb (Py.strip raw) text = false ->
  dropdown_verify btn text retry max_retries s2
  = (Val (if (retry <? max_retries - 1)%nat then None else Some true), s3,
     [EvAct (Sleep 1000) (Val tt);
      EvLog WARNING (not_stuck_msg (Py.strip raw) text)]).
Proof.
  intros Hsl Hobs Hne. unfold dropdown_verify.
  assert (Hread :
            attempt (sleep 1000 ;; t <- ask (Text btn) ;; ret (Py.strip t)) s2
            = (Val (Val (Py.strip raw)), s3, [EvAct (Sleep 1000) (Val tt)])).
  { apply attempt_run. eapply bind_val_eq; [exact Hsl | reflexivity |].
    unfold bind, ask, ret. rewrite Hobs. reflexivity. }
  unfold bind at 1. rewrite Hread. rewrite Hne.
  unfold bind, log, ret. destruct (retry <? max_retries - 1)%nat; reflexivity.
Qed.

Lemma dropdown_body_mismatch locs text prefix retry max_retries
      (s s1 s2 s3 : session W) btn t1 t2 raw :
  locate_dropdown_button locs prefix s = (Val btn, s1, t1) ->
  dropdown_already_set btn text s1 = (Val false, s1, []) ->
  dropdown_interact btn text prefix s1 = (Val tt, s2, t2) ->
  sleep 1000 s2 = (Val tt, s3, [EvAct (Sleep 1000) (Val tt)]) ->
  observe (Text btn) (world s3) = Val raw ->
  String.eqb (Py.strip raw) text = false ->
  dropdown_try_body locs text prefix retry max_retries s
  = (Val (if (retry <? max_retries - 1)%nat then None else Some true), s3,
     t1 ++ t2 ++ [EvAct (Sleep 1000) (Val tt);
                  EvLog WARNING (not_stuck_msg (Py.strip raw) text)]).
Proof.
  intros Hloc Hset Hint Hsl Hobs Hne. unfold dropdown_try_body.
  eapply bind_val; [exact Hloc |].
  eapply bind_val_eq; [exact Hset | reflexivity |]. cbn iota.
  eapply bind_val; [exact Hint |].
  apply dropdown_verify_mismatch; assumption.
Qed.

(** C5 (as amended). When the value re-read after a selection differs from
    the target, the operation logs a warning and, if retries remain
    ([retry < max_retries - 1]), restarts the whole interaction with the next
    retry; on the final retry it returns [True] all the same: the mismatch is
    only logged, it is never turned into a failure. *)
Theorem C5_unverified_selection :
  forall (locs : list locator) (text prefix : string)
         (max_retries remaining retry : nat)
         (s s1 s2 s3 : session W) (btn : elem) (t1 t2 : list event)
         (raw : string),
    locate_dropdown_button locs prefix s = (Val btn, s1, t1) ->
    dropdown_already_set btn text s1 = (Val false, s1, []) ->
    dropdown_interact btn text prefix s1 = (Val tt, s2, t2) ->
    sleep 1000 s2 = (Val tt, s3, [EvAct (Sleep 1000) (Val tt)]) ->
    observe (Text btn) (world s3) = Val raw ->
    String.eqb (Py.strip raw) text = false ->
    dropdown_retries (S remaining) retry locs text prefix max_retries s
    = if (retry <? max_retries - 1)%nat
      then match dropdown_retries remaining (S retry) locs text prefix
                   max_retries s3 with
           | (r, s', t') =>
               (r, s',
                (t1 ++ t2 ++ [EvAct (Sleep 1000) (Val tt);
                              EvLog WARNING
                                (not_stuck_msg (Py.strip raw) text)]) ++ t')
           end
      else (Val true, s3,
            t1 ++ t2 ++ [EvAct (Sleep 1000) (Val tt);
                         EvLog WARNING (not_stuck_msg (Py.strip raw) text)]).
Proof.
  intros locs text prefix max_retries remaining retry s s1 s2 s3 btn t1 t2 raw
         Hloc Hset Hint Hsl Hobs Hne.
  pose proof (dropdown_body_mismatch locs text prefix retry max_retries
                s s1 s2 s3 btn t1 t2 raw Hloc Hset Hint Hsl Hobs Hne) as Hbody.
  cbn [dropdown_retries]. unfold bind at 1.
  rewrite (attempt_run _ _ _ _ _ Hbody).
  destruct (retry <? max_retries - 1)%nat.
  - destruct (dropdown_retries remaining (S retry) locs text prefix
                max_retries s3) as [[r s'] t']. reflexivity.
  - cbn. rewrite app_nil_r. reflexivity.
Qed.

End DropdownClaims.

Section SkipClaims.
Context {W : Type} `{Driver W}.

Lemma first_displayed_no_click : forall buttons,
  emits (W := W) not_click (first_displayed buttons).
Proof. induction buttons as [| b rest IH]; cbn [first_displayed]; emits_auto. Qed.

Lemma find_visible_no_click : forall locs,
  emits (W := W) not_click (find_visible locs).
Proof.
  induction locs as [| loc rest IH]; cbn [find_visible].
  - emits_auto.
  - apply emits_bind.
    + apply emits_attempt. apply emits_bind; [emits_auto | intros buttons].
      apply first_displayed_no_click.
    + intros r. destruct r as [[b |] | e]; [emits_auto | exact IH | exact IH].
Qed.

Lemma locate_dropdown_button_no_click locs prefix :
  emits (W := W) not_click (locate_dropdown_button locs prefix).
Proof.
  unfold locate_dropdown_button.
  apply emits_bind; [apply find_visible_no_click | intros visible].
  destruct visible; [emits_auto | apply find_element_safely_elem_no_click].
Qed.

Lemma dropdown_skip_run locs text prefix retry max_retries n
      (s s1 : session W) btn t1 :
  locate_dropdown_button locs prefix s = (Val btn, s1, t1) ->
  read_current_value btn s1 = (Val text, s1, []) ->
  dropdown_retries (S n) retry locs text prefix max_retries s
  = (Val true, s1, t1 ++ [EvLog INFO (already_set_msg text)]).
Proof.
  intros Hloc Hval.
  assert (Hset : dropdown_already_set btn text s1
                 = (Val true, s1, [EvLog INFO (already_set_msg text)])).
  { unfold dropdown_already_set. unfold bind at 1.
    rewrite (attempt_run _ _ _ _ _ Hval). rewrite String.eqb_refl.
    reflexivity. }
  assert (Hbody : dropdown_try_body locs text prefix retry max_retries s
                  = (Val (Some true), s1,
                     t1 ++ [EvLog INFO (already_set_msg text)])).
  { unfold dropdown_try_body. eapply bind_val; [exact Hloc |].
    eapply bind_val_eq; [exact Hset | | reflexivity].
    rewrite app_nil_r. reflexivity. }
  cbn [dropdown_retries]. unfold bind at 1.
  rewrite (attempt_run _ _ _ _ _ Hbody). cbn. rewrite app_nil_r. reflexivity.
Qed.

(** C6. If the displayed value of the dropdown already equals the target,
    [_select_from_custom_dropdown] returns [True] at once with the skip
    message, and nothing it emitted is a click: there is no open/close cycle.
    When the button is found without any wait, the call leaves the session
    as it was, so a second call with the same target skips again and the
    displayed value is still the target. *)
Theorem C6_skip_is_idempotent :
  forall (locs : list locator) (text prefix : string) (n : nat)
         (s s1 : session W) (btn : elem) (t1 : list event),
    locate_dropdown_button locs prefix s = (Val btn, s1, t1) ->
    read_current_value btn s1 = (Val text, s1, []) ->
    _select_from_custom_dropdown locs text prefix (S n) s
    = (Val true, s1, t1 ++ [EvLog INFO (already_set_msg text)])
    /\ forallb not_click (t1 ++ [EvLog INFO (already_set_msg text)]) = true
    /\ (find_visible locs s = (Val (Some btn), s, []) ->
        s1 = s /\ t1 = []
        /\ (_select_from_custom_dropdown locs text prefix (S n) ;;
            _select_from_custom_dropdown locs text prefix (S n)) s
           = (Val true, s, [EvLog INFO (already_set_msg text);
                            EvLog INFO (already_set_msg text)])
        /\ read_current_value btn s = (Val text, s, [])).
Proof.
  intros locs text prefix n s s1 btn t1 Hloc Hval.
  pose proof (dropdown_skip_run locs text prefix 0 (S n) n s s1 btn t1
                Hloc Hval) as Hrun.
  split; [exact Hrun |]. split.
  - rewrite forallb_app.
    rewrite (locate_dropdown_button_no_click locs prefix _ _ _ _ Hloc).
    reflexivity.
  - intros Hvis.
    assert (Hloc' : locate_dropdown_button locs prefix s = (Val btn, s, [])).
    { unfold locate_dropdown_button. eapply bind_val_eq; [exact Hvis | | reflexivity].
      reflexivity. }
    rewrite Hloc' in Hloc. injection Hloc as <- <-.
    split; [reflexivity |]. split; [reflexivity |]. split; [| exact Hval].
    eapply bind_val_eq; [exact Hrun | reflexivity | exact Hrun].
Qed.

End SkipClaims.

Section NeverFalse.
Context {W : Type} `{Driver W}.

Lemma dropdown_verify_outcome btn text retry max_retries (s : session W) o s' t :
  dropdown_verify btn text retry max_retries s = (Val o, s', t) ->
  o = Some true \/ (o = None /\ (retry <? max_retries - 1)%nat = true).
Proof.
  unfold dropdown_verify. intros Hrun. apply bind_inv_val in Hrun.
  destruct Hrun as (r & s1 & t1 & t2 & _ & Hrun & _).
  destruct r as [current_value | e].
  - destruct (String.eqb current_value text).
    + apply bind_inv_val in Hrun. destruct Hrun as (u & s2 & t3 & t4 & _ & Hr & _).
      apply ret_inv in Hr. destruct Hr as (Hr & _). injection Hr as <-. auto.
    + apply bind_inv_val in Hrun. destruct Hrun as (u & s2 & t3 & t4 & _ & Hr & _).
      destruct (retry <? max_retries - 1)%nat;
        apply ret_inv in Hr; destruct Hr as (Hr & _); injection Hr as <-; auto.
  - apply ret_inv in Hrun. destruct Hrun as (Hr & _). injection Hr as <-. auto.
Qed.

Lemma dropdown_try_body_outcome locs text prefix retry max_retries
      (s : session W) o s' t :
  dropdown_try_body locs text prefix retry max_retries s = (Val o, s', t) ->
  o = Some true \/ (o = None /\ (retry <? max_retries - 1)%nat = true).
Proof.
  unfold dropdown_try_body. intros Hrun. apply bind_inv_val in Hrun.
  destruct Hrun as (btn & s1 & t1 & t2 & _ & Hrun & _).
  apply bind_inv_val in Hrun.
  destruct Hrun as (already & s2 & t3 & t4 & _ & Hrun & _).
  destruct already.
  - apply ret_inv in Hrun. destruct Hrun as (Hr & _). injection Hr as <-. auto.
  - apply bind_inv_val in Hrun.
    destruct Hrun as (u & s3 & t5 & t6 & _ & Hrun & _).
    eapply dropdown_verify_outcome, Hrun.
Qed.

(** With at least one retry allowed, the dropdown operation never returns
    [False]: it returns [True] or raises. *)
Lemma dropdown_never_returns_false locs text prefix max_retries :
  forall n retry (s : session W) s' t,
    (retry + n = max_retries)%nat ->
    dropdown_retries n retry locs text prefix max_retries s
    = (Val false, s', t) ->
    n = O.
Proof.
  induction n as [| n IH]; intros retry s s' t Hsum Hrun; [reflexivity |].
  exfalso. cbn [dropdown_retries] in Hrun. apply bind_inv_val in Hrun.
  destruct Hrun as (r & s1 & t1 & t2 & Hbody & Hrun & _).
  apply attempt_inv in Hbody. destruct Hbody as (r0 & Hr0 & Hbody).
  injection Hr0 as ->.
  destruct r0 as [o | e].
  - apply dropdown_try_body_outcome in Hbody.
    destruct Hbody as [-> | [-> Hlt]].
    + apply ret_inv in Hrun. destruct Hrun as (Hr & _). discriminate.
    + apply IH in Hrun; [| lia]. apply Nat.ltb_lt in Hlt. lia.
  - apply bind_inv_val in Hrun. destruct Hrun as (u1 & s2 & t3 & t4 & _ & Hrun & _).
    apply bind_inv_val in Hrun. destruct Hrun as (u2 & s3 & t5 & t6 & _ & Hrun & _).
    apply bind_inv_val in Hrun. destruct Hrun as (u3 & s4 & t7 & t8 & _ & Hrun & _).
    destruct (retry <? max_retries - 1)%nat eqn:Hlt.
    + apply bind_inv_val in Hrun. destruct Hrun as (u4 & s5 & t9 & t10 & _ & Hrun & _).
      apply bind_inv_val in Hrun. destruct Hrun as (u5 & s6 & t11 & t12 & _ & Hrun & _).
      apply IH in Hrun; [| lia]. apply Nat.ltb_lt in Hlt. lia.
    + apply bind_inv_val in Hrun. destruct Hrun as (u4 & s5 & t9 & t10 & _ & Hrun & _).
      discriminate.
Qed.

End NeverFalse.

(** C5 on the page that forgets its selections, at the final retry. *)
Lemma C5_unverified_selection_witness :
  dropdown_retries 1 2 period_button_locators DropdownRuns.five_years "x" 3
    (Fixture.start Fixture.forgetful)
  = (Val true, DropdownRuns.forgetful_settled,
     [] ++ snd DropdownRuns.forgetful_interact
        ++ [EvAct (Sleep 1000) (Val tt);
            EvLog WARNING (not_stuck_msg (Py.strip "") DropdownRuns.five_years)]).
Proof.
  apply (C5_unverified_selection period_button_locators DropdownRuns.five_years
           "x" 3 0 2 (Fixture.start Fixture.forgetful)
           (Fixture.start Fixture.forgetful) DropdownRuns.forgetful_clicked
           DropdownRuns.forgetful_settled Fixture.period_box []
           (snd DropdownRuns.forgetful_interact) "");
    vm_compute; reflexivity.
Defined.

(** C5, as stated, fails: on a page that forgets every selection, all three
    retries end in a mismatch and the operation still returns [True], the
    displayed value being empty. *)
Lemma C5_counterexample :
  match _select_from_custom_dropdown period_button_locators
          DropdownRuns.five_years "x" 3 (Fixture.start Fixture.forgetful) with
  | (r, s', t) =>
      r = Val true
      /\ observe (Text Fixture.period_box) (world s') = Val ""
      /\ warnings t = repeat (not_stuck_msg "" DropdownRuns.five_years) 3
  end.
Proof. vm_compute. repeat split. Qed.

(** C6 on the page whose period box already shows the target. *)
Lemma C6_skip_is_idempotent_witness :
  _select_from_custom_dropdown period_button_locators DropdownRuns.five_years
    "x" 3 (Fixture.start Fixture.preset)
  = (Val true, Fixture.start Fixture.preset,
     [] ++ [EvLog INFO (already_set_msg DropdownRuns.five_years)])
  /\ forallb not_click ([] ++ [EvLog INFO (already_set_msg DropdownRuns.five_years)]) = true
  /\ (find_visible period_button_locators (Fixture.start Fixture.preset)
      = (Val (Some Fixture.period_box), Fixture.start Fixture.preset, []) ->
      Fixture.start Fixture.preset = Fixture.start Fixture.preset /\ @nil event = []
      /\ (_select_from_custom_dropdown period_button_locators DropdownRuns.five_years "x" 3 ;;
          _select_from_custom_dropdown period_button_locators DropdownRuns.five_years "x" 3)
           (Fixture.start Fixture.preset)
         = (Val true, Fixture.start Fixture.preset,
            [EvLog INFO (already_set_msg DropdownRuns.five_years);
             EvLog INFO (already_set_msg DropdownRuns.five_years)])
      /\ read_current_value Fixture.period_box (Fixture.start Fixture.preset)
         = (Val DropdownRuns.five_years, Fixture.start Fixture.preset, [])).
Proof.
  apply (C6_skip_is_idempotent period_button_locators DropdownRuns.five_years
           "x" 2 (Fixture.start Fixture.preset) (Fixture.start Fixture.preset)
           Fixture.period_box []);
    vm_compute; reflexivity.
Defined.

(** On a page that keeps its selections, a first call selects the value and
    a second call finds it set and touches nothing. *)
Example dropdown_select_then_skip :
  match _select_from_custom_dropdown period_button_locators
          DropdownRuns.five_years "x" 3 (Fixture.start Fixture.healthy) with
  | (r1, s1, t1) =>
      r1 = Val true /\ existsb is_click t1 = true
      /\ _select_from_custom_dropdown period_button_locators
           DropdownRuns.five_years "x" 3 s1
         = (Val true, s1, [EvLog INFO (already_set_msg DropdownRuns.five_years)])
  end.
Proof. vm_compute. repeat split. Qed.

(* ===================================================================== *)
(** * The radio groups *)
(* ===================================================================== *)

Section Quiet.
Context {W : Type} `{Driver W}.

Lemma quiet_ret {A} (a : A) : quiet (ret (W := W) a).
Proof. intros s. eexists. reflexivity. Qed.

Lemma quiet_raise {A} e : quiet (raise (W := W) (A := A) e).
Proof. intros s. eexists. reflexivity. Qed.

Lemma quiet_ask {A} (q : query A) : quiet (ask q).
Proof. intros s. eexists. reflexivity. Qed.

Lemma quiet_bind {A B} (c : M W A) (k : A -> M W B) :
  quiet c -> (forall a, quiet (k a)) -> quiet (bind c k).
Proof.
  intros Hc Hk s. destruct (Hc s) as (r & Hr). unfold bind. rewrite Hr.
  destruct r as [a | e].
  - destruct (Hk a s) as (r' & Hr'). rewrite Hr'. eexists. reflexivity.
  - eexists. reflexivity.
Qed.

Lemma quiet_attempt {A} (c : M W A) : quiet c -> quiet (attempt c).
Proof.
  intros Hc s. destruct (Hc s) as (r & Hr). unfold attempt. rewrite Hr.
  eexists. reflexivity.
Qed.

Lemma quiet_inv {A} (c : M W A) s r s' t :
  quiet c -> c s = (r, s', t) -> s' = s /\ t = [].
Proof.
  intros Hc Hrun. destruct (Hc s) as (r' & Hr'). rewrite Hr' in Hrun.
  injection Hrun as _ <- <-. auto.
Qed.

Lemma aria_labels_quiet : forall radios, quiet (aria_labels (W := W) radios).
Proof.
  induction radios as [| r rest IH]; cbn [aria_labels].
  - apply quiet_ret.
  - apply quiet_bind; [apply quiet_ask |]. intros l.
    apply quiet_bind; [exact IH |]. intros ls. apply quiet_ret.
Qed.

Lemma sibling_labels_of_quiet radio : quiet (sibling_labels_of (W := W) radio).
Proof.
  unfold sibling_labels_of.
  apply quiet_bind; [apply quiet_ask |]. intros parent.
  apply quiet_bind; [apply quiet_ask |]. intros sibs.
  apply aria_labels_quiet.
Qed.

Lemma displayed_only_quiet : forall radios,
  quiet (displayed_only (W := W) radios).
Proof.
  induction radios as [| r rest IH]; cbn [displayed_only].
  - apply quiet_ret.
  - apply quiet_bind; [apply quiet_ask |]. intros shown.
    apply quiet_bind; [exact IH |]. intros rs. apply quiet_ret.
Qed.

(** What [displayed_only] keeps is displayed. *)
Lemma displayed_only_sound : forall radios (s : session W) kept s' t,
  displayed_only radios s = (Val kept, s', t) ->
  forall r, In r kept ->
            In r radios /\ observe (IsDisplayed r) (world s) = Val true.
Proof.
  induction radios as [| radio rest IH]; intros s kept s' t Hrun r Hin;
    cbn [displayed_only] in Hrun.
  - apply ret_inv in Hrun. destruct Hrun as (Hr & _). injection Hr as ->.
    destruct Hin.
  - apply bind_inv_val in Hrun.
    destruct Hrun as (shown & s1 & t1 & t2 & Hask & Hrun & _).
    assert (Hobs : observe (IsDisplayed radio) (world s) = Val shown
                   /\ s1 = s).
    { unfold ask in Hask. injection Hask as -> -> _. auto. }
    destruct Hobs as (Hobs & ->).
    apply bind_inv_val in Hrun.
    destruct Hrun as (rs & s2 & t3 & t4 & Hrest & Hrun & _).
    apply ret_inv in Hrun. destruct Hrun as (Hr & _). injection Hr as ->.
    destruct shown.
    + destruct Hin as [<- | Hin].
      * split; [left; reflexivity | exact Hobs].
      * destruct (IH _ _ _ _ Hrest r Hin). split; [right |]; assumption.
    + destruct (IH _ _ _ _ Hrest r Hin). split; [right |]; assumption.
Qed.

Lemma region_candidate_quiet : forall radios,
  quiet (region_candidate (W := W) radios).
Proof.
  induction radios as [| radio rest IH]; cbn [region_candidate].
  - apply quiet_ret.
  - apply quiet_bind.
    + apply quiet_attempt. apply quiet_bind; [apply quiet_ask |].
      intros shown. destruct (negb shown); [apply quiet_ret |].
      apply quiet_bind; [apply sibling_labels_of_quiet |]. intros ls.
      apply quiet_ret.
    + intros [[|] | e]; [apply quiet_ret | exact IH | exact IH].
Qed.

(** The candidate of the region loop is one of the radios and is
    displayed. *)
Lemma region_candidate_sound : forall radios (s : session W) r s' t,
  region_candidate radios s = (Val (Some r), s', t) ->
  In r radios /\ observe (IsDisplayed r) (world s) = Val true.
Proof.
  induction radios as [| radio rest IH]; intros s r s' t Hrun;
    cbn [region_candidate] in Hrun.
  - apply ret_inv in Hrun. destruct Hrun as (Hr & _). discriminate.
  - apply bind_inv_val in Hrun.
    destruct Hrun as (o & s1 & t1 & t2 & Hbody & Hrun & _).
    apply attempt_inv in Hbody. destruct Hbody as (r0 & Hr0 & Hbody).
    injection Hr0 as ->.
    assert (Hs1 : s1 = s).
    { eapply quiet_inv in Hbody; [apply Hbody |].
      apply quiet_bind; [apply quiet_ask |].
      intros shown. destruct (negb shown); [apply quiet_ret |].
      apply quiet_bind; [apply sibling_labels_of_quiet |]. intros ls.
      apply quiet_ret. }
    subst s1.
    assert (Hnext : forall s'' t'', region_candidate rest s = (Val (Some r), s'', t'') ->
                    In r (radio :: rest)
                    /\ observe (IsDisplayed r) (world s) = Val true).
    { intros s'' t'' Hn. destruct (IH _ _ _ _ Hn). split; [right |]; assumption. }
    destruct r0 as [[|] | e]; [| eapply Hnext, Hrun | eapply Hnext, Hrun].
    apply ret_inv in Hrun. destruct Hrun as (Hr & _). injection Hr as ->.
    split; [left; reflexivity |].
    apply bind_inv_val in Hbody.
    destruct Hbody as (shown & s2 & t3 & t4 & Hask & Hbody & _).
    unfold ask in Hask. injection Hask as Hobs <- _.
    destruct shown; [exact Hobs |].
    cbn [negb] in Hbody. apply ret_inv in Hbody.
    destruct Hbody as (Hr & _). discriminate.
Qed.

Lemma region_target_sound region_korean radios (s : session W) r s' t :
  region_target region_korean radios s = (Val r, s', t) ->
  s' = s /\ t = [] /\ In r radios
  /\ observe (IsDisplayed r) (world s) = Val true.
Proof.
  unfold region_target. intros Hrun. apply bind_inv_val in Hrun.
  destruct Hrun as (cand & s1 & t1 & t2 & Hcand & Hrun & ->).
  destruct (quiet_inv _ _ _ _ _ (region_candidate_quiet radios) Hcand)
    as (-> & ->).
  destruct cand as [target |].
  - apply ret_inv in Hrun. destruct Hrun as (Hr & -> & ->).
    injection Hr as ->. apply region_candidate_sound in Hcand.
    destruct Hcand. auto.
  - apply bind_inv_val in Hrun.
    destruct Hrun as (vis & s2 & t3 & t4 & Hvis & Hrun & ->).
    destruct (quiet_inv _ _ _ _ _ (displayed_only_quiet radios) Hvis)
      as (-> & ->).
    destruct vis as [| target rest]; [discriminate |].
    apply ret_inv in Hrun. destruct Hrun as (Hr & -> & ->).
    injection Hr as ->.
    destruct (displayed_only_sound _ _ _ _ _ Hvis target (or_introl eq_refl)).
    auto.
Qed.

Lemma public_private_target_quiet : forall radios,
  quiet (public_private_target (W := W) radios).
Proof.
  induction radios as [| radio rest IH]; cbn [public_private_target].
  - apply quiet_ret.
  - apply quiet_bind.
    + apply quiet_attempt.
      apply quiet_bind; [apply sibling_labels_of_quiet |]. intros ls.
      destruct (label_in "공모" ls || label_in "사모" ls); [| apply quiet_ret].
      apply quiet_bind; [apply quiet_ask |]. intros shown.
      destruct shown; [apply quiet_ask | apply quiet_ret].
    + intros [[|] | e]; [apply quiet_ret | exact IH | exact IH].
Qed.

Lemma public_private_target_sound : forall radios (s : session W) r s' t,
  public_private_target radios s = (Val (Some r), s', t) ->
  In r radios
  /\ observe (IsDisplayed r) (world s) = Val true
  /\ observe (IsEnabled r) (world s) = Val true.
Proof.
  induction radios as [| radio rest IH]; intros s r s' t Hrun;
    cbn [public_private_target] in Hrun.
  - apply ret_inv in Hrun. destruct Hrun as (Hr & _). discriminate.
  - apply bind_inv_val in Hrun.
    destruct Hrun as (o & s1 & t1 & t2 & Hbody & Hrun & _).
    apply attempt_inv in Hbody. destruct Hbody as (r0 & Hr0 & Hbody).
    injection Hr0 as ->.
    assert (Hs1 : s1 = s).
    { eapply quiet_inv in Hbody; [apply Hbody |].
      apply quiet_bind; [apply sibling_labels_of_quiet |]. intros ls.
      destruct (label_in "공모" ls || label_in "사모" ls); [| apply quiet_ret].
      apply quiet_bind; [apply quiet_ask |]. intros shown.
      destruct shown; [apply quiet_ask | apply quiet_ret]. }
    subst s1.
    assert (Hnext : forall s'' t'',
               public_private_target rest s = (Val (Some r), s'', t'') ->
               In r (radio :: rest)
               /\ observe (IsDisplayed r) (world s) = Val true
               /\ observe (IsEnabled r) (world s) = Val true).
    { intros s'' t'' Hn. destruct (IH _ _ _ _ Hn) as (? & ? & ?).
      split; [right |]; auto. }
    destruct r0 as [[|] | e]; [| eapply Hnext, Hrun | eapply Hnext, Hrun].
    apply ret_inv in Hrun. destruct Hrun as (Hr & _). injection Hr as ->.
    split; [left; reflexivity |].
    apply bind_inv_val in Hbody.
    destruct Hbody as (ls & s2 & t3 & t4 & Hls & Hbody & _).
    destruct (quiet_inv _ _ _ _ _ (sibling_labels_of_quiet radio) Hls)
      as (-> & _).
    destruct (label_in "공모" ls || label_in "사모" ls).
    + apply bind_inv_val in Hbody.
      destruct Hbody as (shown & s3 & t5 & t6 & Hask & Hbody & _).
      unfold ask in Hask. injection Hask as Hobs <- _.
      destruct shown.
      * unfold ask in Hbody. injection Hbody as Hen. auto.
      * apply ret_inv in Hbody. destruct Hbody as (Hr & _). discriminate.
    + apply ret_inv in Hbody. destruct Hbody as (Hr & _). discriminate.
Qed.

End Quiet.

Section RadioClaims.
Context {W : Type} `{Driver W}.

(** C7 (as amended). The click target of the region group is always one of
    the candidates that is displayed at that moment (whether it is enabled is
    not looked at); the click target of the public/private group is always a
    candidate that is displayed and enabled.  Choosing either target only
    observes the page. *)
Theorem C7_radio_targets :
  forall (region_korean : string) (radios : list elem) (s s' : session W)
         (t : list event) (target : elem),
    (region_target region_korean radios s = (Val target, s', t) ->
     s' = s /\ t = [] /\ In target radios
     /\ observe (IsDisplayed target) (world s) = Val true)
    /\ (public_private_target radios s = (Val (Some target), s', t) ->
        s' = s /\ t = [] /\ In target radios
        /\ observe (IsDisplayed target) (world s) = Val true
        /\ observe (IsEnabled target) (world s) = Val true).
Proof.
  intros region_korean radios s s' t target. split; intros Hrun.
  - apply region_target_sound in Hrun. exact Hrun.
  - destruct (quiet_inv _ _ _ _ _ (public_private_target_quiet radios) Hrun)
      as (-> & ->).
    apply public_private_target_sound in Hrun. tauto.
Qed.

End RadioClaims.

(** C7 on the site with hidden duplicates: the hidden twin is passed over
    in both groups. *)
Lemma C7_radio_targets_witness :
  (In Fixture.region_all RadioPages.all_labelled
   /\ observe (IsDisplayed Fixture.region_all) RadioPages.hidden_twins
      = Val true)
  /\ (In Fixture.scope_all RadioPages.all_labelled
      /\ observe (IsDisplayed Fixture.scope_all) RadioPages.hidden_twins
         = Val true
      /\ observe (IsEnabled Fixture.scope_all) RadioPages.hidden_twins
         = Val true).
Proof.
  split.
  - apply (proj1 (C7_radio_targets "전체" RadioPages.all_labelled
                    (Fixture.start RadioPages.hidden_twins)
                    (Fixture.start RadioPages.hidden_twins) []
                    Fixture.region_all)).
    vm_compute. reflexivity.
  - apply (proj2 (C7_radio_targets "전체" RadioPages.all_labelled
                    (Fixture.start RadioPages.hidden_twins)
                    (Fixture.start RadioPages.hidden_twins) []
                    Fixture.scope_all)).
    vm_compute. reflexivity.
Defined.

(** C7, as stated, fails: a region control that is shown but disabled is
    taken as the click target and clicked. *)
Lemma C7_counterexample :
  observe (FindElements None (radios_labelled "전체")) RadioPages.greyed_region
  = Val RadioPages.all_labelled
  /\ fst (fst (region_target "전체" RadioPages.all_labelled
                 (Fixture.start RadioPages.greyed_region)))
     = Val Fixture.region_all
  /\ observe (IsEnabled Fixture.region_all) RadioPages.greyed_region
     = Val false
  /\ hd_error (clicks (snd (select_region "x" "전체"
                              (Fixture.start RadioPages.greyed_region))))
     = Some Fixture.region_all.
Proof. vm_compute. repeat split. Qed.

(** The periodicity step asks no candidate whether it is displayed: with a
    hidden duplicate '월간' ahead of the real one, the hidden one is
    clicked. *)
Example periodicity_clicks_hidden_twin :
  observe (IsDisplayed Fixture.monthly_twin) RadioPages.hidden_twins
  = Val false
  /\ clicks (snd (select_monthly "x" (Fixture.start RadioPages.hidden_twins)))
     = [Fixture.monthly_twin].
Proof. vm_compute. repeat split. Qed.

(* ===================================================================== *)
(** * The per-dataset retry loop *)
(* ===================================================================== *)

Section Totality.
Context {W : Type} `{Driver W}.

Lemma total_ret {A} (a : A) : total (ret (W := W) a).
Proof. intros s. do 3 eexists. reflexivity. Qed.

Lemma total_bind {A B} (c : M W A) (k : A -> M W B) :
  total c -> (forall a, total (k a)) -> total (bind c k).
Proof.
  intros Hc Hk s. destruct (Hc s) as (a & s1 & t1 & Hrun).
  destruct (Hk a s1) as (b & s2 & t2 & Hrun2).
  exists b, s2, (t1 ++ t2). eapply bind_val; eassumption.
Qed.

Lemma total_attempt {A} (c : M W A) : total (attempt c).
Proof.
  intros s. unfold attempt. destruct (c s) as [[r s1] t1].
  do 3 eexists. reflexivity.
Qed.

Lemma total_swallow (c : M W unit) : total (swallow c).
Proof.
  unfold swallow. apply total_bind; [apply total_attempt |].
  intros r. apply total_ret.
Qed.

Lemma total_log l m : total (log (W := W) l m).
Proof. intros s. do 3 eexists. reflexivity. Qed.

Lemma total_sleep ms : total (sleep (W := W) ms).
Proof.
  intros s. unfold sleep. destruct (perform (Sleep ms) (world s)) as [r w'].
  do 3 eexists. reflexivity.
Qed.

Lemma total_random lo hi : total (random_uniform (W := W) lo hi).
Proof.
  intros s. unfold random_uniform.
  destruct (perform (RandomUniform lo hi) (world s)) as [r w'].
  do 3 eexists. reflexivity.
Qed.

Lemma total_capture_screenshot n : total (capture_screenshot (W := W) n).
Proof. apply total_swallow. Qed.

Lemma on_selenium_error_total config k :
  total (on_selenium_error (W := W) config k).
Proof.
  unfold on_selenium_error.
  apply total_bind; [apply total_log |]. intros _.
  apply total_bind; [apply total_capture_screenshot |]. intros _.
  destruct (k <? MAX_RETRIES - 1)%nat.
  - apply total_bind; [apply total_log |]. intros _.
    apply total_bind; [apply total_random |]. intros jitter.
    apply total_sleep.
  - apply total_log.
Qed.

Lemma on_unexpected_error_total config :
  total (on_unexpected_error (W := W) config).
Proof.
  unfold on_unexpected_error.
  apply total_bind; [apply total_log |]. intros _.
  apply total_capture_screenshot.
Qed.

(** One turn of the loop, by the outcome of its attempt. *)
Lemma download_attempts_success n k config (s : session W) s1 t1 :
  download_attempt config k s = (Val tt, s1, t1) ->
  download_attempts (S n) k config s = (Val true, s1, t1).
Proof.
  intros Hrun. cbn [download_attempts].
  eapply bind_val_eq; [apply attempt_run, Hrun | | reflexivity].
  rewrite app_nil_r. reflexivity.
Qed.

Lemma download_attempts_retry n k config (s : session W) e s1 t1 s2 t2 r s3 t3 :
  download_attempt config k s = (Exc e, s1, t1) ->
  Exn.matches e retried_classes = true ->
  on_selenium_error config k s1 = (Val tt, s2, t2) ->
  download_attempts n (S k) config s2 = (r, s3, t3) ->
  download_attempts (S n) k config s = (r, s3, t1 ++ t2 ++ t3).
Proof.
  intros Hrun Hm Hh Hrest. cbn [download_attempts].
  eapply bind_val; [apply attempt_run, Hrun |]. cbn iota. rewrite Hm.
  eapply bind_val; eassumption.
Qed.

Lemma download_attempts_unexpected n k config (s : session W) e s1 t1 s2 t2 :
  download_attempt config k s = (Exc e, s1, t1) ->
  Exn.matches e retried_classes = false ->
  on_unexpected_error config s1 = (Val tt, s2, t2) ->
  download_attempts (S n) k config s = (Val false, s2, t1 ++ t2).
Proof.
  intros Hrun Hm Hh. cbn [download_attempts].
  eapply bind_val; [apply attempt_run, Hrun |]. cbn iota. rewrite Hm.
  eapply bind_val_eq; [exact Hh | | reflexivity].
  rewrite app_nil_r. reflexivity.
Qed.

Lemma download_attempts_contract config : forall n k (s : session W),
  (k + n = MAX_RETRIES)%nat -> (1 <= n)%nat ->
  exists b s' t m,
    download_attempts n k config s = (Val b, s', t)
    /\ acquire_contract config k s b m /\ (m <= n)%nat.
Proof.
  induction n as [| n IH]; intros k s Hsum Hn; [lia |].
  destruct (download_attempt config k s) as [[[[] | e] s1] t1] eqn:Hrun.
  - exists true, s1, t1, 1%nat. split; [| split; [| lia]].
    + apply download_attempts_success, Hrun.
    + eapply attempt_succeeds, Hrun.
  - destruct (Exn.matches e retried_classes) eqn:Hm.
    + destruct (on_selenium_error_total config k s1) as ([] & s2 & t2 & Hh).
      destruct n as [| n'].
      * exists false, s2, (t1 ++ t2 ++ []), 1%nat. split; [| split; [| lia]].
        -- eapply download_attempts_retry; [exact Hrun | exact Hm | exact Hh |].
           reflexivity.
        -- eapply attempts_exhausted; [exact Hrun | exact Hm | lia].
      * destruct (IH (S k) s2) as (b & s3 & t3 & m & Hrest & Hc & Hle);
          [lia | lia |].
        exists b, s3, (t1 ++ t2 ++ t3), (S m). split; [| split; [| lia]].
        -- eapply download_attempts_retry; eassumption.
        -- eapply attempt_retried; [exact Hrun | exact Hm | lia | exact Hh |].
           exact Hc.
    + destruct (on_unexpected_error_total config s1) as ([] & s2 & t2 & Hh).
      exists false, s2, (t1 ++ t2), 1%nat. split; [| split; [| lia]].
      * eapply download_attempts_unexpected; eassumption.
      * eapply attempt_fails_unexpectedly; eassumption.
Qed.

Lemma acquire_contract_positive config k (s : session W) b n :
  acquire_contract config k s b n -> (1 <= n)%nat.
Proof. induction 1; lia. Qed.

(** C1 (as amended). [download_dataset] always returns a boolean and never
    raises an [Exception] to its caller.  It makes at most [MAX_RETRIES]
    attempts: an attempt that returns ends the loop with [True]; an attempt
    that fails with one of the Selenium classes the first handler names is
    followed by another attempt while attempts remain, and by [False] when
    it was the last; an attempt that fails with any other exception ends
    the loop at once with [False], without a retry. *)
Theorem C1_download_dataset_contract :
  forall (config : dataset_config) (s : session W),
  exists (b : bool) (s' : session W) (t : list event) (n : nat),
    download_dataset config s = (Val b, s', t)
    /\ acquire_contract config 0 s b n
    /\ (1 <= n <= MAX_RETRIES)%nat.
Proof.
  intros config s.
  destruct (download_attempts_contract config MAX_RETRIES 0 s)
    as (b & s' & t & n & Hrun & Hc & Hle); [reflexivity | unfold MAX_RETRIES; lia |].
  exists b, s', (EvLog INFO ("--- Starting download for dataset: "
                             +++ name config +++ " ---") :: t), n.
  split; [| split; [exact Hc |]].
  - unfold download_dataset. eapply bind_val_eq; [reflexivity | | exact Hrun].
    reflexivity.
  - split; [| exact Hle]. eapply acquire_contract_positive, Hc.
Qed.

(** The contract leaves no choice: result and number of attempts are
    determined by the session. *)
Lemma acquire_contract_functional config : forall k (s : session W) b n,
  acquire_contract config k s b n ->
  forall b' n', acquire_contract config k s b' n' -> b' = b /\ n' = n.
Proof.
  induction 1 as [k s s1 t Hrun | k s e s1 t Hrun Hm | k s e s1 t Hrun Hm Hk
                  | k s e s1 t s2 t2 b n Hrun Hm Hk Hh Hc IH];
    intros b' n' Hc'; inversion Hc'; subst;
    try (rewrite Hrun in *; congruence);
    try match goal with
        | Hx : download_attempt config k s = _ |- _ =>
            rewrite Hrun in Hx; injection Hx as <- <- <-
        end;
    try congruence; try lia; auto.
  match goal with
  | Hx : on_selenium_error config k s1 = _ |- _ =>
      rewrite Hh in Hx; injection Hx as <- <-
  end.
  match goal with
  | Hx : acquire_contract config (S k) s2 _ _ |- _ =>
      destruct (IH _ _ Hx) as (-> & ->)
  end.
  auto.
Qed.

(** Two failures of a retried class, then success: [True], after three
    attempts. *)
Lemma two_failures_then_success config (s : session W)
      e1 s1 t1 s1' t1' e2 s2 t2 s2' t2' s3 t3 :
  download_attempt config 0 s = (Exc e1, s1, t1) ->
  Exn.matches e1 retried_classes = true ->
  on_selenium_error config 0 s1 = (Val tt, s1', t1') ->
  download_attempt config 1 s1' = (Exc e2, s2, t2) ->
  Exn.matches e2 retried_classes = true ->
  on_selenium_error config 1 s2 = (Val tt, s2', t2') ->
  download_attempt config 2 s2' = (Val tt, s3, t3) ->
  fst (fst (download_dataset config s)) = Val true
  /\ acquire_contract config 0 s true 3.
Proof.
  intros H1 M1 R1 H2 M2 R2 H3. split.
  - unfold download_dataset, MAX_RETRIES.
    erewrite bind_val; [| reflexivity |].
    2:{ eapply download_attempts_retry; [exact H1 | exact M1 | exact R1 |].
        eapply download_attempts_retry; [exact H2 | exact M2 | exact R2 |].
        eapply download_attempts_success, H3. }
    reflexivity.
  - eapply attempt_retried; [exact H1 | exact M1 | unfold MAX_RETRIES; lia | exact R1 |].
    eapply attempt_retried; [exact H2 | exact M2 | unfold MAX_RETRIES; lia | exact R2 |].
    eapply attempt_succeeds, H3.
Qed.

End Totality.

(** On a site whose search button is invisible during the first two
    attempts, the third attempt succeeds. *)
Example retry_two_outages :
  match download_dataset RetryPages.equity
          (Fixture.start RetryPages.two_outages) with
  | (r, s', t) =>
      r = Val true
      /\ recorded_attempts RetryPages.equity t = [1; 2; 3]%nat
      /\ downloaded_files s' = ["downloads/Equity.xls"]
  end.
Proof. vm_compute. repeat split. Qed.

(** On a site whose search button never shows, the attempts are used up. *)
Example retry_exhausted :
  match download_dataset RetryPages.equity
          (Fixture.start RetryPages.lasting_outage) with
  | (r, s', t) =>
      r = Val false
      /\ recorded_attempts RetryPages.equity t = [1; 2; 3]%nat
      /\ downloaded_files s' = []
  end.
Proof. vm_compute. repeat split. Qed.

(** C1, as stated, fails: when the region radios are missing, the step
    raises a plain [Exception]; the second handler leaves the loop after
    this one attempt and the result is [False], although the very next
    attempt would have succeeded. *)
Lemma C1_counterexample :
  match fst (fst (download_attempt RetryPages.equity 0
                    (Fixture.start RetryPages.region_missing_once))) with
  | Val _ => False
  | Exc e =>
      Exn.cls_of e = Exn.Exception
      /\ Exn.matches e retried_classes = false
  end
  /\ match download_dataset RetryPages.equity
            (Fixture.start RetryPages.region_missing_once) with
     | (r, s', t) =>
         r = Val false
         /\ recorded_attempts RetryPages.equity t = [1]%nat
         /\ fst (fst (download_attempt RetryPages.equity 1 s')) = Val tt
     end.
Proof. vm_compute. repeat split. Qed.

(* ===================================================================== *)
(** * Parallel mode *)
(* ===================================================================== *)

Section Parallel.
Context {W : Type} `{Driver W}.

Lemma download_dataset_total config : total (download_dataset (W := W) config).
Proof.
  intros s.
  destruct (download_attempts_contract config MAX_RETRIES 0 s)
    as (b & s' & t & n & Hrun & _); [reflexivity | unfold MAX_RETRIES; lia |].
  exists b, s'. eexists. unfold download_dataset.
  eapply bind_val; [reflexivity | exact Hrun].
Qed.

Lemma batch_loop_returns : forall batch results (s : session W),
  exists verdicts s' t,
    batch_loop batch results s = (Val (results ++ verdicts, None), s', t)
    /\ map snd verdicts = map name batch.
Proof.
  induction batch as [| c rest IH]; intros results s.
  - exists [], s, []. rewrite app_nil_r. split; reflexivity.
  - destruct (download_dataset_total c s) as (b & s1 & t1 & Hrun).
    destruct (IH (results ++ [(b, name c)]) s1) as (vs & s2 & t2 & Hrest & Hn).
    exists ((b, name c) :: vs), s2, (t1 ++ t2). split.
    + cbn [batch_loop]. eapply bind_val; [apply attempt_run, Hrun |].
      cbn iota. rewrite Hrest. rewrite <- app_assoc. reflexivity.
    + cbn [map snd]. rewrite Hn. reflexivity.
Qed.

Lemma existsb_name_in n (results : list (bool * string)) :
  existsb (fun r => String.eqb n (snd r)) results = true
  <-> In n (map snd results).
Proof.
  rewrite existsb_exists. split.
  - intros (r & Hin & Heq). apply String.eqb_eq in Heq. subst n.
    apply in_map, Hin.
  - intros Hin. apply in_map_iff in Hin. destruct Hin as (r & Heq & Hin).
    exists r. split; [exact Hin |]. apply String.eqb_eq. auto.
Qed.










End Parallel.

Section ParallelClaim.
Context {W : Type} `{Driver W}.



Ltac distinct_names :=
  cbn; repeat (constructor; [cbn; intuition discriminate |]); constructor.

Lemma batch_names_distinct :
  NoDup (map name (slice 0 4 DATASET_CONFIGS))
  /\ NoDup (map name (slice 4 8 DATASET_CONFIGS))
  /\ NoDup (map name (slice 8 11 DATASET_CONFIGS)).
Proof. repeat split; distinct_names. Qed.







End ParallelClaim.


(** The same run, computed: the one dataset that failed is tried again on
    tab 2, the first tab to finish alive, and succeeds there. *)
Example parallel_retry_on_first_live_tab :
  match run_parallel ParallelRuns.firefox ParallelRuns.healthy_tab
          ParallelRuns.stumbling_tab ParallelRuns.healthy_tab
          [2; 1; 3]%nat with
  | Val report =>
      failures (all_results report) = [(false, "RawDataHybridBond")]
      /\ active_tabs report = [2; 1; 3]%nat
      /\ retry_tab report = Some 2%nat
      /\ retry_results report = [(true, "RawDataHybridBond")]
      /\ final_tally report = Some (11, 0)%nat
  | Exc _ => False
  end.
Proof. vm_compute. repeat split. Qed.


(** The same happens with the configuration as shipped, on any site: no
    tab can construct its scraper. *)
Example parallel_shipped_no_retry :
  match run_parallel shipped ParallelRuns.healthy_tab
          ParallelRuns.healthy_tab ParallelRuns.healthy_tab
          [3; 1; 2]%nat with
  | Val report =>
      length (failed_datasets report) = 11%nat
      /\ active_tabs report = []
      /\ retry_tab report = None
      /\ final_tally report = None
  | Exc _ => False
  end.
Proof. vm_compute. repeat split. Qed.

(* ===================================================================== *)
(** * Sequential acquisition *)
(* ===================================================================== *)

Lemma renamed_app t1 t2 : renamed (t1 ++ t2) = renamed t1 ++ renamed t2.
Proof. unfold renamed. apply flat_map_app. Qed.

Lemma no_rename_renamed t : forallb no_rename t = true -> renamed t = [].
Proof.
  unfold renamed. induction t as [| ev t IH]; [reflexivity |].
  cbn [forallb flat_map]. intros Hall. apply andb_prop in Hall.
  destruct Hall as (Hev & Hall). rewrite (IH Hall), app_nil_r.
  destruct ev as [A a r | l m]; [| reflexivity].
  cbn [no_rename] in Hev. destruct (renamed_by a r); [reflexivity | discriminate].
Qed.

Create HintDb no_rename.

Section Sequencing.
Context {W : Type} `{Driver W}.

Lemma emits_weaken {A} (P Q : event -> bool) (c : M W A) :
  (forall ev, P ev = true -> Q ev = true) -> emits P c -> emits Q c.
Proof.
  intros HPQ Hc s r s' t Hrun. specialize (Hc _ _ _ _ Hrun).
  rewrite forallb_forall in *. auto.
Qed.

Lemma quiet_emits {A} P (c : M W A) : quiet c -> emits P c.
Proof.
  intros Hc s r s' t Hrun. destruct (quiet_inv _ _ _ _ _ Hc Hrun) as (_ & ->).
  reflexivity.
Qed.

Local Ltac nr :=
  repeat first
    [ progress cbv zeta
    | emits_step
    | assumption
    | match goal with IH : forall _, emits _ _ |- _ => apply IH end
    | match goal with IH : forall _ _, emits _ _ |- _ => apply IH end
    | solve [eauto with no_rename] ].

Lemma capture_screenshot_nr n : emits (W := W) no_rename (capture_screenshot n).
Proof. unfold capture_screenshot. nr. Qed.
#[local] Hint Resolve capture_screenshot_nr : no_rename.

Lemma ensure_main_frame_nr : emits (W := W) no_rename ensure_main_frame.
Proof. unfold ensure_main_frame. nr. Qed.
#[local] Hint Resolve ensure_main_frame_nr : no_rename.

Lemma try_locators_nr ctx timeout : forall locs,
  emits (W := W) no_rename (try_locators ctx timeout locs).
Proof. induction locs as [| [b l] rest IH]; cbn [try_locators]; nr. Qed.
#[local] Hint Resolve try_locators_nr : no_rename.

Lemma find_element_passes_nr locs timeout sn ctx : forall n a,
  emits (W := W) no_rename (find_element_passes n a locs timeout sn ctx).
Proof. induction n as [| n IH]; intros a; cbn [find_element_passes]; nr. Qed.
#[local] Hint Resolve find_element_passes_nr : no_rename.

Lemma find_element_safely_elem_nr locs timeout sn ctx :
  emits (W := W) no_rename (find_element_safely_elem locs timeout sn ctx).
Proof. unfold find_element_safely_elem, find_element_safely. nr. Qed.
#[local] Hint Resolve find_element_safely_elem_nr : no_rename.

Lemma sample_sizes_nr p : forall n cur,
  emits (W := W) no_rename (sample_sizes n p cur).
Proof. induction n as [| n IH]; intros cur; cbn [sample_sizes]; nr. Qed.
#[local] Hint Resolve sample_sizes_nr : no_rename.

Lemma scan_new_files_nr : forall files,
  emits (W := W) no_rename (scan_new_files files).
Proof. induction files as [| f rest IH]; cbn [scan_new_files]; nr. Qed.
#[local] Hint Resolve scan_new_files_nr : no_rename.

Lemma poll_downloads_nr start timeout init : forall fuel,
  emits (W := W) no_rename (poll_downloads fuel start timeout init).
Proof. induction fuel as [| n IH]; cbn [poll_downloads]; nr. Qed.
#[local] Hint Resolve poll_downloads_nr : no_rename.

Lemma wait_for_download_completion_nr init timeout :
  emits (W := W) no_rename (wait_for_download_completion init timeout).
Proof. unfold wait_for_download_completion. nr. Qed.
#[local] Hint Resolve wait_for_download_completion_nr : no_rename.

Lemma first_displayed_nr : forall buttons,
  emits (W := W) no_rename (first_displayed buttons).
Proof. induction buttons as [| b rest IH]; cbn [first_displayed]; nr. Qed.
#[local] Hint Resolve first_displayed_nr : no_rename.

Lemma find_visible_nr : forall locs,
  emits (W := W) no_rename (find_visible locs).
Proof. induction locs as [| l rest IH]; cbn [find_visible]; nr. Qed.
#[local] Hint Resolve find_visible_nr : no_rename.

Lemma locate_dropdown_button_nr locs prefix :
  emits (W := W) no_rename (locate_dropdown_button locs prefix).
Proof. unfold locate_dropdown_button. nr. Qed.
#[local] Hint Resolve locate_dropdown_button_nr : no_rename.

Lemma read_current_value_nr btn :
  emits (W := W) no_rename (read_current_value btn).
Proof. unfold read_current_value. nr. Qed.
#[local] Hint Resolve read_current_value_nr : no_rename.

Lemma dropdown_already_set_nr btn text :
  emits (W := W) no_rename (dropdown_already_set btn text).
Proof. unfold dropdown_already_set. nr. Qed.
#[local] Hint Resolve dropdown_already_set_nr : no_rename.

Lemma try_open_nr btn : forall methods,
  emits (W := W) no_rename (try_open methods btn).
Proof. induction methods as [| m rest IH]; cbn [try_open]; nr. Qed.
#[local] Hint Resolve try_open_nr : no_rename.

Lemma locate_listbox_nr prefix :
  emits (W := W) no_rename (locate_listbox prefix).
Proof. unfold locate_listbox. nr. Qed.
#[local] Hint Resolve locate_listbox_nr : no_rename.

Lemma find_option_nr lb : forall xpaths,
  emits (W := W) no_rename (find_option lb xpaths).
Proof. induction xpaths as [| x rest IH]; cbn [find_option]; nr. Qed.
#[local] Hint Resolve find_option_nr : no_rename.

Lemma scroll_loop_nr lb xpaths : forall n k,
  emits (W := W) no_rename (scroll_loop n k lb xpaths).
Proof. induction n as [| n IH]; intros k; cbn [scroll_loop]; nr. Qed.
#[local] Hint Resolve scroll_loop_nr : no_rename.

Lemma scroll_search_nr lb xpaths w :
  emits (W := W) no_rename (scroll_search lb xpaths w).
Proof. unfold scroll_search. nr. Qed.
#[local] Hint Resolve scroll_search_nr : no_rename.

Lemma dropdown_interact_nr btn text prefix :
  emits (W := W) no_rename (dropdown_interact btn text prefix).
Proof. unfold dropdown_interact. nr. Qed.
#[local] Hint Resolve dropdown_interact_nr : no_rename.

Lemma dropdown_verify_nr btn text retry max_retries :
  emits (W := W) no_rename (dropdown_verify btn text retry max_retries).
Proof. unfold dropdown_verify. nr. Qed.
#[local] Hint Resolve dropdown_verify_nr : no_rename.

Lemma dropdown_try_body_nr locs text prefix retry max_retries :
  emits (W := W) no_rename
    (dropdown_try_body locs text prefix retry max_retries).
Proof. unfold dropdown_try_body. nr. Qed.
#[local] Hint Resolve dropdown_try_body_nr : no_rename.

Lemma dropdown_retries_nr locs text prefix max_retries : forall n retry,
  emits (W := W) no_rename
    (dropdown_retries n retry locs text prefix max_retries).
Proof. induction n as [| n IH]; intros retry; cbn [dropdown_retries]; nr. Qed.
#[local] Hint Resolve dropdown_retries_nr : no_rename.

Lemma select_from_custom_dropdown_nr locs text prefix max_retries :
  emits (W := W) no_rename
    (_select_from_custom_dropdown locs text prefix max_retries).
Proof. unfold _select_from_custom_dropdown. nr. Qed.
#[local] Hint Resolve select_from_custom_dropdown_nr : no_rename.

Lemma sibling_labels_of_nr radio :
  emits (W := W) no_rename (sibling_labels_of radio).
Proof. apply quiet_emits, sibling_labels_of_quiet. Qed.
#[local] Hint Resolve sibling_labels_of_nr : no_rename.

Lemma displayed_only_nr radios :
  emits (W := W) no_rename (displayed_only radios).
Proof. apply quiet_emits, displayed_only_quiet. Qed.
#[local] Hint Resolve displayed_only_nr : no_rename.

Lemma region_target_nr k radios :
  emits (W := W) no_rename (region_target k radios).
Proof.
  unfold region_target. nr. apply quiet_emits, region_candidate_quiet.
Qed.
#[local] Hint Resolve region_target_nr : no_rename.

Lemma public_private_target_nr radios :
  emits (W := W) no_rename (public_private_target radios).
Proof. apply quiet_emits, public_private_target_quiet. Qed.
#[local] Hint Resolve public_private_target_nr : no_rename.

Lemma monthly_candidate_nr : forall radios,
  emits (W := W) no_rename (monthly_candidate radios).
Proof. induction radios as [| r rest IH]; cbn [monthly_candidate]; nr. Qed.
#[local] Hint Resolve monthly_candidate_nr : no_rename.

Lemma monthly_target_nr first radios :
  emits (W := W) no_rename (monthly_target first radios).
Proof. unfold monthly_target. nr. Qed.
#[local] Hint Resolve monthly_target_nr : no_rename.

Lemma dismiss_lingering_alert_nr :
  emits (W := W) no_rename dismiss_lingering_alert.
Proof. unfold dismiss_lingering_alert. nr. Qed.
#[local] Hint Resolve dismiss_lingering_alert_nr : no_rename.

Lemma select_period_nr n y : emits (W := W) no_rename (select_period n y).
Proof. unfold select_period. nr. Qed.
#[local] Hint Resolve select_period_nr : no_rename.

Lemma stripped_texts_nr : forall options,
  emits (W := W) no_rename (stripped_texts options).
Proof. induction options as [| o rest IH]; cbn [stripped_texts]; nr. Qed.
#[local] Hint Resolve stripped_texts_nr : no_rename.

Lemma check_fund_type_options_nr d c :
  emits (W := W) no_rename (check_fund_type_options d c).
Proof. unfold check_fund_type_options. nr. Qed.
#[local] Hint Resolve check_fund_type_options_nr : no_rename.

Lemma identify_fund_type_dropdown_nr : forall ds c,
  emits (W := W) no_rename (identify_fund_type_dropdown ds c).
Proof.
  induction ds as [| d rest IH]; intros c;
    cbn [identify_fund_type_dropdown]; nr.
Qed.
#[local] Hint Resolve identify_fund_type_dropdown_nr : no_rename.

Lemma select_fund_type_nr n k : emits (W := W) no_rename (select_fund_type n k).
Proof. unfold select_fund_type. nr. Qed.
#[local] Hint Resolve select_fund_type_nr : no_rename.

Lemma wait_form_ready_nr k : forall n,
  emits (W := W) no_rename (wait_form_ready n k).
Proof. induction n as [| n IH]; cbn [wait_form_ready]; nr. Qed.
#[local] Hint Resolve wait_form_ready_nr : no_rename.

Lemma click_and_check_nr click target :
  emits (W := W) no_rename click ->
  emits (W := W) no_rename (click_and_check click target).
Proof. intros Hc. unfold click_and_check. nr. Qed.

Lemma select_region_nr n k : emits (W := W) no_rename (select_region n k).
Proof.
  unfold select_region. nr; apply click_and_check_nr; nr.
Qed.
#[local] Hint Resolve select_region_nr : no_rename.

Lemma select_fund_category_nr n :
  emits (W := W) no_rename (select_fund_category n).
Proof. unfold select_fund_category. nr. Qed.
#[local] Hint Resolve select_fund_category_nr : no_rename.

Lemma dump_page_source_nr p : emits (W := W) no_rename (dump_page_source p).
Proof. unfold dump_page_source. nr. Qed.
#[local] Hint Resolve dump_page_source_nr : no_rename.

Lemma select_public_private_nr n :
  emits (W := W) no_rename (select_public_private n).
Proof. unfold select_public_private. nr. Qed.
#[local] Hint Resolve select_public_private_nr : no_rename.

Lemma select_monthly_nr n : emits (W := W) no_rename (select_monthly n).
Proof. unfold select_monthly. nr. Qed.
#[local] Hint Resolve select_monthly_nr : no_rename.

Lemma first_displayed_probing_nr probe : forall buttons,
  emits (W := W) no_rename (first_displayed_probing probe buttons).
Proof.
  induction buttons as [| b rest IH]; cbn [first_displayed_probing]; nr.
Qed.
#[local] Hint Resolve first_displayed_probing_nr : no_rename.

Lemma find_visible_probing_nr probe : forall locs,
  emits (W := W) no_rename (find_visible_probing probe locs).
Proof. induction locs as [| l rest IH]; cbn [find_visible_probing]; nr. Qed.
#[local] Hint Resolve find_visible_probing_nr : no_rename.

Lemma scroll_until_visible_nr b :
  emits (W := W) no_rename (scroll_until_visible b).
Proof. unfold scroll_until_visible. nr. Qed.
#[local] Hint Resolve scroll_until_visible_nr : no_rename.

Lemma click_search_nr n : emits (W := W) no_rename (click_search n).
Proof. unfold click_search. nr. Qed.
#[local] Hint Resolve click_search_nr : no_rename.

Lemma has_row_count_text_nr : forall es,
  emits (W := W) no_rename (has_row_count_text es).
Proof. induction es as [| e rest IH]; cbn [has_row_count_text]; nr. Qed.
#[local] Hint Resolve has_row_count_text_nr : no_rename.

Lemma wait_results_nr : forall n, emits (W := W) no_rename (wait_results n).
Proof. induction n as [| n IH]; cbn [wait_results]; nr. Qed.
#[local] Hint Resolve wait_results_nr : no_rename.

Lemma verify_results_nr n : emits (W := W) no_rename (verify_results n).
Proof. unfold verify_results. nr. Qed.
#[local] Hint Resolve verify_results_nr : no_rename.

Lemma click_excel_nr n : emits (W := W) no_rename (click_excel n).
Proof. unfold click_excel. nr. Qed.
#[local] Hint Resolve click_excel_nr : no_rename.

Lemma on_selenium_error_nr c k :
  emits (W := W) no_rename (on_selenium_error c k).
Proof. unfold on_selenium_error. nr. Qed.
#[local] Hint Resolve on_selenium_error_nr : no_rename.

Lemma on_unexpected_error_nr c :
  emits (W := W) no_rename (on_unexpected_error c).
Proof. unfold on_unexpected_error. nr. Qed.
#[local] Hint Resolve on_unexpected_error_nr : no_rename.


Lemma acquired_after_prefix searched config t1 t2 :
  renamed t1 = [] ->
  acquired_after (W := W) searched config t2 ->
  acquired_after (W := W) searched config (t1 ++ t2).
Proof.
  intros Hnr (pre & src & post & -> & Hsearch & Hdet & Hpre & Hpost).
  exists (t1 ++ pre), src, post. rewrite <- app_assoc.
  split; [reflexivity |]. split; [| split; [| split]].
  - intros Hs. apply in_or_app. right. apply Hsearch, Hs.
  - destruct Hdet as (init & s0 & s1 & before & during & after & -> & Hw).
    exists init, s0, s1, (t1 ++ before), during, after.
    rewrite <- app_assoc. split; [reflexivity | exact Hw].
  - rewrite renamed_app, Hnr, Hpre. reflexivity.
  - exact Hpost.
Qed.

Lemma part_trace_prefix searched config {A} (r : result A) t1 t2 :
  renamed t1 = [] ->
  part_trace searched config r t2 ->
  part_trace searched config r (t1 ++ t2).
Proof.
  intros Hnr. destruct r as [a | e]; cbn [part_trace].
  - apply acquired_after_prefix, Hnr.
  - intros Ht2. rewrite renamed_app, Hnr, Ht2. reflexivity.
Qed.

(** A step that renames nothing, before the rest of the attempt. *)
Lemma holds_bind searched config {A B} (c : M W A) (k : A -> M W B) :
  emits no_rename c ->
  (forall a, holds (part_trace searched config) (k a)) ->
  holds (part_trace searched config) (bind c k).
Proof.
  intros Hc Hk s r s' t Hrun. apply bind_inv in Hrun.
  destruct Hrun as [(a & s1 & t1 & t2 & Hc1 & Hk1 & ->) | (e & Hc1 & ->)].
  - apply part_trace_prefix.
    + apply no_rename_renamed. exact (Hc _ _ _ _ Hc1).
    + exact (Hk _ _ _ _ _ Hk1).
  - cbn [part_trace]. apply no_rename_renamed. exact (Hc _ _ _ _ Hc1).
Qed.

Lemma search_seen searched config {A} (r : result A) t :
  part_trace true config r t ->
  part_trace searched config r (search_step :: t).
Proof.
  destruct r as [a | e]; cbn [part_trace].
  - intros (pre & src & post & -> & _ & Hdet & Hpre & Hpost).
    exists (search_step :: pre), src, post.
    split; [reflexivity |]. split; [| split; [| split]].
    + intros _. left. reflexivity.
    + destruct Hdet as (init & s0 & s1 & before & during & after & -> & Hw).
      exists init, s0, s1, (search_step :: before), during, after.
      split; [reflexivity | exact Hw].
    + exact Hpre.
    + exact Hpost.
  - intros Ht. exact Ht.
Qed.

(** ** The end of an attempt *)

Lemma settle_after_download_total p :
  total (settle_after_download (W := W) p).
Proof.
  unfold settle_after_download.
  apply total_bind; [intros s; do 3 eexists; reflexivity |]. intros _.
  apply total_bind; [apply total_log |]. intros _.
  apply total_bind; [apply total_sleep |]. intros _.
  apply total_bind; [apply total_swallow |]. intros _.
  apply total_bind; [apply total_swallow |]. intros _.
  apply total_sleep.
Qed.

Lemma settle_after_download_settling p :
  emits (W := W) settling (settle_after_download p).
Proof. unfold settle_after_download. emits_auto. Qed.

(** From the rename on: either the rename raises, and nothing was renamed,
    or it returns and only settling follows. *)
Lemma rename_and_settle src dst (s : session W) r s' t :
  (act (Rename src dst) ;; settle_after_download dst) s = (r, s', t) ->
  match r with
  | Val _ =>
      exists post,
        t = EvAct (Rename src dst) (Val tt) :: post
        /\ forallb settling post = true
  | Exc _ => renamed t = []
  end.
Proof.
  intros Hrun. apply bind_inv in Hrun.
  destruct Hrun as [(u & s1 & t1 & t2 & Hact & Hset & ->) | (e & Hact & ->)].
  - apply act_inv in Hact. destruct Hact as (-> & _). destruct u.
    destruct (settle_after_download_total dst s1) as (u & s2 & t3 & Htot).
    rewrite Htot in Hset. injection Hset as <- <- <-.
    exists t3. split; [reflexivity |].
    exact (settle_after_download_settling dst _ _ _ _ Htot).
  - apply act_inv in Hact. destruct Hact as (-> & _). reflexivity.
Qed.

Lemma collect_download_holds config initial_files :
  holds (part_trace true config)
    (collect_download (name config) (output_name config) initial_files).
Proof.
  intros s r s' t Hrun. unfold collect_download in Hrun.
  apply bind_inv in Hrun.
  destruct Hrun as [(src & s1 & t1 & t2 & Hwait & Hrun & ->) | (e & Hwait & ->)].
  2:{ cbn [part_trace]. apply no_rename_renamed.
      exact (wait_for_download_completion_nr _ _ _ _ _ _ Hwait). }
  pose proof (no_rename_renamed _
                (wait_for_download_completion_nr _ _ _ _ _ _ Hwait)) as Hn1.
  apply bind_inv in Hrun.
  destruct Hrun as [(u & s2 & t3 & t4 & Hshot & Hrun & ->) | (e & Hshot & ->)].
  2:{ cbn [part_trace]. rewrite renamed_app, Hn1.
      apply no_rename_renamed. exact (capture_screenshot_nr _ _ _ _ _ Hshot). }
  pose proof (no_rename_renamed _ (capture_screenshot_nr _ _ _ _ _ Hshot))
    as Hn3.
  destruct (Py.truthy (Some src)).
  2:{ unfold raise in Hrun. injection Hrun as <- <- <-. cbn [part_trace].
      rewrite !renamed_app, Hn1, Hn3. reflexivity. }
  cbv zeta in Hrun. fold (out_path config) in Hrun.
  apply bind_inv in Hrun.
  destruct Hrun as [(stale & s3 & t5 & t6 & Hex & Hrun & ->) | (e & Hex & ->)].
  2:{ cbn [part_trace]. rewrite !renamed_app, Hn1, Hn3.
      apply no_rename_renamed.
      eapply (emits_path_exists no_rename); [| exact Hex]. reflexivity. }
  assert (Hn5 : renamed t5 = []).
  { apply no_rename_renamed.
    eapply (emits_path_exists no_rename); [| exact Hex]. reflexivity. }
  apply bind_inv in Hrun.
  destruct Hrun as [(u' & s4 & t7 & t8 & Hrm & Hrun & ->) | (e & Hrm & ->)].
  2:{ cbn [part_trace]. rewrite !renamed_app, Hn1, Hn3, Hn5.
      apply no_rename_renamed.
      assert (Hrm' : emits (W := W) no_rename
                       (if stale then act (Remove (out_path config))
                        else ret tt)) by emits_auto.
      exact (Hrm' _ _ _ _ Hrm). }
  assert (Hn7 : renamed t7 = []).
  { apply no_rename_renamed.
    assert (Hrm' : emits (W := W) no_rename
                     (if stale then act (Remove (out_path config))
                      else ret tt)) by emits_auto.
    exact (Hrm' _ _ _ _ Hrm). }
  apply rename_and_settle in Hrun. destruct r as [v | e]; cbn [part_trace].
  - destruct Hrun as (post & -> & Hpost).
    exists (t1 ++ t3 ++ t5 ++ t7), src, post.
    split; [rewrite <- !app_assoc; reflexivity |].
    split; [discriminate |]. split; [| split; [| exact Hpost]].
    + exists initial_files, s, s1, [], t1, (t3 ++ t5 ++ t7).
      split; [reflexivity | exact Hwait].
    + rewrite !renamed_app, Hn1, Hn3, Hn5, Hn7. reflexivity.
  - rewrite !renamed_app, Hn1, Hn3, Hn5, Hn7, Hrun. reflexivity.
Qed.

(** ** One attempt *)

Lemma holds_click_search config n {B} (k : unit -> M W B) :
  (forall a, holds (part_trace true config) (k a)) ->
  holds (part_trace false config) (bind (click_search n) k).
Proof.
  intros Hk s r s' t Hrun. apply bind_inv in Hrun.
  destruct Hrun as [(u & s1 & t1 & t2 & Hc & Hk1 & ->) | (e & Hc & ->)].
  - pose proof (no_rename_renamed _ (click_search_nr _ _ _ _ _ Hc)) as Hn.
    unfold click_search in Hc. apply bind_inv_val in Hc.
    destruct Hc as (u0 & s0 & t0 & t1' & Hlog & _ & ->).
    apply log_inv in Hlog. destruct Hlog as (_ & _ & ->).
    cbn [app]. apply (search_seen false).
    apply part_trace_prefix; [| exact (Hk _ _ _ _ _ Hk1)].
    rewrite (renamed_app [_] t1') in Hn. exact Hn.
  - cbn [part_trace]. apply no_rename_renamed.
    exact (click_search_nr _ _ _ _ _ Hc).
Qed.

Local Ltac attempt_steps :=
  repeat match goal with
         | |- holds _ (bind ?c _) =>
             lazymatch c with
             | click_search _ => fail
             | _ => apply holds_bind; [solve [nr] | intro]
             end
         end.

Lemma download_attempt_holds config k :
  holds (part_trace false config) (download_attempt config k).
Proof.
  unfold download_attempt. cbv zeta. attempt_steps.
  apply holds_click_search. intro. attempt_steps.
  apply collect_download_holds.
Qed.

(** ** The retry loop and the controller *)

Lemma verdict_trace_prefix config ok t1 t2 :
  renamed t1 = [] ->
  verdict_trace (W := W) config ok t2 ->
  verdict_trace (W := W) config ok (t1 ++ t2).
Proof.
  intros Hn. destruct ok; cbn [verdict_trace].
  - apply acquired_after_prefix, Hn.
  - intros Ht2. rewrite renamed_app, Hn, Ht2. reflexivity.
Qed.

Lemma acquired_settled config t1 t2 :
  forallb settling t2 = true ->
  acquired (W := W) config t1 -> acquired (W := W) config (t1 ++ t2).
Proof.
  intros Hs (pre & src & post & -> & Hsearch & Hdet & Hpre & Hpost).
  exists pre, src, (post ++ t2). rewrite <- app_assoc.
  split; [reflexivity |]. repeat split; try assumption.
  rewrite forallb_app, Hpost, Hs. reflexivity.
Qed.

Lemma download_attempts_trace config : forall n k (s : session W) ok s' t,
  download_attempts n k config s = (Val ok, s', t) ->
  verdict_trace config ok t.
Proof.
  induction n as [| n IH]; intros k s ok s' t Hrun.
  - apply ret_inv in Hrun. destruct Hrun as (Hr & _ & ->).
    injection Hr as ->. reflexivity.
  - cbn [download_attempts] in Hrun. apply bind_inv_val in Hrun.
    destruct Hrun as (r0 & s1 & t1 & t2 & Hatt & Hrun & ->).
    apply attempt_inv in Hatt. destruct Hatt as (r & Hr & Hatt).
    injection Hr as ->.
    pose proof (download_attempt_holds config k _ _ _ _ Hatt) as Hpart.
    destruct r as [u | e]; cbn [part_trace] in Hpart.
    + apply ret_inv in Hrun. destruct Hrun as (Hr & _ & ->).
      injection Hr as ->. rewrite app_nil_r. exact Hpart.
    + apply verdict_trace_prefix; [exact Hpart |].
      destruct (Exn.matches e retried_classes).
      * apply bind_inv_val in Hrun.
        destruct Hrun as (u & s2 & t3 & t4 & Hh & Hrun & ->).
        apply verdict_trace_prefix.
        -- apply no_rename_renamed.
           exact (on_selenium_error_nr _ _ _ _ _ _ Hh).
        -- eapply IH, Hrun.
      * apply bind_inv_val in Hrun.
        destruct Hrun as (u & s2 & t3 & t4 & Hh & Hrun & ->).
        apply ret_inv in Hrun. destruct Hrun as (Hr & _ & ->).
        injection Hr as ->. cbn [verdict_trace]. rewrite app_nil_r.
        apply no_rename_renamed.
        exact (on_unexpected_error_nr _ _ _ _ _ Hh).
Qed.

Lemma download_dataset_trace config (s : session W) ok s' t :
  download_dataset config s = (Val ok, s', t) ->
  verdict_trace config ok t.
Proof.
  unfold download_dataset. intros Hrun. apply bind_inv_val in Hrun.
  destruct Hrun as (u & s1 & t1 & t2 & Hlog & Hrun & ->).
  apply log_inv in Hlog. destruct Hlog as (_ & _ & ->).
  apply verdict_trace_prefix; [reflexivity |].
  eapply download_attempts_trace, Hrun.
Qed.

(** A stretch that delivered its file holds exactly one rename. *)
Lemma acquired_renamed config t :
  acquired (W := W) config t ->
  exists src, renamed t = [(src, out_path config)].
Proof.
  intros (pre & src & post & -> & _ & _ & Hpre & Hpost).
  exists src. rewrite renamed_app, Hpre. cbn [app].
  change (renamed (EvAct (Rename src (out_path config)) (Val tt) :: post))
    with ((src, out_path config) :: renamed post).
  rewrite (no_rename_renamed post); [reflexivity |].
  rewrite forallb_forall in *. intros ev Hin. specialize (Hpost ev Hin).
  unfold settling in Hpost. apply andb_prop in Hpost. apply Hpost.
Qed.

End Sequencing.

Section SequentialClaim.
Context {W : Type} `{Driver W}.

(** C9 (as amended). Within one session the datasets are acquired strictly
    in turn: the dataset loop never raises, and its trace is the sequence
    of the datasets' own stretches, each the complete run of
    [download_dataset] from the session its predecessor left, so the search
    for dataset N+1 is triggered only after [download_dataset] has returned
    for dataset N.  When dataset N succeeded, its stretch enters the search
    step, has the detector return a file, renames that file to
    [{output_name}.xls] (the only rename of the stretch) and then only
    settles; when dataset N failed, its stretch renames nothing and the
    session moves on all the same. *)
Theorem C9_datasets_in_turn :
  forall (configs : list dataset_config) (success_count failure_count : nat)
         (s : session W),
  exists (counts : nat * nat) (s' : session W) (t : list event),
    run_datasets configs success_count failure_count s = (Val counts, s', t)
    /\ in_turn configs s t s'.
Proof.
  induction configs as [| config rest IH]; intros sc fc s.
  - exists (sc, fc), s, []. split; [reflexivity | constructor].
  - destruct (download_dataset_total config s) as (ok & s1 & t1 & Hrun).
    pose proof (download_dataset_trace _ _ _ _ _ Hrun) as Htrace.
    destruct (IH (if ok then S sc else sc) (if ok then fc else S fc) s1)
      as (counts & s' & t2 & Hrest & Hturn).
    exists counts, s'.
    destruct ok; (eexists; split;
      [ cbn [run_datasets]; eapply bind_val; [reflexivity |];
        eapply bind_val; [exact Hrun |];
        eapply bind_val; [reflexivity | exact Hrest]
      | cbn [app]; exact (turn_taken _ _ _ _ _ _ _ _ Hrun Htrace Hturn) ]).
Qed.

End SequentialClaim.

(** On the healthy site with the region radios missing once, the first
    dataset fails without ever reaching its search, and the second is
    searched, downloaded and renamed. *)
Example second_dataset_after_failed_first :
  match run_datasets TurnRuns.first_two 0 0
          (Fixture.start RetryPages.region_missing_once) with
  | (r, s', t) =>
      r = Val (1, 1)%nat
      /\ map snd (renamed t) = [out_path TurnRuns.domestic_equity]
      /\ search_steps t = 1%nat
      /\ search_steps (after_processing TurnRuns.domestic_equity t) = 1%nat
  end.
Proof. vm_compute. repeat split. Qed.

(** C9, as stated, fails: when the export of the first dataset never
    arrives, its three attempts each trigger the search and time out, no
    file is ever detected or renamed, and the search for the second dataset
    is triggered all the same. *)
Lemma C9_counterexample :
  match run_datasets TurnRuns.first_two 0 0
          (Fixture.start TurnRuns.no_download) with
  | (r, s', t) =>
      r = Val (0, 2)%nat
      /\ renamed t = []
      /\ downloaded_files s' = []
      /\ search_steps t = 6%nat
      /\ search_steps (after_processing TurnRuns.domestic_equity t) = 3%nat
  end.
Proof. vm_compute. repeat split. Qed.

(* ===================================================================== *)
(** * Further properties: dropdown, driver, frames, batches *)
(* ===================================================================== *)

Section MoreDropdown.
Context {W : Type} `{Driver W}.

(** [_select_from_custom_dropdown] returns [False] only when called with
    [max_retries = 0], and then it has not touched the page: with at least
    one retry allowed it returns [True] or raises. *)
Theorem dropdown_false_only_without_retries :
  forall (locs : list locator) (text prefix : string) (max_retries : nat)
         (s s' : session W) (t : list event),
    _select_from_custom_dropdown locs text prefix max_retries s
    = (Val false, s', t) ->
    max_retries = 0%nat /\ s' = s /\ t = [].
Proof.
  intros locs text prefix max_retries s s' t Hrun.
  unfold _select_from_custom_dropdown in Hrun.
  pose proof (dropdown_never_returns_false locs text prefix max_retries
                max_retries 0 s s' t eq_refl Hrun) as Hzero.
  subst max_retries. cbn [dropdown_retries] in Hrun.
  apply ret_inv in Hrun. destruct Hrun as (_ & -> & ->). auto.
Qed.

End MoreDropdown.

Lemma dropdown_false_only_without_retries_witness :
  0%nat = 0%nat
  /\ Fixture.start Fixture.healthy = Fixture.start Fixture.healthy
  /\ @nil event = [].
Proof.
  apply (dropdown_false_only_without_retries period_button_locators "5년" "x"
           0 (Fixture.start Fixture.healthy) (Fixture.start Fixture.healthy)
           []).
  reflexivity.
Defined.

Section MoreInit.
Context {W : Type} `{Driver W}.

(** Only the Firefox branch of [_initialize_driver] can create a driver.
    With [BROWSER = "chrome"], stealth or not, the options call raises
    [TypeError]; with any other value but "firefox" the function raises
    [ValueError].  In both cases no driver call has been made, the session
    is untouched, and the handler for [WebDriverException] does not
    apply. *)
Theorem initialize_driver_needs_firefox :
  forall (cfg : settings) (s : session W),
    String.eqb (browser cfg) "firefox" = false ->
    exists e t,
      _initialize_driver cfg s = (Exc e, s, t)
      /\ Exn.cls_of e
         = (if String.eqb (browser cfg) "chrome" then Exn.TypeError
            else Exn.ValueError)
      /\ Exn.matches e [Exn.WebDriverException] = false
      /\ forallb is_record t = true.
Proof.
  intros [b stealth headless] s Hff. cbn [browser] in *.
  unfold _initialize_driver. cbn [browser use_stealth].
  destruct (String.eqb b "chrome") eqn:Hchrome.
  - destruct stealth.
    + eexists. eexists. split; [reflexivity |]. repeat split; reflexivity.
    + eexists. eexists. split; [reflexivity |]. repeat split; reflexivity.
  - rewrite Hff. eexists. eexists. split; [reflexivity |].
    repeat split; reflexivity.
Qed.

End MoreInit.

Lemma initialize_driver_needs_firefox_witness :
  exists e t,
    _initialize_driver InitRuns.safari (Fixture.start Fixture.healthy)
    = (Exc e, Fixture.start Fixture.healthy, t)
    /\ Exn.cls_of e = Exn.ValueError
    /\ Exn.matches e [Exn.WebDriverException] = false
    /\ forallb is_record t = true.
Proof.
  apply (initialize_driver_needs_firefox InitRuns.safari
           (Fixture.start Fixture.healthy)).
  reflexivity.
Defined.

Example plain_chrome_raises_TypeError :
  match _initialize_driver InitRuns.plain_chrome
          (Fixture.start Fixture.healthy) with
  | (Exc e, _, t) => Exn.cls_of e = Exn.TypeError /\ forallb is_record t = true
  | (Val _, _, _) => False
  end.
Proof. vm_compute. split; reflexivity. Qed.

Section MoreFrames.
Context {W : Type} `{Driver W}.


End MoreFrames.

Section MoreBatches.
Context {W : Type} `{Driver W}.

Lemma mark_remaining_all_failed batch :
  NoDup (map name batch) ->
  mark_remaining batch [] = map (fun c => (false, name c)) batch.
Proof.
  intros Hnd.
  assert (Hgen : forall results,
             NoDup (map name batch) ->
             (forall n, In n (map name batch) -> ~ In n (map snd results)) ->
             mark_remaining batch results
             = results ++ map (fun c => (false, name c)) batch).
  { clear Hnd. induction batch as [| c rest IH]; intros results Hnd Hfresh.
    - cbn. rewrite app_nil_r. reflexivity.
    - cbn [mark_remaining map]. inversion Hnd as [| x l Hnotin Hnd']; subst.
      destruct (existsb _ results) eqn:Hex.
      + apply existsb_name_in in Hex. exfalso.
        apply (Hfresh (name c)); [left; reflexivity | exact Hex].
      + rewrite IH; [rewrite <- app_assoc; reflexivity | exact Hnd' |].
        intros n Hin Hin'. rewrite map_app in Hin'. apply in_app_or in Hin'.
        destruct Hin' as [Hin' | [<- | []]].
        * apply (Hfresh n); [right; exact Hin | exact Hin'].
        * apply Hnotin, Hin. }
  apply (Hgen [] Hnd). intros n _ [].
Qed.

Lemma init_never_quits cfg (s : session W) r s1 t1 :
  KOFIAScraper_init cfg s = (r, s1, t1) -> existsb is_quit t1 = false.
Proof.
  intros Hrun.
  assert (Hemit : emits (W := W) (fun ev => negb (is_quit ev))
                    (KOFIAScraper_init cfg)).
  { unfold KOFIAScraper_init, _initialize_driver, initialize_stealth_chrome,
      call_keywords, reset_downloaded.
    emits_auto;
      try (intros s0 r0 s0' t0 Hx; injection Hx as <- <- <-; reflexivity). }
  specialize (Hemit _ _ _ _ Hrun).
  destruct (existsb is_quit t1) eqn:Hex; [| reflexivity].
  apply existsb_exists in Hex. destruct Hex as (ev & Hin & Hq).
  rewrite forallb_forall in Hemit. specialize (Hemit ev Hin).
  rewrite Hq in Hemit. discriminate.
Qed.

(** [download_datasets_batch] never raises and hands back exactly one
    verdict for every dataset of its batch, in the order of the batch
    (dataset names being distinct).  A live scraper comes back only with
    [keep_alive] and only if constructor and navigation raised nothing; if
    one of them raised, every dataset is marked failed; and whenever no
    live scraper comes back although one had been constructed, the browser
    was asked to quit. *)
Theorem download_datasets_batch_verdicts :
  forall (cfg : settings) (batch : list dataset_config) (keep_alive : bool)
         (s : session W),
    NoDup (map name batch) ->
    exists results alive s' t,
      download_datasets_batch cfg batch keep_alive s
      = (Val (results, alive), s', t)
      /\ map snd results = map name batch
      /\ (alive = true ->
          keep_alive = true
          /\ exists s1 t1 s2 t2,
               KOFIAScraper_init cfg s = (Val tt, s1, t1)
               /\ navigate_to_fund_composition_query s1 = (Val tt, s2, t2))
      /\ (forall e s1 t1,
             KOFIAScraper_init cfg s = (Exc e, s1, t1) ->
             results = map (fun c => (false, name c)) batch
             /\ existsb is_quit t = false /\ t = t1)
      /\ (forall s1 t1,
             KOFIAScraper_init cfg s = (Val tt, s1, t1) ->
             (forall e s2 t2,
                 navigate_to_fund_composition_query s1 = (Exc e, s2, t2) ->
                 results = map (fun c => (false, name c)) batch)
             /\ (alive = false -> existsb is_quit t = true)).
Proof.
  intros cfg batch keep_alive s Hnd.
  pose proof (mark_remaining_all_failed batch Hnd) as Hmark.
  assert (Hnames : map snd (map (fun c => (false, name c)) batch)
                   = map name batch).
  { rewrite map_map. reflexivity. }
  assert (Hquit : forall s0 : session W,
             exists s1 r, quit s0 = (Val tt, s1, [EvAct Quit r])).
  { intros s0. unfold quit, swallow, bind, attempt, act, ret.
    destruct (perform Quit (world s0)) as [r w']. eexists. exists r.
    reflexivity. }
  unfold download_datasets_batch.
  destruct (KOFIAScraper_init cfg s) as [[[[] | e] s1] t1] eqn:Hinit.
  - destruct (navigate_to_fund_composition_query s1)
      as [[[[] | e] s2] t2] eqn:Hnav.
    + destruct (batch_loop_returns batch [] s2) as (vs & s3 & t3 & Hloop & Hn).
      cbn [app] in Hloop.
      destruct keep_alive.
      * exists vs, true, s3, (t1 ++ t2 ++ t3 ++ []).
        split; [| split; [exact Hn | split; [| split]]].
        -- eapply bind_val; [apply attempt_run, Hinit |]. cbn iota.
           eapply bind_val; [apply attempt_run, Hnav |]. cbn iota.
           eapply bind_val; [exact Hloop |]. reflexivity.
        -- intros _. split; [reflexivity |]. exists s1, t1, s2, t2. auto.
        -- intros e s1' t1' Hx. discriminate Hx.
        -- intros s1' t1' Hx. injection Hx as <- <-. split.
           ++ intros e s2' t2' Hy. rewrite Hnav in Hy. discriminate Hy.
           ++ discriminate.
      * destruct (Hquit s3) as (s4 & rq & Hq).
        exists vs, false, s4, (t1 ++ t2 ++ t3 ++ [EvAct Quit rq] ++ []).
        split; [| split; [exact Hn | split; [| split]]].
        -- eapply bind_val; [apply attempt_run, Hinit |]. cbn iota.
           eapply bind_val; [apply attempt_run, Hnav |]. cbn iota.
           eapply bind_val; [exact Hloop |]. cbn [negb].
           eapply bind_val; [exact Hq |]. reflexivity.
        -- discriminate.
        -- intros e s1' t1' Hx. discriminate Hx.
        -- intros s1' t1' Hx. injection Hx as <- <-. split.
           ++ intros e s2' t2' Hy. rewrite Hnav in Hy. discriminate Hy.
           ++ intros _. rewrite !existsb_app. cbn.
              rewrite !orb_true_r. reflexivity.
    + destruct (Hquit s2) as (s3 & rq & Hq).
      exists (mark_remaining batch []), false, s3,
        (t1 ++ t2 ++ [EvAct Quit rq] ++ []).
      split; [| split; [rewrite Hmark; exact Hnames | split; [| split]]].
      * eapply bind_val; [apply attempt_run, Hinit |]. cbn iota.
        eapply bind_val; [apply attempt_run, Hnav |]. cbn iota.
        eapply bind_val; [exact Hq |]. reflexivity.
      * discriminate.
      * intros e' s1' t1' Hx. discriminate Hx.
      * intros s1' t1' Hx. injection Hx as <- <-. split.
        -- intros e' s2' t2' _. exact Hmark.
        -- intros _. rewrite !existsb_app. cbn.
           rewrite !orb_true_r. reflexivity.
  - exists (mark_remaining batch []), false, s1, (t1 ++ []).
    split; [| split; [rewrite Hmark; exact Hnames | split; [| split]]].
    + eapply bind_val; [apply attempt_run, Hinit |]. reflexivity.
    + discriminate.
    + intros e' s1' t1' Hx. injection Hx as <- <- <-.
      split; [exact Hmark |]. rewrite app_nil_r. split; [| reflexivity].
      exact (init_never_quits _ _ _ _ _ Hinit).
    + intros s1' t1' Hx. discriminate Hx.
Qed.

End MoreBatches.

(** The first batch of the parallel mode, under the shipped
    configuration. *)
Lemma download_datasets_batch_verdicts_witness :
  exists results alive s' t,
    download_datasets_batch shipped (slice 0 4 DATASET_CONFIGS) false
      (Fixture.start Fixture.healthy)
    = (Val (results, alive), s', t)
    /\ map snd results = map name (slice 0 4 DATASET_CONFIGS).
Proof.
  destruct (download_datasets_batch_verdicts shipped
              (slice 0 4 DATASET_CONFIGS) false
              (Fixture.start Fixture.healthy))
    as (results & alive & s' & t & Hrun & Hnames & _).
  - exact (proj1 batch_names_distinct).
  - exists results, alive, s', t. split; assumption.
Defined.

(** A batch on a healthy site, not kept alive: every dataset is downloaded
    and the browser is closed at the end. *)
Example batch_closes_browser :
  match download_datasets_batch ParallelRuns.firefox
          (slice 8 11 DATASET_CONFIGS) false ParallelRuns.healthy_tab with
  | (r, _, t) =>
      r = Val ([(true, "RawDataHybridAsset");
                (true, "RawDataDomesticHybridAsset");
                (true, "RawDataMoneyMarket")], false)
      /\ existsb is_quit t = true
  end.
Proof. vm_compute. split; reflexivity. Qed.

(* ===================================================================== *)
(** * Giving up on a download *)
(* ===================================================================== *)

Section GivingUp.
Context {W : Type} `{Driver W}.

Lemma emits_none {A} P (c : M W A) s r s' t :
  emits P c -> c s = (r, s', t) -> existsb (fun ev => negb (P ev)) t = false.
Proof.
  intros Hc Hrun. specialize (Hc _ _ _ _ Hrun).
  destruct (existsb _ t) eqn:Hex; [| reflexivity].
  apply existsb_exists in Hex. destruct Hex as (ev & Hin & Hq).
  rewrite forallb_forall in Hc. rewrite (Hc ev Hin) in Hq. discriminate.
Qed.

Lemma is_timeout_shot_negb t :
  existsb (fun ev => negb (no_timeout_shot ev)) t = existsb is_timeout_shot t.
Proof.
  induction t as [| ev t IH]; [reflexivity |]. cbn [existsb].
  unfold no_timeout_shot at 1. rewrite negb_involutive, IH. reflexivity.
Qed.

Lemma sample_sizes_no_shot p : forall n cur,
  emits (W := W) no_timeout_shot (sample_sizes n p cur).
Proof.
  induction n as [| n IH]; intros cur; cbn [sample_sizes]; emits_auto.
  apply IH.
Qed.

Lemma scan_new_files_no_shot : forall files,
  emits (W := W) no_timeout_shot (scan_new_files files).
Proof.
  induction files as [| f rest IH]; cbn [scan_new_files]; emits_auto;
    apply sample_sizes_no_shot.
Qed.

Lemma give_up_run timeout (s : session W) r s' t :
  (capture_screenshot "download_timeout" ;;
   raise (A := string) (download_timeout_error timeout)) s = (r, s', t) ->
  r = Exc (download_timeout_error timeout) /\ clock s' = clock s.
Proof.
  intros Hrun. apply bind_inv in Hrun.
  destruct Hrun as [(u & s1 & t1 & t2 & Hshot & Hr & _) | (e & Hshot & _)].
  - unfold raise in Hr. injection Hr as <- <- _. split; [reflexivity |].
    unfold capture_screenshot, swallow in Hshot. apply bind_inv_val in Hshot.
    destruct Hshot as (r0 & s0 & t0 & t0' & Hatt & Hret & _).
    apply ret_inv in Hret. destruct Hret as (_ & -> & _).
    apply attempt_inv in Hatt. destruct Hatt as (r1 & _ & Hact).
    apply act_inv in Hact. apply Hact.
  - exfalso. destruct (total_capture_screenshot "download_timeout" s)
      as (u & s1 & t1 & Htot).
    rewrite Htot in Hshot. discriminate.
Qed.

Lemma time_bind {B} (k : Z -> M W B) (s : session W) r s' t :
  (now <- time ;; k now) s = (r, s', t) -> k (clock s) s = (r, s', t).
Proof.
  unfold bind, time. destruct (k (clock s) s) as [[r0 s0] t0].
  cbn [app]. auto.
Qed.

Lemma sleep_bind {B} ms (k : M W B) (s : session W) r s' t :
  (sleep ms ;; k) s = (r, s', t) ->
  exists s1 t1,
    clock s1 = (clock s + ms)%Z
    /\ t = EvAct (Sleep ms) (Val tt) :: t1
    /\ k s1 = (r, s', t1).
Proof.
  intros Hrun. apply bind_inv in Hrun.
  destruct Hrun as [(u & s1 & t1 & t2 & Hsl & Hk & ->) | (e & Hsl & _)].
  - apply sleep_inv in Hsl. destruct Hsl as (_ & -> & Hc & _).
    exists s1, t2. auto.
  - apply sleep_inv in Hsl. destruct Hsl as (Hr & _). discriminate.
Qed.

Lemma bind_inv_val_log {B} l m (k : M W B) (s : session W) r s' t :
  (log l m ;; k) s = (r, s', t) ->
  exists t1, t = EvLog l m :: t1 /\ k s = (r, s', t1).
Proof.
  unfold bind, log. destruct (k s) as [[r0 s0] t0]. cbn [app].
  intros Hx. injection Hx as <- <- <-. exists t0. auto.
Qed.

Lemma poll_downloads_gives_up_late start_time timeout initial_files :
  forall fuel (s : session W) r s' t,
    (timeout * 1000 - (clock s - start_time) <= 1000 * Z.of_nat fuel)%Z ->
    poll_downloads fuel start_time timeout initial_files s = (r, s', t) ->
    existsb is_timeout_shot t = true ->
    r = Exc (download_timeout_error timeout)
    /\ (start_time + timeout * 1000 <= clock s')%Z.
Proof.
  induction fuel as [| fuel IH]; intros s r s' t Hfuel Hrun Hshot.
  - cbn [poll_downloads] in Hrun. apply time_bind in Hrun.
    apply give_up_run in Hrun.
    destruct Hrun as (-> & ->). split; [reflexivity | lia].
  - cbn [poll_downloads] in Hrun. apply time_bind in Hrun.
    destruct (clock s - start_time <? timeout * 1000)%Z eqn:Hlt.
    + apply bind_inv in Hrun.
      destruct Hrun as [(files & s1 & t1 & t2 & Hls & Hrun & ->)
                       | (e & Hls & ->)].
      2:{ apply act_inv in Hls. destruct Hls as (-> & _).
          cbn in Hshot. discriminate. }
      pose proof (act_inv _ _ _ _ _ Hls) as (-> & Hc1 & _).
      apply bind_inv in Hrun.
      destruct Hrun as [(found & s2 & t3 & t4 & Hscan & Hrun & ->)
                       | (e & Hscan & ->)].
      2:{ pose proof (emits_none _ _ _ _ _ _
                        (scan_new_files_no_shot _) Hscan) as Hno.
          rewrite is_timeout_shot_negb in Hno.
          rewrite existsb_app, Hno in Hshot. cbn in Hshot. discriminate. }
      pose proof (emits_none _ _ _ _ _ _
                    (scan_new_files_no_shot _) Hscan) as Hno.
      rewrite is_timeout_shot_negb in Hno.
      pose proof (forward_scan_new_files _ _ _ _ _ Hscan) as Hfw.
      destruct found as [p |].
      * apply ret_inv in Hrun. destruct Hrun as (_ & _ & ->).
        rewrite !existsb_app, Hno in Hshot. cbn in Hshot. discriminate.
      * apply sleep_bind in Hrun.
        destruct Hrun as (s3 & t5 & Hc3 & -> & Hrun).
        rewrite !existsb_app, Hno in Hshot. cbn [existsb is_timeout_shot]
          in Hshot. cbn in Hshot.
        eapply IH; [| exact Hrun | exact Hshot].
        apply Z.ltb_lt in Hlt. lia.
    + apply give_up_run in Hrun. destruct Hrun as (-> & ->).
      apply Z.ltb_ge in Hlt. split; [reflexivity | lia].
Qed.

(** [wait_for_download_completion] gives up in one way only, and never
    early: whenever it has taken its "download_timeout" screenshot, it
    raises the [TimeoutException] that names the timeout, and at least
    [timeout] seconds have passed on the session's clock since it was
    called.  (So a path that it returns was found without giving up, and
    any other exception comes from a call to the operating system.) *)
Theorem download_wait_gives_up_late :
  forall (initial_files : list string) (timeout : Z) (s : session W)
         (r : result string) (s' : session W) (t : list event),
    wait_for_download_completion initial_files timeout s = (r, s', t) ->
    existsb is_timeout_shot t = true ->
    r = Exc (download_timeout_error timeout)
    /\ (clock s + timeout * 1000 <= clock s')%Z.
Proof.
  intros initial_files timeout s r s' t Hrun Hshot.
  unfold wait_for_download_completion in Hrun. apply time_bind in Hrun.
  apply bind_inv_val_log in Hrun. destruct Hrun as (t1 & -> & Hrun).
  cbn [existsb is_timeout_shot orb] in Hshot.
  eapply poll_downloads_gives_up_late; [| exact Hrun | exact Hshot]. lia.
Qed.

End GivingUp.

(** On a site whose export never arrives, a wait of two minutes ends in
    the timeout, two minutes later. *)
Lemma download_wait_gives_up_late_witness :
  fst (fst (wait_for_download_completion [] 120
              (Fixture.start TurnRuns.no_download)))
  = Exc (download_timeout_error 120)
  /\ (clock (Fixture.start TurnRuns.no_download) + 120 * 1000
      <= clock (snd (fst (wait_for_download_completion [] 120
                            (Fixture.start TurnRuns.no_download)))))%Z.
Proof.
  apply (download_wait_gives_up_late [] 120
           (Fixture.start TurnRuns.no_download)
           (fst (fst (wait_for_download_completion [] 120
                        (Fixture.start TurnRuns.no_download))))
           (snd (fst (wait_for_download_completion [] 120
                        (Fixture.start TurnRuns.no_download))))
           (snd (wait_for_download_completion [] 120
                   (Fixture.start TurnRuns.no_download)))).
  - vm_compute. reflexivity.
  - vm_compute. reflexivity.
Defined.

(* ===================================================================== *)
(** * Navigation: what is clicked *)
(* ===================================================================== *)

Section NavigationFacts.
Context {W : Type} `{Driver W}.

Lemma clicks_app t1 t2 : clicks (t1 ++ t2) = clicks t1 ++ clicks t2.
Proof. unfold clicks. apply flat_map_app. Qed.

Lemma not_click_clicks t : forallb not_click t = true -> clicks t = [].
Proof.
  unfold clicks. induction t as [| ev t IH]; [reflexivity |].
  cbn [forallb flat_map]. intros Hall. apply andb_prop in Hall.
  destruct Hall as (Hev & Hall). rewrite (IH Hall), app_nil_r.
  destruct ev as [A a r | l m]; [| reflexivity].
  destruct a; try reflexivity. discriminate Hev.
Qed.

Lemma no_clicks {A} (c : M W A) s r s' t :
  emits not_click c -> c s = (r, s', t) -> clicks t = [].
Proof. intros Hc Hrun. apply not_click_clicks. exact (Hc _ _ _ _ Hrun). Qed.

Lemma click_clicks m e (s : session W) r s' t :
  act (Click m e) s = (r, s', t) -> clicks t = [e].
Proof. intros Hrun. apply act_inv in Hrun. destruct Hrun as (-> & _). reflexivity. Qed.

Lemma settle_no_click lo hi : emits (W := W) not_click (settle lo hi).
Proof. unfold settle. emits_auto. Qed.

Lemma any_displayed_no_click : forall es,
  emits (W := W) not_click (any_displayed es).
Proof. induction es as [| e rest IH]; cbn [any_displayed]; emits_auto. Qed.

(** The expand clicks: between one and two per round. *)
Lemma expand_submenu_clicks icon : forall n (s : session W) s' t,
  expand_submenu n icon s = (Val tt, s', t) ->
  exists k, clicks t = repeat icon k
            /\ (k <= 2 * n)%nat /\ (1 <= n -> 1 <= k)%nat.
Proof.
  induction n as [| n IH]; intros s s' t Hrun.
  - cbn [expand_submenu] in Hrun. exists 0%nat.
    apply log_inv in Hrun. destruct Hrun as (_ & _ & ->).
    split; [reflexivity | lia].
  - cbn [expand_submenu] in Hrun. apply bind_inv_val in Hrun.
    destruct Hrun as (r & s0 & t0 & t0' & Hatt & Hrun & ->).
    apply attempt_inv in Hatt. destruct Hatt as (r0 & Hr0 & Hatt). injection Hr0 as ->.
    assert (Ht0 : clicks t0 = [icon]).
    { apply bind_inv in Hatt.
      destruct Hatt as [(u0 & sa & ta & tb & Hc & Hsl & ->) | (e & Hc & _)].
      - rewrite clicks_app, (click_clicks _ _ _ _ _ _ Hc).
        rewrite (no_clicks (sleep 2000) _ _ _ _ ltac:(emits_auto) Hsl).
        reflexivity.
      - exact (click_clicks _ _ _ _ _ _ Hc). }
    apply bind_inv_val in Hrun.
    destruct Hrun as (u & s1 & t1 & t2 & Hfix & Hrun & ->).
    assert (Hfirst : exists k1, clicks (t0 ++ t1) = repeat icon k1
                                /\ (1 <= k1 <= 2)%nat).
    { destruct r0 as [u0 | e].
      - apply ret_inv in Hfix. destruct Hfix as (_ & _ & ->).
        exists 1%nat. rewrite clicks_app, Ht0. split; [reflexivity | lia].
      - apply bind_inv_val in Hfix.
        destruct Hfix as (u0 & sa & ta & tb & Hc & Hsl & ->).
        exists 2%nat. rewrite !clicks_app, Ht0, (click_clicks _ _ _ _ _ _ Hc).
        rewrite (no_clicks (sleep 2000) _ _ _ _ ltac:(emits_auto) Hsl).
        split; [reflexivity | lia]. }
    destruct Hfirst as (k1 & Hk1 & Hb1).
    apply bind_inv_val in Hrun.
    destruct Hrun as (seen & s2 & t3 & t4 & Hseen & Hrun & ->).
    assert (Ht3 : clicks t3 = []).
    { eapply no_clicks; [| exact Hseen]. emits_auto.
      apply any_displayed_no_click. }
    assert (Hdone : forall sx tx,
               log INFO "✓ Submenu expanded successfully" s2
               = (Val tt, sx, tx) ->
               clicks tx = []).
    { intros sx tx Hx. apply log_inv in Hx. destruct Hx as (_ & _ & ->).
      reflexivity. }
    assert (Hagain : forall tx,
               (sleep 2000 ;; expand_submenu n icon) s2 = (Val tt, s', tx) ->
               exists k2, clicks tx = repeat icon k2 /\ (k2 <= 2 * n)%nat).
    { intros tx Hx. apply bind_inv_val in Hx.
      destruct Hx as (u0 & sa & ta & tb & Hsl & Hrec & ->).
      apply IH in Hrec. destruct Hrec as (k2 & Hk2 & Hb2 & _).
      exists k2. rewrite clicks_app.
      rewrite (no_clicks (sleep 2000) _ _ _ _ ltac:(emits_auto) Hsl).
      split; [exact Hk2 | exact Hb2]. }
    rewrite (app_assoc t0 t1), (clicks_app (t0 ++ t1)), Hk1, clicks_app, Ht3.
    cbn [app].
    destruct seen as [[|] | e].
    + rewrite (Hdone _ _ Hrun), app_nil_r. exists k1.
      split; [reflexivity | lia].
    + destruct (Hagain _ Hrun) as (k2 & -> & Hb2). exists (k1 + k2)%nat.
      rewrite repeat_app. split; [reflexivity | lia].
    + destruct (Hagain _ Hrun) as (k2 & -> & Hb2). exists (k1 + k2)%nat.
      rewrite repeat_app. split; [reflexivity | lia].
Qed.

Lemma nav_steps_app t1 t2 :
  nav_steps (t1 ++ t2) = nav_steps t1 ++ nav_steps t2.
Proof. unfold nav_steps. apply flat_map_app. Qed.

Lemma clicks_of_steps t : clicks t = flat_map clicked_of (nav_steps t).
Proof.
  unfold clicks, nav_steps. induction t as [| ev t IH]; [reflexivity |].
  cbn [flat_map]. rewrite flat_map_app, <- IH. f_equal.
  destruct ev as [A a r | l m]; [| reflexivity].
  destruct a; try reflexivity. destruct r; reflexivity.
Qed.

Lemma clicked_of_repeat e k :
  flat_map clicked_of (repeat (Clicked e) k) = repeat e k.
Proof. induction k as [| k IH]; [reflexivity |]. cbn. rewrite IH. reflexivity. Qed.

Lemma no_step_steps t : forallb no_step t = true -> nav_steps t = [].
Proof.
  unfold nav_steps. induction t as [| ev t IH]; [reflexivity |].
  cbn [forallb flat_map]. intros Hall. apply andb_prop in Hall.
  destruct Hall as (Hev & Hall). rewrite (IH Hall), app_nil_r.
  unfold no_step in Hev. destruct (nav_step_of ev); [reflexivity | discriminate Hev].
Qed.

Lemma no_steps {A} (c : M W A) s r s' t :
  emits no_step c -> c s = (r, s', t) -> nav_steps t = [].
Proof. intros Hc Hrun. apply no_step_steps. exact (Hc _ _ _ _ Hrun). Qed.

Lemma click_steps m e (s : session W) r s' t :
  act (Click m e) s = (r, s', t) -> nav_steps t = [Clicked e].
Proof.
  intros Hrun. apply act_inv in Hrun. destruct Hrun as (-> & _). reflexivity.
Qed.

Lemma settle_no_step lo hi : emits (W := W) no_step (settle lo hi).
Proof. unfold settle. emits_auto. Qed.

Lemma capture_screenshot_no_step n :
  emits (W := W) no_step (capture_screenshot n).
Proof. unfold capture_screenshot. emits_auto. Qed.

Lemma any_displayed_no_step : forall es,
  emits (W := W) no_step (any_displayed es).
Proof. induction es as [| e rest IH]; cbn [any_displayed]; emits_auto. Qed.

(** One pass of the resolver that returns an element has found it with one
    of the locators, and has found nothing else. *)
Lemma try_locators_steps ctx timeout :
  forall locs (s : session W) found s' t,
    try_locators ctx timeout locs s = (Val found, s', t) ->
    match found with
    | Some e =>
        exists loc, In loc locs /\ nav_steps t = [Found ctx timeout loc e]
    | None => nav_steps t = []
    end.
Proof.
  induction locs as [| [b v] rest IH]; intros s found s' t Hrun;
    cbn [try_locators] in Hrun.
  - apply ret_inv in Hrun. destruct Hrun as (Hr & _ & ->).
    injection Hr as ->. reflexivity.
  - apply bind_inv_val in Hrun.
    destruct Hrun as (r & s0 & t0 & t1 & Hatt & Hrun & ->).
    apply attempt_inv in Hatt. destruct Hatt as (r0 & Hr0 & Hact).
    injection Hr0 as ->. apply act_inv in Hact. destruct Hact as (-> & _).
    destruct r0 as [e | ex].
    + apply bind_inv_val in Hrun.
      destruct Hrun as (u & s1 & t2 & t3 & Hlog & Hret & ->).
      apply log_inv in Hlog. destruct Hlog as (_ & _ & ->).
      apply ret_inv in Hret. destruct Hret as (Hr & _ & ->).
      injection Hr as ->. exists (b, v). split; [left |]; reflexivity.
    + destruct (Exn.matches ex resolver_caught); [| discriminate Hrun].
      apply IH in Hrun. destruct found as [e |].
      * destruct Hrun as (loc & Hin & E). exists loc.
        split; [right; exact Hin | exact E].
      * exact Hrun.
Qed.

Lemma find_element_passes_steps locs timeout sn ctx :
  forall n a (s : session W) found s' t,
    find_element_passes n a locs timeout sn ctx s = (Val found, s', t) ->
    match found with
    | Some e =>
        exists loc, In loc locs /\ nav_steps t = [Found ctx timeout loc e]
    | None => nav_steps t = []
    end.
Proof.
  induction n as [| n IH]; intros a s found s' t Hrun;
    cbn [find_element_passes] in Hrun.
  - apply ret_inv in Hrun. destruct Hrun as (Hr & _ & ->).
    injection Hr as ->. reflexivity.
  - apply bind_inv_val in Hrun.
    destruct Hrun as (first & s0 & t0 & t1 & Hpass & Hrun & ->).
    apply try_locators_steps in Hpass. destruct first as [e |].
    + apply ret_inv in Hrun. destruct Hrun as (Hr & _ & ->).
      injection Hr as ->. rewrite app_nil_r. exact Hpass.
    + destruct (a <? MAX_RETRIES - 1)%nat.
      * apply bind_inv_val in Hrun.
        destruct Hrun as (j & s1 & t2 & t3 & Hj & Hrun & ->).
        apply bind_inv_val in Hrun.
        destruct Hrun as (u & s2 & t4 & t5 & Hsl & Hrun & ->).
        assert (E : nav_steps (t0 ++ t2 ++ t4 ++ t5) = nav_steps t5).
        { rewrite !nav_steps_app, Hpass.
          rewrite (no_steps (random_uniform 0 2000) _ _ _ _
                     ltac:(emits_auto) Hj).
          rewrite (no_steps (sleep _) _ _ _ _ ltac:(emits_auto) Hsl).
          reflexivity. }
        rewrite E. exact (IH _ _ _ _ _ Hrun).
      * exfalso. apply bind_inv_val in Hrun.
        destruct Hrun as (u & s1 & t2 & t3 & _ & Hrun & _).
        apply bind_inv_val in Hrun.
        destruct Hrun as (u' & s2 & t4 & t5 & _ & Hrun & _).
        discriminate Hrun.
Qed.

(** The resolver's result is the element that one of its locators has
    brought, and the resolver has found nothing else. *)
Lemma find_element_safely_elem_steps locs timeout sn ctx
      (s : session W) e s' t :
  find_element_safely_elem locs timeout sn ctx s = (Val e, s', t) ->
  exists loc, In loc locs /\ nav_steps t = [Found ctx timeout loc e].
Proof.
  unfold find_element_safely_elem, find_element_safely. intros Hrun.
  apply bind_inv_val in Hrun.
  destruct Hrun as (found & s0 & t0 & t1 & Hpass & Hrun & ->).
  apply find_element_passes_steps in Hpass. destruct found as [e0 |].
  - apply ret_inv in Hrun. destruct Hrun as (Hr & _ & ->).
    injection Hr as ->. rewrite app_nil_r. exact Hpass.
  - discriminate Hrun.
Qed.

(** The expand clicks: between one and two per round, and nothing found. *)
Lemma expand_submenu_steps icon n (s : session W) s' t :
  expand_submenu n icon s = (Val tt, s', t) ->
  exists k, nav_steps t = repeat (Clicked icon) k
            /\ (k <= 2 * n)%nat /\ (1 <= n -> 1 <= k)%nat.
Proof.
  intros Hrun.
  assert (Hquiet : forall m, emits (W := W) (fun ev => no_step ev || is_click ev)
                               (expand_submenu m icon)).
  { induction m as [| m IH]; cbn [expand_submenu]; emits_auto.
    all: try apply IH.
    all: eapply emits_weaken; [| apply any_displayed_no_step].
    all: intros ev ->; reflexivity. }
  pose proof (Hquiet n _ _ _ _ Hrun) as Hall.
  destruct (expand_submenu_clicks icon n s s' t Hrun) as (k & Hk & Hb).
  exists k. split; [| exact Hb]. clear Hrun Hb Hquiet.
  revert k Hk. unfold clicks, nav_steps.
  induction t as [| ev t IH]; intros k Hk.
  - destruct k; [reflexivity | discriminate Hk].
  - cbn [forallb] in Hall. apply andb_prop in Hall.
    destruct Hall as (Hev & Hall). cbn [flat_map] in Hk |- *.
    destruct ev as [A a r | l m]; [| exact (IH Hall k Hk)].
    destruct a; try exact (IH Hall k Hk).
    + cbn [app] in Hk |- *. destruct k as [| k]; [discriminate Hk |].
      cbn [repeat] in Hk |- *. injection Hk as <- Hk.
      rewrite (IH Hall k Hk). reflexivity.
    + destruct r as [e0 | ex]; [discriminate Hev |].
      exact (IH Hall k Hk).
Qed.

Local Ltac step H :=
  apply bind_inv_val in H;
  let a := fresh "a" in
  let s := fresh "s" in
  let t1 := fresh "t" in
  let t2 := fresh "t" in
  let Hc := fresh "Hstep" in
  destruct H as (a & s & t1 & t2 & Hc & H & ->).

Local Ltac resolved :=
  repeat match goal with
         | Hx : find_element_safely_elem _ _ _ _ _ = (Val _, _, _) |- _ =>
             let loc := fresh "loc" in
             let Hin := fresh "Hin" in
             let E := fresh "Efound" in
             apply find_element_safely_elem_steps in Hx;
             destruct Hx as (loc & Hin & E)
         end.

Local Ltac steps_of H :=
  first
    [ rewrite (click_steps _ _ _ _ _ _ H)
    | rewrite (no_steps _ _ _ _ _ (settle_no_step _ _) H)
    | rewrite (no_steps _ _ _ _ _ (capture_screenshot_no_step _) H)
    | match type of H with
      | ?c _ = _ =>
          let E := fresh "E" in
          assert (E : emits no_step c)
            by (emits_auto; apply settle_no_step);
          rewrite (no_steps c _ _ _ _ E H); clear E
      end ].

Lemma navigate_sidebar_steps (s : session W) s' t :
  navigate_sidebar s = (Val tt, s', t) ->
  exists l2 fund_industry l3 mgmt_stats l4 expand_icon k l5 asset_weight
         l6 trend_tab,
    nav_steps t
    = [ Found None 15 l2 fund_industry; Clicked fund_industry;
        Found None 20 l3 mgmt_stats; Found None 10 l4 expand_icon ]
      ++ repeat (Clicked expand_icon) k
      ++ [ Found None 15 l5 asset_weight; Clicked asset_weight;
           Found None 10 l6 trend_tab; Clicked trend_tab ]
    /\ (In l2 fund_industry_locators /\ In l3 mgmt_stats_locators
        /\ In l4 expand_icon_locators /\ In l5 asset_weight_locators
        /\ In l6 trend_tab_locators)
    /\ (1 <= k <= 6)%nat.
Proof.
  intros Hrun. unfold navigate_sidebar in Hrun.
  do 26 (step Hrun).
  match goal with
  | Hx : expand_submenu 3 ?icon _ = (Val ?u, _, _) |- _ =>
      destruct u; apply expand_submenu_steps in Hx;
      destruct Hx as (k & Hk & Hle & Hge)
  end.
  resolved.
  match goal with
  | |- context [nav_steps ?tt] => eassert (Hshape : nav_steps tt = _)
  end.
  { rewrite !nav_steps_app, Hk.
    repeat match goal with
           | Hx : nav_steps ?tx = _ |- context [nav_steps ?tx] => rewrite Hx
           end.
    repeat match goal with
           | Hx : _ _ = (Val _, _, ?tx) |- context [nav_steps ?tx] =>
               steps_of Hx
           end.
    cbn [app]. rewrite ?app_nil_r. reflexivity. }
  rewrite Hshape. do 11 eexists.
  split; [reflexivity |]. split; [| lia].
  repeat split; assumption.
Qed.

(** A navigation that returns has loaded the base URL first.  After that it
    has found and clicked, in this order and nothing else: the fund tab,
    found with one of the locators of [NAV_FUND_TAB] and clicked; the
    fund-industry item, found and clicked; the statistics menu and then its
    expand icon, found, and the icon clicked between one and six times (up
    to three rounds, each with a second click when the first one raises);
    the asset-weight item, found and clicked; the trend tab, found and
    clicked.  Every click is on the element that the resolver has just
    found with one of the locators of that item, and every wait of the
    resolver that brought an element is in this list. *)
Theorem navigation_clicks :
  forall (s s' : session W) (t : list event),
    navigate_to_fund_composition_query s = (Val tt, s', t) ->
    exists t' l1 fund_tab l2 fund_industry l3 mgmt_stats l4 expand_icon k
           l5 asset_weight l6 trend_tab,
      t = EvAct (Get BASE_URL) (Val tt) :: t'
      /\ nav_steps t
         = [ Found None EXPLICIT_WAIT_TIMEOUT l1 fund_tab; Clicked fund_tab;
             Found None 15 l2 fund_industry; Clicked fund_industry;
             Found None 20 l3 mgmt_stats; Found None 10 l4 expand_icon ]
           ++ repeat (Clicked expand_icon) k
           ++ [ Found None 15 l5 asset_weight; Clicked asset_weight;
                Found None 10 l6 trend_tab; Clicked trend_tab ]
      /\ (In l1 NAV_FUND_TAB /\ In l2 fund_industry_locators
          /\ In l3 mgmt_stats_locators /\ In l4 expand_icon_locators
          /\ In l5 asset_weight_locators /\ In l6 trend_tab_locators)
      /\ clicks t = [fund_tab; fund_industry] ++ repeat expand_icon k
                    ++ [asset_weight; trend_tab]
      /\ (1 <= k <= 6)%nat.
Proof.
  intros s s' t Hrun. unfold navigate_to_fund_composition_query in Hrun.
  do 9 (step Hrun).
  (* the page load *)
  match goal with
  | Hx : act (Get BASE_URL) _ = (Val ?u, _, ?tx) |- _ =>
      destruct u; pose proof (act_inv _ _ _ _ _ Hx) as (Hget & _)
  end.
  (* the frame switch *)
  match goal with
  | Hx : match ?r with Val _ => ret tt | Exc e => capture_screenshot _ ;; raise e end _
         = (Val _, _, ?tx) |- _ =>
      assert (Hc2 : nav_steps tx = []);
      [ destruct r as [u | e];
        [ apply ret_inv in Hx; destruct Hx as (_ & _ & ->); reflexivity
        | apply bind_inv_val in Hx;
          destruct Hx as (? & ? & ? & ? & _ & Hx & _); discriminate Hx ]
      | ]
  end.
  (* the sidebar *)
  match goal with
  | Hx : attempt navigate_sidebar _ = (Val ?r, _, ?tx) |- _ =>
      apply attempt_inv in Hx; destruct Hx as (r2 & Hr2 & Hside);
      injection Hr2 as ->
  end.
  match goal with
  | Hx : match ?r with Val _ => ret tt | Exc e => _ end _ = (Val _, _, ?tx)
    |- _ =>
      assert (Hc3 : nav_steps tx = [] /\ exists u, r = Val u);
      [ destruct r as [u | e];
        [ apply ret_inv in Hx; destruct Hx as (_ & _ & ->);
          split; [reflexivity | exists u; reflexivity]
        | exfalso; destruct (Exn.matches e [Exn.NoSuchElementException]);
          [ do 3 (apply bind_inv_val in Hx;
                  destruct Hx as (? & ? & ? & ? & _ & Hx & _));
            discriminate Hx
          | discriminate Hx ] ]
      | ]
  end.
  destruct Hc3 as (Hc3 & u & ->). destruct u.
  apply navigate_sidebar_steps in Hside.
  destruct Hside as (l2 & fund_industry & l3 & mgmt_stats & l4 & expand_icon
                     & k & l5 & asset_weight & l6 & trend_tab
                     & Hside & Hlocs & Hk).
  apply log_inv in Hrun. destruct Hrun as (_ & _ & ->).
  resolved.
  match goal with
  | |- context [nav_steps ?tt] => eassert (Hshape : nav_steps tt = _)
  end.
  { rewrite !nav_steps_app, Hc2, Hside, Hc3.
    repeat match goal with
           | Hx : nav_steps ?tx = _ |- context [nav_steps ?tx] => rewrite Hx
           end.
    repeat match goal with
           | Hx : _ _ = (Val _, _, ?tx) |- context [nav_steps ?tx] =>
               steps_of Hx
           end.
    cbn [app]. rewrite ?app_nil_r. reflexivity. }
  match goal with
  | |- context [clicks ?tt] => eassert (Hclicks : clicks tt = _)
  end.
  { rewrite clicks_of_steps, Hshape. cbn [flat_map clicked_of app].
    rewrite flat_map_app, clicked_of_repeat. reflexivity. }
  rewrite Hshape, Hclicks. subst. cbn [app].
  do 14 eexists. split; [reflexivity |]. split; [reflexivity |].
  split; [| split; [reflexivity | exact Hk]].
  destruct Hlocs as (H2 & H3 & H4 & H5 & H6).
  repeat split; assumption.
Qed.

End NavigationFacts.

(** The navigation on the healthy site. *)
Lemma navigation_clicks_witness :
  exists t' l1 fund_tab l2 fund_industry l3 mgmt_stats l4 expand_icon k
         l5 asset_weight l6 trend_tab,
    snd (navigate_to_fund_composition_query (Fixture.start Fixture.healthy))
    = EvAct (Get BASE_URL) (Val tt) :: t'
    /\ nav_steps (snd (navigate_to_fund_composition_query
                         (Fixture.start Fixture.healthy)))
       = [ Found None EXPLICIT_WAIT_TIMEOUT l1 fund_tab; Clicked fund_tab;
           Found None 15 l2 fund_industry; Clicked fund_industry;
           Found None 20 l3 mgmt_stats; Found None 10 l4 expand_icon ]
         ++ repeat (Clicked expand_icon) k
         ++ [ Found None 15 l5 asset_weight; Clicked asset_weight;
              Found None 10 l6 trend_tab; Clicked trend_tab ]
    /\ (In l1 NAV_FUND_TAB /\ In l2 fund_industry_locators
        /\ In l3 mgmt_stats_locators /\ In l4 expand_icon_locators
        /\ In l5 asset_weight_locators /\ In l6 trend_tab_locators)
    /\ clicks (snd (navigate_to_fund_composition_query
                      (Fixture.start Fixture.healthy)))
       = [fund_tab; fund_industry] ++ repeat expand_icon k
         ++ [asset_weight; trend_tab]
    /\ (1 <= k <= 6)%nat.
Proof.
  apply (navigation_clicks (Fixture.start Fixture.healthy)
           (snd (fst (navigate_to_fund_composition_query
                        (Fixture.start Fixture.healthy))))
           (snd (navigate_to_fund_composition_query
                   (Fixture.start Fixture.healthy)))).
  vm_compute. reflexivity.
Defined.

(** The same navigation, computed: each item is found with the first of
    its locators and then clicked. *)
Example navigation_on_healthy_site :
  nav_steps (snd (navigate_to_fund_composition_query
                    (Fixture.start Fixture.healthy)))
  = [ Found None 30 (ByXpath, "//img[@alt='펀드']") Fixture.nav_item;
      Clicked Fixture.nav_item;
      Found None 15 (ByXpath, "//div[@data-itemid='MSIS40100000000000']")
        Fixture.nav_item;
      Clicked Fixture.nav_item;
      Found None 20 mgmt_stats_locator Fixture.nav_item;
      Found None 10
        (ByXpath, "//div[contains(@class, 'cl-tree-item')][@title='운용통계']//div[contains(@class, 'cl-tree-treeicon')]")
        Fixture.nav_item;
      Clicked Fixture.nav_item;
      Found None 15
        (ByXpath, "//div[contains(@class, 'cl-tree-item') and @title='운용통계']//following-sibling::div//div[@title='투자자산별비중']")
        Fixture.nav_item;
      Clicked Fixture.nav_item;
      Found None 10
        (ByXpath, "//div[contains(@class, 'cl-tabfolder-item')]//div[@class='cl-text' and text()='추이']")
        Fixture.nav_item;
      Clicked Fixture.nav_item ].
Proof. vm_compute. reflexivity. Qed.

(** When the fund tab cannot be found, the navigation raises having clicked
    nothing. *)
Example navigation_without_fund_tab :
  match navigate_to_fund_composition_query
          (Fixture.start Fixture.no_fund_tab) with
  | (r, _, t) => r = Exc not_found /\ clicks t = []
  end.
Proof. vm_compute. split; reflexivity. Qed.

(* ===================================================================== *)
(** * Bookkeeping of the dataset loop *)
(* ===================================================================== *)

Create HintDb keeps.

Section Bookkeeping.
Context {W : Type} `{Driver W}.

Lemma keeps_ret {A} (a : A) : keeps (ret (W := W) a).
Proof. intros s r s' t Hr. apply ret_inv in Hr. destruct Hr as (_ & -> & _). reflexivity. Qed.

Lemma keeps_raise {A} e : keeps (raise (W := W) (A := A) e).
Proof. intros s r s' t Hr. unfold raise in Hr. injection Hr as _ <- _. reflexivity. Qed.

Lemma keeps_bind {A B} (c : M W A) (k : A -> M W B) :
  keeps c -> (forall a, keeps (k a)) -> keeps (bind c k).
Proof.
  intros Hc Hk s r s' t Hrun. apply bind_inv in Hrun.
  destruct Hrun as [(a & s1 & t1 & t2 & Hc1 & Hk1 & _) | (e & Hc1 & _)].
  - rewrite (Hk _ _ _ _ _ Hk1). exact (Hc _ _ _ _ Hc1).
  - exact (Hc _ _ _ _ Hc1).
Qed.

Lemma keeps_attempt {A} (c : M W A) : keeps c -> keeps (attempt c).
Proof.
  intros Hc s r s' t Hrun. apply attempt_inv in Hrun.
  destruct Hrun as (r0 & _ & Hrun). exact (Hc _ _ _ _ Hrun).
Qed.

Lemma keeps_swallow (c : M W unit) : keeps c -> keeps (swallow c).
Proof.
  intros Hc. unfold swallow. apply keeps_bind.
  - apply keeps_attempt, Hc.
  - intros _. apply keeps_ret.
Qed.

Lemma keeps_finally {A} (c : M W A) f :
  keeps c -> keeps f -> keeps (finally c f).
Proof.
  intros Hc Hf. unfold finally. apply keeps_bind.
  - apply keeps_attempt, Hc.
  - intros r. apply keeps_bind; [exact Hf |]. intros _.
    destruct r; [apply keeps_ret | apply keeps_raise].
Qed.

Lemma keeps_ask {A} (q : query A) : keeps (ask q).
Proof. intros s r s' t Hr. unfold ask in Hr. injection Hr as _ <- _. reflexivity. Qed.

Lemma keeps_time : keeps (time (W := W)).
Proof. intros s r s' t Hr. apply time_inv in Hr. destruct Hr as (_ & -> & _). reflexivity. Qed.

Lemma keeps_act {A} (a : action A) : keeps (act a).
Proof. intros s r s' t Hr. apply act_inv in Hr. apply Hr. Qed.

Lemma keeps_sleep ms : keeps (sleep (W := W) ms).
Proof. intros s r s' t Hr. apply sleep_inv in Hr. apply Hr. Qed.

Lemma keeps_random lo hi : keeps (random_uniform (W := W) lo hi).
Proof.
  intros s r s' t Hr. unfold random_uniform in Hr.
  destruct (perform (RandomUniform lo hi) (world s)) as [r0 w'].
  injection Hr as _ <- _. reflexivity.
Qed.

Lemma keeps_path_exists p : keeps (path_exists (W := W) p).
Proof. intros s r s' t Hr. apply path_exists_inv in Hr. destruct Hr as (rx & _ & _ & _ & Hf). exact Hf. Qed.

Lemma keeps_log l m : keeps (log (W := W) l m).
Proof. intros s r s' t Hr. apply log_inv in Hr. destruct Hr as (_ & -> & _). reflexivity. Qed.

Local Ltac keeps_step :=
  lazymatch goal with
  | |- keeps (bind _ _) => apply keeps_bind; [| intro]
  | |- keeps (attempt _) => apply keeps_attempt
  | |- keeps (swallow _) => apply keeps_swallow
  | |- keeps (finally _ _) => apply keeps_finally
  | |- keeps (ret _) => apply keeps_ret
  | |- keeps (raise _) => apply keeps_raise
  | |- keeps (ask _) => apply keeps_ask
  | |- keeps time => apply keeps_time
  | |- keeps (log _ _) => apply keeps_log
  | |- keeps (sleep _) => apply keeps_sleep
  | |- keeps (random_uniform _ _) => apply keeps_random
  | |- keeps (path_exists _) => apply keeps_path_exists
  | |- keeps (act _) => apply keeps_act
  | |- keeps (if ?b then _ else _) => destruct b
  | |- keeps (match ?x with _ => _ end) => destruct x
  end.

Local Ltac kf :=
  repeat first
    [ progress cbv zeta
    | keeps_step
    | assumption
    | match goal with IH : forall _, keeps _ |- _ => apply IH end
    | match goal with IH : forall _ _, keeps _ |- _ => apply IH end
    | solve [eauto with keeps] ].

Lemma capture_screenshot_keeps n : keeps (W := W) (capture_screenshot n).
Proof. unfold capture_screenshot. kf. Qed.
#[local] Hint Resolve capture_screenshot_keeps : keeps.

Lemma ensure_main_frame_keeps : keeps (W := W) ensure_main_frame.
Proof. unfold ensure_main_frame. kf. Qed.
#[local] Hint Resolve ensure_main_frame_keeps : keeps.

Lemma try_locators_keeps ctx timeout : forall locs,
  keeps (W := W) (try_locators ctx timeout locs).
Proof. induction locs as [| [b l] rest IH]; cbn [try_locators]; kf. Qed.
#[local] Hint Resolve try_locators_keeps : keeps.

Lemma find_element_passes_keeps locs timeout sn ctx : forall n a,
  keeps (W := W) (find_element_passes n a locs timeout sn ctx).
Proof. induction n as [| n IH]; intros a; cbn [find_element_passes]; kf. Qed.
#[local] Hint Resolve find_element_passes_keeps : keeps.

Lemma find_element_safely_elem_keeps locs timeout sn ctx :
  keeps (W := W) (find_element_safely_elem locs timeout sn ctx).
Proof. unfold find_element_safely_elem, find_element_safely. kf. Qed.
#[local] Hint Resolve find_element_safely_elem_keeps : keeps.

Lemma sample_sizes_keeps p : forall n cur,
  keeps (W := W) (sample_sizes n p cur).
Proof. induction n as [| n IH]; intros cur; cbn [sample_sizes]; kf. Qed.
#[local] Hint Resolve sample_sizes_keeps : keeps.

Lemma scan_new_files_keeps : forall files,
  keeps (W := W) (scan_new_files files).
Proof. induction files as [| f rest IH]; cbn [scan_new_files]; kf. Qed.
#[local] Hint Resolve scan_new_files_keeps : keeps.

Lemma poll_downloads_keeps start timeout init : forall fuel,
  keeps (W := W) (poll_downloads fuel start timeout init).
Proof. induction fuel as [| n IH]; cbn [poll_downloads]; kf. Qed.
#[local] Hint Resolve poll_downloads_keeps : keeps.

Lemma wait_for_download_completion_keeps init timeout :
  keeps (W := W) (wait_for_download_completion init timeout).
Proof. unfold wait_for_download_completion. kf. Qed.
#[local] Hint Resolve wait_for_download_completion_keeps : keeps.

Lemma first_displayed_keeps : forall buttons,
  keeps (W := W) (first_displayed buttons).
Proof. induction buttons as [| b rest IH]; cbn [first_displayed]; kf. Qed.
#[local] Hint Resolve first_displayed_keeps : keeps.

Lemma find_visible_keeps : forall locs,
  keeps (W := W) (find_visible locs).
Proof. induction locs as [| l rest IH]; cbn [find_visible]; kf. Qed.
#[local] Hint Resolve find_visible_keeps : keeps.

Lemma locate_dropdown_button_keeps locs prefix :
  keeps (W := W) (locate_dropdown_button locs prefix).
Proof. unfold locate_dropdown_button. kf. Qed.
#[local] Hint Resolve locate_dropdown_button_keeps : keeps.

Lemma read_current_value_keeps btn :
  keeps (W := W) (read_current_value btn).
Proof. unfold read_current_value. kf. Qed.
#[local] Hint Resolve read_current_value_keeps : keeps.

Lemma dropdown_already_set_keeps btn text :
  keeps (W := W) (dropdown_already_set btn text).
Proof. unfold dropdown_already_set. kf. Qed.
#[local] Hint Resolve dropdown_already_set_keeps : keeps.

Lemma try_open_keeps btn : forall methods,
  keeps (W := W) (try_open methods btn).
Proof. induction methods as [| m rest IH]; cbn [try_open]; kf. Qed.
#[local] Hint Resolve try_open_keeps : keeps.

Lemma locate_listbox_keeps prefix :
  keeps (W := W) (locate_listbox prefix).
Proof. unfold locate_listbox. kf. Qed.
#[local] Hint Resolve locate_listbox_keeps : keeps.

Lemma find_option_keeps lb : forall xpaths,
  keeps (W := W) (find_option lb xpaths).
Proof. induction xpaths as [| x rest IH]; cbn [find_option]; kf. Qed.
#[local] Hint Resolve find_option_keeps : keeps.

Lemma scroll_loop_keeps lb xpaths : forall n k,
  keeps (W := W) (scroll_loop n k lb xpaths).
Proof. induction n as [| n IH]; intros k; cbn [scroll_loop]; kf. Qed.
#[local] Hint Resolve scroll_loop_keeps : keeps.

Lemma scroll_search_keeps lb xpaths w :
  keeps (W := W) (scroll_search lb xpaths w).
Proof. unfold scroll_search. kf. Qed.
#[local] Hint Resolve scroll_search_keeps : keeps.

Lemma dropdown_interact_keeps btn text prefix :
  keeps (W := W) (dropdown_interact btn text prefix).
Proof. unfold dropdown_interact. kf. Qed.
#[local] Hint Resolve dropdown_interact_keeps : keeps.

Lemma dropdown_verify_keeps btn text retry max_retries :
  keeps (W := W) (dropdown_verify btn text retry max_retries).
Proof. unfold dropdown_verify. kf. Qed.
#[local] Hint Resolve dropdown_verify_keeps : keeps.

Lemma dropdown_try_body_keeps locs text prefix retry max_retries :
  keeps (W := W) (dropdown_try_body locs text prefix retry max_retries).
Proof. unfold dropdown_try_body. kf. Qed.
#[local] Hint Resolve dropdown_try_body_keeps : keeps.

Lemma dropdown_retries_keeps locs text prefix max_retries : forall n retry,
  keeps (W := W) (dropdown_retries n retry locs text prefix max_retries).
Proof. induction n as [| n IH]; intros retry; cbn [dropdown_retries]; kf. Qed.
#[local] Hint Resolve dropdown_retries_keeps : keeps.

Lemma select_from_custom_dropdown_keeps locs text prefix max_retries :
  keeps (W := W) (_select_from_custom_dropdown locs text prefix max_retries).
Proof. unfold _select_from_custom_dropdown. kf. Qed.
#[local] Hint Resolve select_from_custom_dropdown_keeps : keeps.

Lemma quiet_keeps {A} (c : M W A) : quiet c -> keeps c.
Proof.
  intros Hc s r s' t Hrun. destruct (quiet_inv _ _ _ _ _ Hc Hrun) as (-> & _).
  reflexivity.
Qed.

Lemma sibling_labels_of_keeps radio :
  keeps (W := W) (sibling_labels_of radio).
Proof. apply quiet_keeps, sibling_labels_of_quiet. Qed.
#[local] Hint Resolve sibling_labels_of_keeps : keeps.

Lemma displayed_only_keeps radios :
  keeps (W := W) (displayed_only radios).
Proof. apply quiet_keeps, displayed_only_quiet. Qed.
#[local] Hint Resolve displayed_only_keeps : keeps.

Lemma region_target_keeps k radios :
  keeps (W := W) (region_target k radios).
Proof.
  unfold region_target. kf. apply quiet_keeps, region_candidate_quiet.
Qed.
#[local] Hint Resolve region_target_keeps : keeps.

Lemma public_private_target_keeps radios :
  keeps (W := W) (public_private_target radios).
Proof. apply quiet_keeps, public_private_target_quiet. Qed.
#[local] Hint Resolve public_private_target_keeps : keeps.

Lemma monthly_candidate_keeps : forall radios,
  keeps (W := W) (monthly_candidate radios).
Proof. induction radios as [| r rest IH]; cbn [monthly_candidate]; kf. Qed.
#[local] Hint Resolve monthly_candidate_keeps : keeps.

Lemma monthly_target_keeps first radios :
  keeps (W := W) (monthly_target first radios).
Proof. unfold monthly_target. kf. Qed.
#[local] Hint Resolve monthly_target_keeps : keeps.

Lemma dismiss_lingering_alert_keeps :
  keeps (W := W) dismiss_lingering_alert.
Proof. unfold dismiss_lingering_alert. kf. Qed.
#[local] Hint Resolve dismiss_lingering_alert_keeps : keeps.

Lemma select_period_keeps n y : keeps (W := W) (select_period n y).
Proof. unfold select_period. kf. Qed.
#[local] Hint Resolve select_period_keeps : keeps.

Lemma stripped_texts_keeps : forall options,
  keeps (W := W) (stripped_texts options).
Proof. induction options as [| o rest IH]; cbn [stripped_texts]; kf. Qed.
#[local] Hint Resolve stripped_texts_keeps : keeps.

Lemma check_fund_type_options_keeps d c :
  keeps (W := W) (check_fund_type_options d c).
Proof. unfold check_fund_type_options. kf. Qed.
#[local] Hint Resolve check_fund_type_options_keeps : keeps.

Lemma identify_fund_type_dropdown_keeps : forall ds c,
  keeps (W := W) (identify_fund_type_dropdown ds c).
Proof.
  induction ds as [| d rest IH]; intros c;
    cbn [identify_fund_type_dropdown]; kf.
Qed.
#[local] Hint Resolve identify_fund_type_dropdown_keeps : keeps.

Lemma select_fund_type_keeps n k : keeps (W := W) (select_fund_type n k).
Proof. unfold select_fund_type. kf. Qed.
#[local] Hint Resolve select_fund_type_keeps : keeps.

Lemma wait_form_ready_keeps k : forall n,
  keeps (W := W) (wait_form_ready n k).
Proof. induction n as [| n IH]; cbn [wait_form_ready]; kf. Qed.
#[local] Hint Resolve wait_form_ready_keeps : keeps.

Lemma click_and_check_keeps click target :
  keeps (W := W) click ->
  keeps (W := W) (click_and_check click target).
Proof. intros Hc. unfold click_and_check. kf. Qed.

Lemma select_region_keeps n k : keeps (W := W) (select_region n k).
Proof. unfold select_region. kf; apply click_and_check_keeps; kf. Qed.
#[local] Hint Resolve select_region_keeps : keeps.

Lemma select_fund_category_keeps n :
  keeps (W := W) (select_fund_category n).
Proof. unfold select_fund_category. kf. Qed.
#[local] Hint Resolve select_fund_category_keeps : keeps.

Lemma dump_page_source_keeps p : keeps (W := W) (dump_page_source p).
Proof. unfold dump_page_source. kf. Qed.
#[local] Hint Resolve dump_page_source_keeps : keeps.

Lemma select_public_private_keeps n :
  keeps (W := W) (select_public_private n).
Proof. unfold select_public_private. kf. Qed.
#[local] Hint Resolve select_public_private_keeps : keeps.

Lemma select_monthly_keeps n : keeps (W := W) (select_monthly n).
Proof. unfold select_monthly. kf. Qed.
#[local] Hint Resolve select_monthly_keeps : keeps.

Lemma first_displayed_probing_keeps probe : forall buttons,
  keeps (W := W) (first_displayed_probing probe buttons).
Proof.
  induction buttons as [| b rest IH]; cbn [first_displayed_probing]; kf.
Qed.
#[local] Hint Resolve first_displayed_probing_keeps : keeps.

Lemma find_visible_probing_keeps probe : forall locs,
  keeps (W := W) (find_visible_probing probe locs).
Proof. induction locs as [| l rest IH]; cbn [find_visible_probing]; kf. Qed.
#[local] Hint Resolve find_visible_probing_keeps : keeps.

Lemma scroll_until_visible_keeps b :
  keeps (W := W) (scroll_until_visible b).
Proof. unfold scroll_until_visible. kf. Qed.
#[local] Hint Resolve scroll_until_visible_keeps : keeps.

Lemma click_search_keeps n : keeps (W := W) (click_search n).
Proof. unfold click_search. kf. Qed.
#[local] Hint Resolve click_search_keeps : keeps.

Lemma has_row_count_text_keeps : forall es,
  keeps (W := W) (has_row_count_text es).
Proof. induction es as [| e rest IH]; cbn [has_row_count_text]; kf. Qed.
#[local] Hint Resolve has_row_count_text_keeps : keeps.

Lemma wait_results_keeps : forall n, keeps (W := W) (wait_results n).
Proof. induction n as [| n IH]; cbn [wait_results]; kf. Qed.
#[local] Hint Resolve wait_results_keeps : keeps.

Lemma verify_results_keeps n : keeps (W := W) (verify_results n).
Proof. unfold verify_results. kf. Qed.
#[local] Hint Resolve verify_results_keeps : keeps.

Lemma click_excel_keeps n : keeps (W := W) (click_excel n).
Proof. unfold click_excel. kf. Qed.
#[local] Hint Resolve click_excel_keeps : keeps.

Lemma on_selenium_error_keeps c k :
  keeps (W := W) (on_selenium_error c k).
Proof. unfold on_selenium_error. kf. Qed.
#[local] Hint Resolve on_selenium_error_keeps : keeps.

Lemma on_unexpected_error_keeps c :
  keeps (W := W) (on_unexpected_error c).
Proof. unfold on_unexpected_error. kf. Qed.
#[local] Hint Resolve on_unexpected_error_keeps : keeps.

(** ** The one place that records a file *)

Lemma records_bind out {A B} (c : M W A) (k : A -> M W B) :
  keeps c -> (forall a, records out (k a)) -> records out (bind c k).
Proof.
  intros Hc Hk s r s' t Hrun. apply bind_inv in Hrun.
  destruct Hrun as [(a & s1 & t1 & t2 & Hc1 & Hk1 & _) | (e & Hc1 & ->)].
  - rewrite (Hk _ _ _ _ _ Hk1), (Hc _ _ _ _ Hc1). reflexivity.
  - cbn [is_val]. rewrite app_nil_r. exact (Hc _ _ _ _ Hc1).
Qed.

Lemma settle_after_download_records p :
  records (W := W) p (settle_after_download p).
Proof.
  intros s r s' t Hrun.
  destruct (settle_after_download_total p s) as (u & s1 & t1 & Htot).
  rewrite Htot in Hrun. injection Hrun as <- <- <-. cbn [is_val].
  unfold settle_after_download in Htot. apply bind_inv_val in Htot.
  destruct Htot as (u0 & s0 & t0 & t0' & Happ & Hrest & _).
  assert (Hkeep : keeps (W := W)
                    (log INFO ("Successfully downloaded and renamed to: "
                               +++ p) ;;
                     sleep 3000 ;;
                     swallow (act SwitchToAlert ;;
                              _ <- ask AlertText ;;
                              act AlertAccept ;;
                              sleep 2000) ;;
                     swallow (act SwitchToDefaultContent ;;
                              act (SwitchToFrame "main")) ;;
                     sleep 2000)) by kf.
  rewrite (Hkeep _ _ _ _ Hrest).
  unfold append_downloaded in Happ. injection Happ as _ <- _. reflexivity.
Qed.

Lemma collect_download_records config initial_files :
  records (out_path config)
    (collect_download (W := W) (name config) (output_name config)
       initial_files).
Proof.
  unfold collect_download.
  apply records_bind; [kf | intros src].
  apply records_bind; [kf | intros _].
  destruct (Py.truthy (Some src)).
  - cbv zeta. fold (out_path config).
    apply records_bind; [kf | intros stale].
    apply records_bind; [kf | intros _].
    apply records_bind; [kf | intros _].
    apply settle_after_download_records.
  - intros s r s' t Hrun. unfold raise in Hrun. injection Hrun as <- <- _.
    cbn [is_val]. rewrite app_nil_r. reflexivity.
Qed.

Lemma download_attempt_records config k :
  records (out_path config) (download_attempt (W := W) config k).
Proof.
  unfold download_attempt. cbv zeta.
  repeat match goal with
         | |- records _ (bind _ _) => apply records_bind; [solve [kf] | intro]
         end.
  apply collect_download_records.
Qed.

(** [download_dataset] appends exactly the dataset's own output path to
    [self.downloaded_files] when it returns [True], and leaves the list as
    it was when it returns [False]. *)
Lemma download_attempts_files config : forall n k (s : session W) ok s' t,
  download_attempts n k config s = (Val ok, s', t) ->
  downloaded_files s'
  = downloaded_files s ++ (if ok then [out_path config] else []).
Proof.
  induction n as [| n IH]; intros k s ok s' t Hrun.
  - apply ret_inv in Hrun. destruct Hrun as (Hr & -> & _).
    injection Hr as ->. rewrite app_nil_r. reflexivity.
  - cbn [download_attempts] in Hrun. apply bind_inv_val in Hrun.
    destruct Hrun as (r0 & s1 & t1 & t2 & Hatt & Hrun & _).
    apply attempt_inv in Hatt. destruct Hatt as (r & Hr & Hatt).
    injection Hr as ->.
    pose proof (download_attempt_records config k _ _ _ _ Hatt) as Hfiles.
    destruct r as [u | e]; cbn [is_val] in Hfiles.
    + apply ret_inv in Hrun. destruct Hrun as (Hr & -> & _).
      injection Hr as ->. exact Hfiles.
    + rewrite app_nil_r in Hfiles.
      destruct (Exn.matches e retried_classes).
      * apply bind_inv_val in Hrun.
        destruct Hrun as (u & s2 & t3 & t4 & Hh & Hrun & _).
        rewrite (IH _ _ _ _ _ Hrun).
        rewrite (on_selenium_error_keeps _ _ _ _ _ _ Hh), Hfiles.
        reflexivity.
      * apply bind_inv_val in Hrun.
        destruct Hrun as (u & s2 & t3 & t4 & Hh & Hrun & _).
        apply ret_inv in Hrun. destruct Hrun as (Hr & -> & _).
        injection Hr as ->. rewrite app_nil_r.
        rewrite (on_unexpected_error_keeps _ _ _ _ _ Hh). exact Hfiles.
Qed.

Lemma download_dataset_files config (s : session W) ok s' t :
  download_dataset config s = (Val ok, s', t) ->
  downloaded_files s'
  = downloaded_files s ++ (if ok then [out_path config] else []).
Proof.
  unfold download_dataset. intros Hrun. apply bind_inv_val in Hrun.
  destruct Hrun as (u & s1 & t1 & t2 & Hlog & Hrun & _).
  apply log_inv in Hlog. destruct Hlog as (_ & -> & _).
  eapply download_attempts_files, Hrun.
Qed.

(** The dataset loop of [run] keeps its books: when it has gone through
    the datasets, every dataset has been counted once, as a success or as
    a failure, and [self.downloaded_files] has grown by exactly the output
    paths of the datasets that succeeded, in the order of the datasets. *)
Theorem run_datasets_keeps_books :
  forall (configs : list dataset_config) (success_count failure_count : nat)
         (s : session W) (counts : nat * nat) (s' : session W)
         (t : list event),
    run_datasets configs success_count failure_count s
    = (Val counts, s', t) ->
    exists verdicts : list bool,
      length verdicts = length configs
      /\ counts = ((success_count + count_of true verdicts)%nat,
                   (failure_count + count_of false verdicts)%nat)
      /\ downloaded_files s'
         = downloaded_files s ++ map out_path (succeeded verdicts configs).
Proof.
  induction configs as [| config rest IH];
    intros sc fc s counts s' t Hrun.
  - apply ret_inv in Hrun. destruct Hrun as (Hr & -> & _).
    injection Hr as ->. exists []. cbn. rewrite !Nat.add_0_r, app_nil_r.
    auto.
  - cbn [run_datasets] in Hrun. apply bind_inv_val in Hrun.
    destruct Hrun as (u & s0 & t0 & t1 & Hlog & Hrun & _).
    apply log_inv in Hlog. destruct Hlog as (_ & -> & _).
    apply bind_inv_val in Hrun.
    destruct Hrun as (ok & s1 & t2 & t3 & Hds & Hrun & _).
    pose proof (download_dataset_files _ _ _ _ _ Hds) as Hfiles.
    destruct ok.
    + apply bind_inv_val in Hrun.
      destruct Hrun as (u1 & s2 & t4 & t5 & Hlog & Hrun & _).
      apply log_inv in Hlog. destruct Hlog as (_ & -> & _).
      apply IH in Hrun. destruct Hrun as (vs & Hlen & -> & Hrest).
      exists (true :: vs). cbn [length]. split; [lia |]. split.
      * unfold count_of. cbn [filter Bool.eqb length]. f_equal; lia.
      * rewrite Hrest, Hfiles. unfold succeeded.
        cbn [combine filter fst map snd]. rewrite <- app_assoc. reflexivity.
    + apply bind_inv_val in Hrun.
      destruct Hrun as (u1 & s2 & t4 & t5 & Hlog & Hrun & _).
      apply log_inv in Hlog. destruct Hlog as (_ & -> & _).
      apply IH in Hrun. destruct Hrun as (vs & Hlen & -> & Hrest).
      exists (false :: vs). cbn [length]. split; [lia |]. split.
      * unfold count_of. cbn [filter Bool.eqb length]. f_equal; lia.
      * rewrite Hrest, Hfiles, app_nil_r. unfold succeeded.
        cbn [combine filter fst]. reflexivity.
Qed.

End Bookkeeping.

(** The books of the two-dataset run in which the first dataset fails. *)
Lemma run_datasets_keeps_books_witness :
  exists verdicts : list bool,
    length verdicts = length TurnRuns.first_two
    /\ (1, 1)%nat = ((0 + count_of true verdicts)%nat,
                     (0 + count_of false verdicts)%nat)
    /\ ["downloads/DomesticEquity.xls"]
       = downloaded_files (Fixture.start RetryPages.region_missing_once)
         ++ map out_path (succeeded verdicts TurnRuns.first_two).
Proof.
  apply (run_datasets_keeps_books TurnRuns.first_two 0 0
           (Fixture.start RetryPages.region_missing_once) (1, 1)%nat
           (mkSession
              (world (snd (fst (run_datasets TurnRuns.first_two 0 0
                                  (Fixture.start
                                     RetryPages.region_missing_once)))))
              (clock (snd (fst (run_datasets TurnRuns.first_two 0 0
                                  (Fixture.start
                                     RetryPages.region_missing_once)))))
              ["downloads/DomesticEquity.xls"])
           (snd (run_datasets TurnRuns.first_two 0 0
                   (Fixture.start RetryPages.region_missing_once)))).
  vm_compute. reflexivity.
Defined.

(* ===================================================================== *)
(** * Column names and series codes *)
(* ===================================================================== *)

Module ProcessingFacts.
Import Processing.

Lemma append_nil_right (s : string) : s +++ "" = s.
Proof. induction s as [| c s IH]; cbn; [reflexivity | rewrite IH; reflexivity]. Qed.

Lemma append_associative (a b c : string) : (a +++ b) +++ c = a +++ (b +++ c).
Proof. induction a as [| x a IH]; cbn; [reflexivity | rewrite IH; reflexivity]. Qed.

Lemma parse_from_app a x y :
  parse_from a (x +++ y) = parse_from (parse_from a x) y.
Proof.
  revert a. induction x as [| c x IH]; intros a; cbn; [reflexivity |].
  apply IH.
Qed.

Lemma parse_from_digit a n :
  (n < 10)%nat -> parse_from a (Py.digit n) = (10 * a + n)%nat.
Proof.
  intros Hn. unfold Py.digit. cbn [parse_from]. unfold digit_value.
  rewrite nat_ascii_embedding by lia. lia.
Qed.

Lemma str_of_nat_upto_acc : forall fuel n acc,
  Py.str_of_nat_upto fuel n acc = Py.str_of_nat_upto fuel n "" +++ acc.
Proof.
  induction fuel as [| fuel IH]; intros n acc; cbn [Py.str_of_nat_upto].
  - reflexivity.
  - cbv zeta. destruct (n <? 10)%nat.
    + rewrite append_associative. reflexivity.
    + rewrite (IH (n / 10)%nat (Py.digit (n mod 10) +++ acc)).
      rewrite (IH (n / 10)%nat (Py.digit (n mod 10) +++ "")).
      rewrite !append_associative. reflexivity.
Qed.

Lemma parse_str_of_nat_upto : forall fuel n,
  (n < fuel)%nat -> parse_from 0 (Py.str_of_nat_upto fuel n "") = n.
Proof.
  induction fuel as [| fuel IH]; intros n Hn; [lia |].
  cbn [Py.str_of_nat_upto]. cbv zeta.
  destruct (n <? 10)%nat eqn:Hlt.
  - apply Nat.ltb_lt in Hlt. rewrite append_nil_right.
    rewrite parse_from_digit by (apply Nat.mod_upper_bound; lia).
    rewrite Nat.mod_small by lia. lia.
  - apply Nat.ltb_ge in Hlt. rewrite str_of_nat_upto_acc.
    rewrite append_nil_right, parse_from_app.
    rewrite IH.
    + rewrite parse_from_digit by (apply Nat.mod_upper_bound; lia).
      pose proof (Nat.div_mod_eq n 10). lia.
    + pose proof (Nat.div_lt n 10). lia.
Qed.

(** Decimal rendering can be read back. *)
Lemma parse_str_of_nat n : parse_from 0 (Py.str_of_nat n) = n.
Proof. unfold Py.str_of_nat. apply parse_str_of_nat_upto. lia. Qed.

Lemma parse_from_zeros k a : parse_from 0 (zeros k +++ a) = parse_from 0 a.
Proof. induction k as [| k IH]; cbn; [reflexivity | exact IH]. Qed.

Lemma parse_zero_pad4 n : parse_from 0 (zero_pad4 n) = n.
Proof. unfold zero_pad4. cbv zeta. rewrite parse_from_zeros. apply parse_str_of_nat. Qed.

Lemma code_of_injective i j : code_of i = code_of j -> i = j.
Proof.
  unfold code_of. cbn [String.append]. intros Heq.
  injection Heq as Heq.
  rewrite <- (parse_zero_pad4 i), <- (parse_zero_pad4 j), Heq. reflexivity.
Qed.

(** ** The dictionary *)

Lemma dict_mem_app d e k :
  dict_mem (d ++ e) k = dict_mem d k || dict_mem e k.
Proof. unfold dict_mem. apply existsb_app. Qed.

Lemma dict_mem_in d k : dict_mem d k = true <-> In k (map fst d).
Proof.
  unfold dict_mem. rewrite existsb_exists. split.
  - intros (kv & Hin & Heq). apply String.eqb_eq in Heq. subst k.
    apply in_map, Hin.
  - intros Hin. apply in_map_iff in Hin. destruct Hin as (kv & Heq & Hin).
    exists kv. split; [exact Hin |]. apply String.eqb_eq. exact Heq.
Qed.

Lemma dict_mem_false d k : dict_mem d k = false <-> ~ In k (map fst d).
Proof.
  rewrite <- dict_mem_in. destruct (dict_mem d k); split; intros Hx;
    try reflexivity; try discriminate; try (intros Hy; discriminate).
  exfalso. apply Hx. reflexivity.
Qed.

Lemma dict_lookup_in d k v : dict_lookup d k = Some v -> In (k, v) d.
Proof.
  unfold dict_lookup. destruct (find _ d) as [[k' v'] |] eqn:Hfind;
    [| discriminate].
  cbn. intros Heq. injection Heq as <-.
  apply find_some in Hfind. destruct Hfind as (Hin & Hk).
  cbn in Hk. apply String.eqb_eq in Hk. subst k'. exact Hin.
Qed.

Lemma nodup_app {A} (l l' : list A) :
  NoDup l -> NoDup l' -> (forall a, In a l -> ~ In a l') -> NoDup (l ++ l').
Proof.
  intros Hl Hl' Hdis. induction Hl as [| x l Hx Hl IH]; [exact Hl' |].
  cbn. constructor.
  - intros Hin. apply in_app_or in Hin. destruct Hin as [Hin | Hin].
    + contradiction.
    + apply (Hdis x); [left; reflexivity | exact Hin].
  - apply IH. intros a Ha. apply Hdis. right. exact Ha.
Qed.

Lemma nodup_map_injective {A B} (f : A -> B) (l : list A) :
  (forall a b, f a = f b -> a = b) -> NoDup l -> NoDup (map f l).
Proof.
  intros Hinj Hl. induction Hl as [| x l Hx Hl IH]; cbn; constructor.
  - intros Hin. apply in_map_iff in Hin. destruct Hin as (y & Heq & Hin).
    apply Hinj in Heq. subst y. contradiction.
  - exact IH.
Qed.

Lemma same_value_same_key (d : dict) a b v :
  NoDup (map snd d) -> In (a, v) d -> In (b, v) d -> a = b.
Proof.
  induction d as [| [k w] d IH]; intros Hnd Ha Hb; [destruct Ha |].
  cbn in Hnd. inversion Hnd as [| x l Hnotin Hnd']; subst.
  destruct Ha as [Ha | Ha]; destruct Hb as [Hb | Hb].
  - congruence.
  - exfalso. apply Hnotin. assert (Hw : w = v) by congruence. subst w.
    apply (in_map snd) in Hb. exact Hb.
  - exfalso. apply Hnotin. assert (Hw : w = v) by congruence. subst w.
    apply (in_map snd) in Ha. exact Ha.
  - apply IH; assumption.
Qed.

(** ** The loop *)

Lemma rename_columns_names prefix : forall columns st,
  fst (rename_columns prefix columns st) = new_names prefix columns.
Proof.
  induction columns as [| col rest IH]; intros st; [reflexivity |].
  cbn [rename_columns new_names map].
  destruct (String.eqb (fst col) "기준일"); cbv zeta; cbn [fst];
    rewrite IH; reflexivity.
Qed.

(** What the loop adds to the table. *)
Lemma rename_columns_adds prefix : forall columns st,
  exists added,
    TIMESERIES_CODES (snd (rename_columns prefix columns st))
    = TIMESERIES_CODES st ++ added
    /\ timeseries_counter (snd (rename_columns prefix columns st))
       = (timeseries_counter st + length added)%nat
    /\ map snd added
       = map code_of (seq (timeseries_counter st) (length added))
    /\ NoDup (map fst added)
    /\ (forall k, In k (map fst added) ->
                  dict_mem (TIMESERIES_CODES st) k = false).
Proof.
  induction columns as [| col rest IH]; intros st.
  - exists []. cbn. rewrite app_nil_r, Nat.add_0_r.
    repeat split; try reflexivity; try constructor. intros k [].
  - cbn [rename_columns].
    destruct (String.eqb (fst col) "기준일"); cbv zeta; cbn [snd].
    + apply IH.
    + unfold assign_code.
      destruct (dict_mem (TIMESERIES_CODES st) (column_name prefix col))
        eqn:Hmem.
      * apply IH.
      * destruct (IH (mkCoder (TIMESERIES_CODES st
                               ++ [(column_name prefix col,
                                    code_of (timeseries_counter st))])
                        (S (timeseries_counter st))))
          as (added & Hcodes & Hcount & Hvals & Hnd & Hfresh).
        cbn [TIMESERIES_CODES timeseries_counter] in *.
        exists ((column_name prefix col, code_of (timeseries_counter st))
                :: added).
        split; [rewrite Hcodes, <- app_assoc; reflexivity |].
        split; [rewrite Hcount; cbn [length]; lia |].
        split; [cbn [map snd length seq]; rewrite Hvals; reflexivity |].
        split.
        -- cbn [map fst]. constructor; [| exact Hnd].
           intros Hin. apply Hfresh in Hin. rewrite dict_mem_app in Hin.
           apply orb_false_iff in Hin. destruct Hin as (_ & Hin).
           cbn in Hin. rewrite String.eqb_refl in Hin. discriminate.
        -- intros k [<- | Hin]; [exact Hmem |].
           apply Hfresh in Hin. rewrite dict_mem_app in Hin.
           apply orb_false_iff in Hin. apply Hin.
Qed.

(** Every column that is not the date has a code when the loop is done. *)
Lemma rename_columns_covers prefix : forall columns st col,
  In col columns ->
  String.eqb (fst col) "기준일" = false ->
  dict_mem (TIMESERIES_CODES (snd (rename_columns prefix columns st)))
    (column_name prefix col) = true.
Proof.
  induction columns as [| c rest IH]; intros st col Hin Hdate;
    [destruct Hin |].
  cbn [rename_columns]. destruct Hin as [-> | Hin].
  - rewrite Hdate. cbv zeta. cbn [snd].
    destruct (rename_columns_adds prefix rest
                (assign_code (column_name prefix col) st))
      as (added & -> & _).
    rewrite dict_mem_app. apply orb_true_iff. left.
    unfold assign_code.
    destruct (dict_mem (TIMESERIES_CODES st) (column_name prefix col))
      eqn:Hmem; [exact Hmem |].
    cbn [TIMESERIES_CODES]. rewrite dict_mem_app. cbn.
    rewrite String.eqb_refl, orb_true_r. reflexivity.
  - destruct (String.eqb (fst c) "기준일"); cbv zeta; cbn [snd];
      apply IH; assumption.
Qed.

(** With every column coded already, the loop changes nothing. *)
Lemma rename_columns_settled prefix : forall columns st,
  (forall col, In col columns ->
               String.eqb (fst col) "기준일" = false ->
               dict_mem (TIMESERIES_CODES st) (column_name prefix col)
               = true) ->
  snd (rename_columns prefix columns st) = st.
Proof.
  induction columns as [| c rest IH]; intros st Hall; [reflexivity |].
  cbn [rename_columns].
  destruct (String.eqb (fst c) "기준일") eqn:Hdate; cbv zeta; cbn [snd].
  - apply IH. intros col Hin. apply Hall. right. exact Hin.
  - unfold assign_code. rewrite (Hall c (or_introl eq_refl) Hdate).
    apply IH. intros col Hin. apply Hall. right. exact Hin.
Qed.

(** Processing the same headers again assigns no further code: the names
    are the same as before and neither [TIMESERIES_CODES] nor the counter
    changes. *)
Theorem rename_columns_idempotent :
  forall (prefix : string) (columns : list (string * string)) (st : coder),
    rename_columns prefix columns
      (snd (rename_columns prefix columns st))
    = rename_columns prefix columns st.
Proof.
  intros prefix columns st.
  rewrite (surjective_pairing (rename_columns prefix columns st)) at 2.
  rewrite (surjective_pairing
             (rename_columns prefix columns
                (snd (rename_columns prefix columns st)))).
  rewrite !rename_columns_names. f_equal.
  apply rename_columns_settled. intros col Hin Hdate.
  apply rename_columns_covers; assumption.
Qed.

(** The loop keeps the table well coded. *)
Lemma rename_columns_well_coded prefix columns st :
  well_coded st -> well_coded (snd (rename_columns prefix columns st)).
Proof.
  intros (Hkeys & Hvals & Hused).
  destruct (rename_columns_adds prefix columns st)
    as (added & Hcodes & Hcount & Hnew & Hnd & Hfresh).
  unfold well_coded. rewrite Hcodes, Hcount, !map_app. repeat split.
  - apply nodup_app; [exact Hkeys | exact Hnd |].
    intros k Hk Hk'. apply Hfresh in Hk'. apply dict_mem_false in Hk'.
    contradiction.
  - apply nodup_app; [exact Hvals | |].
    + rewrite Hnew. apply nodup_map_injective;
        [exact code_of_injective | apply seq_NoDup].
    + intros v Hv Hv'. apply Hused in Hv. destruct Hv as (i & Hi & ->).
      rewrite Hnew in Hv'. apply in_map_iff in Hv'.
      destruct Hv' as (j & Heq & Hj). apply code_of_injective in Heq.
      apply in_seq in Hj. lia.
  - intros v Hv. apply in_app_or in Hv. destruct Hv as [Hv | Hv].
    + apply Hused in Hv. destruct Hv as (i & Hi & ->).
      exists i. split; [lia | reflexivity].
    + rewrite Hnew in Hv. apply in_map_iff in Hv.
      destruct Hv as (j & <- & Hj). apply in_seq in Hj.
      exists j. split; [lia | reflexivity].
Qed.

(** Within one scraper instance, codes identify columns.  If no column has
    two codes, no code two columns and every code is that of a counter
    value already used (as it is when the instance starts), then the same
    holds after the loop; no entry of the table has changed; every column
    but the date has a code; and two columns with the same code are the
    same column. *)
Theorem rename_columns_codes_unique :
  forall (prefix : string) (columns : list (string * string)) (st : coder),
    well_coded st ->
    let st' := snd (rename_columns prefix columns st) in
    well_coded st'
    /\ (forall k v, In (k, v) (TIMESERIES_CODES st) ->
                    In (k, v) (TIMESERIES_CODES st'))
    /\ (forall col, In col columns ->
                    String.eqb (fst col) "기준일" = false ->
                    dict_mem (TIMESERIES_CODES st') (column_name prefix col)
                    = true)
    /\ (forall a b v,
           dict_lookup (TIMESERIES_CODES st') a = Some v ->
           dict_lookup (TIMESERIES_CODES st') b = Some v ->
           a = b).
Proof.
  intros prefix columns st Hst. cbv zeta.
  pose proof (rename_columns_well_coded prefix columns st Hst) as Hwell.
  destruct (rename_columns_adds prefix columns st) as (added & Hcodes & _).
  split; [exact Hwell |]. split; [| split].
  - intros k v Hin. rewrite Hcodes. apply in_or_app. left. exact Hin.
  - intros col Hin Hdate. apply rename_columns_covers; assumption.
  - intros a b v Ha Hb. apply dict_lookup_in in Ha, Hb.
    destruct Hwell as (_ & Hv & _).
    exact (same_value_same_key _ _ _ _ Hv Ha Hb).
Qed.

Lemma fresh_coder_well_coded : well_coded fresh_coder.
Proof.
  unfold well_coded, fresh_coder. cbn. repeat split; try constructor.
  intros v [].
Qed.

(** The sample headers, from the state of a new instance. *)
Lemma rename_columns_codes_unique_witness :
  let st' := snd (rename_columns "Equity" sample_columns fresh_coder) in
  well_coded st'
  /\ (forall k v, In (k, v) (TIMESERIES_CODES fresh_coder) ->
                  In (k, v) (TIMESERIES_CODES st'))
  /\ (forall col, In col sample_columns ->
                  String.eqb (fst col) "기준일" = false ->
                  dict_mem (TIMESERIES_CODES st') (column_name "Equity" col)
                  = true)
  /\ (forall a b v,
         dict_lookup (TIMESERIES_CODES st') a = Some v ->
         dict_lookup (TIMESERIES_CODES st') b = Some v ->
         a = b).
Proof.
  apply (rename_columns_codes_unique "Equity" sample_columns fresh_coder).
  exact fresh_coder_well_coded.
Defined.

(** The sample headers, computed: the date column is renamed, known
    headers are translated after stripping, and the codes count up from
    one. *)
Example rename_sample_columns :
  rename_columns "Equity" sample_columns fresh_coder
  = ([ "Date"; "Equity: Total assets: Amount"; "Equity: Stock: Amount";
       "Equity: Stock: Weight"; "Equity: Bonds: Weight" ],
     mkCoder [ ("Equity: Total assets: Amount", "KMFK_0001");
               ("Equity: Stock: Amount", "KMFK_0002");
               ("Equity: Stock: Weight", "KMFK_0003");
               ("Equity: Bonds: Weight", "KMFK_0004") ] 5).
Proof. vm_compute. reflexivity. Qed.

(** The counter belongs to the instance, the table to the module: a second
    instance starts counting at one again and hands out a code the table
    already holds. *)
Example second_instance_repeats_codes :
  let shared := TIMESERIES_CODES
                  (snd (rename_columns "Equity" sample_columns
                          fresh_coder)) in
  let st := snd (rename_columns "Bond" [("주식", "금액")]
                   (mkCoder shared 1)) in
  dict_lookup (TIMESERIES_CODES st) "Equity: Total assets: Amount"
  = Some "KMFK_0001"
  /\ dict_lookup (TIMESERIES_CODES st) "Bond: Stock: Amount"
     = Some "KMFK_0001".
Proof. vm_compute. split; reflexivity. Qed.

End ProcessingFacts.

(* ===================================================================== *)
(** * The improved radio selection *)
(* ===================================================================== *)

Section RadioImprovedFacts.
Context {W : Type} `{Driver W}.

Lemma ask_inv {A} (q : query A) (s : session W) r s' t :
  ask q s = (r, s', t) -> r = observe q (world s) /\ s' = s /\ t = [].
Proof. unfold ask. intros Heq. injection Heq as <- <- <-. auto. Qed.

Lemma verify_context_no_click section_name : forall buttons,
  emits (W := W) not_click (verify_context section_name buttons).
Proof.
  induction buttons as [| rb rest IH]; cbn [verify_context]; unfold class_has;
    emits_auto.
Qed.

Lemma find_element_safely_no_click locs timeout sn ctx :
  emits (W := W) not_click (find_element_safely locs timeout sn ctx).
Proof. unfold find_element_safely. apply find_element_passes_no_click. Qed.

Lemma locate_radio_no_click radio_label section_name dataset_name :
  emits (W := W) not_click
    (locate_radio radio_label section_name dataset_name).
Proof.
  unfold locate_radio. emits_auto;
    first [ apply find_element_safely_no_click
          | apply verify_context_no_click
          | apply capture_screenshot_no_click ].
Qed.

(** What "Click and Verify" leaves behind, however it ends. *)
Lemma click_and_verify_outcome radio_label section_name radio_element
      (s : session W) r s' t :
  click_and_verify radio_label section_name radio_element s = (r, s', t) ->
  (length (clicks t) <= 2)%nat
  /\ (r = Val true ->
      observe (GetAttribute radio_element "aria-checked") (world s')
      = Val (Some "true"))
  /\ (r = Val false ->
      In (EvLog WARNING (radio_unchanged_msg radio_label section_name)) t).
Proof.
  unfold click_and_verify. intros Hrun.
  apply bind_inv in Hrun.
  destruct Hrun as [(before & s0 & t0 & t0' & Hask & Hrun & ->)
                   | (e & Hask & ->)].
  2: { apply ask_inv in Hask. destruct Hask as (_ & _ & ->).
       cbn. split; [lia |]. split; discriminate. }
  apply ask_inv in Hask. destruct Hask as (Hbefore & -> & ->).
  cbn [app].
  destruct (attr_is before "true") eqn:Hchecked; cbn [negb] in Hrun.
  - (* already selected *)
    apply bind_inv in Hrun.
    destruct Hrun as [(u & s1 & t1 & t2 & Hlog & Hret & ->) | (e & Hlog & _)].
    2: { apply log_inv in Hlog. destruct Hlog as (Hr & _). discriminate. }
    apply log_inv in Hlog. destruct Hlog as (_ & -> & ->).
    apply ret_inv in Hret. destruct Hret as (-> & -> & ->).
    cbn. split; [lia |]. split; [| discriminate]. intros _.
    rewrite <- Hbefore. destruct before as [v |]; [| discriminate].
    cbn in Hchecked. apply String.eqb_eq in Hchecked. subst v. reflexivity.
  - (* click *)
    assert (Hafter : forall (s1 : session W) r1 s1' t1,
               (sleep 500 ;;
                aria_checked_after <-
                  ask (GetAttribute radio_element "aria-checked") ;;
                if attr_is aria_checked_after "true" then
                  log INFO ("✓ Selected " +++ section_name +++ ": "
                            +++ radio_label) ;;
                  ret true
                else
                  log WARNING (radio_unchanged_msg radio_label section_name) ;;
                  ret false) s1 = (r1, s1', t1) ->
               clicks t1 = []
               /\ (r1 = Val true ->
                   observe (GetAttribute radio_element "aria-checked")
                     (world s1') = Val (Some "true"))
               /\ (r1 = Val false ->
                   In (EvLog WARNING
                         (radio_unchanged_msg radio_label section_name)) t1)).
    { intros s1 r1 s1' t1 Hx. apply bind_inv in Hx.
      destruct Hx as [(u & s2 & t2 & t3 & Hsl & Hx & ->) | (e & Hsl & _)].
      2: { apply sleep_inv in Hsl. destruct Hsl as (Hr & _). discriminate. }
      apply sleep_inv in Hsl. destruct Hsl as (_ & -> & _).
      apply bind_inv in Hx.
      destruct Hx as [(after & s3 & t4 & t5 & Hask & Hx & ->)
                     | (e & Hask & ->)].
      2: { apply ask_inv in Hask. destruct Hask as (_ & _ & ->).
           cbn. split; [reflexivity |]. split; discriminate. }
      apply ask_inv in Hask. destruct Hask as (Hafter & -> & ->).
      destruct (attr_is after "true") eqn:Hnow.
      - apply bind_inv in Hx.
        destruct Hx as [(u1 & s4 & t6 & t7 & Hlog & Hret & ->)
                       | (e & Hlog & _)].
        2: { apply log_inv in Hlog. destruct Hlog as (Hr & _). discriminate. }
        apply log_inv in Hlog. destruct Hlog as (_ & -> & ->).
        apply ret_inv in Hret. destruct Hret as (-> & -> & ->).
        cbn. split; [reflexivity |]. split; [| discriminate]. intros _.
        rewrite <- Hafter. destruct after as [v |]; [| discriminate].
        cbn in Hnow. apply String.eqb_eq in Hnow. subst v. reflexivity.
      - apply bind_inv in Hx.
        destruct Hx as [(u1 & s4 & t6 & t7 & Hlog & Hret & ->)
                       | (e & Hlog & _)].
        2: { apply log_inv in Hlog. destruct Hlog as (Hr & _). discriminate. }
        apply log_inv in Hlog. destruct Hlog as (_ & -> & ->).
        apply ret_inv in Hret. destruct Hret as (-> & -> & ->).
        cbn. split; [reflexivity |]. split; [discriminate |]. intros _.
        right. left. reflexivity. }
    apply bind_inv in Hrun.
    destruct Hrun as [(u & s1 & t1 & t2 & Hscroll & Hrun & ->)
                     | (e & Hscroll & ->)].
    2: { apply act_inv in Hscroll. destruct Hscroll as (-> & _).
         cbn. split; [lia |]. split; discriminate. }
    apply act_inv in Hscroll. destruct Hscroll as (-> & _).
    apply bind_inv in Hrun.
    destruct Hrun as [(u0 & s2 & t3 & t4 & Hsl & Hrun & ->) | (e & Hsl & _)].
    2: { apply sleep_inv in Hsl. destruct Hsl as (Hr & _). discriminate. }
    apply sleep_inv in Hsl. destruct Hsl as (_ & -> & _).
    apply bind_inv in Hrun.
    destruct Hrun as [(r0 & s3 & t5 & t6 & Hatt & Hrun & ->) | (e & Hatt & _)].
    2: { apply attempt_inv in Hatt. destruct Hatt as (r0 & Hr & _).
         discriminate. }
    apply attempt_inv in Hatt. destruct Hatt as (r1 & Hr1 & Hatt).
    injection Hr1 as ->.
    assert (Hlabel : (length (clicks t5) <= 1)%nat).
    { apply bind_inv in Hatt.
      destruct Hatt as [(lbl & s4 & t7 & t8 & Hask & Hclick & ->)
                       | (e & Hask & _)].
      - apply ask_inv in Hask. destruct Hask as (_ & _ & ->).
        apply act_inv in Hclick. destruct Hclick as (-> & _). cbn. lia.
      - apply ask_inv in Hask. destruct Hask as (_ & _ & ->). cbn. lia. }
    apply bind_inv in Hrun.
    destruct Hrun as [(u1 & s4 & t7 & t8 & Hsecond & Hrun & ->)
                     | (e & Hsecond & ->)].
    + assert (Hsec : (length (clicks t7) <= 1)%nat).
      { destruct r1 as [u2 | e].
        - apply ret_inv in Hsecond. destruct Hsecond as (_ & _ & ->).
          cbn. lia.
        - destruct (Exn.matches e [Exn.NoSuchElementException]).
          + apply act_inv in Hsecond. destruct Hsecond as (-> & _).
            cbn. lia.
          + discriminate Hsecond. }
      apply Hafter in Hrun. destruct Hrun as (Hnone & Htrue & Hfalse).
      split; [| split].
      * cbn [app clicks flat_map]. fold (clicks (t5 ++ t7 ++ t8)).
        rewrite !clicks_app, Hnone, !length_app. cbn [length]. lia.
      * exact Htrue.
      * intros Hr. cbn [app]. right. right. apply in_or_app. right.
        apply in_or_app. right. exact (Hfalse Hr).
    + assert (Hsec : (length (clicks t6) <= 1)%nat).
      { destruct r1 as [u2 | e1].
        - apply ret_inv in Hsecond. destruct Hsecond as (Hr & _).
          discriminate.
        - destruct (Exn.matches e1 [Exn.NoSuchElementException]).
          + apply act_inv in Hsecond. destruct Hsecond as (-> & _).
            cbn. lia.
          + unfold raise in Hsecond. injection Hsecond as _ _ <-.
            cbn. lia. }
      split; [| split; discriminate].
      cbn [app clicks flat_map]. fold (clicks (t5 ++ t6)).
      rewrite !clicks_app, !length_app. cbn [length]. lia.
Qed.

(** [_select_radio_button_improved] never raises.  A [True] verdict means
    that the radio button the search has returned (the search that starts
    once the page source has been written, or could not be) reads as
    checked in the state the call leaves behind; a [False] verdict comes
    with the log record that explains it (the state did not change, or the
    error that ended the attempt).  The call clicks at most twice: the
    label, and the radio button itself when the label could not be
    clicked. *)
Theorem select_radio_improved_verdict :
  forall (radio_label section_name dataset_name : string) (s : session W)
         (r : result bool) (s' : session W) (t : list event),
    _select_radio_button_improved radio_label section_name dataset_name s
    = (r, s', t) ->
    exists success : bool,
      r = Val success
      /\ (success = true ->
          exists radio_element s1 t1,
            locate_radio radio_label section_name dataset_name
              (after_page_dump dataset_name section_name s)
            = (Val radio_element, s1, t1)
            /\ observe (GetAttribute radio_element "aria-checked") (world s')
               = Val (Some "true"))
      /\ (success = false ->
          exists ev, In ev t /\ explains_failure radio_label section_name ev)
      /\ (length (clicks t) <= 2)%nat.
Proof.
  intros radio_label section_name dataset_name s r s' t Hrun.
  unfold _select_radio_button_improved in Hrun. cbv zeta in Hrun.
  apply bind_inv in Hrun.
  destruct Hrun as [(u & s0 & t0 & t0' & Hlog & Hrun & ->) | (e & Hlog & _)].
  2: { apply log_inv in Hlog. destruct Hlog as (Hr & _). discriminate. }
  apply log_inv in Hlog. destruct Hlog as (_ & -> & ->).
  apply bind_inv in Hrun.
  destruct Hrun as [(saved & s1 & t1 & t1' & Hsave & Hrun & ->)
                   | (e & Hsave & _)].
  2: { apply attempt_inv in Hsave. destruct Hsave as (r0 & Hr & _).
       discriminate. }
  apply attempt_inv in Hsave. destruct Hsave as (r0 & Hr0 & Hsave).
  injection Hr0 as ->.
  assert (Hdump : after_page_dump dataset_name section_name s = s1).
  { unfold after_page_dump. rewrite Hsave. reflexivity. }
  apply act_inv in Hsave. destruct Hsave as (-> & _).
  apply bind_inv in Hrun.
  destruct Hrun as [(u1 & s2 & t2 & t2' & Hnote & Hrun & ->)
                   | (e & Hnote & _)].
  2: { destruct r0; apply log_inv in Hnote; destruct Hnote as (Hr & _);
       discriminate. }
  assert (Hs2 : s2 = s1 /\ clicks t2 = []).
  { destruct r0; apply log_inv in Hnote; destruct Hnote as (_ & -> & ->);
      split; reflexivity. }
  destruct Hs2 as (-> & Hc2). clear Hnote.
  apply bind_inv in Hrun.
  destruct Hrun as [(r1 & s3 & t3 & t3' & Hatt & Hrun & ->) | (e & Hatt & _)].
  2: { apply attempt_inv in Hatt. destruct Hatt as (rx & Hr & _).
       discriminate. }
  apply attempt_inv in Hatt. destruct Hatt as (rx & Hrx & Hatt).
  injection Hrx as ->.
  assert (Hkeep : (length (clicks t3) <= 2)%nat
                  /\ (rx = Val true ->
                      exists radio_element s4 t4,
                        locate_radio radio_label section_name dataset_name
                          (after_page_dump dataset_name section_name s)
                        = (Val radio_element, s4, t4)
                        /\ observe (GetAttribute radio_element "aria-checked")
                             (world s3) = Val (Some "true"))
                  /\ (rx = Val false ->
                      In (EvLog WARNING
                            (radio_unchanged_msg radio_label section_name))
                         t3)).
  { apply bind_inv in Hatt.
    destruct Hatt as [(radio_element & s4 & t4 & t5 & Hloc & Hcv & ->)
                     | (e & Hloc & ->)].
    - pose proof (no_clicks _ _ _ _ _
                    (locate_radio_no_click radio_label section_name
                       dataset_name) Hloc) as Hn.
      destruct (click_and_verify_outcome _ _ _ _ _ _ _ Hcv)
        as (Hle & Htrue & Hfalse).
      split; [| split].
      + rewrite clicks_app, Hn. exact Hle.
      + intros Hr. exists radio_element, s4, t4. rewrite Hdump.
        split; [exact Hloc | exact (Htrue Hr)].
      + intros Hr. apply in_or_app. right. exact (Hfalse Hr).
    - pose proof (no_clicks _ _ _ _ _
                    (locate_radio_no_click radio_label section_name
                       dataset_name) Hloc) as Hn.
      split; [rewrite Hn; cbn; lia |]. split; discriminate. }
  destruct Hkeep as (Hle & Htrue & Hfalse).
  destruct rx as [success | e].
  - apply ret_inv in Hrun. destruct Hrun as (-> & -> & ->).
    exists success. split; [reflexivity |].
    split; [intros ->; apply Htrue; reflexivity |].
    split.
    + intros ->.
      exists (EvLog WARNING (radio_unchanged_msg radio_label section_name)).
      split; [| left; reflexivity].
      cbn [app]. right. right. apply in_or_app. right. apply in_or_app. left.
      apply Hfalse. reflexivity.
    + cbn [app clicks flat_map]. fold (clicks (t2 ++ t3 ++ [])).
      rewrite !clicks_app, Hc2. cbn [app]. rewrite app_nil_r. exact Hle.
  - apply bind_inv in Hrun.
    destruct Hrun as [(u2 & s4 & t4 & t4' & Herr & Hrun & ->)
                     | (e0 & Herr & _)].
    2: { apply log_inv in Herr. destruct Herr as (Hr & _). discriminate. }
    apply log_inv in Herr. destruct Herr as (_ & -> & ->).
    apply bind_inv in Hrun.
    destruct Hrun as [(u3 & s5 & t5 & t5' & Hshot & Hret & ->)
                     | (e0 & Hshot & ->)].
    2: { exfalso. unfold capture_screenshot, swallow in Hshot.
         apply bind_inv in Hshot.
         destruct Hshot as [(rz & sz & tz & tz' & _ & Hz & _)
                           | (ez & Hz & _)].
         - apply ret_inv in Hz. destruct Hz as (Hr & _). discriminate.
         - apply attempt_inv in Hz. destruct Hz as (rz & Hr & _).
           discriminate. }
    apply ret_inv in Hret. destruct Hret as (-> & -> & ->).
    exists false. split; [reflexivity |]. split; [discriminate |].
    split.
    + intros _. exists (EvLog ERROR (radio_error_msg radio_label section_name e)).
      split; [| right; exists e; reflexivity].
      cbn [app]. right. right. apply in_or_app. right. apply in_or_app. right.
      left. reflexivity.
    + pose proof (no_clicks _ _ _ _ _
                    (capture_screenshot_no_click _) Hshot) as Hn5.
      cbn [app clicks flat_map].
        fold (clicks (t2 ++ t3 ++ EvLog ERROR
                                    (radio_error_msg radio_label section_name e)
                                  :: t5 ++ [])).
        rewrite !clicks_app, Hc2. cbn [app].
        change (EvLog ERROR (radio_error_msg radio_label section_name e)
                :: t5 ++ [])
          with ([EvLog ERROR (radio_error_msg radio_label section_name e)]
                ++ t5 ++ []).
        rewrite !clicks_app, Hn5. cbn. rewrite app_nil_r. exact Hle.
Qed.

End RadioImprovedFacts.

(** The domestic radio button on a site where the section is not found. *)
Lemma select_radio_improved_verdict_witness :
  exists success : bool,
    fst (fst (_select_radio_button_improved "국내" "지역구분" "DomesticEquity"
                (Fixture.start RadioImprovedRuns.no_section)))
    = Val success
    /\ (success = true ->
        exists radio_element s1 t1,
          locate_radio "국내" "지역구분" "DomesticEquity"
            (after_page_dump "DomesticEquity" "지역구분"
               (Fixture.start RadioImprovedRuns.no_section))
          = (Val radio_element, s1, t1)
          /\ observe (GetAttribute radio_element "aria-checked")
               (world (snd (fst (_select_radio_button_improved "국내"
                                   "지역구분" "DomesticEquity"
                                   (Fixture.start
                                      RadioImprovedRuns.no_section)))))
             = Val (Some "true"))
    /\ (success = false ->
        exists ev,
          In ev (snd (_select_radio_button_improved "국내" "지역구분"
                        "DomesticEquity"
                        (Fixture.start RadioImprovedRuns.no_section)))
          /\ explains_failure "국내" "지역구분" ev)
    /\ (length (clicks (snd (_select_radio_button_improved "국내" "지역구분"
                               "DomesticEquity"
                               (Fixture.start
                                  RadioImprovedRuns.no_section))))
        <= 2)%nat.
Proof.
  apply (select_radio_improved_verdict "국내" "지역구분" "DomesticEquity"
           (Fixture.start RadioImprovedRuns.no_section)).
  destruct (_select_radio_button_improved "국내" "지역구분" "DomesticEquity"
              (Fixture.start RadioImprovedRuns.no_section)) as [[r s'] t].
  reflexivity.
Defined.

(** On that site the last fallback finds the radio button, its label is not
    found, and the one click on the radio button itself selects it. *)
Example radio_by_last_fallback :
  match _select_radio_button_improved "국내" "지역구분" "DomesticEquity"
          (Fixture.start RadioImprovedRuns.no_section) with
  | (r, _, t) => r = Val true /\ clicks t = [Fixture.region_domestic]
  end.
Proof. vm_compute. split; reflexivity. Qed.

(** A radio button that is already checked is not clicked. *)
Example radio_already_checked :
  match _select_radio_button_improved "국내" "지역구분" "DomesticEquity"
          (snd (fst (_select_radio_button_improved "국내" "지역구분"
                       "DomesticEquity"
                       (Fixture.start RadioImprovedRuns.no_section)))) with
  | (r, _, t) => r = Val true /\ clicks t = []
  end.
Proof. vm_compute. split; reflexivity. Qed.

(** An ancestor without a [class] attribute ends the search with a
    [TypeError]: the verdict is [False] and nothing is clicked, although the
    last fallback would have found the radio button. *)
Example radio_with_classless_ancestor :
  match _select_radio_button_improved "국내" "지역구분" "DomesticEquity"
          (mkSession RadioImprovedRuns.Classless 0 []) with
  | (r, _, t) =>
      r = Val false /\ clicks t = []
      /\ In (EvLog ERROR (radio_error_msg "국내" "지역구분" not_iterable)) t
      /\ observe (FindElement None (radios_labelled "국내"))
           RadioImprovedRuns.Classless
         = Val RadioImprovedRuns.radio
  end.
Proof.
  vm_compute. repeat split; try reflexivity.
  do 40 (try (left; reflexivity); right).
Qed.

(* ===================================================================== *)
(** * The METADATA rows *)
(* ===================================================================== *)

Module OutputFacts.
Import Processing Output.

Lemma days_in_month_positive y m : (1 <= days_in_month y m)%Z.
Proof.
  unfold days_in_month. destruct (m =? 2)%Z; [destruct (is_leap y); lia |].
  destruct ((m =? 4)%Z || (m =? 6)%Z || (m =? 9)%Z || (m =? 11)%Z); lia.
Qed.

(** [NEXT_RELEASE_DATE] is the last day of the month after the current one.
    The computation raises only for a day in November or December of the
    year 9999, where the first day of the month after next does not exist;
    the exception is a [ValueError]. *)
Theorem next_release_is_end_of_next_month :
  forall today : datetime,
    is_date today ->
    match last_day_of_next_month today with
    | Val last_day =>
        (month_index last_day = month_index today + 1)%Z
        /\ (1 <= month last_day <= 12)%Z
        /\ day last_day = days_in_month (year last_day) (month last_day)
        /\ (year today < MAXYEAR \/ month today <= 10)%Z
    | Exc e =>
        Exn.cls_of e = Exn.ValueError
        /\ year today = MAXYEAR /\ (11 <= month today)%Z
    end.
Proof.
  intros [y m d] (Hy & Hm & _). cbn [year month day] in *.
  unfold last_day_of_next_month, datetime_new, minus_one_day, month_index,
    MAXYEAR in *.
  pose proof (days_in_month_positive (y + 1) 1) as Hjan.
  pose proof (days_in_month_positive (y + 1) (1 + 1)) as Hfeb.
  pose proof (days_in_month_positive y (m + 1)) as Hnext.
  pose proof (days_in_month_positive y (m + 1 + 1)) as Hafter.
  repeat first
    [ progress cbn [andb negb orb year month day Exn.cls_of]
    | match goal with
      | |- context [Z.leb ?a ?b] => destruct (Z.leb_spec a b); try lia
      | |- context [Z.ltb ?a ?b] => destruct (Z.ltb_spec a b); try lia
      | |- context [Z.eqb ?a ?b] => destruct (Z.eqb_spec a b); try lia
      end ];
    repeat split; try lia; try reflexivity.
Qed.

Lemma next_release_is_end_of_next_month_witness :
  match last_day_of_next_month (mkDatetime 2024 1 31) with
  | Val last_day =>
      (month_index last_day = month_index (mkDatetime 2024 1 31) + 1)%Z
      /\ (1 <= month last_day <= 12)%Z
      /\ day last_day = days_in_month (year last_day) (month last_day)
      /\ (year (mkDatetime 2024 1 31) < MAXYEAR
          \/ month (mkDatetime 2024 1 31) <= 10)%Z
  | Exc e =>
      Exn.cls_of e = Exn.ValueError
      /\ year (mkDatetime 2024 1 31) = MAXYEAR
      /\ (11 <= month (mkDatetime 2024 1 31))%Z
  end.
Proof.
  apply (next_release_is_end_of_next_month (mkDatetime 2024 1 31)).
  unfold is_date, MAXYEAR. cbn. lia.
Defined.

(** From the last day of January of a leap year: the 29th of February. *)
Example release_after_january_2024 :
  last_day_of_next_month (mkDatetime 2024 1 31)
  = Val (mkDatetime 2024 2 29).
Proof. reflexivity. Qed.

(** Across the end of a year. *)
Example release_after_december_2025 :
  last_day_of_next_month (mkDatetime 2025 12 15)
  = Val (mkDatetime 2026 1 31).
Proof. reflexivity. Qed.

(** ** The rows *)

Lemma dict_mem_lookup d k :
  dict_mem d k = true -> exists v, dict_lookup d k = Some v.
Proof.
  unfold dict_mem, dict_lookup. intros Hmem.
  destruct (find (fun kv => String.eqb (fst kv) k) d) as [kv |] eqn:Hfind.
  - exists (snd kv). reflexivity.
  - apply existsb_exists in Hmem. destruct Hmem as (kv & Hin & Hk).
    rewrite (find_none _ _ Hfind kv Hin) in Hk. discriminate.
Qed.

Lemma metadata_rows_in columns codes nrd row :
  In row (metadata_rows columns codes nrd) ->
  exists col,
    In col columns /\ String.eqb col "Date" = false
    /\ CODE row = dict_get codes col col /\ DESCRIPTION row = col.
Proof.
  induction columns as [| c rest IH]; cbn [metadata_rows]; [intros [] |].
  destruct (String.eqb c "Date") eqn:Hdate; cbn [negb].
  - intros Hin. destruct (IH Hin) as (col & Hc & Hrest).
    exists col. split; [right; exact Hc | exact Hrest].
  - intros [<- | Hin].
    + exists c. cbn. repeat split; auto.
    + destruct (IH Hin) as (col & Hc & Hrest).
      exists col. split; [right; exact Hc | exact Hrest].
Qed.

Lemma metadata_descriptions columns codes nrd :
  map DESCRIPTION (metadata_rows columns codes nrd)
  = filter (fun col => negb (String.eqb col "Date")) columns.
Proof.
  induction columns as [| c rest IH]; cbn [metadata_rows filter];
    [reflexivity |].
  destruct (negb (String.eqb c "Date")); cbn [map DESCRIPTION];
    rewrite IH; reflexivity.
Qed.

Lemma new_names_in prefix columns name :
  In name (new_names prefix columns) ->
  name = "Date"
  \/ exists col, In col columns /\ String.eqb (fst col) "기준일" = false
                 /\ name = column_name prefix col.
Proof.
  unfold new_names. intros Hin. apply in_map_iff in Hin.
  destruct Hin as (col & Hname & Hin).
  destruct (String.eqb (fst col) "기준일") eqn:Hdate.
  - left. symmetry. exact Hname.
  - right. exists col. auto.
Qed.

(** The METADATA rows for the columns of a processed file, read with the
    table the processing left: there is one row for each column but the
    date, in the order of the columns; the code of a row is the one the
    table holds for its description, never the description itself; and,
    in a table that was well coded before, two rows with the same code
    describe the same column. *)
Theorem metadata_codes_assigned :
  forall (prefix : string) (columns : list (string * string)) (st : coder)
         (next_release_date : string),
    well_coded st ->
    let names := fst (rename_columns prefix columns st) in
    let codes := TIMESERIES_CODES (snd (rename_columns prefix columns st)) in
    let rows := metadata_rows names codes next_release_date in
    map DESCRIPTION rows
    = filter (fun col => negb (String.eqb col "Date")) names
    /\ (forall row, In row rows ->
                    dict_lookup codes (DESCRIPTION row) = Some (CODE row))
    /\ (forall row1 row2, In row1 rows -> In row2 rows ->
                          CODE row1 = CODE row2 ->
                          DESCRIPTION row1 = DESCRIPTION row2).
Proof.
  intros prefix columns st nrd Hst. cbv zeta.
  assert (Hlook : forall row,
             In row (metadata_rows (fst (rename_columns prefix columns st))
                       (TIMESERIES_CODES
                          (snd (rename_columns prefix columns st))) nrd) ->
             dict_lookup (TIMESERIES_CODES
                            (snd (rename_columns prefix columns st)))
               (DESCRIPTION row) = Some (CODE row)).
  { intros row Hin. apply metadata_rows_in in Hin.
    destruct Hin as (name & Hname & Hnot & -> & ->).
    rewrite ProcessingFacts.rename_columns_names in Hname.
    apply new_names_in in Hname.
    destruct Hname as [-> | (col & Hcol & Hdate & ->)];
      [cbn in Hnot; discriminate |].
    pose proof (ProcessingFacts.rename_columns_covers prefix columns st col
                  Hcol Hdate) as Hmem.
    apply dict_mem_lookup in Hmem. destruct Hmem as (v & Hv).
    unfold dict_get. rewrite Hv. reflexivity. }
  split; [apply metadata_descriptions |]. split; [exact Hlook |].
  intros row1 row2 H1 H2 Hcode.
  pose proof (Hlook _ H1) as L1. pose proof (Hlook _ H2) as L2.
  rewrite Hcode in L1.
  apply ProcessingFacts.dict_lookup_in in L1, L2.
  destruct (ProcessingFacts.rename_columns_well_coded prefix columns st Hst)
    as (_ & Hvals & _).
  exact (ProcessingFacts.same_value_same_key _ _ _ _ Hvals L1 L2).
Qed.

(** The rows for the sample headers, from a new instance. *)
Lemma metadata_codes_assigned_witness :
  let names := fst (rename_columns "Equity" sample_columns fresh_coder) in
  let codes :=
    TIMESERIES_CODES (snd (rename_columns "Equity" sample_columns
                             fresh_coder)) in
  let rows := metadata_rows names codes "2024-02-29T12:00:00" in
  map DESCRIPTION rows
  = filter (fun col => negb (String.eqb col "Date")) names
  /\ (forall row, In row rows ->
                  dict_lookup codes (DESCRIPTION row) = Some (CODE row))
  /\ (forall row1 row2, In row1 rows -> In row2 rows ->
                        CODE row1 = CODE row2 ->
                        DESCRIPTION row1 = DESCRIPTION row2).
Proof.
  apply (metadata_codes_assigned "Equity" sample_columns fresh_coder
           "2024-02-29T12:00:00").
  exact ProcessingFacts.fresh_coder_well_coded.
Defined.

(** The rows for the sample headers: amounts are in KRW Million, weights in
    percent. *)
Example sample_metadata_rows :
  metadata_rows
    (fst (rename_columns "Equity" sample_columns fresh_coder))
    (TIMESERIES_CODES (snd (rename_columns "Equity" sample_columns
                              fresh_coder)))
    "2024-02-29T12:00:00"
  = [ mkRow "KMFK_0001" "Equity: Total assets: Amount" "Monthly"
        "KRW Million" "2024-02-29T12:00:00";
      mkRow "KMFK_0002" "Equity: Stock: Amount" "Monthly" "KRW Million"
        "2024-02-29T12:00:00";
      mkRow "KMFK_0003" "Equity: Stock: Weight" "Monthly" "Percentage"
        "2024-02-29T12:00:00";
      mkRow "KMFK_0004" "Equity: Bonds: Weight" "Monthly" "Percentage"
        "2024-02-29T12:00:00" ].
Proof. vm_compute. reflexivity. Qed.

(** The unit is read off the whole description: a weight column of a
    dataset whose output name contains "Amount" is given in KRW Million. *)
Example unit_from_the_prefix :
  map UNIT (metadata_rows ["Amount of funds: Stock: Weight"] [] "")
  = ["KRW Million"].
Proof. vm_compute. reflexivity. Qed.

End OutputFacts.

(* ===================================================================== *)
(** * The orchestrator *)
(* ===================================================================== *)

Module OrchestratorFacts.
Import Orchestrator.

Section PipelineFacts.
Context {H : Type} `{Host H}.

Lemma scripts_run_app t1 t2 :
  scripts_run (t1 ++ t2) = scripts_run t1 ++ scripts_run t2.
Proof. unfold scripts_run. apply flat_map_app. Qed.

Lemma scripts_run_logged (f : string -> entry) (lines : list string) :
  (forall line, exists lvl msg, f line = Logged lvl msg) ->
  scripts_run (map f lines) = [].
Proof.
  intros Hf. induction lines as [| line rest IH]; [reflexivity |].
  cbn [map]. change (f line :: map f rest) with ([f line] ++ map f rest).
  rewrite scripts_run_app, IH. destruct (Hf line) as (lvl & msg & ->).
  reflexivity.
Qed.

(** One call of [run_script] runs its script once and nothing else, never
    raises, and returns [True] exactly when the script has succeeded. *)
Lemma run_script_outcome script_name description (h : H) :
  match run_script script_name description h with
  | (ok, h', t) =>
      ok = script_succeeded (fst (subprocess_run script_name h))
      /\ h' = snd (subprocess_run script_name h)
      /\ scripts_run t = [script_name]
  end.
Proof.
  unfold run_script.
  destruct (subprocess_run script_name h) as [[result | e] h']; cbn [fst snd].
  - assert (Hout : scripts_run
                     (map (fun line =>
                             Logged INFO ("[" +++ script_name +++ "] "
                                          +++ line)) (stdout result)) = []).
    { apply scripts_run_logged. intros line. eauto. }
    assert (Herr : scripts_run
                     (map (fun line =>
                             Logged WARNING ("[" +++ script_name +++ "] "
                                             +++ line))
                        (filter worth_logging (stderr result))) = []).
    { apply scripts_run_logged. intros line. eauto. }
    cbv zeta. unfold script_succeeded.
    destruct (returncode result =? 0)%Z; cbn [negb];
      (split; [reflexivity |]; split; [reflexivity |]);
      rewrite !scripts_run_app, Hout, Herr; reflexivity.
  - cbv zeta. repeat split; reflexivity.
Qed.

(** The pipeline runs the scraper first and once.  It runs the mapper, once
    and afterwards, exactly when the scraper has succeeded: a scraper that
    exits with a non-zero code, or that could not be started, ends the
    pipeline.  The exit status is 0 when both scripts have succeeded and 1
    otherwise. *)
Theorem pipeline_runs_mapper_after_scraper :
  forall h : H,
    match exit_status h with
    | (status, h', t) =>
        let scraper := subprocess_run "scraper.py" h in
        let mapper := subprocess_run "map.py" (snd scraper) in
        scripts_run t
        = "scraper.py"
          :: (if script_succeeded (fst scraper) then ["map.py"] else [])
        /\ status
           = (if script_succeeded (fst scraper)
                 && script_succeeded (fst mapper)
              then 0 else 1)%Z
        /\ h' = (if script_succeeded (fst scraper)
                 then snd mapper else snd scraper)
    end.
Proof.
  intros h. unfold exit_status, main. cbv zeta.
  pose proof (run_script_outcome "scraper.py" "Web Scraper (Download Data)" h)
    as Hs.
  destruct (run_script "scraper.py" "Web Scraper (Download Data)" h)
    as [[ok1 h1] t1].
  destruct Hs as (-> & -> & Ht1).
  destruct (script_succeeded (fst (subprocess_run "scraper.py" h)));
    cbn [negb andb].
  - pose proof (run_script_outcome "map.py" "Data Mapper (Process & Format)"
                  (snd (subprocess_run "scraper.py" h))) as Hm.
    destruct (run_script "map.py" "Data Mapper (Process & Format)"
                (snd (subprocess_run "scraper.py" h))) as [[ok2 h2] t2].
    destruct Hm as (-> & -> & Ht2).
    destruct (script_succeeded
                (fst (subprocess_run "map.py"
                        (snd (subprocess_run "scraper.py" h)))));
      cbn [negb]; (split; [| split; reflexivity]);
      rewrite !scripts_run_app, Ht1, Ht2; reflexivity.
  - split; [| split; reflexivity].
    rewrite !scripts_run_app, Ht1. reflexivity.
Qed.

End PipelineFacts.

(** A failing scraper: the mapper is not run, the exit status is 1, and of
    the three lines on the scraper's standard error the one mentioning
    [warn(] is not logged. *)
Example pipeline_with_failing_scraper :
  match exit_status FailingScraper with
  | (status, _, t) =>
      status = 1%Z /\ scripts_run t = ["scraper.py"]
      /\ errors_logged t
         = [ "scraper.py failed with return code 1"; rule;
             "Pipeline failed at Step 1: Web Scraper"; rule ]
      /\ In (Logged WARNING "[scraper.py] TypeError: unexpected keyword argument") t
      /\ ~ In (Logged WARNING "[scraper.py]   warnings.warn('deprecated')") t
  end.
Proof.
  vm_compute. repeat split; try reflexivity.
  - do 12 (try (left; reflexivity); right).
  - intros Hin.
    repeat (destruct Hin as [Hin | Hin]; [discriminate Hin |]).
    exact Hin.
Qed.

End OrchestratorFacts.

(* ===================================================================== *)
(** * Search and export are triggered once *)
(* ===================================================================== *)

Section Triggers.
Context {W : Type} `{Driver W}.

Lemma click_results_app t1 t2 :
  click_results (t1 ++ t2) = click_results t1 ++ click_results t2.
Proof. unfold click_results. apply flat_map_app. Qed.

Lemma click_free_results t :
  forallb not_click t = true -> click_results t = [].
Proof.
  unfold click_results. induction t as [| ev t IH]; [reflexivity |].
  cbn [forallb flat_map]. intros Hall. apply andb_prop in Hall.
  destruct Hall as (Hev & Hall). rewrite (IH Hall), app_nil_r.
  destruct ev as [A a r | l m]; [| reflexivity].
  destruct a; try reflexivity. discriminate Hev.
Qed.

Lemma no_click_results {A} (c : M W A) s r s' t :
  emits not_click c -> c s = (r, s', t) -> click_results t = [].
Proof. intros Hc Hrun. apply click_free_results. exact (Hc _ _ _ _ Hrun). Qed.

Lemma first_displayed_probing_no_click probe : forall buttons,
  emits (W := W) not_click (first_displayed_probing probe buttons).
Proof.
  induction buttons as [| b rest IH]; cbn [first_displayed_probing];
    emits_auto.
Qed.

Lemma find_visible_probing_no_click probe : forall locs,
  emits (W := W) not_click (find_visible_probing probe locs).
Proof.
  induction locs as [| l rest IH]; cbn [find_visible_probing]; emits_auto;
    apply first_displayed_probing_no_click.
Qed.

Lemma scroll_until_visible_no_click b :
  emits (W := W) not_click (scroll_until_visible b).
Proof. unfold scroll_until_visible. emits_auto. Qed.

(** ** The chain of strategies *)

Lemma tried_none n : tried n false [].
Proof. exists []. split; [cbn; lia | reflexivity]. Qed.

Lemma tried_more n m clicked rs :
  (n <= m)%nat -> tried n clicked rs -> tried m clicked rs.
Proof.
  intros Hnm (failed & Hf). exists failed. destruct clicked.
  - destruct Hf as (Hlen & Hrs). split; [lia | exact Hrs].
  - destruct Hf as (Hlen & Hrs). split; [lia | exact Hrs].
Qed.

(** One more strategy: skipped after a click that went through, otherwise
    at most one more click. *)
Lemma tried_next n clicked rs clicked' rs' :
  tried n clicked rs ->
  (clicked = true -> clicked' = true /\ rs' = []) ->
  (clicked = false ->
   (clicked' = false /\ rs' = []) \/ exists e, rs' = [(e, clicked')]) ->
  tried (S n) clicked' (rs ++ rs').
Proof.
  intros (failed & Hf) Hskip Hstep. destruct clicked.
  - destruct (Hskip eq_refl) as (-> & ->). rewrite app_nil_r.
    destruct Hf as (Hlen & Hrs). exists failed. split; [lia | exact Hrs].
  - destruct Hf as (Hlen & ->).
    destruct (Hstep eq_refl) as [(-> & ->) | (e & ->)].
    + rewrite app_nil_r. exists failed. split; [lia | reflexivity].
    + destruct clicked'.
      * exists failed. split; [lia |]. exists e. reflexivity.
      * exists (failed ++ [e]). split; [rewrite length_app; cbn; lia |].
        rewrite map_app. reflexivity.
Qed.

(** [try: click; logger.info(...); clicked = True  except Exception: ...] *)
Lemma click_strategy how e msg (s : session W) r s' t :
  (x <- attempt (act (Click how e) ;; log INFO msg) ;; ret (is_val x)) s
  = (r, s', t) ->
  exists clicked, r = Val clicked /\ click_results t = [(e, clicked)].
Proof.
  intros Hrun. apply bind_inv in Hrun.
  destruct Hrun as [(x & s1 & t1 & t2 & Hatt & Hret & ->) | (e0 & Hatt & _)].
  2: { apply attempt_inv in Hatt. destruct Hatt as (x & Hx & _).
       discriminate. }
  apply ret_inv in Hret. destruct Hret as (-> & _ & ->).
  apply attempt_inv in Hatt. destruct Hatt as (x0 & Hx & Hatt).
  injection Hx as ->. exists (is_val x0). split; [reflexivity |].
  rewrite app_nil_r. apply bind_inv in Hatt.
  destruct Hatt as [(u & s2 & t3 & t4 & Hclick & Hlog & ->)
                   | (e0 & Hclick & ->)].
  - apply act_inv in Hclick. destruct Hclick as (-> & _).
    apply log_inv in Hlog. destruct Hlog as (-> & _ & ->). reflexivity.
  - apply act_inv in Hclick. destruct Hclick as (-> & _). reflexivity.
Qed.

Lemma guarded_strategy how e msg (clicked : bool) (s : session W) r s' t :
  (if clicked then ret true
   else x <- attempt (act (Click how e) ;; log INFO msg) ;; ret (is_val x)) s
  = (r, s', t) ->
  exists clicked',
    r = Val clicked'
    /\ (clicked = true -> clicked' = true /\ click_results t = [])
    /\ (clicked = false ->
        (clicked' = false /\ click_results t = [])
        \/ exists e', click_results t = [(e', clicked')]).
Proof.
  destruct clicked; intros Hrun.
  - apply ret_inv in Hrun. destruct Hrun as (-> & _ & ->).
    exists true. split; [reflexivity |]. split; [auto | discriminate].
  - apply click_strategy in Hrun. destruct Hrun as (c & -> & Hres).
    exists c. split; [reflexivity |]. split; [discriminate |].
    intros _. right. exists e. exact Hres.
Qed.

(** The last strategy, whose failure is raised. *)
Lemma last_strategy e msg err shot n (clicked : bool) rs
      (s : session W) r s' t :
  tried n clicked rs ->
  (if clicked then ret tt
   else
     x <- attempt (act (Click DirectClick e) ;; log INFO msg) ;;
     match x with
     | Val _ => ret tt
     | Exc exc => log ERROR err ;; capture_screenshot shot ;; raise exc
     end) s = (r, s', t) ->
  tried (S n) (is_val r) (rs ++ click_results t).
Proof.
  intros Htried Hrun. destruct clicked.
  - apply ret_inv in Hrun. destruct Hrun as (-> & _ & ->).
    cbn [click_results flat_map is_val]. rewrite app_nil_r.
    apply (tried_more n); [lia | exact Htried].
  - apply bind_inv in Hrun.
    destruct Hrun as [(x & s1 & t1 & t2 & Hatt & Hrest & ->)
                     | (e0 & Hatt & _)].
    2: { apply attempt_inv in Hatt. destruct Hatt as (x & Hx & _).
         discriminate. }
    apply attempt_inv in Hatt. destruct Hatt as (x0 & Hx & Hatt).
    injection Hx as ->.
    assert (Hclick : click_results t1 = [(e, is_val x0)]).
    { apply bind_inv in Hatt.
      destruct Hatt as [(u & s2 & t3 & t4 & Hclick & Hlog & ->)
                       | (e0 & Hclick & ->)].
      - apply act_inv in Hclick. destruct Hclick as (-> & _).
        apply log_inv in Hlog. destruct Hlog as (-> & _ & ->). reflexivity.
      - apply act_inv in Hclick. destruct Hclick as (-> & _). reflexivity. }
    assert (Hrest' : is_val r = is_val x0 /\ click_results t2 = []).
    { destruct x0 as [u | exc].
      - apply ret_inv in Hrest. destruct Hrest as (-> & _ & ->).
        split; reflexivity.
      - assert (Hfree : emits (W := W) not_click
                          (log ERROR err ;; capture_screenshot shot ;;
                           raise (A := unit) exc))
          by (emits_auto; apply capture_screenshot_no_click).
        split; [| exact (no_click_results _ _ _ _ _ Hfree Hrest)].
        apply bind_inv in Hrest.
        destruct Hrest as [(u & s2 & t3 & t4 & _ & Hrest & _)
                          | (e0 & Hlog & _)].
        2: { apply log_inv in Hlog. destruct Hlog as (Hr & _).
             discriminate. }
        apply bind_inv in Hrest.
        destruct Hrest as [(u0 & s3 & t5 & t6 & _ & Hrest & _)
                          | (e0 & _ & ->)]; [| reflexivity].
        unfold raise in Hrest. injection Hrest as <- _ _. reflexivity. }
    destruct Hrest' as (-> & Hnone).
    rewrite click_results_app, Hclick, Hnone, app_nil_r.
    apply (tried_next n false); [exact Htried | discriminate |].
    intros _. right. exists e. reflexivity.
Qed.

(** Peeling a click-free step off the front of a computation. *)
Lemma tried_after {A B} n (c : M W A) (k : A -> M W B) s r s' t :
  emits not_click c ->
  (forall a s1 t2, k a s1 = (r, s', t2) ->
                   tried n (is_val r) (click_results t2)) ->
  bind c k s = (r, s', t) ->
  tried n (is_val r) (click_results t).
Proof.
  intros Hc Hk Hrun. apply bind_inv in Hrun.
  destruct Hrun as [(a & s1 & t1 & t2 & Hc1 & Hk1 & ->) | (e & Hc1 & ->)].
  - rewrite click_results_app, (no_click_results _ _ _ _ _ Hc Hc1).
    exact (Hk _ _ _ Hk1).
  - rewrite (no_click_results _ _ _ _ _ Hc Hc1). apply tried_none.
Qed.

Lemma tried_click_free {A} n (c : M W A) s r s' t :
  emits not_click c -> is_val r = false -> c s = (r, s', t) ->
  tried n (is_val r) (click_results t).
Proof.
  intros Hc Hr Hrun. rewrite Hr, (no_click_results _ _ _ _ _ Hc Hrun).
  apply tried_none.
Qed.

Local Ltac peel :=
  match goal with
  | Hrun : bind _ _ _ = _ |- _ =>
      revert Hrun; apply tried_after;
      [ emits_auto;
        first [ apply find_visible_probing_no_click
              | apply scroll_until_visible_no_click
              | apply capture_screenshot_no_click ]
      | let a := fresh "pa" in
        let s1 := fresh "ps" in
        let t2 := fresh "pt" in
        intros a s1 t2 Hrun ]
  end.

Lemma click_search_tried dataset_name (s : session W) r s' t :
  click_search dataset_name s = (r, s', t) ->
  tried 4 (is_val r) (click_results t).
Proof.
  unfold click_search. intros Hrun.
  do 3 peel.
  match goal with
  | Hx : match ?found with Some _ => _ | None => _ end _ = _ |- _ =>
      destruct found as [search_button |]
  end.
  2: { assert (Hr : is_val r = false).
       { do 2 (apply bind_inv in Hrun;
               destruct Hrun as [(? & ? & ? & ? & _ & Hrun & _)
                                | (? & _ & ->)]; [| reflexivity]).
         unfold raise in Hrun. injection Hrun as <- _ _. reflexivity. }
       revert Hrun. apply tried_click_free; [| exact Hr].
       emits_auto. apply capture_screenshot_no_click. }
  do 5 peel.
  (* the anchor inside the button *)
  apply bind_inv in Hrun.
  destruct Hrun as [(c1 & s1 & t1 & t2 & Hc1 & Hrun & ->) | (e & Hc1 & _)].
  2: { apply attempt_inv in Hc1. destruct Hc1 as (x & Hx & _).
       discriminate. }
  apply attempt_inv in Hc1. destruct Hc1 as (x1 & Hx & Hc1).
  injection Hx as ->.
  assert (H1 : tried 1 (is_val x1) (click_results t1)).
  { apply bind_inv in Hc1.
    destruct Hc1 as [(anchor & s2 & t3 & t4 & Hask & Hc1 & ->)
                    | (e & Hask & ->)].
    - apply ask_inv in Hask. destruct Hask as (_ & -> & ->). cbn [app].
      apply bind_inv in Hc1.
      destruct Hc1 as [(u & s3 & t5 & t6 & Hclick & Hlog & ->)
                      | (e & Hclick & ->)].
      + apply act_inv in Hclick. destruct Hclick as (-> & _).
        apply log_inv in Hlog. destruct Hlog as (-> & _ & ->).
        exists []. cbn. split; [lia |]. exists anchor. reflexivity.
      + apply act_inv in Hclick. destruct Hclick as (-> & _).
        exists [anchor]. cbn. split; [lia | reflexivity].
    - apply ask_inv in Hask. destruct Hask as (_ & _ & ->).
      apply tried_none. }
  (* the button itself *)
  apply bind_inv in Hrun.
  destruct Hrun as [(c2 & s2 & t3 & t4 & Hc2 & Hrun & ->) | (e & Hc2 & ->)].
  2: { apply guarded_strategy in Hc2. destruct Hc2 as (k2 & Hk2 & _).
       discriminate. }
  apply guarded_strategy in Hc2. destruct Hc2 as (k2 & Hk2 & Hskip2 & Hstep2).
  injection Hk2 as ->.
  pose proof (tried_next _ _ _ _ _ H1 Hskip2 Hstep2) as H2.
  (* the offset click *)
  apply bind_inv in Hrun.
  destruct Hrun as [(c3 & s3 & t5 & t6 & Hc3 & Hrun & ->) | (e & Hc3 & ->)].
  2: { apply guarded_strategy in Hc3. destruct Hc3 as (k3 & Hk3 & _).
       discriminate. }
  apply guarded_strategy in Hc3. destruct Hc3 as (k3 & Hk3 & Hskip3 & Hstep3).
  injection Hk3 as ->.
  pose proof (tried_next _ _ _ _ _ H2 Hskip3 Hstep3) as H3.
  (* the direct click *)
  rewrite !click_results_app, !app_assoc.
  eapply last_strategy; [exact H3 | exact Hrun].
Qed.

(** A call of the search step that returns has triggered the search exactly
    once: one click went through, it is the last click of the call, and at
    most three clicks failed before it.  A call that raises has triggered
    nothing: each of its clicks, at most four, failed. *)
Theorem search_triggered_once :
  forall (dataset_name : string) (s : session W) (r : result unit)
         (s' : session W) (t : list event),
    click_search dataset_name s = (r, s', t) ->
    exists failed : list elem,
      match r with
      | Val _ =>
          (length failed <= 3)%nat
          /\ exists e, click_results t = map failed_click failed ++ [(e, true)]
      | Exc _ =>
          (length failed <= 4)%nat
          /\ click_results t = map failed_click failed
      end.
Proof.
  intros dataset_name s r s' t Hrun.
  destruct (click_search_tried _ _ _ _ _ Hrun) as (failed & Hf).
  exists failed. destruct r as [u | e]; cbn [is_val] in Hf.
  - destruct Hf as (Hlen & Hrs). split; [lia | exact Hrs].
  - exact Hf.
Qed.

(** ** The export *)

Lemma optional_strategy how e msg (wanted : bool) (s : session W) r s' t :
  (if wanted
   then x <- attempt (act (Click how e) ;; log INFO msg) ;; ret (is_val x)
   else ret false) s = (r, s', t) ->
  exists clicked, r = Val clicked /\ tried 1 clicked (click_results t).
Proof.
  destruct wanted; intros Hrun.
  - apply click_strategy in Hrun. destruct Hrun as (c & -> & ->).
    exists c. split; [reflexivity |]. destruct c.
    + exists []. cbn. split; [lia |]. exists e. reflexivity.
    + exists [e]. cbn. split; [lia | reflexivity].
  - apply ret_inv in Hrun. destruct Hrun as (-> & _ & ->).
    exists false. split; [reflexivity | apply tried_none].
Qed.

(** The second strategy of the export: the anchor above an icon. *)
Lemma parent_anchor_strategy e loc msg (clicked : bool)
      (s : session W) r s' t :
  (if clicked then ret true
   else
     tag2 <- ask (TagName e) ;;
     if String.eqb tag2 "div" then
       x <- attempt (parent_anchor <- ask (FindElement (Some e) loc) ;;
                     act (Click ActionChainsClick parent_anchor) ;;
                     log INFO msg) ;;
       ret (is_val x)
     else ret false) s = (r, s', t) ->
  (is_val r = false /\ clicked = false /\ click_results t = [])
  \/ exists clicked',
       r = Val clicked'
       /\ (clicked = true -> clicked' = true /\ click_results t = [])
       /\ (clicked = false ->
           (clicked' = false /\ click_results t = [])
           \/ exists e', click_results t = [(e', clicked')]).
Proof.
  destruct clicked; intros Hrun.
  - apply ret_inv in Hrun. destruct Hrun as (-> & _ & ->).
    right. exists true. split; [reflexivity |]. split; [auto | discriminate].
  - apply bind_inv in Hrun.
    destruct Hrun as [(tag2 & s1 & t1 & t2 & Hask & Hrun & ->)
                     | (e0 & Hask & ->)].
    2: { apply ask_inv in Hask. destruct Hask as (_ & _ & ->).
         left. auto. }
    apply ask_inv in Hask. destruct Hask as (_ & -> & ->). cbn [app].
    right. destruct (String.eqb tag2 "div").
    + apply bind_inv in Hrun.
      destruct Hrun as [(x & s2 & t3 & t4 & Hatt & Hret & ->)
                       | (e0 & Hatt & _)].
      2: { apply attempt_inv in Hatt. destruct Hatt as (x & Hx & _).
           discriminate. }
      apply ret_inv in Hret. destruct Hret as (-> & _ & ->).
      apply attempt_inv in Hatt. destruct Hatt as (x0 & Hx & Hatt).
      injection Hx as ->. exists (is_val x0). split; [reflexivity |].
      split; [discriminate |]. intros _. rewrite app_nil_r.
      apply bind_inv in Hatt.
      destruct Hatt as [(anchor & s3 & t5 & t6 & Hask & Hatt & ->)
                       | (e0 & Hask & ->)].
      * apply ask_inv in Hask. destruct Hask as (_ & -> & ->). cbn [app].
        right. exists anchor. apply bind_inv in Hatt.
        destruct Hatt as [(u & s4 & t7 & t8 & Hclick & Hlog & ->)
                         | (e0 & Hclick & ->)].
        -- apply act_inv in Hclick. destruct Hclick as (-> & _).
           apply log_inv in Hlog. destruct Hlog as (-> & _ & ->).
           reflexivity.
        -- apply act_inv in Hclick. destruct Hclick as (-> & _).
           reflexivity.
      * apply ask_inv in Hask. destruct Hask as (_ & _ & ->).
        left. split; reflexivity.
    + apply ret_inv in Hrun. destruct Hrun as (-> & _ & ->).
      exists false. split; [reflexivity |]. split; [discriminate |].
      intros _. left. split; reflexivity.
Qed.

Lemma after_export_click msg n (s : session W) r s' t :
  (log INFO msg ;; sleep 5000 ;; capture_screenshot n) s = (r, s', t) ->
  is_val r = true /\ click_results t = [].
Proof.
  intros Hrun. split.
  - destruct (total_bind (log INFO msg)
                (fun _ => sleep 5000 ;; capture_screenshot n)
                (total_log _ _)
                (fun _ => total_bind (sleep 5000)
                            (fun _ => capture_screenshot n)
                            (total_sleep _)
                            (fun _ => total_capture_screenshot n)) s)
      as (a & s1 & t1 & Htot).
    rewrite Htot in Hrun. injection Hrun as <- _ _. reflexivity.
  - eapply no_click_results; [| exact Hrun].
    emits_auto. apply capture_screenshot_no_click.
Qed.

Lemma click_excel_tried dataset_name (s : session W) r s' t :
  click_excel dataset_name s = (r, s', t) ->
  tried 5 (is_val r) (click_results t).
Proof.
  unfold click_excel. intros Hrun.
  do 3 peel.
  match goal with
  | Hx : match ?found with Some _ => _ | None => _ end _ = _ |- _ =>
      destruct found as [excel_button |]
  end.
  2: { assert (Hr : is_val r = false).
       { do 2 (apply bind_inv in Hrun;
               destruct Hrun as [(? & ? & ? & ? & _ & Hrun & _)
                                | (? & _ & ->)]; [| reflexivity]).
         unfold raise in Hrun. injection Hrun as <- _ _. reflexivity. }
       revert Hrun. apply tried_click_free; [| exact Hr].
       emits_auto. apply capture_screenshot_no_click. }
  do 5 peel.
  (* the anchor *)
  apply bind_inv in Hrun.
  destruct Hrun as [(c1 & s1 & t1 & t2 & Hc1 & Hrun & ->) | (e & Hc1 & ->)].
  2: { apply optional_strategy in Hc1. destruct Hc1 as (k1 & Hk1 & _).
       discriminate. }
  apply optional_strategy in Hc1. destruct Hc1 as (k1 & Hk1 & H1).
  injection Hk1 as ->.
  (* the anchor above an icon *)
  apply bind_inv in Hrun.
  destruct Hrun as [(c2 & s2 & t3 & t4 & Hc2 & Hrun & ->) | (e & Hc2 & ->)].
  2: { apply parent_anchor_strategy in Hc2.
       destruct Hc2 as [(_ & -> & Hnone) | (k2 & Hk2 & _)];
         [| discriminate].
       rewrite click_results_app, Hnone, app_nil_r. cbn [is_val].
       apply (tried_more 1); [lia | exact H1]. }
  apply parent_anchor_strategy in Hc2.
  destruct Hc2 as [(Hk2 & _) | (k2 & Hk2 & Hskip2 & Hstep2)];
    [discriminate |].
  injection Hk2 as ->.
  pose proof (tried_next _ _ _ _ _ H1 Hskip2 Hstep2) as H2.
  (* the script click *)
  apply bind_inv in Hrun.
  destruct Hrun as [(c3 & s3 & t5 & t6 & Hc3 & Hrun & ->) | (e & Hc3 & ->)].
  2: { apply guarded_strategy in Hc3. destruct Hc3 as (k3 & Hk3 & _).
       discriminate. }
  apply guarded_strategy in Hc3. destruct Hc3 as (k3 & Hk3 & Hskip3 & Hstep3).
  injection Hk3 as ->.
  pose proof (tried_next _ _ _ _ _ H2 Hskip3 Hstep3) as H3.
  (* the offset click *)
  apply bind_inv in Hrun.
  destruct Hrun as [(c4 & s4 & t7 & t8 & Hc4 & Hrun & ->) | (e & Hc4 & ->)].
  2: { apply guarded_strategy in Hc4. destruct Hc4 as (k4 & Hk4 & _).
       discriminate. }
  apply guarded_strategy in Hc4. destruct Hc4 as (k4 & Hk4 & Hskip4 & Hstep4).
  injection Hk4 as ->.
  pose proof (tried_next _ _ _ _ _ H3 Hskip4 Hstep4) as H4.
  (* the direct click, and the wait after it *)
  apply bind_inv in Hrun.
  destruct Hrun as [(u & s5 & t9 & t10 & Hlast & Hrun & ->)
                   | (e & Hlast & ->)].
  - apply after_export_click in Hrun. destruct Hrun as (Hr & Hnone).
    rewrite Hr, !click_results_app, Hnone, app_nil_r, !app_assoc.
    exact (last_strategy _ _ _ _ _ _ _ _ _ _ _ H4 Hlast).
  - rewrite !click_results_app, !app_assoc.
    exact (last_strategy _ _ _ _ _ _ _ _ _ _ _ H4 Hlast).
Qed.

(** A call of the export step that returns has triggered the export exactly
    once: one click went through, it is the last click of the call, and at
    most four clicks failed before it.  A call that raises has triggered
    nothing: each of its clicks, at most five, failed. *)
Theorem export_triggered_once :
  forall (dataset_name : string) (s : session W) (r : result unit)
         (s' : session W) (t : list event),
    click_excel dataset_name s = (r, s', t) ->
    exists failed : list elem,
      match r with
      | Val _ =>
          (length failed <= 4)%nat
          /\ exists e, click_results t = map failed_click failed ++ [(e, true)]
      | Exc _ =>
          (length failed <= 5)%nat
          /\ click_results t = map failed_click failed
      end.
Proof.
  intros dataset_name s r s' t Hrun.
  destruct (click_excel_tried _ _ _ _ _ Hrun) as (failed & Hf).
  exists failed. destruct r as [u | e]; cbn [is_val] in Hf.
  - destruct Hf as (Hlen & Hrs). split; [lia | exact Hrs].
  - exact Hf.
Qed.

End Triggers.

(** The search step on the healthy site. *)
Lemma search_triggered_once_witness :
  exists failed : list elem,
    match fst (fst (click_search "RawDataEquity"
                      (Fixture.start Fixture.healthy))) with
    | Val _ =>
        (length failed <= 3)%nat
        /\ exists e,
             click_results (snd (click_search "RawDataEquity"
                                   (Fixture.start Fixture.healthy)))
             = map failed_click failed ++ [(e, true)]
    | Exc _ =>
        (length failed <= 4)%nat
        /\ click_results (snd (click_search "RawDataEquity"
                                 (Fixture.start Fixture.healthy)))
           = map failed_click failed
    end.
Proof.
  apply (search_triggered_once "RawDataEquity"
           (Fixture.start Fixture.healthy)
           (fst (fst (click_search "RawDataEquity"
                        (Fixture.start Fixture.healthy))))
           (snd (fst (click_search "RawDataEquity"
                        (Fixture.start Fixture.healthy))))
           (snd (click_search "RawDataEquity"
                   (Fixture.start Fixture.healthy)))).
  destruct (click_search "RawDataEquity" (Fixture.start Fixture.healthy))
    as [[r s'] t].
  reflexivity.
Defined.

(** On the healthy site no anchor is found inside the button, and the click
    on the button itself goes through. *)
Example search_on_healthy_site :
  match click_search "RawDataEquity" (Fixture.start Fixture.healthy) with
  | (r, _, t) =>
      r = Val tt /\ click_results t = [(Fixture.search_button, true)]
  end.
Proof. vm_compute. split; reflexivity. Qed.

(** The export step on the healthy site. *)
Lemma export_triggered_once_witness :
  exists failed : list elem,
    match fst (fst (click_excel "RawDataEquity"
                      (Fixture.start Fixture.healthy))) with
    | Val _ =>
        (length failed <= 4)%nat
        /\ exists e,
             click_results (snd (click_excel "RawDataEquity"
                                   (Fixture.start Fixture.healthy)))
             = map failed_click failed ++ [(e, true)]
    | Exc _ =>
        (length failed <= 5)%nat
        /\ click_results (snd (click_excel "RawDataEquity"
                                 (Fixture.start Fixture.healthy)))
           = map failed_click failed
    end.
Proof.
  apply (export_triggered_once "RawDataEquity"
           (Fixture.start Fixture.healthy)
           (fst (fst (click_excel "RawDataEquity"
                        (Fixture.start Fixture.healthy))))
           (snd (fst (click_excel "RawDataEquity"
                        (Fixture.start Fixture.healthy))))
           (snd (click_excel "RawDataEquity"
                   (Fixture.start Fixture.healthy)))).
  destruct (click_excel "RawDataEquity" (Fixture.start Fixture.healthy))
    as [[r s'] t].
  reflexivity.
Defined.

Example export_on_healthy_site :
  match click_excel "RawDataEquity" (Fixture.start Fixture.healthy) with
  | (r, _, t) =>
      r = Val tt /\ click_results t = [(Fixture.excel_button, true)]
  end.
Proof. vm_compute. split; reflexivity. Qed.

(** ** The check of the results *)

Section ResultsCheck.
Context {W : Type} `{Driver W}.

Lemma takes_ret {A} (a : A) : takes 0 0 (ret (W := W) a).
Proof.
  intros s r s' t Hr. apply ret_inv in Hr. destruct Hr as (-> & -> & _).
  split; [reflexivity | lia].
Qed.

Lemma takes_log l m : takes 0 0 (log (W := W) l m).
Proof.
  intros s r s' t Hr. apply log_inv in Hr. destruct Hr as (-> & -> & _).
  split; [reflexivity | lia].
Qed.

Lemma takes_sleep ms : takes ms ms (sleep (W := W) ms).
Proof.
  intros s r s' t Hr. apply sleep_inv in Hr.
  destruct Hr as (-> & _ & Hc & _). split; [reflexivity | lia].
Qed.

Lemma takes_capture_screenshot n : takes 0 0 (capture_screenshot (W := W) n).
Proof.
  intros s r s' t Hr. unfold capture_screenshot, swallow in Hr.
  apply bind_inv in Hr.
  destruct Hr as [(x & s1 & t1 & t2 & Hatt & Hret & _) | (e & Hatt & _)].
  - apply ret_inv in Hret. destruct Hret as (-> & -> & _).
    apply attempt_inv in Hatt. destruct Hatt as (x0 & _ & Hact).
    apply act_inv in Hact. destruct Hact as (_ & Hc & _).
    split; [reflexivity | lia].
  - apply attempt_inv in Hatt. destruct Hatt as (x0 & Hx & _). discriminate.
Qed.

Lemma takes_dump_page_source p : takes 0 0 (dump_page_source (W := W) p).
Proof.
  intros s r s' t Hr. unfold dump_page_source, swallow in Hr.
  apply bind_inv in Hr.
  destruct Hr as [(x & s1 & t1 & t2 & Hatt & Hret & _) | (e & Hatt & _)].
  - apply ret_inv in Hret. destruct Hret as (-> & -> & _).
    apply attempt_inv in Hatt. destruct Hatt as (x0 & _ & Hact).
    apply act_inv in Hact. destruct Hact as (_ & Hc & _).
    split; [reflexivity | lia].
  - apply attempt_inv in Hatt. destruct Hatt as (x0 & Hx & _). discriminate.
Qed.

Lemma takes_bind {A B} lo1 hi1 lo2 hi2 (c : M W A) (k : A -> M W B) :
  takes lo1 hi1 c -> (forall a, takes lo2 hi2 (k a)) ->
  takes (lo1 + lo2) (hi1 + hi2) (bind c k).
Proof.
  intros Hc Hk s r s' t Hrun. apply bind_inv in Hrun.
  destruct Hrun as [(a & s1 & t1 & t2 & Hc1 & Hk1 & _) | (e & Hc1 & ->)].
  - destruct (Hc _ _ _ _ Hc1) as (_ & Hb1).
    destruct (Hk _ _ _ _ _ Hk1) as (Hv & Hb2). split; [exact Hv | lia].
  - destruct (Hc _ _ _ _ Hc1) as (Hv & _). discriminate Hv.
Qed.

Lemma takes_weaken {A} lo hi lo' hi' (c : M W A) :
  (lo' <= lo)%Z -> (hi <= hi')%Z -> takes lo hi c -> takes lo' hi' c.
Proof.
  intros Hlo Hhi Hc s r s' t Hrun. destruct (Hc _ _ _ _ Hrun) as (Hv & Hb).
  split; [exact Hv | lia].
Qed.

Lemma has_row_count_text_quiet : forall es,
  quiet (W := W) (has_row_count_text es).
Proof.
  induction es as [| e rest IH]; cbn [has_row_count_text].
  - apply quiet_ret.
  - apply quiet_bind; [apply quiet_ask | intros text].
    destruct (Py.contains "총" text && Py.contains "건" text);
      [apply quiet_ret | exact IH].
Qed.

(** One probe of the results: a second of sleep when it finds no data, none
    when it finds some or raises. *)
Lemma results_probe (s : session W) r s' t :
  (grid_element <-
     ask (FindElement None (ByXpath, "//div[contains(@class, 'cl-grid')]")) ;;
   inner_html <- ask (GetAttribute grid_element "innerHTML") ;;
   (match inner_html with
    | Some _ => ret tt
    | None =>
        raise (Exn.mk Exn.TypeError "'NoneType' object is not subscriptable")
    end) ;;
   row_count_elements <-
     ask (FindElements None
            (ByXpath,
             "//*[contains(text(), '총') and contains(text(), '건')]")) ;;
   data_rows <- ask (FindElements None
                       (ByXpath, "//div[@role='row' and @aria-rowindex]")) ;;
   if (2 <? length data_rows)%nat then ret true
   else
     loaded <- has_row_count_text row_count_elements ;;
     if loaded then ret true else sleep 1000 ;; ret false) s = (r, s', t) ->
  clock s' = (clock s + match r with Val false => 1000 | _ => 0 end)%Z.
Proof.
  intros Hrun.
  assert (Hquiet : forall {A} (c : M W A) (s0 : session W) e s1 t1,
             quiet c -> c s0 = (Exc e, s1, t1) ->
             clock s1 = (clock s0 + 0)%Z).
  { intros A c s0 e s1 t1 Hq Hc.
    destruct (quiet_inv _ _ _ _ _ Hq Hc) as (-> & _). lia. }
  apply bind_inv in Hrun.
  destruct Hrun as [(grid & s1 & t1 & t2 & Hask & Hrun & _) | (e & Hask & ->)];
    [| exact (Hquiet _ _ _ _ _ _ (quiet_ask _) Hask)].
  apply ask_inv in Hask. destruct Hask as (_ & -> & _).
  apply bind_inv in Hrun.
  destruct Hrun as [(html & s1 & t3 & t4 & Hask & Hrun & _) | (e & Hask & ->)];
    [| exact (Hquiet _ _ _ _ _ _ (quiet_ask _) Hask)].
  apply ask_inv in Hask. destruct Hask as (_ & -> & _).
  apply bind_inv in Hrun.
  destruct Hrun as [(u & s1 & t5 & t6 & Hsub & Hrun & _) | (e & Hsub & ->)].
  2: { destruct html; [apply ret_inv in Hsub; destruct Hsub as (Hr & _);
                       discriminate |].
       unfold raise in Hsub. injection Hsub as _ <- _. lia. }
  assert (Hs1 : s1 = s).
  { destruct html; [apply ret_inv in Hsub; destruct Hsub as (_ & -> & _);
                    reflexivity |].
    unfold raise in Hsub. discriminate Hsub. }
  subst s1. clear Hsub.
  apply bind_inv in Hrun.
  destruct Hrun as [(rows & s1 & t7 & t8 & Hask & Hrun & _) | (e & Hask & ->)];
    [| exact (Hquiet _ _ _ _ _ _ (quiet_ask _) Hask)].
  apply ask_inv in Hask. destruct Hask as (_ & -> & _).
  apply bind_inv in Hrun.
  destruct Hrun as [(data & s1 & t9 & t10 & Hask & Hrun & _)
                   | (e & Hask & ->)];
    [| exact (Hquiet _ _ _ _ _ _ (quiet_ask _) Hask)].
  apply ask_inv in Hask. destruct Hask as (_ & -> & _).
  destruct (2 <? length data)%nat.
  - apply ret_inv in Hrun. destruct Hrun as (-> & -> & _). lia.
  - apply bind_inv in Hrun.
    destruct Hrun as [(loaded & s1 & t11 & t12 & Hrc & Hrun & _)
                     | (e & Hrc & ->)];
      [| exact (Hquiet _ _ _ _ _ _ (has_row_count_text_quiet _) Hrc)].
    destruct (quiet_inv _ _ _ _ _ (has_row_count_text_quiet _) Hrc)
      as (-> & _).
    destruct loaded.
    + apply ret_inv in Hrun. destruct Hrun as (-> & -> & _). lia.
    + apply bind_inv in Hrun.
      destruct Hrun as [(u0 & s1 & t13 & t14 & Hsl & Hret & _)
                       | (e & Hsl & _)].
      * apply sleep_inv in Hsl. destruct Hsl as (_ & _ & Hc & _).
        apply ret_inv in Hret. destruct Hret as (-> & -> & _). exact Hc.
      * apply sleep_inv in Hsl. destruct Hsl as (Hr & _). discriminate.
Qed.

Lemma wait_results_takes : forall n,
  takes (W := W) 0 (1000 * Z.of_nat n) (wait_results n).
Proof.
  induction n as [| n IH]; cbn [wait_results].
  - apply takes_ret.
  - intros s r s' t Hrun. apply bind_inv in Hrun.
    destruct Hrun as [(x & s1 & t1 & t2 & Hatt & Hrun & _) | (e & Hatt & _)].
    2: { apply attempt_inv in Hatt. destruct Hatt as (x & Hx & _).
         discriminate. }
    apply attempt_inv in Hatt. destruct Hatt as (x0 & Hx & Hatt).
    injection Hx as ->. apply results_probe in Hatt.
    destruct x0 as [[|] | e].
    + apply ret_inv in Hrun. destruct Hrun as (-> & -> & _).
      split; [reflexivity | lia].
    + destruct (IH _ _ _ _ Hrun) as (Hv & Hb). split; [exact Hv | lia].
    + apply bind_inv in Hrun.
      destruct Hrun as [(u & s2 & t3 & t4 & Hsl & Hrun & _) | (e0 & Hsl & _)].
      * apply sleep_inv in Hsl. destruct Hsl as (_ & _ & Hc & _).
        destruct (IH _ _ _ _ Hrun) as (Hv & Hb). split; [exact Hv | lia].
      * apply sleep_inv in Hsl. destruct Hsl as (Hr & _). discriminate.
Qed.

Lemma has_row_count_text_no_click : forall es,
  emits (W := W) not_click (has_row_count_text es).
Proof. intros es. apply quiet_emits, has_row_count_text_quiet. Qed.

Lemma wait_results_no_click : forall n,
  emits (W := W) not_click (wait_results n).
Proof.
  induction n as [| n IH]; cbn [wait_results]; emits_auto;
    apply has_row_count_text_no_click.
Qed.

(** The check of the results cannot fail an attempt: it never raises,
    whatever the page does, and it clicks nothing.  It sleeps for at least
    five seconds and, with its fifteen probes a second apart, for at most
    twenty. *)
Theorem results_check_never_fails :
  forall (dataset_name : string) (s : session W) (r : result unit)
         (s' : session W) (t : list event),
    verify_results dataset_name s = (r, s', t) ->
    r = Val tt
    /\ (clock s + 5000 <= clock s' <= clock s + 20000)%Z
    /\ clicks t = [].
Proof.
  intros dataset_name s r s' t Hrun.
  assert (Htakes : takes (W := W) (0 + (3000 + (0 + (0 + (2000 + 0)))))
                     (0 + (3000 + (1000 * Z.of_nat 15 + (0 + (2000 + 0)))))
                     (verify_results dataset_name)).
  { unfold verify_results.
    apply takes_bind; [apply takes_log | intros _].
    apply takes_bind; [apply takes_sleep | intros _].
    apply takes_bind; [apply wait_results_takes | intros data_loaded].
    apply takes_bind.
    - destruct (negb data_loaded); [| apply takes_ret].
      apply (takes_bind 0 0 0 0); [apply takes_log | intros _].
      apply (takes_bind 0 0 0 0);
        [apply takes_capture_screenshot | intros _].
      apply takes_dump_page_source.
    - intros _. apply takes_bind; [apply takes_sleep | intros _].
      apply takes_capture_screenshot. }
  destruct (Htakes _ _ _ _ Hrun) as (Hv & Hb).
  split; [| split].
  - destruct r as [[] | e]; [reflexivity | discriminate Hv].
  - cbn in Hb. lia.
  - eapply no_clicks; [| exact Hrun]. unfold verify_results.
    emits_auto;
      first [ apply wait_results_no_click
            | apply capture_screenshot_no_click
            | unfold dump_page_source; emits_auto ].
Qed.

End ResultsCheck.

(** The check on the healthy site, after the search click. *)
Lemma results_check_never_fails_witness :
  fst (fst (verify_results "RawDataEquity" (Fixture.start Fixture.healthy)))
  = Val tt
  /\ (clock (Fixture.start Fixture.healthy) + 5000
      <= clock (snd (fst (verify_results "RawDataEquity"
                            (Fixture.start Fixture.healthy))))
      <= clock (Fixture.start Fixture.healthy) + 20000)%Z
  /\ clicks (snd (verify_results "RawDataEquity"
                    (Fixture.start Fixture.healthy))) = [].
Proof.
  apply (results_check_never_fails "RawDataEquity"
           (Fixture.start Fixture.healthy)).
  destruct (verify_results "RawDataEquity" (Fixture.start Fixture.healthy))
    as [[r s'] t].
  reflexivity.
Defined.

(** Without a search the site shows no rows: the check uses all of its
    twenty seconds and returns all the same. *)
Example results_check_without_rows :
  match verify_results "RawDataEquity" (Fixture.start Fixture.healthy) with
  | (r, s', t) =>
      r = Val tt /\ clock s' = 20000%Z
      /\ warnings t
         = ["⚠ Could not verify that search results loaded - DOM may have detected bot"]
  end.
Proof. vm_compute. repeat split; reflexivity. Qed.
